(** * Chunk replication and recovery (src/cc/chunk/Replicator.cc)

    A shallow embedding of the chunk server's replicator: the direct
    replication state machine of [ReplicatorImpl] (size probe, read/write
    loop with the checksum-aligned tail, finalize), the recovery
    specialisation [RSReplicatorImpl] (reader completion, read tail,
    configuration), the registry of in-flight replications, and the entry
    point [Replicator::Run].

    Conventions.
    - C++ [int], [int64_t] and [size_t] values are integers of [Z].  Sums
      and differences of offsets and sizes, which the checks of the code
      keep inside their types, are those of [Z].  An [int] or [int64_t]
      computed from values that no check bounds (the product of read size
      and stripe count, the rounded maximal read size, a least common
      multiple, a sequence number) wraps as on the two's complement
      machines the server runs on: [to_int], [to_int64].
      [/] and [%] truncate toward zero: [Z.quot] and [Z.rem].
    - A method of the object is a function from the object to the object and
      the trace of calls it makes to its collaborators (peer, chunk manager,
      buffer manager, reader, meta server session), in order.  What a
      collaborator answers is a parameter of the Section.
    - A completion callback reads the completed op in the object: the
      collaborator stores its answer there before it calls back
      ([PeerReadReply], [DiskWriteReply]).
    - [assert] and [die] stop the method: the trace ends with [AssertFail]
      or [Die msg].  Log statements are left out.
    - Pointers that may be null are options.  Objects live in a store by
      address ([World]); the registry maps chunk ids to addresses.
    - A recovery replicator hands over to its client thread in [Enqueue];
      the run of [Handle] that follows, on that thread or at once, is
      recorded in the trace and not unfolded.  [Handle], [HandleStart],
      [HandleCancel] and the sessions of the pool of meta server clients are
      outside this model; of the pool, the choice of the entry
      ([GetMetaserver]) and the sequence numbers ([GetSeqNum]) are modelled.

    Layout: constants and buffers, the ops, the object, the methods in the
    order of their calls, the registry, the entry point, the configuration,
    the read size and the pool index arithmetic, the event loop of a copy, a
    concrete setting, then the properties and their examples. *)

From Stdlib Require Import ZArith List Bool String Lia.
From stdpp Require Import gmap strings sorting.

Local Open Scope Z_scope.

(** [lia] also decides goals with [Z.quot], [Z.rem], [/] and [mod] by a
    constant; what the goal does not mention is cleared first. *)
Ltac clear_unused :=
  repeat match goal with
  | x : ?T |- _ =>
    lazymatch type of T with
    | Prop => fail
    | _ => clear x
    end
  end.

Ltac Zify.zify_post_hook ::=
  clear_unused; Z.to_euclidean_division_equations.

(** ** Constants *)

(** errno values (errno.h, Linux numbering). *)
Definition EIO : Z := 5.
Definition ENOMEM : Z := 12.
Definition EFAULT : Z := 14.
Definition EEXIST : Z := 17.
Definition EINVAL : Z := 22.
Definition ETIMEDOUT : Z := 110.
Definition EHOSTUNREACH : Z := 113.
Definition ECANCELED : Z := 125.

(** Modelled from the spec: CHECKSUM_BLOCKSIZE is declared in
    kfsio/checksum.h, outside the sources at hand; the spec gives
    CHECKSUM_BLOCK_SIZE = 64 KiB. *)
Definition CHECKSUM_BLOCKSIZE : Z := 65536.

(** Modelled from the spec: CHUNKSIZE is declared in common/kfstypes.h,
    outside the sources at hand; the spec gives CHUNK_SIZE = 64 MiB. *)
Definition CHUNKSIZE : Z := 67108864.

Definition kDefaultReplicationReadSize : Z :=
  Z.quot (Z.shiftl 1 20 + CHECKSUM_BLOCKSIZE - 1) CHECKSUM_BLOCKSIZE
  * CHECKSUM_BLOCKSIZE.

(** The value of an [int] expression: the integer modulo 2^32 in
    [-2^31, 2^31). *)
Definition to_int (x : Z) : Z := (x + 2 ^ 31) mod 2 ^ 32 - 2 ^ 31.

(** The value of an [int64_t] expression. *)
Definition to_int64 (x : Z) : Z := (x + 2 ^ 63) mod 2 ^ 64 - 2 ^ 63.

(** ** IOBuffer *)

(** Modelled from the spec: IOBuffer is declared in kfsio/IOBuffer.h, outside
    the sources at hand; the spec calls it a byte buffer.  A buffer is the
    list of its consumable bytes. *)
Definition IOBuffer := list Byte.byte.

Module IOBuf.
Definition BytesConsumable (b : IOBuffer) : Z := Z.of_nat (length b).
Definition IsEmpty (b : IOBuffer) : bool :=
  match b with [] => true | _ :: _ => false end.
(** [dst.Move(&src)]: all of [src] is appended to [dst]; the result is the
    new [dst] and the new [src]. *)
Definition Move (dst src : IOBuffer) : IOBuffer * IOBuffer := (dst ++ src, []).
(** [dst.Move(&src, n)]: at most [n] bytes go from the front of [src] to
    the end of [dst]; the third component is the number of bytes moved. *)
Definition MoveN (dst src : IOBuffer) (n : Z)
  : IOBuffer * IOBuffer * Z :=
  let k := Z.to_nat n in
  (dst ++ take k src, drop k src, Z.of_nat (length (take k src))).
End IOBuf.

(** ** Operations exchanged with the collaborators *)

(** ServerLocation: host name and port of a server (the [location] of an op,
    the meta server address of a recovery replicator). *)
Module ServerLocation.
Record t := mk {
  hostname : string;
  port : Z
}.
End ServerLocation.

(** ReplicateChunkOp: the request of the meta server, with the result fields
    [status], [statusMsg], [chunkVersion] and [invalidStripeIdx] that the
    replicator writes before SubmitOpResponse. *)
Module ReplicateChunkOp.
Record t := mk {
  fid : Z;
  chunkId : Z;
  chunkVersion : Z;
  targetVersion : Z;
  location : ServerLocation.t;
  chunkOffset : Z;
  striperType : Z;
  numStripes : Z;
  numRecoveryStripes : Z;
  stripeSize : Z;
  fileSize : Z;
  pathName : string;
  minStorageTier : Z;
  allowCSClearTextFlag : bool;
  chunkServerAccess : list Z;
  chunkAccess : string;
  status : Z;
  statusMsg : string;
  invalidStripeIdx : string
}.
Definition set_chunkVersion (v : Z) (r : t) : t :=
  {| fid := fid r; chunkId := chunkId r; chunkVersion := v; targetVersion :=
     targetVersion r; location := location r; chunkOffset := chunkOffset r;
     striperType := striperType r; numStripes := numStripes r;
     numRecoveryStripes := numRecoveryStripes r; stripeSize := stripeSize r;
     fileSize := fileSize r; pathName := pathName r; minStorageTier :=
     minStorageTier r; allowCSClearTextFlag := allowCSClearTextFlag r;
     chunkServerAccess := chunkServerAccess r; chunkAccess := chunkAccess r;
     status := status r; statusMsg := statusMsg r; invalidStripeIdx :=
     invalidStripeIdx r |}.
Definition set_status (v : Z) (r : t) : t :=
  {| fid := fid r; chunkId := chunkId r; chunkVersion := chunkVersion r;
     targetVersion := targetVersion r; location := location r; chunkOffset
     := chunkOffset r; striperType := striperType r; numStripes :=
     numStripes r; numRecoveryStripes := numRecoveryStripes r; stripeSize :=
     stripeSize r; fileSize := fileSize r; pathName := pathName r;
     minStorageTier := minStorageTier r; allowCSClearTextFlag :=
     allowCSClearTextFlag r; chunkServerAccess := chunkServerAccess r;
     chunkAccess := chunkAccess r; status := v; statusMsg := statusMsg r;
     invalidStripeIdx := invalidStripeIdx r |}.
Definition set_statusMsg (v : string) (r : t) : t :=
  {| fid := fid r; chunkId := chunkId r; chunkVersion := chunkVersion r;
     targetVersion := targetVersion r; location := location r; chunkOffset
     := chunkOffset r; striperType := striperType r; numStripes :=
     numStripes r; numRecoveryStripes := numRecoveryStripes r; stripeSize :=
     stripeSize r; fileSize := fileSize r; pathName := pathName r;
     minStorageTier := minStorageTier r; allowCSClearTextFlag :=
     allowCSClearTextFlag r; chunkServerAccess := chunkServerAccess r;
     chunkAccess := chunkAccess r; status := status r; statusMsg := v;
     invalidStripeIdx := invalidStripeIdx r |}.
Definition set_invalidStripeIdx (v : string) (r : t) : t :=
  {| fid := fid r; chunkId := chunkId r; chunkVersion := chunkVersion r;
     targetVersion := targetVersion r; location := location r; chunkOffset
     := chunkOffset r; striperType := striperType r; numStripes :=
     numStripes r; numRecoveryStripes := numRecoveryStripes r; stripeSize :=
     stripeSize r; fileSize := fileSize r; pathName := pathName r;
     minStorageTier := minStorageTier r; allowCSClearTextFlag :=
     allowCSClearTextFlag r; chunkServerAccess := chunkServerAccess r;
     chunkAccess := chunkAccess r; status := status r; statusMsg :=
     statusMsg r; invalidStripeIdx := v |}.
End ReplicateChunkOp.

(** GetChunkMetadataOp: the size probe sent to the source peer. *)
Module GetChunkMetadataOp.
Record t := mk {
  chunkId : Z;
  chunkSize : Z;
  chunkVersion : Z;
  readVerifyFlag : bool;
  status : Z;
  statusMsg : string;
  requestChunkAccess : option string
}.
Definition set_chunkId (v : Z) (r : t) : t :=
  {| chunkId := v; chunkSize := chunkSize r; chunkVersion := chunkVersion r;
     readVerifyFlag := readVerifyFlag r; status := status r; statusMsg :=
     statusMsg r; requestChunkAccess := requestChunkAccess r |}.
Definition set_chunkSize (v : Z) (r : t) : t :=
  {| chunkId := chunkId r; chunkSize := v; chunkVersion := chunkVersion r;
     readVerifyFlag := readVerifyFlag r; status := status r; statusMsg :=
     statusMsg r; requestChunkAccess := requestChunkAccess r |}.
Definition set_chunkVersion (v : Z) (r : t) : t :=
  {| chunkId := chunkId r; chunkSize := chunkSize r; chunkVersion := v;
     readVerifyFlag := readVerifyFlag r; status := status r; statusMsg :=
     statusMsg r; requestChunkAccess := requestChunkAccess r |}.
Definition set_readVerifyFlag (v : bool) (r : t) : t :=
  {| chunkId := chunkId r; chunkSize := chunkSize r; chunkVersion :=
     chunkVersion r; readVerifyFlag := v; status := status r; statusMsg :=
     statusMsg r; requestChunkAccess := requestChunkAccess r |}.
Definition set_status (v : Z) (r : t) : t :=
  {| chunkId := chunkId r; chunkSize := chunkSize r; chunkVersion :=
     chunkVersion r; readVerifyFlag := readVerifyFlag r; status := v;
     statusMsg := statusMsg r; requestChunkAccess := requestChunkAccess r
     |}.
Definition set_statusMsg (v : string) (r : t) : t :=
  {| chunkId := chunkId r; chunkSize := chunkSize r; chunkVersion :=
     chunkVersion r; readVerifyFlag := readVerifyFlag r; status := status r;
     statusMsg := v; requestChunkAccess := requestChunkAccess r |}.
Definition set_requestChunkAccess (v : option string) (r : t) : t :=
  {| chunkId := chunkId r; chunkSize := chunkSize r; chunkVersion :=
     chunkVersion r; readVerifyFlag := readVerifyFlag r; status := status r;
     statusMsg := statusMsg r; requestChunkAccess := v |}.
End GetChunkMetadataOp.

(** ReadOp: the read sent to the source peer; [clnt] tells whether the op has
    a completion target (the recovery replicator clears it). *)
Module ReadOp.
Record t := mk {
  chunkId : Z;
  chunkVersion : Z;
  offset : Z;
  numBytes : Z;
  numBytesIO : Z;
  dataBuf : IOBuffer;
  checksum : list Z;
  skipVerifyDiskChecksumFlag : bool;
  status : Z;
  statusMsg : string;
  requestChunkAccess : option string;
  clnt : bool
}.
Definition set_chunkVersion (v : Z) (r : t) : t :=
  {| chunkId := chunkId r; chunkVersion := v; offset := offset r; numBytes
     := numBytes r; numBytesIO := numBytesIO r; dataBuf := dataBuf r;
     checksum := checksum r; skipVerifyDiskChecksumFlag :=
     skipVerifyDiskChecksumFlag r; status := status r; statusMsg :=
     statusMsg r; requestChunkAccess := requestChunkAccess r; clnt := clnt r
     |}.
Definition set_offset (v : Z) (r : t) : t :=
  {| chunkId := chunkId r; chunkVersion := chunkVersion r; offset := v;
     numBytes := numBytes r; numBytesIO := numBytesIO r; dataBuf := dataBuf
     r; checksum := checksum r; skipVerifyDiskChecksumFlag :=
     skipVerifyDiskChecksumFlag r; status := status r; statusMsg :=
     statusMsg r; requestChunkAccess := requestChunkAccess r; clnt := clnt r
     |}.
Definition set_numBytes (v : Z) (r : t) : t :=
  {| chunkId := chunkId r; chunkVersion := chunkVersion r; offset := offset
     r; numBytes := v; numBytesIO := numBytesIO r; dataBuf := dataBuf r;
     checksum := checksum r; skipVerifyDiskChecksumFlag :=
     skipVerifyDiskChecksumFlag r; status := status r; statusMsg :=
     statusMsg r; requestChunkAccess := requestChunkAccess r; clnt := clnt r
     |}.
Definition set_numBytesIO (v : Z) (r : t) : t :=
  {| chunkId := chunkId r; chunkVersion := chunkVersion r; offset := offset
     r; numBytes := numBytes r; numBytesIO := v; dataBuf := dataBuf r;
     checksum := checksum r; skipVerifyDiskChecksumFlag :=
     skipVerifyDiskChecksumFlag r; status := status r; statusMsg :=
     statusMsg r; requestChunkAccess := requestChunkAccess r; clnt := clnt r
     |}.
Definition set_dataBuf (v : IOBuffer) (r : t) : t :=
  {| chunkId := chunkId r; chunkVersion := chunkVersion r; offset := offset
     r; numBytes := numBytes r; numBytesIO := numBytesIO r; dataBuf := v;
     checksum := checksum r; skipVerifyDiskChecksumFlag :=
     skipVerifyDiskChecksumFlag r; status := status r; statusMsg :=
     statusMsg r; requestChunkAccess := requestChunkAccess r; clnt := clnt r
     |}.
Definition set_checksum (v : list Z) (r : t) : t :=
  {| chunkId := chunkId r; chunkVersion := chunkVersion r; offset := offset
     r; numBytes := numBytes r; numBytesIO := numBytesIO r; dataBuf :=
     dataBuf r; checksum := v; skipVerifyDiskChecksumFlag :=
     skipVerifyDiskChecksumFlag r; status := status r; statusMsg :=
     statusMsg r; requestChunkAccess := requestChunkAccess r; clnt := clnt r
     |}.
Definition set_skipVerifyDiskChecksumFlag (v : bool) (r : t) : t :=
  {| chunkId := chunkId r; chunkVersion := chunkVersion r; offset := offset
     r; numBytes := numBytes r; numBytesIO := numBytesIO r; dataBuf :=
     dataBuf r; checksum := checksum r; skipVerifyDiskChecksumFlag := v;
     status := status r; statusMsg := statusMsg r; requestChunkAccess :=
     requestChunkAccess r; clnt := clnt r |}.
Definition set_status (v : Z) (r : t) : t :=
  {| chunkId := chunkId r; chunkVersion := chunkVersion r; offset := offset
     r; numBytes := numBytes r; numBytesIO := numBytesIO r; dataBuf :=
     dataBuf r; checksum := checksum r; skipVerifyDiskChecksumFlag :=
     skipVerifyDiskChecksumFlag r; status := v; statusMsg := statusMsg r;
     requestChunkAccess := requestChunkAccess r; clnt := clnt r |}.
Definition set_statusMsg (v : string) (r : t) : t :=
  {| chunkId := chunkId r; chunkVersion := chunkVersion r; offset := offset
     r; numBytes := numBytes r; numBytesIO := numBytesIO r; dataBuf :=
     dataBuf r; checksum := checksum r; skipVerifyDiskChecksumFlag :=
     skipVerifyDiskChecksumFlag r; status := status r; statusMsg := v;
     requestChunkAccess := requestChunkAccess r; clnt := clnt r |}.
Definition set_requestChunkAccess (v : option string) (r : t) : t :=
  {| chunkId := chunkId r; chunkVersion := chunkVersion r; offset := offset
     r; numBytes := numBytes r; numBytesIO := numBytesIO r; dataBuf :=
     dataBuf r; checksum := checksum r; skipVerifyDiskChecksumFlag :=
     skipVerifyDiskChecksumFlag r; status := status r; statusMsg :=
     statusMsg r; requestChunkAccess := v; clnt := clnt r |}.
Definition set_clnt (v : bool) (r : t) : t :=
  {| chunkId := chunkId r; chunkVersion := chunkVersion r; offset := offset
     r; numBytes := numBytes r; numBytesIO := numBytesIO r; dataBuf :=
     dataBuf r; checksum := checksum r; skipVerifyDiskChecksumFlag :=
     skipVerifyDiskChecksumFlag r; status := status r; statusMsg :=
     statusMsg r; requestChunkAccess := requestChunkAccess r; clnt := v |}.
End ReadOp.

(** WriteOp: the write handed to the chunk manager. *)
Module WriteOp.
Record t := mk {
  chunkId : Z;
  chunkVersion : Z;
  offset : Z;
  numBytes : Z;
  numBytesIO : Z;
  dataBuf : IOBuffer;
  checksums : list Z;
  isFromReReplication : bool;
  status : Z
}.
Definition set_chunkVersion (v : Z) (r : t) : t :=
  {| chunkId := chunkId r; chunkVersion := v; offset := offset r; numBytes
     := numBytes r; numBytesIO := numBytesIO r; dataBuf := dataBuf r;
     checksums := checksums r; isFromReReplication := isFromReReplication r;
     status := status r |}.
Definition set_offset (v : Z) (r : t) : t :=
  {| chunkId := chunkId r; chunkVersion := chunkVersion r; offset := v;
     numBytes := numBytes r; numBytesIO := numBytesIO r; dataBuf := dataBuf
     r; checksums := checksums r; isFromReReplication := isFromReReplication
     r; status := status r |}.
Definition set_numBytes (v : Z) (r : t) : t :=
  {| chunkId := chunkId r; chunkVersion := chunkVersion r; offset := offset
     r; numBytes := v; numBytesIO := numBytesIO r; dataBuf := dataBuf r;
     checksums := checksums r; isFromReReplication := isFromReReplication r;
     status := status r |}.
Definition set_numBytesIO (v : Z) (r : t) : t :=
  {| chunkId := chunkId r; chunkVersion := chunkVersion r; offset := offset
     r; numBytes := numBytes r; numBytesIO := v; dataBuf := dataBuf r;
     checksums := checksums r; isFromReReplication := isFromReReplication r;
     status := status r |}.
Definition set_dataBuf (v : IOBuffer) (r : t) : t :=
  {| chunkId := chunkId r; chunkVersion := chunkVersion r; offset := offset
     r; numBytes := numBytes r; numBytesIO := numBytesIO r; dataBuf := v;
     checksums := checksums r; isFromReReplication := isFromReReplication r;
     status := status r |}.
Definition set_checksums (v : list Z) (r : t) : t :=
  {| chunkId := chunkId r; chunkVersion := chunkVersion r; offset := offset
     r; numBytes := numBytes r; numBytesIO := numBytesIO r; dataBuf :=
     dataBuf r; checksums := v; isFromReReplication := isFromReReplication
     r; status := status r |}.
Definition set_isFromReReplication (v : bool) (r : t) : t :=
  {| chunkId := chunkId r; chunkVersion := chunkVersion r; offset := offset
     r; numBytes := numBytes r; numBytesIO := numBytesIO r; dataBuf :=
     dataBuf r; checksums := checksums r; isFromReReplication := v; status
     := status r |}.
Definition set_status (v : Z) (r : t) : t :=
  {| chunkId := chunkId r; chunkVersion := chunkVersion r; offset := offset
     r; numBytes := numBytes r; numBytesIO := numBytesIO r; dataBuf :=
     dataBuf r; checksums := checksums r; isFromReReplication :=
     isFromReReplication r; status := v |}.
End WriteOp.

(** ** The replicator object *)

Definition FilePtr := nat.

Inductive Kind := Direct | Recovery.

(** RSReplicatorImpl::State. *)
Inductive State := kNone | kStart | kRead.

Definition State_eqb (a b : State) : bool :=
  match a, b with
  | kNone, kNone | kStart, kStart | kRead, kRead => true
  | _, _ => false
  end.

(** The member function SET_HANDLER last installed. *)
Inductive Handler :=
| hUnset
| hHandleStartDone
| hHandleReadDone
| hHandleWriteDone
| hHandleReplicationDone.

(** The replicator object. [mKind] is the dynamic class; the fields from
    [mState] on are those RSReplicatorImpl adds and are unused in a direct
    replicator. [mHandler] is the callback installed by SET_HANDLER,
    [mWaiting] the BufferManager::Client state read by IsWaiting(), and
    [mRefCount] the QCRefCountedObj count. *)
Record ReplicatorImpl := mkReplicatorImpl {
  mKind : Kind;
  mFileId : Z;
  mChunkId : Z;
  mChunkVersion : Z;
  mChunkSize : Z;
  mOwner : option ReplicateChunkOp.t;
  mOffset : Z;
  mPeer : option ServerLocation.t;
  mChunkMetadataOp : GetChunkMetadataOp.t;
  mReadOp : ReadOp.t;
  mWriteOp : WriteOp.t;
  mDone : bool;
  mCancelFlag : bool;
  mFileHandle : option FilePtr;
  mHandler : Handler;
  mWaiting : bool;
  mRefCount : Z;
  mState : State;
  mReadTail : IOBuffer;
  mLocation : ServerLocation.t;
  mReadSize : Z;
  mReadInFlightFlag : bool;
  mPendingCloseFlag : bool;
  mPendingCancelFlag : bool;
  mClientThreadPtr : option nat
}.
Definition set_mChunkVersion (v : Z) (r : ReplicatorImpl) : ReplicatorImpl :=
  {| mKind := mKind r; mFileId := mFileId r; mChunkId := mChunkId r;
     mChunkVersion := v; mChunkSize := mChunkSize r; mOwner := mOwner r;
     mOffset := mOffset r; mPeer := mPeer r; mChunkMetadataOp :=
     mChunkMetadataOp r; mReadOp := mReadOp r; mWriteOp := mWriteOp r; mDone
     := mDone r; mCancelFlag := mCancelFlag r; mFileHandle := mFileHandle r;
     mHandler := mHandler r; mWaiting := mWaiting r; mRefCount := mRefCount
     r; mState := mState r; mReadTail := mReadTail r; mLocation := mLocation
     r; mReadSize := mReadSize r; mReadInFlightFlag := mReadInFlightFlag r;
     mPendingCloseFlag := mPendingCloseFlag r; mPendingCancelFlag :=
     mPendingCancelFlag r; mClientThreadPtr := mClientThreadPtr r |}.
Definition set_mChunkSize (v : Z) (r : ReplicatorImpl) : ReplicatorImpl :=
  {| mKind := mKind r; mFileId := mFileId r; mChunkId := mChunkId r;
     mChunkVersion := mChunkVersion r; mChunkSize := v; mOwner := mOwner r;
     mOffset := mOffset r; mPeer := mPeer r; mChunkMetadataOp :=
     mChunkMetadataOp r; mReadOp := mReadOp r; mWriteOp := mWriteOp r; mDone
     := mDone r; mCancelFlag := mCancelFlag r; mFileHandle := mFileHandle r;
     mHandler := mHandler r; mWaiting := mWaiting r; mRefCount := mRefCount
     r; mState := mState r; mReadTail := mReadTail r; mLocation := mLocation
     r; mReadSize := mReadSize r; mReadInFlightFlag := mReadInFlightFlag r;
     mPendingCloseFlag := mPendingCloseFlag r; mPendingCancelFlag :=
     mPendingCancelFlag r; mClientThreadPtr := mClientThreadPtr r |}.
Definition set_mOwner (v : option ReplicateChunkOp.t) (r : ReplicatorImpl) : ReplicatorImpl :=
  {| mKind := mKind r; mFileId := mFileId r; mChunkId := mChunkId r;
     mChunkVersion := mChunkVersion r; mChunkSize := mChunkSize r; mOwner :=
     v; mOffset := mOffset r; mPeer := mPeer r; mChunkMetadataOp :=
     mChunkMetadataOp r; mReadOp := mReadOp r; mWriteOp := mWriteOp r; mDone
     := mDone r; mCancelFlag := mCancelFlag r; mFileHandle := mFileHandle r;
     mHandler := mHandler r; mWaiting := mWaiting r; mRefCount := mRefCount
     r; mState := mState r; mReadTail := mReadTail r; mLocation := mLocation
     r; mReadSize := mReadSize r; mReadInFlightFlag := mReadInFlightFlag r;
     mPendingCloseFlag := mPendingCloseFlag r; mPendingCancelFlag :=
     mPendingCancelFlag r; mClientThreadPtr := mClientThreadPtr r |}.
Definition set_mOffset (v : Z) (r : ReplicatorImpl) : ReplicatorImpl :=
  {| mKind := mKind r; mFileId := mFileId r; mChunkId := mChunkId r;
     mChunkVersion := mChunkVersion r; mChunkSize := mChunkSize r; mOwner :=
     mOwner r; mOffset := v; mPeer := mPeer r; mChunkMetadataOp :=
     mChunkMetadataOp r; mReadOp := mReadOp r; mWriteOp := mWriteOp r; mDone
     := mDone r; mCancelFlag := mCancelFlag r; mFileHandle := mFileHandle r;
     mHandler := mHandler r; mWaiting := mWaiting r; mRefCount := mRefCount
     r; mState := mState r; mReadTail := mReadTail r; mLocation := mLocation
     r; mReadSize := mReadSize r; mReadInFlightFlag := mReadInFlightFlag r;
     mPendingCloseFlag := mPendingCloseFlag r; mPendingCancelFlag :=
     mPendingCancelFlag r; mClientThreadPtr := mClientThreadPtr r |}.
Definition set_mChunkMetadataOp (v : GetChunkMetadataOp.t) (r : ReplicatorImpl) : ReplicatorImpl :=
  {| mKind := mKind r; mFileId := mFileId r; mChunkId := mChunkId r;
     mChunkVersion := mChunkVersion r; mChunkSize := mChunkSize r; mOwner :=
     mOwner r; mOffset := mOffset r; mPeer := mPeer r; mChunkMetadataOp :=
     v; mReadOp := mReadOp r; mWriteOp := mWriteOp r; mDone := mDone r;
     mCancelFlag := mCancelFlag r; mFileHandle := mFileHandle r; mHandler :=
     mHandler r; mWaiting := mWaiting r; mRefCount := mRefCount r; mState :=
     mState r; mReadTail := mReadTail r; mLocation := mLocation r; mReadSize
     := mReadSize r; mReadInFlightFlag := mReadInFlightFlag r;
     mPendingCloseFlag := mPendingCloseFlag r; mPendingCancelFlag :=
     mPendingCancelFlag r; mClientThreadPtr := mClientThreadPtr r |}.
Definition set_mReadOp (v : ReadOp.t) (r : ReplicatorImpl) : ReplicatorImpl :=
  {| mKind := mKind r; mFileId := mFileId r; mChunkId := mChunkId r;
     mChunkVersion := mChunkVersion r; mChunkSize := mChunkSize r; mOwner :=
     mOwner r; mOffset := mOffset r; mPeer := mPeer r; mChunkMetadataOp :=
     mChunkMetadataOp r; mReadOp := v; mWriteOp := mWriteOp r; mDone :=
     mDone r; mCancelFlag := mCancelFlag r; mFileHandle := mFileHandle r;
     mHandler := mHandler r; mWaiting := mWaiting r; mRefCount := mRefCount
     r; mState := mState r; mReadTail := mReadTail r; mLocation := mLocation
     r; mReadSize := mReadSize r; mReadInFlightFlag := mReadInFlightFlag r;
     mPendingCloseFlag := mPendingCloseFlag r; mPendingCancelFlag :=
     mPendingCancelFlag r; mClientThreadPtr := mClientThreadPtr r |}.
Definition set_mWriteOp (v : WriteOp.t) (r : ReplicatorImpl) : ReplicatorImpl :=
  {| mKind := mKind r; mFileId := mFileId r; mChunkId := mChunkId r;
     mChunkVersion := mChunkVersion r; mChunkSize := mChunkSize r; mOwner :=
     mOwner r; mOffset := mOffset r; mPeer := mPeer r; mChunkMetadataOp :=
     mChunkMetadataOp r; mReadOp := mReadOp r; mWriteOp := v; mDone := mDone
     r; mCancelFlag := mCancelFlag r; mFileHandle := mFileHandle r; mHandler
     := mHandler r; mWaiting := mWaiting r; mRefCount := mRefCount r; mState
     := mState r; mReadTail := mReadTail r; mLocation := mLocation r;
     mReadSize := mReadSize r; mReadInFlightFlag := mReadInFlightFlag r;
     mPendingCloseFlag := mPendingCloseFlag r; mPendingCancelFlag :=
     mPendingCancelFlag r; mClientThreadPtr := mClientThreadPtr r |}.
Definition set_mDone (v : bool) (r : ReplicatorImpl) : ReplicatorImpl :=
  {| mKind := mKind r; mFileId := mFileId r; mChunkId := mChunkId r;
     mChunkVersion := mChunkVersion r; mChunkSize := mChunkSize r; mOwner :=
     mOwner r; mOffset := mOffset r; mPeer := mPeer r; mChunkMetadataOp :=
     mChunkMetadataOp r; mReadOp := mReadOp r; mWriteOp := mWriteOp r; mDone
     := v; mCancelFlag := mCancelFlag r; mFileHandle := mFileHandle r;
     mHandler := mHandler r; mWaiting := mWaiting r; mRefCount := mRefCount
     r; mState := mState r; mReadTail := mReadTail r; mLocation := mLocation
     r; mReadSize := mReadSize r; mReadInFlightFlag := mReadInFlightFlag r;
     mPendingCloseFlag := mPendingCloseFlag r; mPendingCancelFlag :=
     mPendingCancelFlag r; mClientThreadPtr := mClientThreadPtr r |}.
Definition set_mCancelFlag (v : bool) (r : ReplicatorImpl) : ReplicatorImpl :=
  {| mKind := mKind r; mFileId := mFileId r; mChunkId := mChunkId r;
     mChunkVersion := mChunkVersion r; mChunkSize := mChunkSize r; mOwner :=
     mOwner r; mOffset := mOffset r; mPeer := mPeer r; mChunkMetadataOp :=
     mChunkMetadataOp r; mReadOp := mReadOp r; mWriteOp := mWriteOp r; mDone
     := mDone r; mCancelFlag := v; mFileHandle := mFileHandle r; mHandler :=
     mHandler r; mWaiting := mWaiting r; mRefCount := mRefCount r; mState :=
     mState r; mReadTail := mReadTail r; mLocation := mLocation r; mReadSize
     := mReadSize r; mReadInFlightFlag := mReadInFlightFlag r;
     mPendingCloseFlag := mPendingCloseFlag r; mPendingCancelFlag :=
     mPendingCancelFlag r; mClientThreadPtr := mClientThreadPtr r |}.
Definition set_mFileHandle (v : option FilePtr) (r : ReplicatorImpl) : ReplicatorImpl :=
  {| mKind := mKind r; mFileId := mFileId r; mChunkId := mChunkId r;
     mChunkVersion := mChunkVersion r; mChunkSize := mChunkSize r; mOwner :=
     mOwner r; mOffset := mOffset r; mPeer := mPeer r; mChunkMetadataOp :=
     mChunkMetadataOp r; mReadOp := mReadOp r; mWriteOp := mWriteOp r; mDone
     := mDone r; mCancelFlag := mCancelFlag r; mFileHandle := v; mHandler :=
     mHandler r; mWaiting := mWaiting r; mRefCount := mRefCount r; mState :=
     mState r; mReadTail := mReadTail r; mLocation := mLocation r; mReadSize
     := mReadSize r; mReadInFlightFlag := mReadInFlightFlag r;
     mPendingCloseFlag := mPendingCloseFlag r; mPendingCancelFlag :=
     mPendingCancelFlag r; mClientThreadPtr := mClientThreadPtr r |}.
Definition set_mHandler (v : Handler) (r : ReplicatorImpl) : ReplicatorImpl :=
  {| mKind := mKind r; mFileId := mFileId r; mChunkId := mChunkId r;
     mChunkVersion := mChunkVersion r; mChunkSize := mChunkSize r; mOwner :=
     mOwner r; mOffset := mOffset r; mPeer := mPeer r; mChunkMetadataOp :=
     mChunkMetadataOp r; mReadOp := mReadOp r; mWriteOp := mWriteOp r; mDone
     := mDone r; mCancelFlag := mCancelFlag r; mFileHandle := mFileHandle r;
     mHandler := v; mWaiting := mWaiting r; mRefCount := mRefCount r; mState
     := mState r; mReadTail := mReadTail r; mLocation := mLocation r;
     mReadSize := mReadSize r; mReadInFlightFlag := mReadInFlightFlag r;
     mPendingCloseFlag := mPendingCloseFlag r; mPendingCancelFlag :=
     mPendingCancelFlag r; mClientThreadPtr := mClientThreadPtr r |}.
Definition set_mWaiting (v : bool) (r : ReplicatorImpl) : ReplicatorImpl :=
  {| mKind := mKind r; mFileId := mFileId r; mChunkId := mChunkId r;
     mChunkVersion := mChunkVersion r; mChunkSize := mChunkSize r; mOwner :=
     mOwner r; mOffset := mOffset r; mPeer := mPeer r; mChunkMetadataOp :=
     mChunkMetadataOp r; mReadOp := mReadOp r; mWriteOp := mWriteOp r; mDone
     := mDone r; mCancelFlag := mCancelFlag r; mFileHandle := mFileHandle r;
     mHandler := mHandler r; mWaiting := v; mRefCount := mRefCount r; mState
     := mState r; mReadTail := mReadTail r; mLocation := mLocation r;
     mReadSize := mReadSize r; mReadInFlightFlag := mReadInFlightFlag r;
     mPendingCloseFlag := mPendingCloseFlag r; mPendingCancelFlag :=
     mPendingCancelFlag r; mClientThreadPtr := mClientThreadPtr r |}.
Definition set_mRefCount (v : Z) (r : ReplicatorImpl) : ReplicatorImpl :=
  {| mKind := mKind r; mFileId := mFileId r; mChunkId := mChunkId r;
     mChunkVersion := mChunkVersion r; mChunkSize := mChunkSize r; mOwner :=
     mOwner r; mOffset := mOffset r; mPeer := mPeer r; mChunkMetadataOp :=
     mChunkMetadataOp r; mReadOp := mReadOp r; mWriteOp := mWriteOp r; mDone
     := mDone r; mCancelFlag := mCancelFlag r; mFileHandle := mFileHandle r;
     mHandler := mHandler r; mWaiting := mWaiting r; mRefCount := v; mState
     := mState r; mReadTail := mReadTail r; mLocation := mLocation r;
     mReadSize := mReadSize r; mReadInFlightFlag := mReadInFlightFlag r;
     mPendingCloseFlag := mPendingCloseFlag r; mPendingCancelFlag :=
     mPendingCancelFlag r; mClientThreadPtr := mClientThreadPtr r |}.
Definition set_mState (v : State) (r : ReplicatorImpl) : ReplicatorImpl :=
  {| mKind := mKind r; mFileId := mFileId r; mChunkId := mChunkId r;
     mChunkVersion := mChunkVersion r; mChunkSize := mChunkSize r; mOwner :=
     mOwner r; mOffset := mOffset r; mPeer := mPeer r; mChunkMetadataOp :=
     mChunkMetadataOp r; mReadOp := mReadOp r; mWriteOp := mWriteOp r; mDone
     := mDone r; mCancelFlag := mCancelFlag r; mFileHandle := mFileHandle r;
     mHandler := mHandler r; mWaiting := mWaiting r; mRefCount := mRefCount
     r; mState := v; mReadTail := mReadTail r; mLocation := mLocation r;
     mReadSize := mReadSize r; mReadInFlightFlag := mReadInFlightFlag r;
     mPendingCloseFlag := mPendingCloseFlag r; mPendingCancelFlag :=
     mPendingCancelFlag r; mClientThreadPtr := mClientThreadPtr r |}.
Definition set_mReadTail (v : IOBuffer) (r : ReplicatorImpl) : ReplicatorImpl :=
  {| mKind := mKind r; mFileId := mFileId r; mChunkId := mChunkId r;
     mChunkVersion := mChunkVersion r; mChunkSize := mChunkSize r; mOwner :=
     mOwner r; mOffset := mOffset r; mPeer := mPeer r; mChunkMetadataOp :=
     mChunkMetadataOp r; mReadOp := mReadOp r; mWriteOp := mWriteOp r; mDone
     := mDone r; mCancelFlag := mCancelFlag r; mFileHandle := mFileHandle r;
     mHandler := mHandler r; mWaiting := mWaiting r; mRefCount := mRefCount
     r; mState := mState r; mReadTail := v; mLocation := mLocation r;
     mReadSize := mReadSize r; mReadInFlightFlag := mReadInFlightFlag r;
     mPendingCloseFlag := mPendingCloseFlag r; mPendingCancelFlag :=
     mPendingCancelFlag r; mClientThreadPtr := mClientThreadPtr r |}.
Definition set_mReadInFlightFlag (v : bool) (r : ReplicatorImpl) : ReplicatorImpl :=
  {| mKind := mKind r; mFileId := mFileId r; mChunkId := mChunkId r;
     mChunkVersion := mChunkVersion r; mChunkSize := mChunkSize r; mOwner :=
     mOwner r; mOffset := mOffset r; mPeer := mPeer r; mChunkMetadataOp :=
     mChunkMetadataOp r; mReadOp := mReadOp r; mWriteOp := mWriteOp r; mDone
     := mDone r; mCancelFlag := mCancelFlag r; mFileHandle := mFileHandle r;
     mHandler := mHandler r; mWaiting := mWaiting r; mRefCount := mRefCount
     r; mState := mState r; mReadTail := mReadTail r; mLocation := mLocation
     r; mReadSize := mReadSize r; mReadInFlightFlag := v; mPendingCloseFlag
     := mPendingCloseFlag r; mPendingCancelFlag := mPendingCancelFlag r;
     mClientThreadPtr := mClientThreadPtr r |}.
Definition set_mPendingCloseFlag (v : bool) (r : ReplicatorImpl) : ReplicatorImpl :=
  {| mKind := mKind r; mFileId := mFileId r; mChunkId := mChunkId r;
     mChunkVersion := mChunkVersion r; mChunkSize := mChunkSize r; mOwner :=
     mOwner r; mOffset := mOffset r; mPeer := mPeer r; mChunkMetadataOp :=
     mChunkMetadataOp r; mReadOp := mReadOp r; mWriteOp := mWriteOp r; mDone
     := mDone r; mCancelFlag := mCancelFlag r; mFileHandle := mFileHandle r;
     mHandler := mHandler r; mWaiting := mWaiting r; mRefCount := mRefCount
     r; mState := mState r; mReadTail := mReadTail r; mLocation := mLocation
     r; mReadSize := mReadSize r; mReadInFlightFlag := mReadInFlightFlag r;
     mPendingCloseFlag := v; mPendingCancelFlag := mPendingCancelFlag r;
     mClientThreadPtr := mClientThreadPtr r |}.
Definition set_mPendingCancelFlag (v : bool) (r : ReplicatorImpl) : ReplicatorImpl :=
  {| mKind := mKind r; mFileId := mFileId r; mChunkId := mChunkId r;
     mChunkVersion := mChunkVersion r; mChunkSize := mChunkSize r; mOwner :=
     mOwner r; mOffset := mOffset r; mPeer := mPeer r; mChunkMetadataOp :=
     mChunkMetadataOp r; mReadOp := mReadOp r; mWriteOp := mWriteOp r; mDone
     := mDone r; mCancelFlag := mCancelFlag r; mFileHandle := mFileHandle r;
     mHandler := mHandler r; mWaiting := mWaiting r; mRefCount := mRefCount
     r; mState := mState r; mReadTail := mReadTail r; mLocation := mLocation
     r; mReadSize := mReadSize r; mReadInFlightFlag := mReadInFlightFlag r;
     mPendingCloseFlag := mPendingCloseFlag r; mPendingCancelFlag := v;
     mClientThreadPtr := mClientThreadPtr r |}.

(** Replicator::Counters. *)
Inductive Counter :=
| mReplicatorCount
| mReplicationCount
| mReplicationErrorCount
| mReplicationCanceledCount
| mRecoveryCount
| mRecoveryErrorCount
| mRecoveryCanceledCount.

(** What a method does to the world outside the object, in order. *)
Inductive Event :=
| PeerEnqueueMeta (op : GetChunkMetadataOp.t)
| PeerEnqueueRead (op : ReadOp.t)
| AllocChunk_call (fileId chunkId chunkVersion tier targetVersion : Z)
| WriteChunk_call (op : WriteOp.t)
| ChangeChunkVers_call (chunkId chunkVersion : Z) (stableFlag : bool)
| ReplicationDone_call (chunkId status : Z) (fileH : FilePtr)
| IsOverQuota_call (bytes : Z)
| GetForDiskIo_call (bytes : Z)
| CancelRequest_call
| Reader_Read (size offset : Z)
| Reader_Close
| RSEntry_Enqueue
| Handle_call
| CounterInc (c : Counter)
| CounterDec (c : Counter)
| SubmitOpResponse (op : ReplicateChunkOp.t)
| Die (msg : string)
| AssertFail.

Definition Result : Type := ReplicatorImpl * list Event.

(** Sequencing: run [k] on the object [f] leaves and append the traces. *)
Definition andThen (f : Result) (k : ReplicatorImpl -> Result) : Result :=
  let '(r, evs) := f in
  let '(r', evs') := k r in
  (r', evs ++ evs').

Definition is_null {A} (p : option A) : bool :=
  match p with Some _ => false | None => true end.

Definition is_nil {A} (l : list A) : bool :=
  match l with [] => true | _ :: _ => false end.

Definition Ref (r : ReplicatorImpl) : ReplicatorImpl :=
  set_mRefCount (mRefCount r + 1) r.
Definition UnRef (r : ReplicatorImpl) : ReplicatorImpl :=
  set_mRefCount (mRefCount r - 1) r.

(** The static members of RSReplicatorImpl. *)
Record RSStatics := mkRSStatics {
  sRSReaderMaxRetryCount : Z;
  sRSReaderTimeSecBetweenRetries : Z;
  sRSReaderOpTimeoutSec : Z;
  sRSReaderIdleTimeoutSec : Z;
  sRSReaderMaxChunkReadSize : Z;
  sRSReaderMaxReadSize : Z;
  sRSReaderLeaseRetryTimeout : Z;
  sRSReaderLeaseWaitTimeout : Z;
  sRSReaderMetaMaxRetryCount : Z;
  sRSReaderMetaTimeSecBetweenRetries : Z;
  sRSReaderMetaOpTimeoutSec : Z;
  sRSReaderMetaIdleTimeoutSec : Z;
  sRSReaderMaxRecoverChunkSize : Z;
  sMaxRecoveryThreads : Z;
  sRSReaderMetaResetConnectionOnOpTimeoutFlag : bool;
  sRSReaderPanicOnInvalidChunkFlag : bool;
  sAuthUpdateCount : Z;
  sAuthParams : gmap string string
}.

(** The initial values of the static members. *)
Definition RSStatics_initial : RSStatics :=
  {| sRSReaderMaxRetryCount := 3;
     sRSReaderTimeSecBetweenRetries := 10;
     sRSReaderOpTimeoutSec := 30;
     sRSReaderIdleTimeoutSec := 5 * 30;
     sRSReaderMaxChunkReadSize :=
       Z.max kDefaultReplicationReadSize (Z.shiftl 1 20);
     sRSReaderMaxReadSize := kDefaultReplicationReadSize;
     sRSReaderLeaseRetryTimeout := 3;
     sRSReaderLeaseWaitTimeout := 30;
     sRSReaderMetaMaxRetryCount := 2;
     sRSReaderMetaTimeSecBetweenRetries := 10;
     sRSReaderMetaOpTimeoutSec := 4 * 60;
     sRSReaderMetaIdleTimeoutSec := 5 * 60;
     sRSReaderMaxRecoverChunkSize := CHUNKSIZE;
     sMaxRecoveryThreads := 16;
     sRSReaderMetaResetConnectionOnOpTimeoutFlag := true;
     sRSReaderPanicOnInvalidChunkFlag := false;
     sAuthUpdateCount := 0;
     sAuthParams := ∅ |}.

(** The process: the replicator objects by address, the static map
    [sInFlightReplications] from chunk id to replicator pointer, the next
    free address, and the trace of all calls made so far. *)
Record World := mkWorld {
  objs : gmap nat ReplicatorImpl;
  sInFlightReplications : gmap Z (option nat);
  nextId : nat;
  trace : list Event
}.

Definition set_objs (v : gmap nat ReplicatorImpl) (w : World) : World :=
  {| objs := v; sInFlightReplications := sInFlightReplications w;
     nextId := nextId w; trace := trace w |}.
Definition set_sInFlightReplications (v : gmap Z (option nat)) (w : World)
  : World :=
  {| objs := objs w; sInFlightReplications := v;
     nextId := nextId w; trace := trace w |}.
Definition emit (evs : list Event) (w : World) : World :=
  {| objs := objs w; sInFlightReplications := sInFlightReplications w;
     nextId := nextId w; trace := trace w ++ evs |}.

(** What one [Done] upcall carries.  [sameReader] is [&inReader == &mReader],
    [requestIsThis] is [inRequestId.mPtr == this], and [readerActive] is
    what [mReader.IsActive()] answers during the upcall. *)
Record DoneArgs := {
  sameReader : bool;
  inStatusCode : Z;
  inOffset : Z;
  inSize : Z;
  inBufferPtr : option IOBuffer;
  requestIsThis : bool;
  readerActive : bool
}.

Section ReplicatorImpl.

#[local] Set Default Proof Using "Type".

(** *** Collaborators and configuration *)

(** KFS status code of a checksum mismatch (common/kfstypes.h). *)
Variable EBADCKSUM : Z.

(** [WriteOp::Reset] (KfsOps.h), which readies the op for the next
    submission. *)
Variable WriteOp_Reset : WriteOp.t -> WriteOp.t.

(** [ServerLocation::IsValid] (common/kfsdecls.h). *)
Variable IsValid : ServerLocation.t -> bool.

(** The static flag set by [ReplicatorImpl::SetParameters]. *)
Variable sReadSkipDiskVerifyFlag : bool.

(** Chunk manager: the status [AllocChunk] returns with the file handle it
    stores, the status [WriteChunk] returns, the result of
    [ChangeChunkVers]. *)
Variable AllocChunk : Z -> Z -> Z -> Z -> Z -> Z * option FilePtr.
Variable WriteChunk : WriteOp.t -> option FilePtr -> Z.
Variable ChangeChunkVers : Z -> Z -> bool -> Z.

(** The client thread the caller runs on,
    [ClientThread::GetCurrentClientThreadPtr()]. *)
Variable currentClientThread : option nat.

(** *** Completion *)

(** ReplicatorImpl::HandleReplicationDone.  [data] points to the status, or
    is null. *)
Definition HandleReplicationDone (data : option Z) (this : ReplicatorImpl)
  : Result :=
  match mOwner this with
  | None => (this, [AssertFail])
  | Some owner =>
    let status := match data with Some s => s | None => 0 end in
    let owner :=
      ReplicateChunkOp.set_status (if 0 <=? status then 0 else status) owner in
    let released :=
      match mFileHandle this with
      | Some fileH => [ReplicationDone_call (mChunkId this) status fileH]
      | None => []
      end in
    let this := set_mFileHandle None this in
    (* Notify the owner of completion *)
    let owner :=
      ReplicateChunkOp.set_chunkVersion
        (if negb (mCancelFlag this) && (0 <=? status)
         then mChunkVersion this else -1) owner in
    let counted :=
      if (ReplicateChunkOp.status owner <? 0) || mCancelFlag this then
        if IsValid (ReplicateChunkOp.location owner) then
          if mCancelFlag this then [CounterInc mReplicationCanceledCount]
          else [CounterInc mReplicationErrorCount]
        else
          if mCancelFlag this then [CounterInc mRecoveryCanceledCount]
          else [CounterInc mRecoveryErrorCount]
      else [] in
    let this :=
      set_mReadOp (ReadOp.set_requestChunkAccess None (mReadOp this)) this in
    let this :=
      set_mChunkMetadataOp
        (GetChunkMetadataOp.set_requestChunkAccess None
           (mChunkMetadataOp this)) this in
    let this := set_mOwner None this in
    let this := UnRef this in
    (this, released ++ counted ++ [SubmitOpResponse owner])
  end.

(** ReplicatorImpl::Terminate. *)
Definition Terminate (status : Z) (this : ReplicatorImpl) : Result :=
  if mDone this && negb (mCancelFlag this) then
    (* The data copy or recovery has completed.
       Set the version appropriately, and write the meta data. *)
    let this := set_mHandler hHandleReplicationDone this in
    let kStableFlag := true in
    let res := ChangeChunkVers (mChunkId this) (mChunkVersion this) kStableFlag in
    let call := ChangeChunkVers_call (mChunkId this) (mChunkVersion this)
                                     kStableFlag in
    if res =? 0 then (this, [call])
    else andThen (this, [call]) (HandleReplicationDone (Some res))
  else
    let res := if status <? 0 then status
               else if status =? 0 then -1 else - status in
    HandleReplicationDone (Some res) this.

(** *** Recovery: hand-over to the client thread *)

(** RSReplicatorImpl::Enqueue.  [Handle()] runs either on the client thread
    the entry is queued to, or at once on the caller's thread; every caller
    below calls [Enqueue] last, so the run of [Handle] is recorded as
    [Handle_call] at the end of the trace. *)
Definition Enqueue (inState : State) (this : ReplicatorImpl) : Result :=
  let dispatch (this : ReplicatorImpl) : Result :=
    match mClientThreadPtr this with
    | Some t =>
      if decide (Some t = currentClientThread) then (this, [Handle_call])
      else (this, [RSEntry_Enqueue])
    | None => (this, [Handle_call])
    end in
  if mPendingCancelFlag this then
    if negb (State_eqb (mState this) inState) then
      (this, [Die "recovery: invalid cancel enqueue"%string])
    else dispatch this
  else if negb (State_eqb (mState this) kNone) then
    (this, [Die "recovery: invalid state transtion"%string])
  else dispatch (set_mState inState this).

(** *** Reading from the peer *)

(** ReplicatorImpl::Read. *)
Definition ReplicatorImpl_Read (this : ReplicatorImpl) : Result :=
  if mCancelFlag this || is_null (mOwner this) then (this, [AssertFail]) else
  if mChunkSize this <=? mOffset this then
    let this := set_mDone (mOffset this =? mChunkSize this) this in
    Terminate (if mDone this then 0 else - EIO) this
  else
    let rd := mReadOp this in
    let rd :=
      if negb (Z.rem (mOffset this) CHECKSUM_BLOCKSIZE =? 0)
      then ReadOp.set_skipVerifyDiskChecksumFlag false rd else rd in
    if is_null (mPeer this) then (set_mReadOp rd this, [AssertFail]) else
    let this := set_mHandler hHandleReadDone this in
    let rd := ReadOp.set_checksum [] rd in
    let rd := ReadOp.set_status 0 rd in
    let rd := ReadOp.set_offset (mOffset this) rd in
    let rd := ReadOp.set_numBytesIO 0 rd in
    let rd :=
      ReadOp.set_numBytes
        (Z.min (mChunkSize this - mOffset this) kDefaultReplicationReadSize)
        rd in
    let rd := ReadOp.set_dataBuf [] rd in
    (set_mReadOp rd this, [PeerEnqueueRead rd]).

(** RSReplicatorImpl::Read. *)
Definition RSReplicatorImpl_Read (this : ReplicatorImpl) : Result :=
  if negb (State_eqb (mState this) kNone) then (this, [AssertFail]) else
  if mPendingCancelFlag this then (this, [])
  else Enqueue kRead this.

(** The virtual [Read()]. *)
Definition Read (this : ReplicatorImpl) : Result :=
  match mKind this with
  | Direct => ReplicatorImpl_Read this
  | Recovery => RSReplicatorImpl_Read this
  end.

(** ReplicatorImpl::HandleReadDone.  The arguments [code] and [data] are
    always EVENT_CMD_DONE and [&mReadOp]; the completed read is in
    [mReadOp]. *)
Definition HandleReadDone (this : ReplicatorImpl) : Result :=
  if mCancelFlag this then Terminate ECANCELED this else
  let numRd := IOBuf.BytesConsumable (ReadOp.dataBuf (mReadOp this)) in
  let checked : Result + ReplicatorImpl :=
    if ReadOp.status (mReadOp this) <? 0 then
      if ReadOp.skipVerifyDiskChecksumFlag (mReadOp this)
         && (ReadOp.status (mReadOp this) =? - EBADCKSUM)
      then
        (* retrying read with disk checksum verify *)
        inl (Read (set_mReadOp
                     (ReadOp.set_skipVerifyDiskChecksumFlag false
                        (mReadOp this)) this))
      else inr this
    else if (numRd <? ReadOp.numBytes (mReadOp this))
            && (mOffset this + numRd <? mChunkSize this)
    then (* short read *)
      inr (set_mReadOp (ReadOp.set_status (- EINVAL) (mReadOp this)) this)
    else inr this in
  match checked with
  | inl retried => retried
  | inr this =>
  if (ReadOp.status (mReadOp this) <? 0) || (mChunkSize this <=? mOffset this)
  then
    let this :=
      set_mDone ((mOffset this =? mChunkSize this)
                 && (0 <=? ReadOp.status (mReadOp this))) this in
    Terminate (if mDone this then 0 else ReadOp.status (mReadOp this)) this
  else
  let kChecksumBlockSize := CHECKSUM_BLOCKSIZE in
  if negb (Z.rem (mOffset this) kChecksumBlockSize =? 0)
     || (negb (is_nil (ReadOp.checksum (mReadOp this)))
         && negb (Z.of_nat (length (ReadOp.checksum (mReadOp this)))
                  =? Z.quot (numRd + kChecksumBlockSize - 1)
                            kChecksumBlockSize))
  then (this, [Die "replicator: invalid read completion"%string])
  else
  let wr := WriteOp_Reset (mWriteOp this) in
  let wr := WriteOp.set_numBytes numRd wr in
  let wr := WriteOp.set_offset (mOffset this) wr in
  let wr := WriteOp.set_isFromReReplication true wr in
  let wr := WriteOp.set_dataBuf [] wr in
  let wr := WriteOp.set_checksums (ReadOp.checksum (mReadOp this)) wr in
  let rd := mReadOp this in
  (* align the writes to checksum boundaries *)
  let aligned : option (WriteOp.t * ReadOp.t) :=
    if kChecksumBlockSize <? numRd then
      (* Chunk manager only handles checksum block aligned writes. *)
      let numBytes := Z.rem numRd kChecksumBlockSize in
      let endPos := mOffset this + numRd in
      if negb ((numBytes =? 0) || (endPos =? mChunkSize this)) then None else
      let wr := WriteOp.set_numBytes (numRd - numBytes) wr in
      if (0 <? numBytes) && (endPos =? mChunkSize this) then
        let '(wbuf, rbuf, _) :=
          IOBuf.MoveN (WriteOp.dataBuf wr) (ReadOp.dataBuf rd)
                      (WriteOp.numBytes wr) in
        let wr := WriteOp.set_dataBuf wbuf wr in
        let rd := ReadOp.set_dataBuf rbuf rd in
        let rd := ReadOp.set_offset (mOffset this + WriteOp.numBytes wr) rd in
        let rd := ReadOp.set_numBytesIO numBytes rd in
        let rd := ReadOp.set_numBytes numBytes rd in
        if negb (is_nil (ReadOp.checksum rd)) then
          Some (WriteOp.set_checksums (removelast (WriteOp.checksums wr)) wr,
                ReadOp.set_checksum [List.last (ReadOp.checksum rd) 0] rd)
        else Some (wr, rd)
      else
        let '(wbuf, rbuf) :=
          IOBuf.Move (WriteOp.dataBuf wr) (ReadOp.dataBuf rd) in
        Some (WriteOp.set_dataBuf wbuf wr, ReadOp.set_dataBuf rbuf rd)
    else
      let '(wbuf, rbuf) :=
        IOBuf.Move (WriteOp.dataBuf wr) (ReadOp.dataBuf rd) in
      Some (WriteOp.set_dataBuf wbuf wr, ReadOp.set_dataBuf rbuf rd) in
  match aligned with
  | None => (this, [AssertFail])
  | Some (wr, rd) =>
    let this := set_mWriteOp wr (set_mReadOp rd this) in
    let this := set_mHandler hHandleWriteDone this in
    let status := WriteChunk (mWriteOp this) (mFileHandle this) in
    if status <? 0 then
      (* abort everything *)
      andThen (this, [WriteChunk_call (mWriteOp this)]) (Terminate status)
    else (this, [WriteChunk_call (mWriteOp this)])
  end
  end.

(** ReplicatorImpl::HandleWriteDone.  The completed write is in
    [mWriteOp]. *)
Definition HandleWriteDone (this : ReplicatorImpl) : Result :=
  if mCancelFlag this || (WriteOp.status (mWriteOp this) <? 0) then
    Terminate (if mCancelFlag this then ECANCELED
               else WriteOp.status (mWriteOp this)) this
  else
  let this := set_mOffset (mOffset this + WriteOp.numBytesIO (mWriteOp this))
                          this in
  if (ReadOp.offset (mReadOp this) =? mOffset this)
     && negb (IOBuf.IsEmpty (ReadOp.dataBuf (mReadOp this))) then
    if negb (IOBuf.BytesConsumable (ReadOp.dataBuf (mReadOp this))
             <? CHECKSUM_BLOCKSIZE)
    then (this, [AssertFail])
    else (* Write the remaining tail. *) HandleReadDone this
  else Read this.

(** *** Size probe *)

(** ReplicatorImpl::Start. *)
Definition ReplicatorImpl_Start (this : ReplicatorImpl) : Result :=
  if is_null (mPeer this) then (this, [AssertFail]) else
  let md := GetChunkMetadataOp.set_chunkId (mChunkId this)
              (mChunkMetadataOp this) in
  let rd := ReadOp.set_skipVerifyDiskChecksumFlag sReadSkipDiskVerifyFlag
              (mReadOp this) in
  let md := GetChunkMetadataOp.set_readVerifyFlag false md in
  let this := set_mReadOp rd (set_mChunkMetadataOp md this) in
  let this := set_mHandler hHandleStartDone this in
  (this, [PeerEnqueueMeta md]).

(** ReplicatorImpl::HandleStartDone.  The completed size probe is in
    [mChunkMetadataOp]. *)
Definition HandleStartDone (this : ReplicatorImpl) : Result :=
  let md := mChunkMetadataOp this in
  if mCancelFlag this || (GetChunkMetadataOp.status md <? 0) then
    Terminate (if mCancelFlag this then ECANCELED
               else GetChunkMetadataOp.status md) this
  else
  let this := set_mChunkSize (GetChunkMetadataOp.chunkSize md) this in
  let this := set_mChunkVersion (GetChunkMetadataOp.chunkVersion md) this in
  if (mChunkSize this <? 0) || (CHUNKSIZE <? mChunkSize this) then
    Terminate EINVAL this
  else
  if negb (is_null (mFileHandle this)) then (this, [AssertFail]) else
  let this :=
    set_mReadOp (ReadOp.set_chunkVersion (mChunkVersion this) (mReadOp this))
                this in
  (* set the version to a value that will never be used; if
     replication is successful, we then bump up the counter. *)
  let this := set_mWriteOp (WriteOp.set_chunkVersion 0 (mWriteOp this)) this in
  match mOwner this with
  | None => (this, [AssertFail])
  | Some owner =>
    let tier := ReplicateChunkOp.minStorageTier owner in
    let target :=
      if 0 <=? ReplicateChunkOp.targetVersion owner
      then ReplicateChunkOp.targetVersion owner else mChunkVersion this in
    let '(status, fileH) :=
      AllocChunk (mFileId this) (mChunkId this)
                 (WriteOp.chunkVersion (mWriteOp this)) tier target in
    let call := AllocChunk_call (mFileId this) (mChunkId this)
                  (WriteOp.chunkVersion (mWriteOp this)) tier target in
    let this := set_mFileHandle fileH this in
    if status <? 0 then
      let this :=
        if status =? - EEXIST then
          set_mOwner
            (Some (ReplicateChunkOp.set_statusMsg
               "readable chunk with target version already exists"%string
               owner)) this
        else this in
      andThen (this, [call]) (Terminate status)
    else if is_null (mFileHandle this) then
      (this, [call; Die "replication: invalid null file handle"%string])
    else andThen (this, [call]) Read
  end.

(** *** Recovery: completions of the reader *)

(** Which op a completion is for: [&mChunkMetadataOp] or [&mReadOp]. *)
Inductive Completed := MetaDone | ReadDone.

(** RSReplicatorImpl::HandleCompletion. *)
Definition HandleCompletion (data : Completed) (this : ReplicatorImpl)
  : Result :=
  if mPendingCancelFlag this then (this, []) (* Ignore completion. *) else
  let this := set_mState kNone this in
  match data with
  | MetaDone => HandleStartDone this
  | ReadDone => HandleReadDone this
  end.

(** [ServerLocation::ToString]. *)
Variable ToString : ServerLocation.t -> string.

(** RSReplicatorImpl::Start. *)
Definition RSReplicatorImpl_Start (this : ReplicatorImpl) : Result :=
  match mOwner this with
  | None => (this, [AssertFail])
  | Some owner =>
    if negb ((ReplicateChunkOp.status owner =? 0)
             && State_eqb (mState this) kNone)
    then (this, [AssertFail]) else
    if mPendingCancelFlag this then (this, []) else
    let md := mChunkMetadataOp this in
    let md := GetChunkMetadataOp.set_chunkSize CHUNKSIZE md in
    let md := GetChunkMetadataOp.set_chunkVersion
                (ReplicateChunkOp.chunkVersion owner) md in
    let md := GetChunkMetadataOp.set_status 0 md in
    let md := GetChunkMetadataOp.set_statusMsg ""%string md in
    let rd := mReadOp this in
    let rd := ReadOp.set_status 0 rd in
    let rd := ReadOp.set_statusMsg ""%string rd in
    let rd := ReadOp.set_numBytes 0 rd in
    let rd := ReadOp.set_skipVerifyDiskChecksumFlag false rd in
    let this := set_mReadOp rd (set_mChunkMetadataOp md this) in
    if negb (IsValid (mLocation this)) then
      let md := GetChunkMetadataOp.set_status (- EINVAL) md in
      let md := GetChunkMetadataOp.set_statusMsg
                  ("invalid meta server location: "
                   +:+ ToString (mLocation this)
                   +:+ " or authentication")%string md in
      HandleCompletion MetaDone (set_mChunkMetadataOp md this)
    else Enqueue kStart this
  end.

(** The virtual [Start()]. *)
Definition Start (this : ReplicatorImpl) : Result :=
  match mKind this with
  | Direct => ReplicatorImpl_Start this
  | Recovery => RSReplicatorImpl_Start this
  end.

(** ReplicatorImpl::Granted: the buffer manager grants the queued request. *)
Definition Granted (byteCount : Z) (this : ReplicatorImpl) : Result :=
  Start this.

(** The status [mReader.Read(buf, size, offset, requestId)] returns.  The
    reader completes through [Done], later. *)
Variable Reader_Read_status : Z -> Z -> Z.

(** RSReplicatorImpl::HandleRead. *)
Definition HandleRead (this : ReplicatorImpl) : Result :=
  if mCancelFlag this || is_null (mOwner this) || mReadInFlightFlag this
  then (this, [AssertFail]) else
  if (mChunkSize this <=? mOffset this)
     || (ReadOp.status (mReadOp this) <? 0) then
    HandleCompletion ReadDone this
  else
  let rd := mReadOp this in
  let rd := ReadOp.set_status 0 rd in
  let rd := ReadOp.set_numBytes (mReadSize this) rd in
  let rd := ReadOp.set_numBytesIO 0 rd in
  let rd := ReadOp.set_offset (mOffset this) rd in
  let rd := ReadOp.set_dataBuf [] rd in
  let this := set_mReadOp rd this in
  let this := set_mReadInFlightFlag true this in
  let pos := mOffset this + IOBuf.BytesConsumable (mReadTail this) in
  let status := Reader_Read_status (mReadSize this) pos in
  let call := Reader_Read (mReadSize this) pos in
  if negb (status =? 0) && mReadInFlightFlag this then
    let this := set_mReadInFlightFlag false this in
    let this := set_mReadOp (ReadOp.set_status status (mReadOp this)) this in
    andThen (this, [call]) (HandleCompletion ReadDone)
  else (this, [call]).

(** [ComputeChecksums] (kfsio/checksum.h): one checksum per block of the
    first [len] bytes. *)
Variable ComputeChecksums : IOBuffer -> Z -> list Z.

(** The static members of RSReplicatorImpl at the time of the call. *)
Variable statics : RSStatics.

(** The report of invalid stripes in [Done]: the loop that reads
    (index, chunk id, version) triples off the buffer, given the number of
    stripes, and renders them in decimal separated by spaces; [None] when
    the loop dies on a malformed buffer. *)
Variable InvalidStripes : IOBuffer -> Z -> option string.

(** RSReplicatorImpl::Done, first part: the read is moved into
    [mReadOp.dataBuf] and [mReadTail].  [inl] is a return from [Done];
    [inr] carries on with the checks after the buffers are set. *)
Definition Done_buffers (a : DoneArgs) (inBuf : IOBuffer)
                        (this : ReplicatorImpl)
  : Result + Result :=
  let endOfChunk :=
    (IOBuf.BytesConsumable inBuf <? mReadSize this)
    || (mChunkSize this <=?
        mOffset this + IOBuf.BytesConsumable (mReadTail this)
        + mReadSize this) in
  let rd := ReadOp.set_dataBuf [] (mReadOp this) in
  let filled : Result + Result :=
    if endOfChunk then
      let '(buf, tail) := IOBuf.Move (ReadOp.dataBuf rd) (mReadTail this) in
      let '(buf, _) := IOBuf.Move buf inBuf in
      let rd := ReadOp.set_dataBuf buf rd in
      let rd := ReadOp.set_numBytes (IOBuf.BytesConsumable buf) rd in
      let rd := ReadOp.set_numBytesIO (ReadOp.numBytes rd) rd in
      let this := set_mReadOp rd (set_mReadTail tail this) in
      let this := set_mChunkSize (mOffset this + ReadOp.numBytesIO rd) this in
      if readerActive a then
        inr (Ref (set_mPendingCloseFlag true this), [Reader_Close])
      else inr (this, [Reader_Close])
    else
      let kChecksumBlockSize := CHECKSUM_BLOCKSIZE in
      let nmv :=
        Z.quot (IOBuf.BytesConsumable (mReadTail this)
                + IOBuf.BytesConsumable inBuf) kChecksumBlockSize
        * kChecksumBlockSize in
      if nmv <=? 0 then
        let '(tail, _) := IOBuf.Move (mReadTail this) inBuf in
        inl (HandleRead (set_mReadOp rd (set_mReadTail tail this)))
      else
        let '(buf, tail, moved) :=
          IOBuf.MoveN (ReadOp.dataBuf rd) (mReadTail this) nmv in
        let nmv := nmv - moved in
        let '(buf, inRest, _) := IOBuf.MoveN buf inBuf nmv in
        let '(tail, _) := IOBuf.Move tail inRest in
        let rd := ReadOp.set_dataBuf buf rd in
        let rd := ReadOp.set_numBytes (IOBuf.BytesConsumable buf) rd in
        let rd := ReadOp.set_numBytesIO (ReadOp.numBytes rd) rd in
        inr (set_mReadOp rd (set_mReadTail tail this), []) in
  match filled with
  | inl returned => inl returned
  | inr (this, evs) =>
    let rd := mReadOp this in
    if (0 <? ReadOp.numBytes rd)
       && negb (IOBuf.IsEmpty (ReadOp.dataBuf rd))
       && (Z.rem (ReadOp.offset rd) CHECKSUM_BLOCKSIZE =? 0)
       && (Z.rem (ReadOp.numBytes rd) CHECKSUM_BLOCKSIZE =? 0)
    then
      inr (set_mReadOp
             (ReadOp.set_checksum
                (ComputeChecksums (ReadOp.dataBuf rd) (ReadOp.numBytes rd))
                rd) this, evs)
    else inr (this, evs)
  end.

(** RSReplicatorImpl::Done, last part, from the check against
    [sRSReaderMaxRecoverChunkSize] on: [res] is the object and the trace
    the first part leaves. *)
Definition Done_finish (a : DoneArgs) (readOkFlag : bool) (pendingSize : Z)
                       (res : Result) : Result :=
  let '(this, evs) := res in
  if readOkFlag
     && (sRSReaderMaxRecoverChunkSize statics <? mOffset this + pendingSize)
  then (this, evs ++ [Die "recovery: exceeds max recover chunk size"%string])
  else
  match mOwner this with
  | None => (this, evs)
  | Some owner =>
    if negb (ReplicateChunkOp.chunkOffset owner + mOffset this =? inOffset a)
    then (this, evs ++ [Die "recovery: invalid read completion"%string])
    else
    let reported : option ReplicatorImpl :=
      match inBufferPtr a with
      | Some inBuf =>
        if negb readOkFlag && (inStatusCode a <? 0)
           && negb (IOBuf.IsEmpty inBuf) then
          (* Report invalid stripes. *)
          let ns := ReplicateChunkOp.numStripes owner
                    + ReplicateChunkOp.numRecoveryStripes owner in
          match InvalidStripes inBuf ns with
          | None => None
          | Some str =>
            if sRSReaderPanicOnInvalidChunkFlag statics
               && (0 <? ReplicateChunkOp.fileSize owner)
            then None
            else Some (set_mOwner
                         (Some (ReplicateChunkOp.set_invalidStripeIdx str
                                  owner)) this)
          end
        else Some this
      | None => Some this
      end in
    match reported with
    | None => (this, evs ++ [Die "recovery: invalid chunk(s) detected"%string])
    | Some this => andThen (this, evs) (HandleCompletion ReadDone)
    end
  end.

(** RSReplicatorImpl::Done. *)
Definition Done (a : DoneArgs) (this : ReplicatorImpl) : Result :=
  if negb (sameReader a)
     || (negb (is_null (inBufferPtr a))
         && (negb (requestIsThis a)
             || (inOffset a <? 0)
             || (ReadOp.numBytes (mReadOp this) <? inSize a)
             || negb (mReadInFlightFlag this)))
  then (this, [Die "recovery: invalid read completion"%string]) else
  if mPendingCloseFlag this then
    if negb (readerActive a) then
      (* chunk reader closed *)
      (UnRef (set_mPendingCloseFlag false this), [])
    else (this, [])
  else
  if negb (mReadInFlightFlag this) then
    if (0 <=? ReadOp.status (mReadOp this)) && (inStatusCode a <? 0) then
      (set_mReadOp (ReadOp.set_status (inStatusCode a) (mReadOp this)) this,
       [])
    else (this, [])
  else
  let this := set_mReadInFlightFlag false this in
  if negb (ReadOp.status (mReadOp this) =? 0)
     || (is_null (inBufferPtr a) && (inStatusCode a =? 0))
  then (this, []) else
  let rd := ReadOp.set_checksum [] (mReadOp this) in
  let rd := ReadOp.set_status (inStatusCode a) rd in
  let this := set_mReadOp rd this in
  let readOkFlag :=
    (ReadOp.status rd =? 0) && negb (is_null (inBufferPtr a)) in
  let pendingSize :=
    match inBufferPtr a with
    | Some inBuf =>
      if readOkFlag
      then IOBuf.BytesConsumable (mReadTail this) + IOBuf.BytesConsumable inBuf
      else 0
    | None => 0
    end in
  match inBufferPtr a with
  | Some inBuf =>
    if readOkFlag then
      match Done_buffers a inBuf this with
      | inl returned => returned
      | inr res => Done_finish a readOkFlag pendingSize res
      end
    else Done_finish a readOkFlag pendingSize (this, [])
  | None => Done_finish a readOkFlag pendingSize (this, [])
  end.

(** *** Cancellation and buffer admission *)

(** ReplicatorImpl::Cancel. *)
Definition ReplicatorImpl_Cancel (this : ReplicatorImpl) : Result :=
  let this := set_mCancelFlag true this in
  let released :=
    match mFileHandle this with
    | Some fileH => [ReplicationDone_call (mChunkId this) (- ECANCELED) fileH]
    | None => []
    end in
  let this := set_mFileHandle None this in
  if mWaiting this then
    (* Cancel buffers wait, and fail the op. *)
    andThen (set_mWaiting false this, released ++ [CancelRequest_call])
            (Terminate ECANCELED)
  else (this, released).

(** RSReplicatorImpl::Cancel. *)
Definition RSReplicatorImpl_Cancel (this : ReplicatorImpl) : Result :=
  if mPendingCancelFlag this then (this, []) else
  Enqueue (mState this) (set_mPendingCancelFlag true this).

(** The virtual [Cancel()]. *)
Definition Cancel (this : ReplicatorImpl) : Result :=
  match mKind this with
  | Direct => ReplicatorImpl_Cancel this
  | Recovery => RSReplicatorImpl_Cancel this
  end.

(** ReplicatorImpl::GetBufferBytesRequired. *)
Definition ReplicatorImpl_GetBufferBytesRequired (this : ReplicatorImpl) : Z :=
  kDefaultReplicationReadSize.

(** RSReplicatorImpl::GetBufferBytesRequired.  [mReadSize] and
    [numStripes] are [int]s, and so are the sum and the product, which wrap
    before the conversion to [ByteCount]. *)
Definition RSReplicatorImpl_GetBufferBytesRequired (this : ReplicatorImpl)
  : Z :=
  to_int
    (mReadSize this
     * match mOwner this with
       | Some owner => to_int (ReplicateChunkOp.numStripes owner + 1)
       | None => 0
       end).

(** The virtual [GetBufferBytesRequired()]. *)
Definition GetBufferBytesRequired (this : ReplicatorImpl) : Z :=
  match mKind this with
  | Direct => ReplicatorImpl_GetBufferBytesRequired this
  | Recovery => RSReplicatorImpl_GetBufferBytesRequired this
  end.

(** Buffer manager: [IsOverQuota(client, bytes)] and what
    [GetForDiskIo(client, bytes)] returns (true: granted now; false: the
    client is queued and [Granted] follows). *)
Variable IsOverQuota : ReplicatorImpl -> Z -> bool.
Variable GetForDiskIo : ReplicatorImpl -> Z -> bool.

(** ReplicatorImpl::Run, from [kChunkHeaderSize] on: the buffer request. *)
Definition Run_buffers (this : ReplicatorImpl) : Result :=
  let kChunkHeaderSize := Z.shiftl 16 10 in
  let bufBytes := Z.max kChunkHeaderSize (GetBufferBytesRequired this) in
  if IsOverQuota this bufBytes then
    andThen (this, [IsOverQuota_call bufBytes]) (Terminate ENOMEM)
  else if GetForDiskIo this bufBytes then
    andThen (this, [IsOverQuota_call bufBytes; GetForDiskIo_call bufBytes])
            Start
  else
    (* waiting for buffers *)
    (set_mWaiting true this,
     [IsOverQuota_call bufBytes; GetForDiskIo_call bufBytes]).

(** ** The registry of in-flight replications *)

(** ReplicatorImpl::~ReplicatorImpl, run when the reference count drops to
    zero. *)
Definition destroy (this : nat) (w : World) : World :=
  match objs w !! this with
  | None => w
  | Some r =>
    let w :=
      if decide (sInFlightReplications w !! mChunkId r = Some (Some this))
      then set_sInFlightReplications
             (delete (mChunkId r) (sInFlightReplications w)) w
      else w in
    if negb (is_null (mOwner r)) then emit [AssertFail] w
    else emit [CounterDec mReplicatorCount] (set_objs (delete this (objs w)) w)
  end.

(** A method call on the object at address [this]: the object is updated
    in place, the calls are appended to the trace, and the object is
    destroyed if no reference is left.  The destructor runs inside
    [UnRef()]; of the methods only [HandleReplicationDone] makes a call
    after [UnRef()], the response to the op, so the decrement of
    [mReplicatorCount] stands in the trace behind that response, where the
    source makes it just before.  The properties below speak of what a
    trace holds and of the order of the calls of a method, not of the place
    of that decrement. *)
Definition invoke (this : nat) (method : ReplicatorImpl -> Result) (w : World)
  : World :=
  match objs w !! this with
  | None => w
  | Some r =>
    let '(r', evs) := method r in
    let w := emit evs (set_objs (<[this := r']> (objs w)) w) in
    if mRefCount r' <=? 0 then destroy this w else w
  end.

(** ReplicatorImpl::GetNumReplications. *)
Definition GetNumReplications (w : World) : Z :=
  Z.of_nat (size (sInFlightReplications w)).

(** ReplicatorImpl::CancelChunkReplication. *)
Definition CancelChunkReplication (chunkId targetVersion : Z) (w : World)
  : bool * World :=
  match sInFlightReplications w !! chunkId with
  | None => (false, w)
  | Some None => (false, w)
  | Some (Some cur) =>
    match objs w !! cur with
    | None => (false, emit [AssertFail] w)
    | Some r =>
      if (0 <=? targetVersion)
         && match mOwner r with
            | None => true
            | Some owner =>
              negb ((if ReplicateChunkOp.targetVersion owner <? 0
                     then mChunkVersion r
                     else ReplicateChunkOp.targetVersion owner)
                    =? targetVersion)
            end
      then (false, w)
      else
        let w := set_sInFlightReplications
                   (delete chunkId (sInFlightReplications w)) w in
        (true, invoke cur Cancel w)
    end
  end.

(** Replicator::Cancel. *)
Definition Replicator_Cancel (chunkId targetVersion : Z) (w : World)
  : bool * World :=
  CancelChunkReplication chunkId targetVersion w.

(** ReplicatorImpl::Run. *)
Definition ReplicatorImpl_Run (this : nat) (w : World) : World :=
  match objs w !! this with
  | None => w
  | Some r =>
    let chunkId := mChunkId r in
    let inserted : World + World :=
      match sInFlightReplications w !! chunkId with
      | None =>
        inr (set_sInFlightReplications
               (<[chunkId := Some this]> (sInFlightReplications w)) w)
      | Some None =>
        inl (emit [Die "invalid null entry or an attempt to restart replication"%string] w)
      | Some (Some other) =>
        if decide (other = this) then
          inl (emit [Die "invalid null entry or an attempt to restart replication"%string] w)
        else
          let w := invoke other Cancel w in
          (* Cancel can delete the "other" replicator if it was waiting for
             buffers for example, and make the iterator invalid. *)
          let w := set_sInFlightReplications
                     (<[chunkId := Some this]> (sInFlightReplications w)) w in
          match objs w !! this with
          | None => inl w
          | Some r' =>
            if mCancelFlag r' then inl (invoke this (Terminate ECANCELED) w)
            else inr w
          end
      end in
    match inserted with
    | inl w => w
    | inr w => invoke this Run_buffers w
    end
  end.

(** ** The entry point *)

(** Stripe constants of common/kfstypes.h. *)
Variable KFS_STRIPED_FILE_TYPE_RS : Z.
Variable KFS_MIN_STRIPE_SIZE : Z.
Variable KFS_MAX_STRIPE_SIZE : Z.
Variable KFS_STRIPE_ALIGNMENT : Z.

(** The static flag set by [ReplicatorImpl::SetParameters]. *)
Variable sUseConnectionPoolFlag : bool.

(** [gClientManager.GetMutexPtr() == 0]. *)
Variable clientManagerMutexIsNull : bool.

(** The peer session: [gChunkServer.FindServer] and [RemoteSyncSM::Create]
    return the peer, or null, and may set the status and the message of the
    op, which they take by reference.  The arguments are the location, the
    token, the key, the clear-text flag, the status and message on entry,
    and for [Create] the connect and force-client-thread flags. *)
Variable FindServer :
  ServerLocation.t -> list Z -> list Z -> bool -> Z -> string ->
  option ServerLocation.t * Z * string.
Variable RemoteSyncSM_Create :
  ServerLocation.t -> list Z -> list Z -> bool -> Z -> string ->
  bool -> bool -> option ServerLocation.t * Z * string.

(** [RSReplicatorImpl::Create] picks the meta server client of the pool for
    the op and constructs the recovery replicator; the pool is outside this
    model.  The result is the new object, or null with the op as [Create]
    leaves it. *)
Variable RSReplicatorImpl_Create :
  ReplicateChunkOp.t -> list Z -> list Z ->
  option ReplicatorImpl * ReplicateChunkOp.t.

(** The value of a member the constructor leaves uninitialized. *)
Variable indeterminate : Z.

(** ReplicatorImpl::ReplicatorImpl. *)
Definition ReplicatorImpl_new (op : ReplicateChunkOp.t)
                              (peer : option ServerLocation.t)
  : ReplicatorImpl :=
  let access :=
    if (ReplicateChunkOp.chunkAccess op =? "")%string then None
    else Some (ReplicateChunkOp.chunkAccess op) in
  {| mKind := Direct;
     mFileId := ReplicateChunkOp.fid op;
     mChunkId := ReplicateChunkOp.chunkId op;
     mChunkVersion := ReplicateChunkOp.chunkVersion op;
     mChunkSize := indeterminate;
     mOwner := Some op;
     mOffset := 0;
     mPeer := peer;
     mChunkMetadataOp :=
       {| GetChunkMetadataOp.chunkId := 0;
          GetChunkMetadataOp.chunkSize := 0;
          GetChunkMetadataOp.chunkVersion := 0;
          GetChunkMetadataOp.readVerifyFlag := false;
          GetChunkMetadataOp.status := 0;
          GetChunkMetadataOp.statusMsg := "";
          GetChunkMetadataOp.requestChunkAccess := access |};
     mReadOp :=
       {| ReadOp.chunkId := ReplicateChunkOp.chunkId op;
          ReadOp.chunkVersion := ReplicateChunkOp.chunkVersion op;
          ReadOp.offset := 0;
          ReadOp.numBytes := 0;
          ReadOp.numBytesIO := 0;
          ReadOp.dataBuf := [];
          ReadOp.checksum := [];
          ReadOp.skipVerifyDiskChecksumFlag := false;
          ReadOp.status := 0;
          ReadOp.statusMsg := "";
          ReadOp.requestChunkAccess := access;
          ReadOp.clnt := true |};
     mWriteOp :=
       WriteOp.set_isFromReReplication true
         (WriteOp_Reset
            {| WriteOp.chunkId := ReplicateChunkOp.chunkId op;
               WriteOp.chunkVersion := ReplicateChunkOp.chunkVersion op;
               WriteOp.offset := 0;
               WriteOp.numBytes := 0;
               WriteOp.numBytesIO := 0;
               WriteOp.dataBuf := [];
               WriteOp.checksums := [];
               WriteOp.isFromReReplication := false;
               WriteOp.status := 0 |});
     mDone := false;
     mCancelFlag := false;
     mFileHandle := None;
     mHandler := hUnset;
     mWaiting := false;
     mRefCount := 0;
     mState := kNone;
     mReadTail := [];
     mLocation := {| ServerLocation.hostname := ""; ServerLocation.port := 0 |};
     mReadSize := 0;
     mReadInFlightFlag := false;
     mPendingCloseFlag := false;
     mPendingCancelFlag := false;
     mClientThreadPtr := None |}.

(** RSReplicatorImpl::RSReplicatorImpl.  [clientThread] is the client
    thread [Create] chose, [metaHost] the host name of
    [gMetaServerSM.GetLocation()] and [readSize] the result of
    [GetReadSize] on the op. *)
Definition RSReplicatorImpl_new (op : ReplicateChunkOp.t)
                                (clientThread : option nat)
                                (metaHost : string) (readSize : Z)
  : ReplicatorImpl :=
  let base := ReplicatorImpl_new op None in
  {| mKind := Recovery;
     mFileId := mFileId base;
     mChunkId := mChunkId base;
     mChunkVersion := mChunkVersion base;
     mChunkSize := mChunkSize base;
     mOwner := mOwner base;
     mOffset := mOffset base;
     mPeer := mPeer base;
     mChunkMetadataOp := mChunkMetadataOp base;
     mReadOp := ReadOp.set_clnt false (mReadOp base);
       (* Should not queue read op. *)
     mWriteOp := mWriteOp base;
     mDone := mDone base;
     mCancelFlag := mCancelFlag base;
     mFileHandle := mFileHandle base;
     mHandler := mHandler base;
     mWaiting := mWaiting base;
     mRefCount := mRefCount base;
     mState := kNone;
     mReadTail := [];
     mLocation :=
       {| ServerLocation.hostname := metaHost;
          ServerLocation.port :=
            ServerLocation.port (ReplicateChunkOp.location op) |};
     mReadSize := readSize;
     mReadInFlightFlag := false;
     mPendingCloseFlag := false;
     mPendingCancelFlag := false;
     mClientThreadPtr := clientThread |}.

(** The scans of the access header in [Replicator::Run]: skip the bytes up
    to and including the space character, then take the bytes above it. *)
Fixpoint skipBlank (p : list Z) : list Z :=
  match p with
  | c :: p' => if Z.land c 255 <=? 32 then skipBlank p' else p
  | [] => []
  end.

Fixpoint takeWord (p : list Z) : list Z * list Z :=
  match p with
  | c :: p' =>
    if 32 <? Z.land c 255 then
      let '(word, rest) := takeWord p' in (c :: word, rest)
    else ([], p)
  | [] => ([], [])
  end.

(** The validation of the recovery parameters in [Replicator::Run]: true
    when the request is refused.  [CHUNKSIZE] is a [size_t], so the stripe
    size is converted to 64 bits unsigned before [CHUNKSIZE % stripeSize]. *)
Definition invalidRecoveryRequest (op : ReplicateChunkOp.t) : bool :=
  (ReplicateChunkOp.chunkOffset op <? 0)
  || negb (Z.rem (ReplicateChunkOp.chunkOffset op) CHUNKSIZE =? 0)
  || negb (ReplicateChunkOp.striperType op =? KFS_STRIPED_FILE_TYPE_RS)
  || (ReplicateChunkOp.numStripes op <=? 0)
  || (ReplicateChunkOp.numRecoveryStripes op <=? 0)
  || (ReplicateChunkOp.stripeSize op <? KFS_MIN_STRIPE_SIZE)
  || (KFS_MAX_STRIPE_SIZE <? ReplicateChunkOp.stripeSize op)
  || negb (Z.rem CHUNKSIZE (ReplicateChunkOp.stripeSize op mod 2 ^ 64) =? 0)
  || negb (Z.rem (ReplicateChunkOp.stripeSize op) KFS_STRIPE_ALIGNMENT =? 0)
  || (ServerLocation.port (ReplicateChunkOp.location op) <=? 0).

(** [new] followed by [impl->Ref(); impl->Run()]. *)
Definition runNew (impl : ReplicatorImpl) (w : World) : World :=
  let this := nextId w in
  let w :=
    {| objs := <[this := Ref impl]> (objs w);
       sInFlightReplications := sInFlightReplications w;
       nextId := S this;
       trace := trace w ++ [CounterInc mReplicatorCount] |} in
  ReplicatorImpl_Run this w.

(** Replicator::Run. *)
Definition Replicator_Run (op : ReplicateChunkOp.t) (w : World) : World :=
  let p := skipBlank (ReplicateChunkOp.chunkServerAccess op) in
  let '(token, p) := takeWord p in
  let tokenLen := Z.of_nat (length token) in
  let p := skipBlank p in
  let '(key, p) := takeWord p in
  let keyLen := Z.of_nat (length key) in
  if negb (Bool.eqb (0 <? keyLen) (0 <? tokenLen)) then
    let op := ReplicateChunkOp.set_status (- EINVAL) op in
    let op := ReplicateChunkOp.set_statusMsg
                "malformed chunk access header value"%string op in
    emit [CounterInc (if IsValid (ReplicateChunkOp.location op)
                      then mReplicationErrorCount else mRecoveryErrorCount);
          SubmitOpResponse op] w
  else
  if IsValid (ReplicateChunkOp.location op) then
    let w := emit [CounterInc mReplicationCount] w in
    let '(peer, status, msg) :=
      if sUseConnectionPoolFlag then
        let '(peer, status, msg) :=
          FindServer (ReplicateChunkOp.location op) token key
                     (ReplicateChunkOp.allowCSClearTextFlag op)
                     (ReplicateChunkOp.status op)
                     (ReplicateChunkOp.statusMsg op) in
        (if status <? 0 then None else peer, status, msg)
      else
        let theConnectFlag := clientManagerMutexIsNull in
        let theForceUseClientThreadFlag := negb theConnectFlag in
        let '(peer, status, msg) :=
          RemoteSyncSM_Create (ReplicateChunkOp.location op) token key
                     (ReplicateChunkOp.allowCSClearTextFlag op)
                     (ReplicateChunkOp.status op)
                     (ReplicateChunkOp.statusMsg op)
                     theConnectFlag theForceUseClientThreadFlag in
        (if status <? 0 then None else peer, status, msg) in
    let op := ReplicateChunkOp.set_statusMsg msg
                (ReplicateChunkOp.set_status status op) in
    match peer with
    | Some _ => runNew (ReplicatorImpl_new op peer) w
    | None =>
      let op :=
        if 0 <=? ReplicateChunkOp.status op
        then ReplicateChunkOp.set_status (- EHOSTUNREACH) op else op in
      emit [CounterInc mReplicationErrorCount; SubmitOpResponse op] w
    end
  else
    let w := emit [CounterInc mRecoveryCount] w in
    if invalidRecoveryRequest op then
      let op := ReplicateChunkOp.set_status (- EINVAL) op in
      emit [CounterInc mRecoveryErrorCount; SubmitOpResponse op] w
    else
      match RSReplicatorImpl_Create op token key with
      | (Some impl, _) => runNew impl w
      | (None, op) => emit [SubmitOpResponse op] w
      end.

(** ** Configuration of the recovery reader *)

(** The integer a property value stands for. *)
Variable parseInt : string -> Z.

(** Modelled from the spec: the Properties class (common/Properties.h) is
    outside the sources at hand; the spec's configuration table has it as a
    set of named keys, all optional, each read with a default.  A key that is
    present holds a string, which [getValue] reads as an integer with
    [parseInt]. *)
Definition getValue (props : gmap string string) (key : string) (def : Z) : Z :=
  match props !! key with
  | Some v => parseInt v
  | None => def
  end.

(** ReplicatorImpl::SetParameters, on the pair of static flags
    ([sUseConnectionPoolFlag], [sReadSkipDiskVerifyFlag]). *)
Definition ReplicatorImpl_SetParameters (props : gmap string string)
                                        (flags : bool * bool) : bool * bool :=
  (negb (getValue props "chunkServer.replicator.useConnetionPool"
                  (if flags.1 then 1 else 0) =? 0),
   negb (getValue props "chunkServer.replicator.readSkipDiskVerify"
                  (if flags.2 then 1 else 0) =? 0)).

(** Modelled from the spec: [Properties::copyWithPrefix] copies the keys that
    start with the prefix into the destination and returns how many it
    copied (the spec's "chunkServer.rsReadMetaAuth.*" cascade). *)
Definition copyWithPrefix (props : gmap string string) (pre : string)
                          (dst : gmap string string)
  : Z * gmap string string :=
  let copied :=
    filter (fun kv : string * string => String.prefix pre kv.1 = true) props in
  (Z.of_nat (size copied), copied ∪ dst).

Definition kRsReadMetaAuthPrefix : string := "chunkServer.rsReader.auth.".

(** RSReplicatorImpl::SetParameters.  The assignments are in the order of
    the source; [sRSReaderMaxChunkReadSize] reads the new
    [sRSReaderMaxReadSize], which is rounded up from an [int] sum. *)
Definition RSReplicatorImpl_SetParameters (props : gmap string string)
                                          (s : RSStatics) : RSStatics :=
  let kChecksumBlockSize := CHECKSUM_BLOCKSIZE in
  let maxRetryCount :=
    getValue props "chunkServer.rsReader.maxRetryCount"
             (sRSReaderMaxRetryCount s) in
  let timeSecBetweenRetries :=
    getValue props "chunkServer.rsReader.timeSecBetweenRetries"
             (sRSReaderTimeSecBetweenRetries s) in
  let opTimeoutSec :=
    getValue props "chunkServer.rsReader.opTimeoutSec"
             (sRSReaderOpTimeoutSec s) in
  let idleTimeoutSec :=
    getValue props "chunkServer.rsReader.idleTimeoutSec"
             (sRSReaderIdleTimeoutSec s) in
  let maxReadSize :=
    Z.quot (to_int
              (Z.max 1 (getValue props "chunkServer.rsReader.maxReadSize"
                                 (sRSReaderMaxReadSize s))
               + kChecksumBlockSize - 1)) kChecksumBlockSize
    * kChecksumBlockSize in
  let maxChunkReadSize :=
    getValue props "chunkServer.rsReader.maxChunkReadSize"
             (Z.max maxReadSize (sRSReaderMaxChunkReadSize s)) in
  let leaseRetryTimeout :=
    getValue props "chunkServer.rsReader.leaseRetryTimeout"
             (sRSReaderLeaseRetryTimeout s) in
  let leaseWaitTimeout :=
    getValue props "chunkServer.rsReader.leaseWaitTimeout"
             (sRSReaderLeaseWaitTimeout s) in
  let metaMaxRetryCount :=
    getValue props "chunkServer.rsReader.meta.maxRetryCount"
             (sRSReaderMetaMaxRetryCount s) in
  let metaTimeSecBetweenRetries :=
    getValue props "chunkServer.rsReader.meta.timeSecBetweenRetries"
             (sRSReaderMetaTimeSecBetweenRetries s) in
  let metaOpTimeoutSec :=
    getValue props "chunkServer.rsReader.meta.opTimeoutSec"
             (sRSReaderMetaOpTimeoutSec s) in
  let metaIdleTimeoutSec :=
    getValue props "chunkServer.rsReader.meta.idleTimeoutSec"
             (sRSReaderMetaIdleTimeoutSec s) in
  let metaResetConnectionOnOpTimeoutFlag :=
    negb (getValue props "chunkServer.rsReader.meta.idleTimeoutSec"
                   (if sRSReaderMetaResetConnectionOnOpTimeoutFlag s
                    then 1 else 0) =? 0) in
  let maxRecoverChunkSize :=
    getValue props "chunkServer.rsReader.maxRecoverChunkSize"
             (sRSReaderMaxRecoverChunkSize s) in
  let panicOnInvalidChunkFlag :=
    negb (getValue props "chunkServer.rsReader.panicOnInvalidChunk"
                   (if sRSReaderPanicOnInvalidChunkFlag s then 1 else 0)
          =? 0) in
  let maxRecoveryThreads :=
    getValue props "chunkServer.rsReader.maxRecoveryThreads"
             (sMaxRecoveryThreads s) in
  let '(copied, authParams) :=
    copyWithPrefix props kRsReadMetaAuthPrefix (sAuthParams s) in
  {| sRSReaderMaxRetryCount := maxRetryCount;
     sRSReaderTimeSecBetweenRetries := timeSecBetweenRetries;
     sRSReaderOpTimeoutSec := opTimeoutSec;
     sRSReaderIdleTimeoutSec := idleTimeoutSec;
     sRSReaderMaxChunkReadSize := maxChunkReadSize;
     sRSReaderMaxReadSize := maxReadSize;
     sRSReaderLeaseRetryTimeout := leaseRetryTimeout;
     sRSReaderLeaseWaitTimeout := leaseWaitTimeout;
     sRSReaderMetaMaxRetryCount := metaMaxRetryCount;
     sRSReaderMetaTimeSecBetweenRetries := metaTimeSecBetweenRetries;
     sRSReaderMetaOpTimeoutSec := metaOpTimeoutSec;
     sRSReaderMetaIdleTimeoutSec := metaIdleTimeoutSec;
     sRSReaderMaxRecoverChunkSize := maxRecoverChunkSize;
     sMaxRecoveryThreads := maxRecoveryThreads;
     sRSReaderMetaResetConnectionOnOpTimeoutFlag :=
       metaResetConnectionOnOpTimeoutFlag;
     sRSReaderPanicOnInvalidChunkFlag := panicOnInvalidChunkFlag;
     sAuthUpdateCount :=
       if 0 <? copied then sAuthUpdateCount s + 1 else sAuthUpdateCount s;
     sAuthParams := authParams |}.

(** ** Reading a trace *)

(** The ops handed to [SubmitOpResponse] in a trace, in order. *)
Fixpoint submitted (evs : list Event) : list ReplicateChunkOp.t :=
  match evs with
  | SubmitOpResponse op :: evs' => op :: submitted evs'
  | _ :: evs' => submitted evs'
  | [] => []
  end.

(** The reads sent to the peer in a trace, in order. *)
Fixpoint peerReads (evs : list Event) : list ReadOp.t :=
  match evs with
  | PeerEnqueueRead op :: evs' => op :: peerReads evs'
  | _ :: evs' => peerReads evs'
  | [] => []
  end.

(** The size probes sent to the peer in a trace. *)
Fixpoint sizeProbes (evs : list Event) : list GetChunkMetadataOp.t :=
  match evs with
  | PeerEnqueueMeta op :: evs' => op :: sizeProbes evs'
  | _ :: evs' => sizeProbes evs'
  | [] => []
  end.

(** The status a completion callback carries: [*data], or 0 for null. *)
Definition statusOf (data : option Z) : Z :=
  match data with Some s => s | None => 0 end.

(** The reply of the peer to the read in flight, as the peer session stores
    it in [mReadOp] before it calls [HandleReadDone]. *)
Definition PeerReadReply (status : Z) (data : IOBuffer) (checksums : list Z)
                         (this : ReplicatorImpl) : ReplicatorImpl :=
  set_mReadOp
    (ReadOp.set_checksum checksums
       (ReadOp.set_dataBuf data
          (ReadOp.set_numBytesIO (IOBuf.BytesConsumable data)
             (ReadOp.set_status status (mReadOp this))))) this.

(** The completion of the write in flight, as the chunk manager stores it in
    [mWriteOp] before it calls [HandleWriteDone]. *)
Definition DiskWriteReply (status numBytesIO : Z) (this : ReplicatorImpl)
  : ReplicatorImpl :=
  set_mWriteOp
    (WriteOp.set_numBytesIO numBytesIO
       (WriteOp.set_status status (mWriteOp this))) this.

(** The write [HandleReadDone] prepares from a read of [numRd] bytes at
    [mOffset], before the alignment. *)
Definition writeOf (this : ReplicatorImpl) (numBytes : Z) (data : IOBuffer)
                   (checksums : list Z) : WriteOp.t :=
  WriteOp.set_checksums checksums
    (WriteOp.set_dataBuf data
       (WriteOp.set_numBytes numBytes
          (WriteOp.set_isFromReReplication true
             (WriteOp.set_offset (mOffset this)
                (WriteOp_Reset (mWriteOp this)))))).

(** The effective target version of a registered replicator: the explicit
    target version of its op when that is not negative, else the chunk
    version of the replicator. *)
Definition effectiveTargetVersion (owner : ReplicateChunkOp.t)
                                  (r : ReplicatorImpl) : Z :=
  if ReplicateChunkOp.targetVersion owner <? 0 then mChunkVersion r
  else ReplicateChunkOp.targetVersion owner.

(** The cancellation is on record in the object: [mCancelFlag] of a direct
    replicator, [mPendingCancelFlag] of a recovery replicator, whose
    [Handle] then completes the cancellation on its own thread. *)
Definition cancelRequested (r : ReplicatorImpl) : bool :=
  match mKind r with
  | Direct => mCancelFlag r
  | Recovery => mPendingCancelFlag r
  end.

(** The calls that start the size probe: the metadata op sent to the peer
    by a direct replicator, the hand-over to [Handle] by a recovery
    replicator. *)
Definition startsSizeProbe (e : Event) : bool :=
  match e with
  | PeerEnqueueMeta _ | Handle_call | RSEntry_Enqueue => true
  | _ => false
  end.

(** The buffer requests of a trace: the byte counts handed to
    [GetForDiskIo]. *)
Fixpoint bufferRequests (evs : list Event) : list Z :=
  match evs with
  | GetForDiskIo_call n :: evs' => n :: bufferRequests evs'
  | _ :: evs' => bufferRequests evs'
  | [] => []
  end.

(** The token and the key of the access header, as [Replicator::Run] scans
    them. *)
Definition accessToken (op : ReplicateChunkOp.t) : list Z :=
  (takeWord (skipBlank (ReplicateChunkOp.chunkServerAccess op))).1.

Definition accessKey (op : ReplicateChunkOp.t) : list Z :=
  (takeWord
     (skipBlank
        (takeWord (skipBlank (ReplicateChunkOp.chunkServerAccess op))).2)).1.

(** The recovery parameters of a request hold. *)
Definition recoveryParametersHold
  (KFS_STRIPED_FILE_TYPE_RS KFS_MIN_STRIPE_SIZE KFS_MAX_STRIPE_SIZE
   KFS_STRIPE_ALIGNMENT : Z) (op : ReplicateChunkOp.t) : Prop :=
  0 <= ReplicateChunkOp.chunkOffset op
  /\ ReplicateChunkOp.chunkOffset op mod CHUNKSIZE = 0
  /\ ReplicateChunkOp.striperType op = KFS_STRIPED_FILE_TYPE_RS
  /\ 0 < ReplicateChunkOp.numStripes op
  /\ 0 < ReplicateChunkOp.numRecoveryStripes op
  /\ KFS_MIN_STRIPE_SIZE <= ReplicateChunkOp.stripeSize op
     <= KFS_MAX_STRIPE_SIZE
  /\ CHUNKSIZE mod ReplicateChunkOp.stripeSize op = 0
  /\ ReplicateChunkOp.stripeSize op mod KFS_STRIPE_ALIGNMENT = 0
  /\ 0 < ServerLocation.port (ReplicateChunkOp.location op).

(** The object in [Done] once a completion is taken up: the read is no
    longer in flight, the checksums are cleared and the status of the
    completion is in [mReadOp]. *)
Definition Done_received (a : DoneArgs) (this : ReplicatorImpl)
  : ReplicatorImpl :=
  let this := set_mReadInFlightFlag false this in
  set_mReadOp
    (ReadOp.set_status (inStatusCode a)
       (ReadOp.set_checksum [] (mReadOp this))) this.

(** The checksums [Done] leaves in [mReadOp] for a buffer [buf] read at
    [offset]. *)
Definition Done_checksums (offset : Z) (buf : IOBuffer) : list Z :=
  if (0 <? IOBuf.BytesConsumable buf)
     && negb (IOBuf.IsEmpty buf)
     && (Z.rem offset CHECKSUM_BLOCKSIZE =? 0)
     && (Z.rem (IOBuf.BytesConsumable buf) CHECKSUM_BLOCKSIZE =? 0)
  then ComputeChecksums buf (IOBuf.BytesConsumable buf)
  else [].

(** Two states of one replication job: the same class, owner, peer, chunk
    size and cancel flag. *)
Definition sameJob (a b : ReplicatorImpl) : Prop :=
  mKind b = mKind a
  /\ mCancelFlag b = mCancelFlag a
  /\ mOwner b = mOwner a
  /\ mPeer b = mPeer a
  /\ mChunkSize b = mChunkSize a.

(** ** The rest of the registry *)

(** The entries of [sInFlightReplications] in the order a [std::map]
    iterates: by ascending chunk id. *)
Definition byChunkId (a b : Z * option nat) : Prop := a.1 <= b.1.

#[local] Instance byChunkId_dec : RelDecision byChunkId :=
  fun a b => Z_le_dec a.1 b.1.

Definition registryEntries (m : gmap Z (option nat))
  : list (Z * option nat) :=
  merge_sort byChunkId (map_to_list m).

(** ReplicatorImpl::CancelAll.  The registry is swapped into a local map
    first, so a replicator that is destroyed in the loop finds the registry
    empty. *)
Definition CancelAll (w : World) : World :=
  let cancelInFlight := registryEntries (sInFlightReplications w) in
  let w := set_sInFlightReplications ∅ w in
  foldl (fun (w : World) (it : Z * option nat) =>
           match it.2 with
           | None => w
           | Some cur => invoke cur Cancel w
           end) w cancelInFlight.

(** ** Read size of the recovery reader *)

(** RSReplicatorImpl::GetGcd.  The loop of the source runs while [b] is not
    zero; the absolute value of [b] drops with every turn, so [|nr| + 1]
    turns are enough. *)
Fixpoint GetGcd_loop (turns : nat) (a b : Z) : Z :=
  match turns with
  | O => a
  | S turns => if b =? 0 then a else GetGcd_loop turns b (Z.rem a b)
  end.

Definition GetGcd (nl nr : Z) : Z := GetGcd_loop (S (Z.abs_nat nr)) nl nr.

(** RSReplicatorImpl::GetLcm.  The product is an [int]. *)
Definition GetLcm (nl nr : Z) : Z :=
  if (nl =? 0) || (nr =? 0) then 0
  else to_int (Z.quot nl (GetGcd nl nr) * nr).

(** [DiskIo::GetBufferManager().GetMaxClientQuota()] and
    [IOBufferData::GetDefaultBufferSize()]. *)
Variable GetMaxClientQuota : Z.
Variable GetDefaultBufferSize : Z.

(** RSReplicatorImpl::GetReadSize; [None] when the assertion fails. *)
Definition GetReadSize (op : ReplicateChunkOp.t) : option Z :=
  (* Align read on checksum block boundary, and align on stripe size,
     if possible. *)
  let kChecksumBlockSize := CHECKSUM_BLOCKSIZE in
  let kIoBufferSize := GetDefaultBufferSize in
  if negb ((kChecksumBlockSize <=? sRSReaderMaxReadSize statics)
           && (0 <? ReplicateChunkOp.stripeSize op)
           && (Z.rem (sRSReaderMaxReadSize statics) kChecksumBlockSize =? 0)
           && (Z.rem kChecksumBlockSize kIoBufferSize =? 0))
  then None else
  let size :=
    Z.max kChecksumBlockSize
      (to_int
         (Z.min (sRSReaderMaxReadSize statics)
            (Z.quot (Z.quot GetMaxClientQuota
                            (Z.max 1 (to_int
                                        (ReplicateChunkOp.numStripes op + 1))))
                    kChecksumBlockSize
             * kChecksumBlockSize))) in
  if size <=? ReplicateChunkOp.stripeSize op then Some size else
  let lcm := GetLcm kChecksumBlockSize (ReplicateChunkOp.stripeSize op) in
  if size <? lcm then
    let lcm := GetLcm kIoBufferSize (ReplicateChunkOp.stripeSize op) in
    if size <? lcm then Some lcm
    else Some (Z.quot size lcm * lcm)
  else Some (Z.quot size lcm * lcm).

(** ** Reader sequence numbers and the pool of meta server clients *)

(** RSReplicatorImpl::GetSeqNum.  The two function statics
    ([sInitialSeqNum], [sNextRand]) are the state, [None] before the first
    call, which initializes them from [GetRandomSeq()]; [sNextRand] is a
    [uint32_t] and [sInitialSeqNum] an [int64_t]. *)
Definition GetSeqNum (GetRandomSeq : Z) (st : option (Z * Z))
  : Z * option (Z * Z) :=
  let '(sInitialSeqNum, sNextRand) :=
    match st with
    | Some s => s
    | None => (GetRandomSeq, GetRandomSeq mod 2 ^ 32)
    end in
  let sNextRand := (sNextRand * 1103515245 + 12345) mod 2 ^ 32 in
  let sInitialSeqNum :=
    to_int64
      (sInitialSeqNum + (100000 + Z.quot sNextRand 65536 mod 32768)) in
  (sInitialSeqNum, Some (sInitialSeqNum, sNextRand)).

(** What [GetMetaserver] hands back: no entry, with whether the two pools
    were stopped, or the entry at [idx] of the pool with or without
    authentication, together with the index of the client thread it runs
    on ([None]: the main thread). *)
Inductive Picked :=
| NoEntry (stopped : bool)
| Entry (auth : bool) (idx : Z) (clientThread : option Z).

(** RSReplicatorImpl::GetMetaserver, on the function static [sLastIdx].
    [clientThreadCount] is what [gClientManager.GetClientThreadCount()]
    answered when the pools were created; both pools hold [sMaxCount]
    entries.  [hasOp] is [op != 0]. *)
Definition GetMetaserver (clientThreadCount : Z) (authFlag hasOp : bool)
                         (sLastIdx : Z) : Picked * Z :=
  if (sLastIdx <? 0) && negb hasOp then (NoEntry false, sLastIdx) else
  let sLastIdx := if sLastIdx <? 0 then 0 else sLastIdx in
  let sMaxCount := Z.max 0 clientThreadCount + 1 in
  if negb hasOp then (NoEntry true, -1) else
  let sLastIdx := sLastIdx + 1 in
  let sLastIdx :=
    if Z.min (sMaxRecoveryThreads statics) sMaxCount <=? sLastIdx then
      if (sMaxCount <=? 1) || (sMaxRecoveryThreads statics <=? 0)
      then 0 else 1
    else sLastIdx in
  (Entry authFlag sLastIdx
         (if sLastIdx <=? 0 then None else Some (sLastIdx - 1)),
   sLastIdx).

(** ** More readers of a trace *)

(** The calls that ask a collaborator for work: a request to the peer, the
    chunk manager, the buffer manager or the reader, or a hand-over to
    [Handle]. *)
Definition isRequest (e : Event) : bool :=
  match e with
  | PeerEnqueueMeta _ | PeerEnqueueRead _ | AllocChunk_call _ _ _ _ _
  | WriteChunk_call _ | ChangeChunkVers_call _ _ _ | GetForDiskIo_call _
  | Reader_Read _ _ | RSEntry_Enqueue | Handle_call => true
  | _ => false
  end.

(** The writes handed to the chunk manager in a trace, in order. *)
Fixpoint diskWrites (evs : list Event) : list WriteOp.t :=
  match evs with
  | WriteChunk_call w :: evs' => w :: diskWrites evs'
  | _ :: evs' => diskWrites evs'
  | [] => []
  end.

(** The counters a trace increments, in order. *)
Fixpoint counted (evs : list Event) : list Counter :=
  match evs with
  | CounterInc c :: evs' => c :: counted evs'
  | _ :: evs' => counted evs'
  | [] => []
  end.

(** The file handles a trace hands back to the chunk manager, with the
    status of each [ReplicationDone] call. *)
Fixpoint releases (evs : list Event) : list (Z * FilePtr) :=
  match evs with
  | ReplicationDone_call _ status fileH :: evs' =>
    (status, fileH) :: releases evs'
  | _ :: evs' => releases evs'
  | [] => []
  end.

(** The counter of a completion that is not a success. *)
Definition failureCounter (owner : ReplicateChunkOp.t) (cancelled : bool)
  : Counter :=
  if IsValid (ReplicateChunkOp.location owner) then
    if cancelled then mReplicationCanceledCount else mReplicationErrorCount
  else
    if cancelled then mRecoveryCanceledCount else mRecoveryErrorCount.

(** The requests of a trace, in order. *)
Definition requests (evs : list Event) : list Event :=
  List.filter isRequest evs.

(** The status [Terminate] hands on when the copy is not finished, or is
    cancelled. *)
Definition failStatus (status : Z) : Z :=
  if status <? 0 then status else if status =? 0 then -1 else - status.

(** The op as the completion with [status] answers it. *)
Definition answered (status : Z) (this : ReplicatorImpl)
                    (owner : ReplicateChunkOp.t) : ReplicateChunkOp.t :=
  ReplicateChunkOp.set_chunkVersion
    (if negb (mCancelFlag this) && (0 <=? status)
     then mChunkVersion this else -1)
    (ReplicateChunkOp.set_status (if 0 <=? status then 0 else status) owner).

(** The size [GetReadSize] starts from: a positive multiple of the checksum
    block. *)
Definition GetReadSize_size (op : ReplicateChunkOp.t) : Z :=
  Z.max CHECKSUM_BLOCKSIZE
    (to_int
       (Z.min (sRSReaderMaxReadSize statics)
          (Z.quot (Z.quot GetMaxClientQuota
                          (Z.max 1 (to_int
                                      (ReplicateChunkOp.numStripes op + 1))))
                  CHECKSUM_BLOCKSIZE
           * CHECKSUM_BLOCKSIZE))).

(** The checks a completed read passes before it is written. *)
Definition readAccepted (this : ReplicatorImpl) : Prop :=
  let rd := mReadOp this in
  let numRd := IOBuf.BytesConsumable (ReadOp.dataBuf rd) in
  mCancelFlag this = false
  /\ 0 <= ReadOp.status rd
  /\ (ReadOp.numBytes rd <= numRd \/ mChunkSize this <= mOffset this + numRd)
  /\ mOffset this < mChunkSize this
  /\ Z.rem (mOffset this) CHECKSUM_BLOCKSIZE = 0
  /\ (ReadOp.checksum rd = []
      \/ Z.of_nat (length (ReadOp.checksum rd))
         = Z.quot (numRd + CHECKSUM_BLOCKSIZE - 1) CHECKSUM_BLOCKSIZE).

(** What [HandleReadDone] does with the answer of [WriteChunk]. *)
Definition written (this' : ReplicatorImpl) (w : WriteOp.t) : Result :=
  let status := WriteChunk w (mFileHandle this') in
  if status <? 0
  then andThen (this', [WriteChunk_call w]) (Terminate status)
  else (this', [WriteChunk_call w]).

(** ** A replication that meets no fault *)







(** ** Well-formed worlds *)

(** The registry does not dangle: every address it holds is that of a live
    replicator of the chunk it is registered for, and every live address is
    below [nextId], the next address [new] hands out. *)
Definition registered (w : World) : Prop :=
  (forall chunkId cur,
     sInFlightReplications w !! chunkId = Some (Some cur) ->
     exists r, objs w !! cur = Some r /\ mChunkId r = chunkId)
  /\ (forall a r, objs w !! a = Some r -> (a < nextId w)%nat).

(** A method leaves the chunk id of the object alone. *)
Definition keepsChunkId (m : ReplicatorImpl -> Result) : Prop :=
  forall this, mChunkId (m this).1 = mChunkId this.

(** One turn of the loop of [CancelAll]. *)
Definition cancelEntry (w : World) (it : Z * option nat) : World :=
  match it.2 with
  | None => w
  | Some cur => invoke cur Cancel w
  end.

(** ** The access header *)

(** The two kinds of bytes the scans of [Replicator::Run] tell apart. *)
Definition isBlank (c : Z) : Prop := Z.land c 255 <= 32.
Definition isWordByte (c : Z) : Prop := 32 < Z.land c 255.

(** A list of bytes that is empty or starts with a blank. *)
Definition wordEnds (rest : list Z) : Prop :=
  match rest with
  | [] => True
  | c :: _ => isBlank c
  end.

(** The peer session [Replicator::Run] asks for, with the status and the
    message the factory leaves in the op: [FindServer] with the connect flag
    when the connection pool is in use, else [RemoteSyncSM::Create], which
    connects exactly when the client manager has no mutex and is forced onto
    a client thread otherwise. *)
Definition peerFor (op : ReplicateChunkOp.t)
  : option ServerLocation.t * Z * string :=
  if sUseConnectionPoolFlag then
    FindServer (ReplicateChunkOp.location op) (accessToken op) (accessKey op)
               (ReplicateChunkOp.allowCSClearTextFlag op)
               (ReplicateChunkOp.status op) (ReplicateChunkOp.statusMsg op)
  else
    RemoteSyncSM_Create
      (ReplicateChunkOp.location op) (accessToken op) (accessKey op)
      (ReplicateChunkOp.allowCSClearTextFlag op)
      (ReplicateChunkOp.status op) (ReplicateChunkOp.statusMsg op)
      clientManagerMutexIsNull (negb clientManagerMutexIsNull).

(** The header holds a token and a key, or neither. *)
Definition headerWellFormed (op : ReplicateChunkOp.t) : Prop :=
  accessKey op = [] <-> accessToken op = [].

(** ** Recovery: the hand-over *)

(** Where [Enqueue] runs [Handle]: queued to the client thread of the
    replicator when that is not the thread of the caller, else at once. *)
Definition handedOver (this : ReplicatorImpl) : Event :=
  match mClientThreadPtr this with
  | Some t =>
    if decide (Some t = currentClientThread) then Handle_call
    else RSEntry_Enqueue
  | None => Handle_call
  end.

(** ** A concrete setting for the examples

    A direct replication of chunk 7 at version 3 with target version 5, the
    environment it runs in, and a recovery of the same chunk. *)

Definition ex_location : ServerLocation.t :=
  {| ServerLocation.hostname := "peer"; ServerLocation.port := 20000 |}.

Definition ex_op : ReplicateChunkOp.t :=
  {| ReplicateChunkOp.fid := 1;
     ReplicateChunkOp.chunkId := 7;
     ReplicateChunkOp.chunkVersion := 3;
     ReplicateChunkOp.targetVersion := 5;
     ReplicateChunkOp.location := ex_location;
     ReplicateChunkOp.chunkOffset := 0;
     ReplicateChunkOp.striperType := 0;
     ReplicateChunkOp.numStripes := 0;
     ReplicateChunkOp.numRecoveryStripes := 0;
     ReplicateChunkOp.stripeSize := 0;
     ReplicateChunkOp.fileSize := 0;
     ReplicateChunkOp.pathName := "";
     ReplicateChunkOp.minStorageTier := 0;
     ReplicateChunkOp.allowCSClearTextFlag := false;
     ReplicateChunkOp.chunkServerAccess := [];
     ReplicateChunkOp.chunkAccess := "";
     ReplicateChunkOp.status := 0;
     ReplicateChunkOp.statusMsg := "";
     ReplicateChunkOp.invalidStripeIdx := "" |}.

(** A recovery request for the same chunk: no source location, six data
    stripes and three recovery stripes of 64 KiB. *)
Definition ex_recovery_op : ReplicateChunkOp.t :=
  {| ReplicateChunkOp.fid := 1;
     ReplicateChunkOp.chunkId := 7;
     ReplicateChunkOp.chunkVersion := 3;
     ReplicateChunkOp.targetVersion := 5;
     ReplicateChunkOp.location :=
       {| ServerLocation.hostname := ""; ServerLocation.port := 30000 |};
     ReplicateChunkOp.chunkOffset := 0;
     ReplicateChunkOp.striperType := 2;
     ReplicateChunkOp.numStripes := 6;
     ReplicateChunkOp.numRecoveryStripes := 3;
     ReplicateChunkOp.stripeSize := 65536;
     ReplicateChunkOp.fileSize := 0;
     ReplicateChunkOp.pathName := "";
     ReplicateChunkOp.minStorageTier := 0;
     ReplicateChunkOp.allowCSClearTextFlag := false;
     ReplicateChunkOp.chunkServerAccess := [];
     ReplicateChunkOp.chunkAccess := "";
     ReplicateChunkOp.status := 0;
     ReplicateChunkOp.statusMsg := "";
     ReplicateChunkOp.invalidStripeIdx := "" |}.

(** The same recovery request with a chunk offset that is not a multiple of
    the chunk size. *)
Definition ex_bad_recovery_op : ReplicateChunkOp.t :=
  {| ReplicateChunkOp.fid := 1;
     ReplicateChunkOp.chunkId := 7;
     ReplicateChunkOp.chunkVersion := 3;
     ReplicateChunkOp.targetVersion := 5;
     ReplicateChunkOp.location :=
       {| ServerLocation.hostname := ""; ServerLocation.port := 30000 |};
     ReplicateChunkOp.chunkOffset := 100;
     ReplicateChunkOp.striperType := 2;
     ReplicateChunkOp.numStripes := 6;
     ReplicateChunkOp.numRecoveryStripes := 3;
     ReplicateChunkOp.stripeSize := 65536;
     ReplicateChunkOp.fileSize := 0;
     ReplicateChunkOp.pathName := "";
     ReplicateChunkOp.minStorageTier := 0;
     ReplicateChunkOp.allowCSClearTextFlag := false;
     ReplicateChunkOp.chunkServerAccess := [];
     ReplicateChunkOp.chunkAccess := "";
     ReplicateChunkOp.status := 0;
     ReplicateChunkOp.statusMsg := "";
     ReplicateChunkOp.invalidStripeIdx := "" |}.

(** 64 KiB + 17 bytes of data. *)
Definition ex_data : IOBuffer := repeat Byte.x2a (Z.to_nat 65553).

(** The direct replicator after the size probe of a chunk of 64 KiB + 17
    bytes, with the first read in flight. *)
Definition ex_direct : ReplicatorImpl :=
  {| mKind := Direct;
     mFileId := 1;
     mChunkId := 7;
     mChunkVersion := 3;
     mChunkSize := 65553;
     mOwner := Some ex_op;
     mOffset := 0;
     mPeer := Some ex_location;
     mChunkMetadataOp :=
       {| GetChunkMetadataOp.chunkId := 7;
          GetChunkMetadataOp.chunkSize := 65553;
          GetChunkMetadataOp.chunkVersion := 3;
          GetChunkMetadataOp.readVerifyFlag := false;
          GetChunkMetadataOp.status := 0;
          GetChunkMetadataOp.statusMsg := "";
          GetChunkMetadataOp.requestChunkAccess := None |};
     mReadOp :=
       {| ReadOp.chunkId := 7;
          ReadOp.chunkVersion := 3;
          ReadOp.offset := 0;
          ReadOp.numBytes := 65553;
          ReadOp.numBytesIO := 0;
          ReadOp.dataBuf := [];
          ReadOp.checksum := [];
          ReadOp.skipVerifyDiskChecksumFlag := true;
          ReadOp.status := 0;
          ReadOp.statusMsg := "";
          ReadOp.requestChunkAccess := None;
          ReadOp.clnt := true |};
     mWriteOp :=
       {| WriteOp.chunkId := 7;
          WriteOp.chunkVersion := 0;
          WriteOp.offset := 0;
          WriteOp.numBytes := 0;
          WriteOp.numBytesIO := 0;
          WriteOp.dataBuf := [];
          WriteOp.checksums := [];
          WriteOp.isFromReReplication := true;
          WriteOp.status := 0 |};
     mDone := false;
     mCancelFlag := false;
     mFileHandle := Some 1%nat;
     mHandler := hHandleReadDone;
     mWaiting := false;
     mRefCount := 1;
     mState := kNone;
     mReadTail := [];
     mLocation := {| ServerLocation.hostname := ""; ServerLocation.port := 0 |};
     mReadSize := 0;
     mReadInFlightFlag := false;
     mPendingCloseFlag := false;
     mPendingCancelFlag := false;
     mClientThreadPtr := None |}.

(** A recovery replicator with a read of 64 KiB in flight at offset 0. *)
Definition ex_recovery : ReplicatorImpl :=
  {| mKind := Recovery;
     mFileId := 1;
     mChunkId := 7;
     mChunkVersion := 3;
     mChunkSize := CHUNKSIZE;
     mOwner := Some ex_recovery_op;
     mOffset := 0;
     mPeer := None;
     mChunkMetadataOp :=
       {| GetChunkMetadataOp.chunkId := 0;
          GetChunkMetadataOp.chunkSize := CHUNKSIZE;
          GetChunkMetadataOp.chunkVersion := 3;
          GetChunkMetadataOp.readVerifyFlag := false;
          GetChunkMetadataOp.status := 0;
          GetChunkMetadataOp.statusMsg := "";
          GetChunkMetadataOp.requestChunkAccess := None |};
     mReadOp :=
       {| ReadOp.chunkId := 7;
          ReadOp.chunkVersion := 3;
          ReadOp.offset := 0;
          ReadOp.numBytes := 65536;
          ReadOp.numBytesIO := 0;
          ReadOp.dataBuf := [];
          ReadOp.checksum := [];
          ReadOp.skipVerifyDiskChecksumFlag := false;
          ReadOp.status := 0;
          ReadOp.statusMsg := "";
          ReadOp.requestChunkAccess := None;
          ReadOp.clnt := false |};
     mWriteOp :=
       {| WriteOp.chunkId := 7;
          WriteOp.chunkVersion := 0;
          WriteOp.offset := 0;
          WriteOp.numBytes := 0;
          WriteOp.numBytesIO := 0;
          WriteOp.dataBuf := [];
          WriteOp.checksums := [];
          WriteOp.isFromReReplication := true;
          WriteOp.status := 0 |};
     mDone := false;
     mCancelFlag := false;
     mFileHandle := Some 1%nat;
     mHandler := hHandleReadDone;
     mWaiting := false;
     mRefCount := 1;
     mState := kRead;
     mReadTail := [];
     mLocation :=
       {| ServerLocation.hostname := "meta"; ServerLocation.port := 30000 |};
     mReadSize := 65536;
     mReadInFlightFlag := true;
     mPendingCloseFlag := false;
     mPendingCancelFlag := false;
     mClientThreadPtr := None |}.

(** The reader delivers 100 bytes at offset 0 and has closed. *)
Definition ex_done : DoneArgs :=
  {| sameReader := true;
     inStatusCode := 0;
     inOffset := 0;
     inSize := 100;
     inBufferPtr := Some (repeat Byte.x2a 100);
     requestIsThis := true;
     readerActive := false |}.

(** The process with the direct replicator registered for chunk 7. *)
Definition ex_world : World :=
  {| objs := <[0%nat := ex_direct]> ∅;
     sInFlightReplications := <[7 := Some 0%nat]> ∅;
     nextId := 1;
     trace := [] |}.

Definition ex_IsValid (l : ServerLocation.t) : bool :=
  negb (ServerLocation.hostname l =? "")%string
  && (0 <? ServerLocation.port l).
Definition ex_AllocChunk (_ _ _ _ _ : Z) : Z * option FilePtr :=
  (0, Some 1%nat).
Definition ex_Reset (w : WriteOp.t) : WriteOp.t :=
  WriteOp.set_numBytesIO 0 (WriteOp.set_status 0 w).
Definition ex_WriteChunk (_ : WriteOp.t) (_ : option FilePtr) : Z := 0.
Definition ex_ChangeChunkVers (_ _ : Z) (_ : bool) : Z := 0.
Definition ex_Reader_Read_status (_ _ : Z) : Z := 0.
Definition ex_ComputeChecksums (_ : IOBuffer) (_ : Z) : list Z := [].
Definition ex_InvalidStripes (_ : IOBuffer) (_ : Z) : option string := None.
Definition ex_ToString (l : ServerLocation.t) : string :=
  ServerLocation.hostname l.
Definition ex_overQuota (_ : ReplicatorImpl) (_ : Z) : bool := true.
Definition ex_GetForDiskIo (_ : ReplicatorImpl) (_ : Z) : bool := true.
Definition ex_FindServer (l : ServerLocation.t) (_ _ : list Z) (_ : bool)
                         (status : Z) (msg : string)
  : option ServerLocation.t * Z * string := (Some l, status, msg).
Definition ex_RemoteSyncSM_Create (l : ServerLocation.t) (_ _ : list Z)
                                  (_ : bool) (status : Z) (msg : string)
                                  (_ _ : bool)
  : option ServerLocation.t * Z * string := (Some l, status, msg).
Definition ex_Create (op : ReplicateChunkOp.t) (_ _ : list Z)
  : option ReplicatorImpl * ReplicateChunkOp.t := (None, op).
Definition ex_parseInt (s : string) : Z :=
  if (s =? "0")%string then 0 else 1.
Definition ex_props : gmap string string :=
  <["chunkServer.rsReader.meta.idleTimeoutSec"%string := "0"%string]> ∅.

(** ** More of the concrete setting

    The process before any replication, a chunk manager that refuses the
    allocation, a session factory without a peer, a buffer manager with
    quota left, and a recovery replicator whose reader is closing. *)

Definition ex_idle_world : World :=
  {| objs := ∅; sInFlightReplications := ∅; nextId := 0; trace := [] |}.

Definition ex_AllocChunk_exists (_ _ _ _ _ : Z) : Z * option FilePtr :=
  (- EEXIST, None).
Definition ex_WriteChunk_fails (_ : WriteOp.t) (_ : option FilePtr) : Z :=
  - EIO.
Definition ex_ChangeChunkVers_fails (_ _ : Z) (_ : bool) : Z := - EIO.
Definition ex_Reader_Read_fails (_ _ : Z) : Z := - EIO.
Definition ex_FindServer_none (_ : ServerLocation.t) (_ _ : list Z)
                              (_ : bool) (status : Z) (_ : string)
  : option ServerLocation.t * Z * string := (None, status, "no route").
Definition ex_underQuota (_ : ReplicatorImpl) (_ : Z) : bool := false.

(** The request of [ex_op] with the access header [" t1 k1 "]. *)
Definition ex_access_op : ReplicateChunkOp.t :=
  {| ReplicateChunkOp.fid := 1;
     ReplicateChunkOp.chunkId := 7;
     ReplicateChunkOp.chunkVersion := 3;
     ReplicateChunkOp.targetVersion := 5;
     ReplicateChunkOp.location := ex_location;
     ReplicateChunkOp.chunkOffset := 0;
     ReplicateChunkOp.striperType := 0;
     ReplicateChunkOp.numStripes := 0;
     ReplicateChunkOp.numRecoveryStripes := 0;
     ReplicateChunkOp.stripeSize := 0;
     ReplicateChunkOp.fileSize := 0;
     ReplicateChunkOp.pathName := "";
     ReplicateChunkOp.minStorageTier := 0;
     ReplicateChunkOp.allowCSClearTextFlag := false;
     ReplicateChunkOp.chunkServerAccess := [32; 116; 49; 32; 107; 49; 32];
     ReplicateChunkOp.chunkAccess := "";
     ReplicateChunkOp.status := 0;
     ReplicateChunkOp.statusMsg := "";
     ReplicateChunkOp.invalidStripeIdx := "" |}.

(** The recovery replicator after its run, with the reference taken for the
    close of its reader, alone in the store. *)
Definition ex_closing : ReplicatorImpl :=
  set_mRefCount 2 (set_mPendingCloseFlag true ex_recovery).

Definition ex_closing_world : World :=
  {| objs := <[0%nat := ex_closing]> ∅;
     sInFlightReplications := ∅;
     nextId := 1;
     trace := [] |}.

(** The upcall of the reader that has closed, without data. *)
Definition ex_closed : DoneArgs :=
  {| sameReader := true;
     inStatusCode := 0;
     inOffset := 0;
     inSize := 0;
     inBufferPtr := None;
     requestIsThis := false;
     readerActive := false |}.


(** * Properties *)

(** Reduce the field reads and writes of the records. *)
Ltac fields :=
  cbn [ServerLocation.hostname ServerLocation.port ReplicateChunkOp.fid
       ReplicateChunkOp.chunkId ReplicateChunkOp.chunkVersion
       ReplicateChunkOp.targetVersion ReplicateChunkOp.location
       ReplicateChunkOp.chunkOffset ReplicateChunkOp.striperType
       ReplicateChunkOp.numStripes ReplicateChunkOp.numRecoveryStripes
       ReplicateChunkOp.stripeSize ReplicateChunkOp.fileSize
       ReplicateChunkOp.pathName ReplicateChunkOp.minStorageTier
       ReplicateChunkOp.allowCSClearTextFlag
       ReplicateChunkOp.chunkServerAccess ReplicateChunkOp.chunkAccess
       ReplicateChunkOp.status ReplicateChunkOp.statusMsg
       ReplicateChunkOp.invalidStripeIdx ReplicateChunkOp.set_chunkVersion
       ReplicateChunkOp.set_status ReplicateChunkOp.set_statusMsg
       ReplicateChunkOp.set_invalidStripeIdx GetChunkMetadataOp.chunkId
       GetChunkMetadataOp.chunkSize GetChunkMetadataOp.chunkVersion
       GetChunkMetadataOp.readVerifyFlag GetChunkMetadataOp.status
       GetChunkMetadataOp.statusMsg GetChunkMetadataOp.requestChunkAccess
       GetChunkMetadataOp.set_chunkId GetChunkMetadataOp.set_chunkSize
       GetChunkMetadataOp.set_chunkVersion
       GetChunkMetadataOp.set_readVerifyFlag GetChunkMetadataOp.set_status
       GetChunkMetadataOp.set_statusMsg
       GetChunkMetadataOp.set_requestChunkAccess ReadOp.chunkId
       ReadOp.chunkVersion ReadOp.offset ReadOp.numBytes ReadOp.numBytesIO
       ReadOp.dataBuf ReadOp.checksum ReadOp.skipVerifyDiskChecksumFlag
       ReadOp.status ReadOp.statusMsg ReadOp.requestChunkAccess ReadOp.clnt
       ReadOp.set_chunkVersion ReadOp.set_offset ReadOp.set_numBytes
       ReadOp.set_numBytesIO ReadOp.set_dataBuf ReadOp.set_checksum
       ReadOp.set_skipVerifyDiskChecksumFlag ReadOp.set_status
       ReadOp.set_statusMsg ReadOp.set_requestChunkAccess ReadOp.set_clnt
       WriteOp.chunkId WriteOp.chunkVersion WriteOp.offset WriteOp.numBytes
       WriteOp.numBytesIO WriteOp.dataBuf WriteOp.checksums
       WriteOp.isFromReReplication WriteOp.status WriteOp.set_chunkVersion
       WriteOp.set_offset WriteOp.set_numBytes WriteOp.set_numBytesIO
       WriteOp.set_dataBuf WriteOp.set_checksums
       WriteOp.set_isFromReReplication WriteOp.set_status mKind mFileId
       mChunkId mChunkVersion mChunkSize mOwner mOffset mPeer
       mChunkMetadataOp mReadOp mWriteOp mDone mCancelFlag mFileHandle
       mHandler mWaiting mRefCount mState mReadTail mLocation mReadSize
       mReadInFlightFlag mPendingCloseFlag mPendingCancelFlag
       mClientThreadPtr set_mChunkVersion set_mChunkSize set_mOwner
       set_mOffset set_mChunkMetadataOp set_mReadOp set_mWriteOp set_mDone
       set_mCancelFlag set_mFileHandle set_mHandler set_mWaiting
       set_mRefCount set_mState set_mReadTail set_mReadInFlightFlag
       set_mPendingCloseFlag set_mPendingCancelFlag Ref UnRef
       PeerReadReply DiskWriteReply fst snd is_null is_nil andb orb negb].

(** Case analysis on the integer tests of the goal. *)
Ltac no_test t :=
  lazymatch t with
  | context [if _ then _ else _] => fail
  | _ => idtac
  end.

Ltac zcases :=
  repeat match goal with
  | |- context [?a <? ?b] =>
    no_test a; no_test b; destruct (Z.ltb_spec a b)
  | |- context [?a <=? ?b] =>
    no_test a; no_test b; destruct (Z.leb_spec a b)
  | |- context [?a =? ?b] =>
    no_test a; no_test b; destruct (Z.eqb_spec a b)
  end.

(** Decide the integer tests of the goal with [lia]. *)
Ltac zdecide :=
  unfold CHECKSUM_BLOCKSIZE in *;
  repeat match goal with
  | |- context [?a <? ?b] =>
    first [ rewrite (proj2 (Z.ltb_lt a b)) by lia
          | rewrite (proj2 (Z.ltb_ge a b)) by lia ]
  | |- context [?a <=? ?b] =>
    first [ rewrite (proj2 (Z.leb_le a b)) by lia
          | rewrite (proj2 (Z.leb_gt a b)) by lia ]
  | |- context [?a =? ?b] =>
    first [ rewrite (proj2 (Z.eqb_eq a b)) by lia
          | rewrite (proj2 (Z.eqb_neq a b)) by lia ]
  end.


Lemma submitted_app (a b : list Event) :
  submitted (a ++ b) = submitted a ++ submitted b.
Proof.
  induction a as [|e a IH]; [reflexivity|].
  destruct e; simpl; rewrite ?IH; reflexivity.
Qed.

Lemma peerReads_app (a b : list Event) :
  peerReads (a ++ b) = peerReads a ++ peerReads b.
Proof.
  induction a as [|e a IH]; [reflexivity|].
  destruct e; simpl; rewrite ?IH; reflexivity.
Qed.

Lemma sizeProbes_app (a b : list Event) :
  sizeProbes (a ++ b) = sizeProbes a ++ sizeProbes b.
Proof.
  induction a as [|e a IH]; [reflexivity|].
  destruct e; simpl; rewrite ?IH; reflexivity.
Qed.

(** What [HandleReplicationDone] leaves: one response, with the status
    clamped at zero and the version set by the outcome; no read, no size
    probe. *)
Lemma HandleReplicationDone_spec (data : option Z) (this : ReplicatorImpl)
                                 (owner : ReplicateChunkOp.t) :
  mOwner this = Some owner ->
  exists op,
    submitted (HandleReplicationDone data this).2 = [op]
    /\ peerReads (HandleReplicationDone data this).2 = []
    /\ sizeProbes (HandleReplicationDone data this).2 = []
    /\ ReplicateChunkOp.status op
       = (if 0 <=? statusOf data then 0 else statusOf data)
    /\ ReplicateChunkOp.chunkVersion op
       = (if negb (mCancelFlag this) && (0 <=? statusOf data)
          then mChunkVersion this else -1).
Proof.
  intros Hown. unfold HandleReplicationDone. rewrite Hown.
  fold (statusOf data). cbn [snd].
  exists (ReplicateChunkOp.set_chunkVersion
            (if negb (mCancelFlag this) && (0 <=? statusOf data)
             then mChunkVersion this else -1)
            (ReplicateChunkOp.set_status
               (if 0 <=? statusOf data then 0 else statusOf data) owner)).
  rewrite !submitted_app, !peerReads_app, !sizeProbes_app.
  repeat split;
    destruct (mFileHandle this); cbn;
    repeat (match goal with |- context [if ?c then _ else _] =>
              destruct c end; cbn); reflexivity.
Qed.

(** What [Terminate] computes when the copy is not done, or is cancelled:
    the status handed on is negative. *)
Lemma Terminate_not_done (status : Z) (this : ReplicatorImpl) :
  mDone this && negb (mCancelFlag this) = false ->
  Terminate status this
  = HandleReplicationDone
      (Some (if status <? 0 then status
             else if status =? 0 then -1 else - status)) this.
Proof. intros H. unfold Terminate. rewrite H. reflexivity. Qed.

Lemma andThen_trace (r : ReplicatorImpl) (evs : list Event)
                    (k : ReplicatorImpl -> Result) :
  (andThen (r, evs) k).2 = evs ++ (k r).2.
Proof. unfold andThen. destruct (k r). reflexivity. Qed.

Lemma andThen_obj (r : ReplicatorImpl) (evs : list Event)
                  (k : ReplicatorImpl -> Result) :
  (andThen (r, evs) k).1 = (k r).1.
Proof. unfold andThen. destruct (k r). reflexivity. Qed.

(** C10: the status stored into op.status at completion is never positive.
    [HandleReplicationDone] stores 0 for every non-negative terminal status
    and the status itself for a negative one; on an exit that is not a
    finished copy, [Terminate] hands on the negation of a positive status
    and -1 for 0, so the op is submitted with a negative status; and
    whatever [Terminate] is called with, every op it submits has status 0
    or a negative code. *)
Theorem C10_op_status_never_positive
  (this : ReplicatorImpl) (owner : ReplicateChunkOp.t)
  (data : option Z) (status : Z) :
  mOwner this = Some owner ->
  (exists op,
     submitted (HandleReplicationDone data this).2 = [op]
     /\ ReplicateChunkOp.status op
        = (if 0 <=? statusOf data then 0 else statusOf data)
     /\ (0 <= statusOf data -> ReplicateChunkOp.status op = 0)
     /\ ReplicateChunkOp.status op <= 0)
  /\ (mDone this && negb (mCancelFlag this) = false ->
      exists op,
        submitted (Terminate status this).2 = [op]
        /\ (0 < status -> ReplicateChunkOp.status op = - status)
        /\ (status = 0 -> ReplicateChunkOp.status op = -1)
        /\ (status < 0 -> ReplicateChunkOp.status op = status)
        /\ ReplicateChunkOp.status op < 0)
  /\ (forall op, In op (submitted (Terminate status this).2) ->
      ReplicateChunkOp.status op <= 0).
Proof.
  intros Hown. split; [|split].
  - destruct (HandleReplicationDone_spec data this owner Hown)
      as (op & Hsub & _ & _ & Hst & _).
    exists op. rewrite Hst. repeat split; [exact Hsub | |];
      destruct (Z.leb_spec 0 (statusOf data)); lia.
  - intros Hnd. rewrite (Terminate_not_done status this Hnd).
    destruct (HandleReplicationDone_spec
                (Some (if status <? 0 then status
                       else if status =? 0 then -1 else - status))
                this owner Hown) as (op & Hsub & _ & _ & Hst & _).
    exists op. split; [exact Hsub|]. rewrite Hst. cbn [statusOf].
    zcases; repeat split; intros; lia.
  - intros op Hin. unfold Terminate in Hin.
    destruct (mDone this && negb (mCancelFlag this)).
    + destruct (ChangeChunkVers _ _ _ =? 0); [destruct Hin|].
      rewrite andThen_trace in Hin. cbn [app submitted] in Hin.
      match type of Hin with
      | context [HandleReplicationDone ?d ?t] =>
        destruct (HandleReplicationDone_spec d t owner Hown)
          as (op' & Hsub & _ & _ & Hst & _)
      end.
      rewrite Hsub in Hin. destruct Hin as [<-|[]]. rewrite Hst.
      zcases; lia.
    + match type of Hin with
      | context [HandleReplicationDone ?d ?t] =>
        destruct (HandleReplicationDone_spec d t owner Hown)
          as (op' & Hsub & _ & _ & Hst & _)
      end.
      rewrite Hsub in Hin. destruct Hin as [<-|[]]. rewrite Hst.
      cbn [statusOf]. zcases; lia.
Qed.

(** C5: on every completion a replicator delivers through SubmitOpResponse,
    op.chunkVersion is the finalized chunk version when the replication
    succeeded (terminal status >= 0 and not cancelled) and -1 on every
    cancel or failure exit.  The finalized version is the one [Terminate]
    hands to ChangeChunkVers: when the finalize call is accepted, the later
    completion callback reports that same version. *)
Theorem C5_chunkVersion_on_completion
  (this : ReplicatorImpl) (owner : ReplicateChunkOp.t)
  (data : option Z) (status : Z) :
  mOwner this = Some owner ->
  (exists op,
     submitted (HandleReplicationDone data this).2 = [op]
     /\ (mCancelFlag this = false -> 0 <= statusOf data ->
         ReplicateChunkOp.chunkVersion op = mChunkVersion this)
     /\ (mCancelFlag this = true \/ statusOf data < 0 ->
         ReplicateChunkOp.chunkVersion op = -1))
  /\ (mDone this = true -> mCancelFlag this = false ->
      ChangeChunkVers (mChunkId this) (mChunkVersion this) true = 0 ->
      exists this',
        Terminate status this
        = (this', [ChangeChunkVers_call (mChunkId this) (mChunkVersion this)
                                        true])
        /\ forall data', 0 <= statusOf data' ->
           exists op,
             submitted (HandleReplicationDone data' this').2 = [op]
             /\ ReplicateChunkOp.chunkVersion op = mChunkVersion this)
  /\ (mDone this && negb (mCancelFlag this) = false ->
      exists op,
        submitted (Terminate status this).2 = [op]
        /\ ReplicateChunkOp.chunkVersion op = -1).
Proof.
  intros Hown. split; [|split].
  - destruct (HandleReplicationDone_spec data this owner Hown)
      as (op & Hsub & _ & _ & _ & Hv).
    exists op. split; [exact Hsub|]. rewrite Hv. split.
    + intros -> Hs. cbn. destruct (Z.leb_spec 0 (statusOf data)); [reflexivity|lia].
    + intros [-> | Hs]; [reflexivity|].
      destruct (Z.leb_spec 0 (statusOf data)); [lia|].
      rewrite andb_false_r. reflexivity.
  - intros Hd Hc Hres. unfold Terminate. rewrite Hd, Hc.
    cbv zeta. cbn [negb andb mChunkId mChunkVersion set_mHandler].
    rewrite Hres. cbn [Z.eqb]. eexists. split; [reflexivity|].
    intros data' Hs.
    match goal with
    | |- context [HandleReplicationDone _ ?t] =>
      destruct (HandleReplicationDone_spec data' t owner Hown)
        as (op & Hsub & _ & _ & _ & Hv)
    end.
    exists op. split; [exact Hsub|]. rewrite Hv. cbn. rewrite Hc. cbn.
    destruct (Z.leb_spec 0 (statusOf data')); [reflexivity|lia].
  - intros Hnd. rewrite (Terminate_not_done status this Hnd).
    match goal with
    | |- context [HandleReplicationDone ?d ?t] =>
      destruct (HandleReplicationDone_spec d t owner Hown)
        as (op & Hsub & _ & _ & _ & Hv)
    end.
    exists op. split; [exact Hsub|]. rewrite Hv. cbn [statusOf].
    destruct (mCancelFlag this) eqn:Hc; [reflexivity|].
    cbn [negb andb].
    zcases; (reflexivity || lia).
Qed.

(** A failed read that is not retried ends the replication with the status
    of the read. *)
Lemma HandleReadDone_failed (this : ReplicatorImpl)
                            (owner : ReplicateChunkOp.t) :
  mCancelFlag this = false ->
  mOwner this = Some owner ->
  ReadOp.status (mReadOp this) < 0 ->
  ReadOp.skipVerifyDiskChecksumFlag (mReadOp this)
  && (ReadOp.status (mReadOp this) =? - EBADCKSUM) = false ->
  exists op,
    submitted (HandleReadDone this).2 = [op]
    /\ peerReads (HandleReadDone this).2 = []
    /\ ReplicateChunkOp.status op = ReadOp.status (mReadOp this)
    /\ ReplicateChunkOp.chunkVersion op = -1.
Proof.
  intros Hc Hown Hneg Hnoretry. unfold HandleReadDone.
  rewrite Hc, Hnoretry.
  destruct (Z.ltb_spec (ReadOp.status (mReadOp this)) 0) as [_|]; [|lia].
  cbn [orb].
  destruct (Z.ltb_spec (ReadOp.status (mReadOp this)) 0) as [_|]; [|lia].
  cbn [orb].
  rewrite Terminate_not_done.
  2:{ cbn. destruct (Z.leb_spec 0 (ReadOp.status (mReadOp this))); [lia|].
      rewrite andb_false_r. reflexivity. }
  match goal with
  | |- context [HandleReplicationDone ?d ?t] =>
    destruct (HandleReplicationDone_spec d t owner Hown)
      as (op & Hsub & Hrd & _ & Hst & Hv)
  end.
  exists op. split; [exact Hsub|]. split; [exact Hrd|].
  rewrite Hst, Hv. cbn.
  destruct (Z.leb_spec 0 (ReadOp.status (mReadOp this))); [lia|].
  rewrite !andb_false_r. cbn.
  destruct (Z.ltb_spec (ReadOp.status (mReadOp this)) 0); [|lia].
  destruct (Z.leb_spec 0 (ReadOp.status (mReadOp this))); [lia|].
  rewrite ?andb_false_r. split; reflexivity.
Qed.

(** C2: at any offset, a read sent at [mOffset] that fails with BadChecksum
    while the skip-disk-verify optimization is on is re-issued once, at the
    same offset, with disk verification on; if the retried read fails with
    any negative status, no further read is sent and the replication ends
    with that status. *)
Theorem C2_bad_checksum_single_retry
  (this : ReplicatorImpl) (owner : ReplicateChunkOp.t) :
  mKind this = Direct ->
  mCancelFlag this = false ->
  mOwner this = Some owner ->
  is_null (mPeer this) = false ->
  mOffset this < mChunkSize this ->
  ReadOp.offset (mReadOp this) = mOffset this ->
  0 < EBADCKSUM ->
  ReadOp.status (mReadOp this) = - EBADCKSUM ->
  ReadOp.skipVerifyDiskChecksumFlag (mReadOp this) = true ->
  exists this' rd,
    HandleReadDone this = (this', [PeerEnqueueRead rd])
    /\ mReadOp this' = rd
    /\ ReadOp.offset rd = ReadOp.offset (mReadOp this)
    /\ mOffset this' = mOffset this
    /\ ReadOp.skipVerifyDiskChecksumFlag rd = false
    /\ forall (s : Z) (data : IOBuffer) (checksums : list Z),
       s < 0 ->
       exists op,
         submitted (HandleReadDone (PeerReadReply s data checksums this')).2
         = [op]
         /\ peerReads (HandleReadDone (PeerReadReply s data checksums this')).2
            = []
         /\ ReplicateChunkOp.status op = s.
Proof.
  intros Hk Hc Hown Hpeer Hlt Hro Hpos Hst Hskip.
  unfold HandleReadDone at 1. rewrite Hc, Hst, Hskip.
  destruct (Z.ltb_spec (- EBADCKSUM) 0) as [_|]; [|lia].
  rewrite Z.eqb_refl. cbn [andb].
  unfold Read. cbn [mKind set_mReadOp]. rewrite Hk.
  unfold ReplicatorImpl_Read. cbn [mCancelFlag mOwner set_mReadOp mChunkSize
    mOffset mPeer mReadOp set_mHandler].
  rewrite Hc, Hown, Hpeer. cbn [orb is_null].
  destruct (Z.leb_spec (mChunkSize this) (mOffset this)) as [|_]; [lia|].
  eexists _, _. split; [reflexivity|].
  split; [reflexivity|]. split; [rewrite Hro; reflexivity|].
  split; [reflexivity|].
  split.
  { cbn. destruct (negb _); reflexivity. }
  intros s data checksums Hs.
  match goal with
  | |- context [HandleReadDone ?t] =>
    destruct (HandleReadDone_failed t owner) as (op & Hsub & Hrd & Hs' & _)
  end; [exact Hc | exact Hown | exact Hs | |].
  { cbn. destruct (negb _); reflexivity. }
  exists op. split; [exact Hsub|]. split; [exact Hrd|]. exact Hs'.
Qed.

Lemma IsEmpty_false (b : IOBuffer) :
  0 < IOBuf.BytesConsumable b -> IOBuf.IsEmpty b = false.
Proof. destruct b; [intros H; unfold IOBuf.BytesConsumable in H; simpl in H; lia | reflexivity]. Qed.

Lemma BytesConsumable_nonneg (b : IOBuffer) : 0 <= IOBuf.BytesConsumable b.
Proof. unfold IOBuf.BytesConsumable. lia. Qed.

Lemma BytesConsumable_take (n : Z) (b : IOBuffer) :
  0 <= n <= IOBuf.BytesConsumable b ->
  IOBuf.BytesConsumable (take (Z.to_nat n) b) = n.
Proof. unfold IOBuf.BytesConsumable. rewrite length_take. lia. Qed.

Lemma BytesConsumable_drop (n : Z) (b : IOBuffer) :
  0 <= n <= IOBuf.BytesConsumable b ->
  IOBuf.BytesConsumable (drop (Z.to_nat n) b) = IOBuf.BytesConsumable b - n.
Proof. unfold IOBuf.BytesConsumable. rewrite length_drop. lia. Qed.

(** A read that needs no split is written whole: the data and the checksums
    of the read go to one write at [mOffset]. *)
Lemma HandleReadDone_whole (this : ReplicatorImpl) :
  let rd := mReadOp this in
  let numRd := IOBuf.BytesConsumable (ReadOp.dataBuf rd) in
  mCancelFlag this = false ->
  0 <= ReadOp.status rd ->
  ReadOp.numBytes rd <= numRd \/ mChunkSize this <= mOffset this + numRd ->
  mOffset this < mChunkSize this ->
  Z.rem (mOffset this) CHECKSUM_BLOCKSIZE = 0 ->
  (ReadOp.checksum rd = []
   \/ Z.of_nat (length (ReadOp.checksum rd))
      = Z.quot (numRd + CHECKSUM_BLOCKSIZE - 1) CHECKSUM_BLOCKSIZE) ->
  numRd <= CHECKSUM_BLOCKSIZE \/ Z.rem numRd CHECKSUM_BLOCKSIZE = 0 ->
  (forall w fh, 0 <= WriteChunk w fh) ->
  exists this' w,
    HandleReadDone this = (this', [WriteChunk_call w])
    /\ w = writeOf this numRd (ReadOp.dataBuf rd) (ReadOp.checksum rd)
    /\ this' = set_mHandler hHandleWriteDone
                 (set_mWriteOp w
                    (set_mReadOp (ReadOp.set_dataBuf [] rd) this)).
Proof.
  intros rd numRd Hc Hst Hshort Hlt Hal Hck Hsz Hwc.
  unfold HandleReadDone. rewrite Hc. fold rd. fold numRd.
  assert (Hn : 0 <= numRd) by apply BytesConsumable_nonneg.
  assert (Hdie :
    negb (is_nil (ReadOp.checksum rd))
    && negb (Z.of_nat (length (ReadOp.checksum rd))
             =? Z.quot (numRd + CHECKSUM_BLOCKSIZE - 1) CHECKSUM_BLOCKSIZE)
    = false).
  { destruct Hck as [-> | ->]; [reflexivity|].
    rewrite Z.eqb_refl. apply andb_false_r. }
  assert (Hsr : (numRd <? ReadOp.numBytes rd)
                && (mOffset this + numRd <? mChunkSize this) = false).
  { destruct Hshort; zdecide; rewrite ?andb_false_r; reflexivity. }
  rewrite Hsr. zdecide. fields. fold rd. zdecide. fields.
  unfold CHECKSUM_BLOCKSIZE in Hdie. rewrite Hdie.
  unfold IOBuf.Move. cbv zeta. fields.
  assert (Hrem : 65536 < numRd -> Z.rem numRd 65536 = 0) by lia.
  destruct (Z.ltb_spec 65536 numRd) as [Hb|Hb].
  - rewrite (Hrem Hb). change (0 =? 0) with true. change (0 <? 0) with false.
    fields. rewrite Z.sub_0_r.
    rewrite (proj2 (Z.ltb_ge _ _)) by apply Hwc.
    eexists _, _. split; [reflexivity|]. split; reflexivity.
  - rewrite (proj2 (Z.ltb_ge _ _)) by apply Hwc.
    eexists _, _. split; [reflexivity|]. split; reflexivity.
Qed.

(** The tail split: a read of more than one block that ends the chunk off a
    block boundary is written up to the last boundary; the bytes after it
    and the last checksum stay in [mReadOp], placed at the end of the
    write. *)
Lemma HandleReadDone_split (this : ReplicatorImpl) :
  let rd := mReadOp this in
  let numRd := IOBuf.BytesConsumable (ReadOp.dataBuf rd) in
  let tail := Z.rem numRd CHECKSUM_BLOCKSIZE in
  mCancelFlag this = false ->
  0 <= ReadOp.status rd ->
  Z.rem (mOffset this) CHECKSUM_BLOCKSIZE = 0 ->
  (ReadOp.checksum rd = []
   \/ Z.of_nat (length (ReadOp.checksum rd))
      = Z.quot (numRd + CHECKSUM_BLOCKSIZE - 1) CHECKSUM_BLOCKSIZE) ->
  CHECKSUM_BLOCKSIZE < numRd ->
  tail <> 0 ->
  mOffset this + numRd = mChunkSize this ->
  (forall w fh, 0 <= WriteChunk w fh) ->
  exists this' w,
    HandleReadDone this = (this', [WriteChunk_call w])
    /\ w = writeOf this (numRd - tail)
             (take (Z.to_nat (numRd - tail)) (ReadOp.dataBuf rd))
             (removelast (ReadOp.checksum rd))
    /\ this' = set_mHandler hHandleWriteDone
                 (set_mWriteOp w
                    (set_mReadOp
                       (ReadOp.set_checksum
                          (if is_nil (ReadOp.checksum rd)
                           then ReadOp.checksum rd
                           else [List.last (ReadOp.checksum rd) 0])
                          (ReadOp.set_numBytes tail
                             (ReadOp.set_numBytesIO tail
                                (ReadOp.set_offset
                                   (mOffset this + (numRd - tail))
                                   (ReadOp.set_dataBuf
                                      (drop (Z.to_nat (numRd - tail))
                                            (ReadOp.dataBuf rd)) rd)))))
                       this)).
Proof.
  intros rd numRd tail Hc Hst Hal Hck Hbig Htail Hend Hwc.
  unfold HandleReadDone. rewrite Hc. fold rd. fold numRd.
  assert (Hn : 0 <= numRd) by apply BytesConsumable_nonneg.
  assert (Hdie :
    negb (is_nil (ReadOp.checksum rd))
    && negb (Z.of_nat (length (ReadOp.checksum rd))
             =? Z.quot (numRd + CHECKSUM_BLOCKSIZE - 1) CHECKSUM_BLOCKSIZE)
    = false).
  { destruct Hck as [-> | ->]; [reflexivity|].
    rewrite Z.eqb_refl. apply andb_false_r. }
  subst tail. zdecide. rewrite ?andb_false_r. fields. fold rd. zdecide.
  fields. unfold CHECKSUM_BLOCKSIZE in Hdie. rewrite Hdie.
  unfold IOBuf.MoveN. cbv zeta. fields.
  destruct (is_nil (ReadOp.checksum rd)) eqn:Hcs; fields;
    rewrite (proj2 (Z.ltb_ge _ _)) by apply Hwc;
    eexists _, _; (split; [reflexivity|]); split; try reflexivity.
  destruct (ReadOp.checksum rd); [reflexivity|discriminate].
Qed.

(** C1: in direct replication, a completed read of [numRd] bytes with
    [numRd > CHECKSUM_BLOCKSIZE], [numRd] not a multiple of the block size
    and [mOffset + numRd = mChunkSize] is split.  The first write carries
    the block-aligned prefix of [numRd - numRd mod CHECKSUM_BLOCKSIZE] bytes
    at [mOffset] with the checksums but the last; the trailing
    [numRd mod CHECKSUM_BLOCKSIZE] bytes and the last checksum stay in the
    read op.  When that write completes, [HandleWriteDone] re-enters the
    read completion with the carried tail, which is written at the end of
    the prefix and reaches [mChunkSize]. *)
Theorem C1_tail_split_two_writes (this : ReplicatorImpl) :
  let rd := mReadOp this in
  let data := ReadOp.dataBuf rd in
  let numRd := IOBuf.BytesConsumable data in
  let tail := Z.rem numRd CHECKSUM_BLOCKSIZE in
  mCancelFlag this = false ->
  0 <= ReadOp.status rd ->
  Z.rem (mOffset this) CHECKSUM_BLOCKSIZE = 0 ->
  (ReadOp.checksum rd = []
   \/ Z.of_nat (length (ReadOp.checksum rd))
      = Z.quot (numRd + CHECKSUM_BLOCKSIZE - 1) CHECKSUM_BLOCKSIZE) ->
  CHECKSUM_BLOCKSIZE < numRd ->
  tail <> 0 ->
  mOffset this + numRd = mChunkSize this ->
  (forall w fh, 0 <= WriteChunk w fh) ->
  exists this1 w1,
    HandleReadDone this = (this1, [WriteChunk_call w1])
    /\ WriteOp.offset w1 = mOffset this
    /\ WriteOp.numBytes w1 = numRd - tail
    /\ WriteOp.dataBuf w1 = take (Z.to_nat (numRd - tail)) data
    /\ WriteOp.checksums w1 = removelast (ReadOp.checksum rd)
    /\ ReadOp.dataBuf (mReadOp this1) = drop (Z.to_nat (numRd - tail)) data
    /\ IOBuf.BytesConsumable (ReadOp.dataBuf (mReadOp this1)) = tail
    /\ ReadOp.checksum (mReadOp this1)
       = (if is_nil (ReadOp.checksum rd) then []
          else [List.last (ReadOp.checksum rd) 0])
    /\ ReadOp.offset (mReadOp this1) = mOffset this + (numRd - tail)
    /\ forall wstatus : Z, 0 <= wstatus ->
       exists this2 w2,
         HandleWriteDone (DiskWriteReply wstatus (WriteOp.numBytes w1) this1)
         = (this2, [WriteChunk_call w2])
         /\ WriteOp.offset w2 = mOffset this + (numRd - tail)
         /\ WriteOp.numBytes w2 = tail
         /\ WriteOp.dataBuf w2 = drop (Z.to_nat (numRd - tail)) data
         /\ WriteOp.checksums w2 = ReadOp.checksum (mReadOp this1)
         /\ WriteOp.offset w2 + WriteOp.numBytes w2 = mChunkSize this
         /\ WriteOp.dataBuf w1 ++ WriteOp.dataBuf w2 = data
         /\ ReadOp.dataBuf (mReadOp this2) = [].
Proof.
  intros rd data numRd tail Hc Hst Hal Hck Hbig Htail Hend Hwc.
  destruct (HandleReadDone_split this Hc Hst Hal Hck Hbig Htail Hend Hwc)
    as (this1 & w1 & Hrun & Hw1 & Hthis1).
  fold rd in Hw1, Hthis1. fold data in Hw1, Hthis1.
  fold numRd in Hw1, Hthis1. fold tail in Hw1, Hthis1.
  assert (Hn : 0 <= numRd) by apply BytesConsumable_nonneg.
  assert (Hlen : IOBuf.BytesConsumable (drop (Z.to_nat (numRd - tail)) data)
                 = numRd - (numRd - tail)).
  { apply BytesConsumable_drop. fold numRd. subst tail.
    unfold CHECKSUM_BLOCKSIZE in *. clearbody numRd. lia. }
  assert (Etail : tail = Z.rem numRd CHECKSUM_BLOCKSIZE) by reflexivity.
  clearbody tail. clearbody numRd. unfold CHECKSUM_BLOCKSIZE in *.
  replace (numRd - (numRd - tail)) with tail in Hlen by lia.
  assert (Htl : 0 < tail < 65536) by lia.
  exists this1, w1. split; [exact Hrun|].
  rewrite Hthis1, Hw1. fields. unfold writeOf. fields.
  do 5 (split; [reflexivity|]). split; [exact Hlen|].
  split; [destruct (ReadOp.checksum rd); reflexivity|].
  split; [reflexivity|].
  intros wstatus Hws.
  unfold HandleWriteDone, DiskWriteReply, CHECKSUM_BLOCKSIZE.
  fields. rewrite Hc. fields.
  rewrite (proj2 (Z.ltb_ge wstatus 0)) by lia.
  rewrite Z.eqb_refl. rewrite (IsEmpty_false _ ltac:(rewrite Hlen; lia)).
  rewrite Hlen. rewrite (proj2 (Z.ltb_lt tail 65536)) by lia.
  fields.
  match goal with
  | |- context [HandleReadDone ?t] =>
    destruct (HandleReadDone_whole t) as (this2 & w2 & Hrun2 & Hw2 & Hthis2)
  end; fields; unfold CHECKSUM_BLOCKSIZE.
  - exact Hc.
  - exact Hst.
  - left. rewrite Hlen. lia.
  - lia.
  - lia.
  - rewrite Hlen. destruct (ReadOp.checksum rd); [left; reflexivity|].
    right. cbn [is_nil length]. lia.
  - left. rewrite Hlen. lia.
  - exact Hwc.
  - exists this2, w2. split; [exact Hrun2|].
    rewrite Hthis2, Hw2. fields. unfold writeOf. fields. rewrite Hlen.
    do 4 (split; [reflexivity|]). split; [lia|].
    split; [apply take_drop | reflexivity].
Qed.
Lemma HandleReplicationDone_keeps (data : option Z) (this : ReplicatorImpl) :
  mCancelFlag (HandleReplicationDone data this).1 = mCancelFlag this
  /\ mKind (HandleReplicationDone data this).1 = mKind this.
Proof.
  unfold HandleReplicationDone. destruct (mOwner this); split; reflexivity.
Qed.

Lemma Terminate_keeps (status : Z) (this : ReplicatorImpl) :
  mCancelFlag (Terminate status this).1 = mCancelFlag this
  /\ mKind (Terminate status this).1 = mKind this.
Proof.
  unfold Terminate.
  destruct (mDone this && negb (mCancelFlag this)).
  - cbv zeta. destruct (_ =? 0); [split; reflexivity|].
    rewrite andThen_obj.
    match goal with
    | |- context [HandleReplicationDone ?d ?t] =>
      destruct (HandleReplicationDone_keeps d t) as [-> ->]
    end.
    split; reflexivity.
  - apply HandleReplicationDone_keeps.
Qed.

Lemma Enqueue_keeps (inState : State) (this : ReplicatorImpl) :
  mPendingCancelFlag (Enqueue inState this).1 = mPendingCancelFlag this
  /\ mKind (Enqueue inState this).1 = mKind this.
Proof.
  unfold Enqueue.
  destruct (mPendingCancelFlag this) eqn:Hp.
  - destruct (negb _); [split; [exact Hp|reflexivity]|].
    destruct (mClientThreadPtr this); [destruct (decide _)|];
      split; cbn; auto.
  - destruct (negb _); [split; [exact Hp|reflexivity]|].
    cbn [mClientThreadPtr set_mState].
    destruct (mClientThreadPtr this); [destruct (decide _)|];
      split; cbn; auto.
Qed.

(** After the virtual [Cancel()] the cancellation is on record in the
    object. *)
Lemma Cancel_requested (this : ReplicatorImpl) :
  cancelRequested (Cancel this).1 = true.
Proof.
  unfold cancelRequested, Cancel.
  destruct (mKind this) eqn:Hk.
  - unfold ReplicatorImpl_Cancel. fields.
    destruct (mWaiting this).
    + rewrite andThen_obj.
      destruct (Terminate_keeps ECANCELED
                  (set_mWaiting false
                     (set_mFileHandle None (set_mCancelFlag true this))))
        as [-> ->].
      cbn. rewrite Hk. reflexivity.
    + cbn. rewrite Hk. reflexivity.
  - unfold RSReplicatorImpl_Cancel.
    destruct (mPendingCancelFlag this) eqn:Hp.
    + cbn. rewrite Hk. exact Hp.
    + destruct (Enqueue_keeps (mState this) (set_mPendingCancelFlag true this))
        as [-> ->].
      cbn. rewrite Hk. reflexivity.
Qed.

Lemma destroy_registry_None (this : nat) (w : World) (k : Z) :
  sInFlightReplications w !! k = None ->
  sInFlightReplications (destroy this w) !! k = None.
Proof.
  intros Hk. unfold destroy.
  destruct (objs w !! this) as [r|]; [|exact Hk].
  destruct (decide _);
    destruct (negb _); cbn; try exact Hk;
    destruct (decide (mChunkId r = k)) as [->|Hne];
    rewrite ?lookup_delete_eq, ?lookup_delete_ne by exact Hne;
    auto.
Qed.

Lemma destroy_objs (this : nat) (w : World) (r : ReplicatorImpl) :
  objs (destroy this w) !! this = Some r -> objs w !! this = Some r.
Proof.
  unfold destroy. destruct (objs w !! this) as [r0|] eqn:Hr; [|congruence].
  destruct (decide _); destruct (negb _); cbn;
    rewrite ?lookup_delete_eq, ?Hr; congruence.
Qed.

Lemma invoke_registry_None (this : nat) (m : ReplicatorImpl -> Result)
                           (w : World) (k : Z) :
  sInFlightReplications w !! k = None ->
  sInFlightReplications (invoke this m w) !! k = None.
Proof.
  intros Hk. unfold invoke.
  destruct (objs w !! this) as [r|]; [|exact Hk].
  destruct (m r) as [r' evs].
  destruct (mRefCount r' <=? 0); [apply destroy_registry_None|]; exact Hk.
Qed.

Lemma invoke_objs (this : nat) (m : ReplicatorImpl -> Result) (w : World)
                  (r r' : ReplicatorImpl) :
  objs w !! this = Some r ->
  objs (invoke this m w) !! this = Some r' ->
  r' = (m r).1.
Proof.
  intros Hr. unfold invoke. rewrite Hr.
  destruct (m r) as [r1 evs]. cbn [fst].
  destruct (mRefCount r1 <=? 0).
  - intros H. apply destroy_objs in H. cbn in H.
    rewrite lookup_insert_eq in H. congruence.
  - cbn. rewrite lookup_insert_eq. congruence.
Qed.

(** [CancelChunkReplication] on a chunk with a live registered replicator. *)
Lemma CancelChunkReplication_live (w : World) (chunkId v : Z) (cur : nat)
                                  (r : ReplicatorImpl) :
  sInFlightReplications w !! chunkId = Some (Some cur) ->
  objs w !! cur = Some r ->
  CancelChunkReplication chunkId v w
  = if (0 <=? v)
       && match mOwner r with
          | None => true
          | Some owner => negb (effectiveTargetVersion owner r =? v)
          end
    then (false, w)
    else (true,
          invoke cur Cancel
            (set_sInFlightReplications
               (delete chunkId (sInFlightReplications w)) w)).
Proof.
  intros Hreg Hobj. unfold CancelChunkReplication. rewrite Hreg, Hobj.
  reflexivity.
Qed.

(** What a successful [CancelChunkReplication] leaves. *)
Lemma cancelled_state (w : World) (chunkId : Z) (cur : nat)
                      (r : ReplicatorImpl) :
  objs w !! cur = Some r ->
  let w' := invoke cur Cancel
              (set_sInFlightReplications
                 (delete chunkId (sInFlightReplications w)) w) in
  sInFlightReplications w' !! chunkId = None
  /\ forall r', objs w' !! cur = Some r' -> cancelRequested r' = true.
Proof.
  intros Hobj w'. split.
  - apply invoke_registry_None. cbn. apply lookup_delete_eq.
  - intros r' Hr'.
    apply (invoke_objs cur Cancel _ r r') in Hr'; [|exact Hobj].
    rewrite Hr'. apply Cancel_requested.
Qed.

(** C3 (amended): [Cancel(chunkId, targetVersion)] returns true iff the
    registry holds a live replicator for [chunkId] and either the
    [targetVersion] argument is negative, or the replicator has its op and
    its effective target version (the op's explicit target version when that
    is >= 0, otherwise the replicator's chunk version) equals the argument.
    When it returns true the entry has been removed from the registry and
    the replicator cancelled; when it returns false nothing has changed. *)
Theorem C3_cancel_iff_live_and_matching (w : World) (chunkId v : Z) :
  (forall cur, sInFlightReplications w !! chunkId = Some (Some cur) ->
               is_Some (objs w !! cur)) ->
  ((Replicator_Cancel chunkId v w).1 = true <->
   exists cur r,
     sInFlightReplications w !! chunkId = Some (Some cur)
     /\ objs w !! cur = Some r
     /\ (v < 0
         \/ exists owner, mOwner r = Some owner
                          /\ effectiveTargetVersion owner r = v))
  /\ ((Replicator_Cancel chunkId v w).1 = true ->
      exists cur,
        sInFlightReplications w !! chunkId = Some (Some cur)
        /\ (Replicator_Cancel chunkId v w).2
           = invoke cur Cancel
               (set_sInFlightReplications
                  (delete chunkId (sInFlightReplications w)) w)
        /\ sInFlightReplications (Replicator_Cancel chunkId v w).2 !! chunkId
           = None
        /\ forall r',
           objs (Replicator_Cancel chunkId v w).2 !! cur = Some r' ->
           cancelRequested r' = true)
  /\ ((Replicator_Cancel chunkId v w).1 = false ->
      (Replicator_Cancel chunkId v w).2 = w).
Proof.
  intros Hwf. unfold Replicator_Cancel.
  destruct (sInFlightReplications w !! chunkId) as [[cur|]|] eqn:Hreg.
  - destruct (Hwf cur eq_refl) as [r Hobj].
    rewrite (CancelChunkReplication_live w chunkId v cur r Hreg Hobj).
    destruct (cancelled_state w chunkId cur r Hobj) as [Hnone Hflag].
    destruct (Z.leb_spec 0 v) as [Hv|Hv]; cbn [andb].
    + destruct (mOwner r) as [owner|] eqn:Hown.
      * destruct (Z.eqb_spec (effectiveTargetVersion owner r) v) as [He|He];
          cbn [negb fst snd].
        -- split; [|split].
           ++ split; [|reflexivity]. intros _. exists cur, r.
              split; [reflexivity|]. split; [exact Hobj|]. right. exists owner. auto.
           ++ intros _. exists cur. auto.
           ++ discriminate.
        -- split; [|split]; [|discriminate|reflexivity].
           split; [discriminate|].
           intros (cur' & r' & Hc & Hr & [Hneg | (o & Ho & Heff)]);
             [lia|].
           assert (cur' = cur) by congruence. subst cur'.
           assert (r' = r) by congruence. subst r'.
           assert (o = owner) by congruence. subst o. contradiction.
      * cbn [fst snd]. split; [|split]; [|discriminate|reflexivity].
        split; [discriminate|].
        intros (cur' & r' & Hc & Hr & [Hneg | (o & Ho & Heff)]); [lia|].
        assert (cur' = cur) by congruence. subst cur'.
        assert (r' = r) by congruence. subst r'. congruence.
    + cbn [fst snd]. split; [|split].
      * split; [|reflexivity]. intros _. exists cur, r.
        split; [reflexivity|]. split; [exact Hobj|]. left. exact Hv.
      * intros _. exists cur. auto.
      * discriminate.
  - unfold CancelChunkReplication. rewrite Hreg. cbn [fst snd].
    split; [|split]; [|discriminate|reflexivity].
    split; [discriminate|]. intros (cur' & r' & Hc & _). discriminate.
  - unfold CancelChunkReplication. rewrite Hreg. cbn [fst snd].
    split; [|split]; [|discriminate|reflexivity].
    split; [discriminate|]. intros (cur' & r' & Hc & _). discriminate.
Qed.

(** C9: for a chunk with a live registered replicator, [Cancel(chunkId, v)]
    with any negative [v] cancels that replicator and returns true,
    whatever its effective target version; the version comparison decides
    the result only when [v >= 0]. *)
Theorem C9_negative_version_cancels_any
  (w : World) (chunkId v : Z) (cur : nat) (r : ReplicatorImpl) :
  sInFlightReplications w !! chunkId = Some (Some cur) ->
  objs w !! cur = Some r ->
  (v < 0 ->
   (Replicator_Cancel chunkId v w).1 = true
   /\ (Replicator_Cancel chunkId v w).2
      = invoke cur Cancel
          (set_sInFlightReplications
             (delete chunkId (sInFlightReplications w)) w)
   /\ sInFlightReplications (Replicator_Cancel chunkId v w).2 !! chunkId
      = None
   /\ forall r',
      objs (Replicator_Cancel chunkId v w).2 !! cur = Some r' ->
      cancelRequested r' = true)
  /\ (0 <= v ->
      ((Replicator_Cancel chunkId v w).1 = true <->
       exists owner, mOwner r = Some owner
                     /\ effectiveTargetVersion owner r = v)).
Proof.
  intros Hreg Hobj. unfold Replicator_Cancel.
  rewrite (CancelChunkReplication_live w chunkId v cur r Hreg Hobj).
  destruct (cancelled_state w chunkId cur r Hobj) as [Hnone Hflag].
  split.
  - intros Hv. rewrite (proj2 (Z.leb_gt 0 v)) by lia. cbn [andb fst snd].
    auto.
  - intros Hv. rewrite (proj2 (Z.leb_le 0 v)) by lia. cbn [andb].
    destruct (mOwner r) as [owner|].
    + destruct (Z.eqb_spec (effectiveTargetVersion owner r) v) as [He|He];
        cbn [negb fst snd].
      * split; [|reflexivity]. intros _. exists owner. auto.
      * split; [discriminate|]. intros (o & Ho & Heff).
        assert (o = owner) by congruence. subst o. contradiction.
    + cbn [fst snd]. split; [discriminate|]. intros (o & Ho & _).
      discriminate.
Qed.

Lemma HandleReplicationDone_trace_shape (data : option Z)
                                        (this : ReplicatorImpl) :
  existsb startsSizeProbe (HandleReplicationDone data this).2 = false
  /\ bufferRequests (HandleReplicationDone data this).2 = [].
Proof.
  unfold HandleReplicationDone.
  destruct (mOwner this); [|split; reflexivity].
  cbn [snd]. destruct (mFileHandle this); cbn;
    repeat (match goal with |- context [if ?c then _ else _] =>
              destruct c end; cbn); split; reflexivity.
Qed.

(** The buffer request of [Run] when the client is over quota. *)
Lemma Run_buffers_over_quota (this : ReplicatorImpl)
                             (owner : ReplicateChunkOp.t) :
  let bufBytes := Z.max (Z.shiftl 16 10) (GetBufferBytesRequired this) in
  mOwner this = Some owner ->
  mDone this = false ->
  IsOverQuota this bufBytes = true ->
  (Run_buffers this).2
  = IsOverQuota_call bufBytes
    :: (HandleReplicationDone (Some (- ENOMEM)) this).2.
Proof.
  intros bufBytes Hown Hd Hq. unfold Run_buffers. cbv zeta.
  fold bufBytes. rewrite Hq. rewrite andThen_trace.
  rewrite Terminate_not_done by (rewrite Hd; reflexivity).
  reflexivity.
Qed.

Lemma destroy_objs_ne (o t : nat) (w : World) :
  t <> o -> objs (destroy o w) !! t = objs w !! t.
Proof.
  intros Hne. unfold destroy. destruct (objs w !! o); [|reflexivity].
  destruct (decide _); destruct (negb _); cbn;
    rewrite ?lookup_delete_ne by congruence; reflexivity.
Qed.

Lemma invoke_objs_ne (o t : nat) (m : ReplicatorImpl -> Result) (w : World) :
  t <> o -> objs (invoke o m w) !! t = objs w !! t.
Proof.
  intros Hne. unfold invoke. destruct (objs w !! o) as [r|]; [|reflexivity].
  destruct (m r) as [r' evs].
  destruct (mRefCount r' <=? 0).
  - rewrite destroy_objs_ne by exact Hne. cbn.
    apply lookup_insert_ne. congruence.
  - cbn. apply lookup_insert_ne. congruence.
Qed.

(** [Run] on a replicator that is not cancelled, with the registry slot
    free or held by another replicator, registers it and goes on to the
    buffer request. *)
Lemma ReplicatorImpl_Run_registers (this : nat) (r : ReplicatorImpl)
                                   (w : World) :
  objs w !! this = Some r ->
  mCancelFlag r = false ->
  (sInFlightReplications w !! mChunkId r = None
   \/ exists other, sInFlightReplications w !! mChunkId r = Some (Some other)
                    /\ other <> this) ->
  exists w1,
    ReplicatorImpl_Run this w = invoke this Run_buffers w1
    /\ objs w1 !! this = Some r
    /\ sInFlightReplications w1 !! mChunkId r = Some (Some this).
Proof.
  intros Hobj Hc [Hfree | (other & Hreg & Hne)];
    unfold ReplicatorImpl_Run; rewrite Hobj; cbv zeta.
  - rewrite Hfree. eexists. split; [reflexivity|]. cbn.
    split; [exact Hobj | apply lookup_insert_eq].
  - rewrite Hreg. destruct (decide (other = this)) as [|_]; [contradiction|].
    cbn [objs set_sInFlightReplications].
    rewrite invoke_objs_ne by congruence. rewrite Hobj, Hc.
    eexists. split; [reflexivity|]. cbn.
    split; [|apply lookup_insert_eq].
    rewrite invoke_objs_ne by congruence. exact Hobj.
Qed.

Lemma to_int_small (x : Z) : - 2 ^ 31 <= x < 2 ^ 31 -> to_int x = x.
Proof.
  unfold to_int. change (2 ^ 31) with 2147483648.
  change (2 ^ 32) with 4294967296. intros H.
  rewrite Z.mod_small by (clear - H; lia). clear; lia.
Qed.

Lemma to_int_mul_r (a b : Z) : to_int (a * to_int b) = to_int (a * b).
Proof.
  unfold to_int. f_equal.
  rewrite (Z.mod_eq (b + 2 ^ 31) (2 ^ 32)) by discriminate.
  replace (a * (b + 2 ^ 31 - 2 ^ 32 * ((b + 2 ^ 31) / 2 ^ 32) - 2 ^ 31)
           + 2 ^ 31)
    with (a * b + 2 ^ 31 + (- a * ((b + 2 ^ 31) / 2 ^ 32)) * 2 ^ 32)
    by ring.
  apply Z_mod_plus_full.
Qed.

(** C6: on [Run] a replicator asks the buffer manager for
    max(16 KiB, GetBufferBytesRequired()) bytes, where
    GetBufferBytesRequired() is the default read size (1 MiB rounded up to
    a multiple of CHECKSUM_BLOCKSIZE) in direct mode and
    readSize * (numStripes + 1) in recovery mode, the [int] product of the
    source: it is that product whenever the product is an [int], below
    2^31, and the product modulo 2^32 in any case.  When the amount asked
    for is over the client quota the replication ends with -ENOMEM, and
    neither the buffer request nor the size probe is made. *)
Theorem C6_buffer_request_on_run
  (this : ReplicatorImpl) (owner : ReplicateChunkOp.t) :
  mOwner this = Some owner ->
  mDone this = false ->
  mCancelFlag this = false ->
  let bufBytes := Z.max 16384 (GetBufferBytesRequired this) in
  (mKind this = Direct ->
   GetBufferBytesRequired this = kDefaultReplicationReadSize)
  /\ (kDefaultReplicationReadSize = 1048576
      /\ Z.rem kDefaultReplicationReadSize CHECKSUM_BLOCKSIZE = 0
      /\ 2 ^ 20 <= kDefaultReplicationReadSize < 2 ^ 20 + CHECKSUM_BLOCKSIZE)
  /\ (mKind this = Recovery ->
      let product :=
        mReadSize this * (ReplicateChunkOp.numStripes owner + 1) in
      GetBufferBytesRequired this = to_int product
      /\ (- 2 ^ 31 <= product < 2 ^ 31 ->
          GetBufferBytesRequired this = product))
  /\ (forall (w : World) (id : nat),
      objs w !! id = Some this ->
      (sInFlightReplications w !! mChunkId this = None
       \/ exists other,
            sInFlightReplications w !! mChunkId this = Some (Some other)
            /\ other <> id) ->
      exists w1,
        ReplicatorImpl_Run id w = invoke id Run_buffers w1
        /\ objs w1 !! id = Some this
        /\ sInFlightReplications w1 !! mChunkId this = Some (Some id))
  /\ (IsOverQuota this bufBytes = false ->
      exists rest,
        (Run_buffers this).2
        = IsOverQuota_call bufBytes :: GetForDiskIo_call bufBytes :: rest)
  /\ (IsOverQuota this bufBytes = true ->
      exists op,
        (Run_buffers this).2
        = IsOverQuota_call bufBytes
          :: (HandleReplicationDone (Some (- ENOMEM)) this).2
        /\ submitted (Run_buffers this).2 = [op]
        /\ ReplicateChunkOp.status op = - ENOMEM
        /\ ReplicateChunkOp.chunkVersion op = -1
        /\ existsb startsSizeProbe (Run_buffers this).2 = false
        /\ bufferRequests (Run_buffers this).2 = []).
Proof.
  intros Hown Hd Hc bufBytes.
  split; [|split; [|split; [|split; [|split]]]].
  - intros Hk. unfold GetBufferBytesRequired. rewrite Hk. reflexivity.
  - split; [reflexivity|]. split; [reflexivity|].
    split; [discriminate | reflexivity].
  - intros Hk product. unfold GetBufferBytesRequired. rewrite Hk.
    unfold RSReplicatorImpl_GetBufferBytesRequired. rewrite Hown.
    rewrite to_int_mul_r. fold product.
    split; [reflexivity | apply to_int_small].
  - intros w id Hobj Hslot.
    exact (ReplicatorImpl_Run_registers id this w Hobj Hc Hslot).
  - intros Hq. unfold Run_buffers. cbv zeta.
    change (Z.shiftl 16 10) with 16384. fold bufBytes. rewrite Hq.
    destruct (GetForDiskIo this bufBytes).
    + rewrite andThen_trace. eexists. reflexivity.
    + eexists. reflexivity.
  - intros Hq.
    pose proof (Run_buffers_over_quota this owner Hown Hd Hq) as Hrun.
    destruct (HandleReplicationDone_spec (Some (- ENOMEM)) this owner Hown)
      as (op & Hsub & _ & _ & Hst & Hv).
    destruct (HandleReplicationDone_trace_shape (Some (- ENOMEM)) this)
      as [Hprobe Hreq].
    exists op. rewrite Hrun. cbn [submitted existsb startsSizeProbe
                                  bufferRequests orb].
    split; [reflexivity|]. split; [exact Hsub|].
    split; [rewrite Hst; reflexivity|].
    split; [rewrite Hv; cbn; rewrite andb_false_r; reflexivity|].
    split; [exact Hprobe | exact Hreq].
Qed.

Lemma rem_zero_iff_mod_zero (a b : Z) : Z.rem a b = 0 <-> a mod b = 0.
Proof.
  destruct (Z.eq_dec b 0) as [->|Hb].
  - rewrite Z.rem_0_r_ext by reflexivity. rewrite Z.mod_0_r. reflexivity.
  - rewrite Z.rem_divide, Z.mod_divide by exact Hb. reflexivity.
Qed.

(** The validation of [Replicator::Run] accepts a request exactly when the
    recovery parameters hold. *)
Lemma invalidRecoveryRequest_false (op : ReplicateChunkOp.t) :
  0 < KFS_MIN_STRIPE_SIZE ->
  KFS_MAX_STRIPE_SIZE < 2 ^ 64 ->
  invalidRecoveryRequest op = false
  <-> recoveryParametersHold KFS_STRIPED_FILE_TYPE_RS KFS_MIN_STRIPE_SIZE
        KFS_MAX_STRIPE_SIZE KFS_STRIPE_ALIGNMENT op.
Proof.
  intros Hmin Hmax. unfold invalidRecoveryRequest, recoveryParametersHold.
  rewrite !orb_false_iff, !negb_false_iff.
  rewrite !Z.ltb_ge, !Z.leb_gt, !Z.eqb_eq.
  rewrite !rem_zero_iff_mod_zero.
  split.
  - intros [[[[[[[[[H1 H2] H3] H4] H5] H6] H7] H8] H9] H10].
    rewrite (Z.mod_small (ReplicateChunkOp.stripeSize op)) in H8 by lia.
    repeat split; assumption || lia.
  - intros (H1 & H2 & H3 & H4 & H5 & [H6 H7] & H8 & H9 & H10).
    rewrite (Z.mod_small (ReplicateChunkOp.stripeSize op)) by lia.
    repeat split; assumption || lia.
Qed.

(** C7: when op.location is not valid (the request is a recovery),
    [Replicator::Run] sets status -EINVAL and submits the response without
    creating a replicator unless all recovery parameters hold: chunkOffset
    >= 0 and a multiple of CHUNKSIZE, striperType = RS, numStripes > 0,
    numRecoveryStripes > 0, MIN_STRIPE_SIZE <= stripeSize <=
    MAX_STRIPE_SIZE, CHUNKSIZE % stripeSize = 0, stripeSize %
    STRIPE_ALIGNMENT = 0, and op.location.port > 0.  When they hold and the
    access header is well formed, the request goes to
    [RSReplicatorImpl::Create]. *)
Theorem C7_recovery_request_validation (op : ReplicateChunkOp.t) (w : World) :
  0 < KFS_MIN_STRIPE_SIZE ->
  KFS_MAX_STRIPE_SIZE < 2 ^ 64 ->
  IsValid (ReplicateChunkOp.location op) = false ->
  (~ recoveryParametersHold KFS_STRIPED_FILE_TYPE_RS KFS_MIN_STRIPE_SIZE
       KFS_MAX_STRIPE_SIZE KFS_STRIPE_ALIGNMENT op ->
   exists op' evs,
     Replicator_Run op w = emit evs w
     /\ submitted evs = [op']
     /\ ReplicateChunkOp.status op' = - EINVAL
     /\ In (CounterInc mRecoveryErrorCount) evs
     /\ objs (Replicator_Run op w) = objs w
     /\ sInFlightReplications (Replicator_Run op w) = sInFlightReplications w
     /\ nextId (Replicator_Run op w) = nextId w)
  /\ (recoveryParametersHold KFS_STRIPED_FILE_TYPE_RS KFS_MIN_STRIPE_SIZE
        KFS_MAX_STRIPE_SIZE KFS_STRIPE_ALIGNMENT op ->
      Bool.eqb (0 <? Z.of_nat (length (accessKey op)))
               (0 <? Z.of_nat (length (accessToken op))) = true ->
      Replicator_Run op w
      = match RSReplicatorImpl_Create op (accessToken op) (accessKey op) with
        | (Some impl, _) => runNew impl (emit [CounterInc mRecoveryCount] w)
        | (None, op') =>
          emit [SubmitOpResponse op'] (emit [CounterInc mRecoveryCount] w)
        end).
Proof.
  intros Hmin Hmax Hloc.
  pose proof (invalidRecoveryRequest_false op Hmin Hmax) as Hval.
  unfold Replicator_Run, accessToken, accessKey.
  destruct (takeWord (skipBlank (ReplicateChunkOp.chunkServerAccess op)))
    as [token p1].
  cbn [fst snd].
  destruct (takeWord (skipBlank p1)) as [key p2]. cbn [fst snd].
  split.
  - intros Hbad.
    destruct (Bool.eqb (0 <? Z.of_nat (length key))
                       (0 <? Z.of_nat (length token))); cbn [negb].
    + rewrite Hloc.
      destruct (invalidRecoveryRequest op) eqn:Hinv.
      * exists (ReplicateChunkOp.set_status (- EINVAL) op),
               [CounterInc mRecoveryCount; CounterInc mRecoveryErrorCount;
                SubmitOpResponse (ReplicateChunkOp.set_status (- EINVAL) op)].
        split.
        { unfold emit. cbn. rewrite <- app_assoc. reflexivity. }
        repeat split; cbn; auto.
      * exfalso. apply Hbad, Hval. reflexivity.
    + fields. rewrite Hloc.
      eexists _, _. split; [reflexivity|]. repeat split; cbn; auto.
  - intros Hok Hhdr. rewrite Hhdr. cbn [negb]. rewrite Hloc.
    rewrite (proj2 Hval Hok).
    destruct (RSReplicatorImpl_Create op token key) as [[impl|] op'];
      reflexivity.
Qed.

Lemma BytesConsumable_app (a b : IOBuffer) :
  IOBuf.BytesConsumable (a ++ b)
  = IOBuf.BytesConsumable a + IOBuf.BytesConsumable b.
Proof. unfold IOBuf.BytesConsumable. rewrite length_app. lia. Qed.

Lemma Done_checksums_aligned (offset : Z) (buf : IOBuffer) :
  Done_checksums offset buf <> [] ->
  Z.rem offset CHECKSUM_BLOCKSIZE = 0
  /\ Z.rem (IOBuf.BytesConsumable buf) CHECKSUM_BLOCKSIZE = 0.
Proof.
  unfold Done_checksums.
  destruct (Z.eqb_spec (Z.rem offset CHECKSUM_BLOCKSIZE) 0);
    destruct (Z.eqb_spec (Z.rem (IOBuf.BytesConsumable buf)
                                CHECKSUM_BLOCKSIZE) 0);
    rewrite ?andb_false_r; cbn; intros H; try contradiction.
  split; assumption.
Qed.

(** [Done] with data and status 0 on a read in flight goes through the
    buffers and then the final checks. *)
Lemma Done_with_data (a : DoneArgs) (inBuf : IOBuffer)
                     (this : ReplicatorImpl) :
  sameReader a = true ->
  requestIsThis a = true ->
  0 <= inOffset a ->
  inSize a <= ReadOp.numBytes (mReadOp this) ->
  mReadInFlightFlag this = true ->
  mPendingCloseFlag this = false ->
  ReadOp.status (mReadOp this) = 0 ->
  inBufferPtr a = Some inBuf ->
  inStatusCode a = 0 ->
  Done a this
  = match Done_buffers a inBuf (Done_received a this) with
    | inl returned => returned
    | inr res =>
      Done_finish a true
        (IOBuf.BytesConsumable (mReadTail this) + IOBuf.BytesConsumable inBuf)
        res
    end.
Proof.
  intros Hrd Hreq Hoff Hsz Hfl Hcl Hst Hbuf Hcode.
  unfold Done, Done_received. rewrite Hrd, Hreq, Hfl, Hcl, Hbuf, Hcode.
  fields. rewrite Hst. zdecide. fields. reflexivity.
Qed.

(** End of chunk: the tail and the new bytes all go to the write buffer. *)
Lemma Done_buffers_end_of_chunk (a : DoneArgs) (inBuf : IOBuffer)
                                (this : ReplicatorImpl) :
  let all := mReadTail this ++ inBuf in
  ReadOp.checksum (mReadOp this) = [] ->
  (IOBuf.BytesConsumable inBuf < mReadSize this
   \/ mChunkSize this
      <= mOffset this + IOBuf.BytesConsumable (mReadTail this)
         + mReadSize this) ->
  exists this2,
    Done_buffers a inBuf this = inr (this2, [Reader_Close])
    /\ ReadOp.dataBuf (mReadOp this2) = all
    /\ mReadTail this2 = []
    /\ ReadOp.numBytes (mReadOp this2) = IOBuf.BytesConsumable all
    /\ ReadOp.numBytesIO (mReadOp this2) = IOBuf.BytesConsumable all
    /\ mChunkSize this2 = mOffset this + IOBuf.BytesConsumable all
    /\ mOffset this2 = mOffset this
    /\ mPendingCloseFlag this2 = (readerActive a || mPendingCloseFlag this)
    /\ mRefCount this2
       = mRefCount this + (if readerActive a then 1 else 0)
    /\ ReadOp.checksum (mReadOp this2)
       = Done_checksums (ReadOp.offset (mReadOp this)) all.
Proof.
  intros all Hck Heoc. unfold Done_buffers.
  assert (Hb : (IOBuf.BytesConsumable inBuf <? mReadSize this)
               || (mChunkSize this <=?
                   mOffset this + IOBuf.BytesConsumable (mReadTail this)
                   + mReadSize this) = true).
  { destruct Heoc; zdecide; rewrite ?orb_true_r; reflexivity. }
  rewrite Hb. unfold IOBuf.Move. cbv zeta. fields. cbn [app]. fold all.
  unfold Done_checksums.
  destruct (readerActive a); fields;
    match goal with
    | |- context [if ?c then inr _ else inr _] => destruct c eqn:Hc
    end;
    eexists; (split; [reflexivity|]); fields;
    rewrite ?Hc; repeat split; try reflexivity; try lia; try exact Hck.
Qed.

Lemma take_moved (n : Z) (tail inBuf : IOBuffer) :
  0 <= n ->
  take (Z.to_nat n) tail
  ++ take (Z.to_nat (n - Z.of_nat (length (take (Z.to_nat n) tail)))) inBuf
  = take (Z.to_nat n) (tail ++ inBuf).
Proof.
  intros Hn. rewrite take_app. f_equal. f_equal.
  rewrite length_take. lia.
Qed.

Lemma drop_moved (n : Z) (tail inBuf : IOBuffer) :
  0 <= n ->
  drop (Z.to_nat n) tail
  ++ drop (Z.to_nat (n - Z.of_nat (length (take (Z.to_nat n) tail)))) inBuf
  = drop (Z.to_nat n) (tail ++ inBuf).
Proof.
  intros Hn. rewrite drop_app. f_equal. f_equal.
  rewrite length_take. lia.
Qed.

(** Not the end of the chunk: the whole checksum blocks of the tail and
    the new bytes go to the write buffer, the rest stays in [mReadTail]. *)
Lemma Done_buffers_whole_blocks (a : DoneArgs) (inBuf : IOBuffer)
                                (this : ReplicatorImpl) :
  let all := mReadTail this ++ inBuf in
  let nmv :=
    Z.quot (IOBuf.BytesConsumable all) CHECKSUM_BLOCKSIZE
    * CHECKSUM_BLOCKSIZE in
  ReadOp.checksum (mReadOp this) = [] ->
  mReadSize this <= IOBuf.BytesConsumable inBuf ->
  mOffset this + IOBuf.BytesConsumable (mReadTail this) + mReadSize this
  < mChunkSize this ->
  0 < nmv ->
  exists this2,
    Done_buffers a inBuf this = inr (this2, [])
    /\ ReadOp.dataBuf (mReadOp this2) = take (Z.to_nat nmv) all
    /\ mReadTail this2 = drop (Z.to_nat nmv) all
    /\ ReadOp.numBytes (mReadOp this2) = nmv
    /\ ReadOp.numBytesIO (mReadOp this2) = nmv
    /\ mChunkSize this2 = mChunkSize this
    /\ mOffset this2 = mOffset this
    /\ mPendingCloseFlag this2 = mPendingCloseFlag this
    /\ ReadOp.checksum (mReadOp this2)
       = Done_checksums (ReadOp.offset (mReadOp this))
           (take (Z.to_nat nmv) all).
Proof.
  intros all nmv Hck Hfull Hmore Hnmv. unfold Done_buffers.
  assert (Hb : (IOBuf.BytesConsumable inBuf <? mReadSize this)
               || (mChunkSize this <=?
                   mOffset this + IOBuf.BytesConsumable (mReadTail this)
                   + mReadSize this) = false).
  { zdecide. reflexivity. }
  rewrite Hb. cbv zeta.
  rewrite <- BytesConsumable_app. fold all. fold nmv.
  rewrite (proj2 (Z.leb_gt nmv 0)) by lia.
  unfold IOBuf.MoveN, IOBuf.Move. fields. cbn [app].
  rewrite take_moved, drop_moved by lia. fold all.
  rewrite ?app_nil_r.
  assert (Hlen : IOBuf.BytesConsumable (take (Z.to_nat nmv) all) = nmv).
  { apply BytesConsumable_take. subst nmv.
    pose proof (BytesConsumable_nonneg all).
    unfold CHECKSUM_BLOCKSIZE in *. lia. }
  unfold Done_checksums. rewrite Hlen.
  match goal with
  | |- context [if ?c then inr _ else inr _] => destruct c eqn:Hc
  end;
    eexists; (split; [reflexivity|]); fields;
    rewrite ?Hlen; repeat split; try reflexivity; try exact Hck.
Qed.

(** Not the end of the chunk and less than one block in all: the bytes
    join the tail and the next read is issued. *)
Lemma Done_buffers_sub_block (a : DoneArgs) (inBuf : IOBuffer)
                             (this : ReplicatorImpl) :
  let all := mReadTail this ++ inBuf in
  let nmv :=
    Z.quot (IOBuf.BytesConsumable all) CHECKSUM_BLOCKSIZE
    * CHECKSUM_BLOCKSIZE in
  mReadSize this <= IOBuf.BytesConsumable inBuf ->
  mOffset this + IOBuf.BytesConsumable (mReadTail this) + mReadSize this
  < mChunkSize this ->
  nmv <= 0 ->
  Done_buffers a inBuf this
  = inl (HandleRead
           (set_mReadOp (ReadOp.set_dataBuf [] (mReadOp this))
                        (set_mReadTail all this))).
Proof.
  intros all nmv Hfull Hmore Hnmv. unfold Done_buffers.
  assert (Hb : (IOBuf.BytesConsumable inBuf <? mReadSize this)
               || (mChunkSize this <=?
                   mOffset this + IOBuf.BytesConsumable (mReadTail this)
                   + mReadSize this) = false).
  { zdecide. reflexivity. }
  rewrite Hb. cbv zeta.
  rewrite <- BytesConsumable_app. fold all. fold nmv.
  rewrite (proj2 (Z.leb_le nmv 0)) by lia.
  reflexivity.
Qed.

(** C4: in recovery mode, a [Done] upcall that delivers data with status 0
    for the read in flight.  If the buffer is shorter than the read size,
    or the cursor (offset, tail and read size) has reached the chunk size,
    the result is the end of the chunk: the read tail followed by the new
    bytes is the write buffer, chunkSize becomes offset plus the total, and
    the reader is closed.  Otherwise only the whole checksum blocks of the
    tail followed by the new bytes go to the write buffer and the rest,
    less than one block, stays in the read tail (with less than one block
    in all, everything stays in the tail and the next read is issued).
    Checksums are computed only when both the offset and the number of
    bytes are multiples of CHECKSUM_BLOCKSIZE. *)
Theorem C4_done_read_tail
  (a : DoneArgs) (inBuf : IOBuffer) (this : ReplicatorImpl) :
  sameReader a = true ->
  requestIsThis a = true ->
  0 <= inOffset a ->
  inSize a <= ReadOp.numBytes (mReadOp this) ->
  mReadInFlightFlag this = true ->
  mPendingCloseFlag this = false ->
  ReadOp.status (mReadOp this) = 0 ->
  inBufferPtr a = Some inBuf ->
  inStatusCode a = 0 ->
  let all := mReadTail this ++ inBuf in
  let nmv :=
    Z.quot (IOBuf.BytesConsumable all) CHECKSUM_BLOCKSIZE
    * CHECKSUM_BLOCKSIZE in
  let endOfChunk :=
    IOBuf.BytesConsumable inBuf < mReadSize this
    \/ mChunkSize this
       <= mOffset this + IOBuf.BytesConsumable (mReadTail this)
          + mReadSize this in
  Done a this
  = match Done_buffers a inBuf (Done_received a this) with
    | inl returned => returned
    | inr res => Done_finish a true (IOBuf.BytesConsumable all) res
    end
  /\ (endOfChunk ->
      exists this2,
        Done_buffers a inBuf (Done_received a this)
        = inr (this2, [Reader_Close])
        /\ ReadOp.dataBuf (mReadOp this2) = all
        /\ mReadTail this2 = []
        /\ ReadOp.numBytes (mReadOp this2) = IOBuf.BytesConsumable all
        /\ mChunkSize this2 = mOffset this + IOBuf.BytesConsumable all
        /\ mPendingCloseFlag this2 = readerActive a
        /\ ReadOp.checksum (mReadOp this2)
           = Done_checksums (ReadOp.offset (mReadOp this)) all)
  /\ (~ endOfChunk -> 0 < nmv ->
      exists this2,
        Done_buffers a inBuf (Done_received a this) = inr (this2, [])
        /\ ReadOp.dataBuf (mReadOp this2) = take (Z.to_nat nmv) all
        /\ mReadTail this2 = drop (Z.to_nat nmv) all
        /\ ReadOp.dataBuf (mReadOp this2) ++ mReadTail this2 = all
        /\ ReadOp.numBytes (mReadOp this2) = nmv
        /\ Z.rem (ReadOp.numBytes (mReadOp this2)) CHECKSUM_BLOCKSIZE = 0
        /\ IOBuf.BytesConsumable (mReadTail this2) < CHECKSUM_BLOCKSIZE
        /\ mChunkSize this2 = mChunkSize this
        /\ ReadOp.checksum (mReadOp this2)
           = Done_checksums (ReadOp.offset (mReadOp this))
               (take (Z.to_nat nmv) all))
  /\ (~ endOfChunk -> nmv <= 0 ->
      Done_buffers a inBuf (Done_received a this)
      = inl (HandleRead
               (set_mReadOp
                  (ReadOp.set_dataBuf [] (mReadOp (Done_received a this)))
                  (set_mReadTail all (Done_received a this)))))
  /\ (forall (offset : Z) (buf : IOBuffer),
      Done_checksums offset buf <> [] ->
      Z.rem offset CHECKSUM_BLOCKSIZE = 0
      /\ Z.rem (IOBuf.BytesConsumable buf) CHECKSUM_BLOCKSIZE = 0).
Proof.
  intros Hrd Hreq Hoff Hsz Hfl Hcl Hst Hbuf Hcode all nmv endOfChunk.
  split; [|split; [|split; [|split]]].
  - rewrite (Done_with_data a inBuf this) by assumption.
    unfold all. rewrite BytesConsumable_app. reflexivity.
  - intros Heoc.
    destruct (Done_buffers_end_of_chunk a inBuf (Done_received a this))
      as (this2 & Hrun & Hd & Ht & Hn & _ & Hcs & _ & Hpc & _ & Hck);
      [reflexivity | exact Heoc |].
    exists this2. split; [exact Hrun|]. split; [exact Hd|].
    split; [exact Ht|]. split; [exact Hn|]. split; [exact Hcs|].
    split; [|exact Hck].
    rewrite Hpc. cbn. rewrite Hcl. apply orb_false_r.
  - intros Hneoc Hnmv.
    assert (Hfull : mReadSize this <= IOBuf.BytesConsumable inBuf)
      by (unfold endOfChunk in Hneoc; lia).
    assert (Hmore : mOffset this + IOBuf.BytesConsumable (mReadTail this)
                    + mReadSize this < mChunkSize this)
      by (unfold endOfChunk in Hneoc; lia).
    destruct (Done_buffers_whole_blocks a inBuf (Done_received a this))
      as (this2 & Hrun & Hd & Ht & Hn & _ & Hcs & _ & _ & Hck);
      [reflexivity | exact Hfull | exact Hmore | exact Hnmv |].
    cbn [Done_received mReadTail set_mReadOp set_mReadInFlightFlag]
      in Hd, Ht, Hn, Hck.
    fold all in Hd, Ht, Hn, Hck. fold nmv in Hd, Ht, Hn, Hck.
    exists this2. split; [exact Hrun|]. split; [exact Hd|].
    split; [exact Ht|]. split; [rewrite Hd, Ht; apply take_drop|].
    split; [exact Hn|].
    pose proof (BytesConsumable_nonneg all) as Hall.
    split; [rewrite Hn; subst nmv; unfold CHECKSUM_BLOCKSIZE; lia|].
    split; [|split; [exact Hcs | exact Hck]].
    rewrite Ht, BytesConsumable_drop;
      subst nmv; unfold CHECKSUM_BLOCKSIZE in *; lia.
  - intros Hneoc Hnmv.
    assert (Hfull : mReadSize this <= IOBuf.BytesConsumable inBuf)
      by (unfold endOfChunk in Hneoc; lia).
    assert (Hmore : mOffset this + IOBuf.BytesConsumable (mReadTail this)
                    + mReadSize this < mChunkSize this)
      by (unfold endOfChunk in Hneoc; lia).
    exact (Done_buffers_sub_block a inBuf (Done_received a this)
             Hfull Hmore Hnmv).
  - exact Done_checksums_aligned.
Qed.

(** C8: [SetParameters] reads the one key
    chunkServer.rsReader.meta.idleTimeoutSec for two options, the idle
    timeout of the meta server client and the
    reset-connection-on-op-timeout flag: both are set from the value of
    that key, and no other key of the properties has any effect on the
    flag. *)
Theorem C8_one_key_sets_two_options
  (props : gmap string string) (s : RSStatics) :
  let key := "chunkServer.rsReader.meta.idleTimeoutSec"%string in
  let s' := RSReplicatorImpl_SetParameters props s in
  sRSReaderMetaIdleTimeoutSec s'
  = getValue props key (sRSReaderMetaIdleTimeoutSec s)
  /\ sRSReaderMetaResetConnectionOnOpTimeoutFlag s'
     = negb (getValue props key
               (if sRSReaderMetaResetConnectionOnOpTimeoutFlag s
                then 1 else 0) =? 0)
  /\ (forall v : string,
      props !! key = Some v ->
      sRSReaderMetaIdleTimeoutSec s' = parseInt v
      /\ sRSReaderMetaResetConnectionOnOpTimeoutFlag s'
         = negb (parseInt v =? 0))
  /\ (props !! key = None ->
      sRSReaderMetaIdleTimeoutSec s' = sRSReaderMetaIdleTimeoutSec s
      /\ sRSReaderMetaResetConnectionOnOpTimeoutFlag s'
         = sRSReaderMetaResetConnectionOnOpTimeoutFlag s)
  /\ (forall (k v : string),
      k <> key ->
      sRSReaderMetaResetConnectionOnOpTimeoutFlag
        (RSReplicatorImpl_SetParameters (<[k := v]> props) s)
      = sRSReaderMetaResetConnectionOnOpTimeoutFlag s'
      /\ sRSReaderMetaResetConnectionOnOpTimeoutFlag
           (RSReplicatorImpl_SetParameters (delete k props) s)
         = sRSReaderMetaResetConnectionOnOpTimeoutFlag s').
Proof.
  intros key s'. subst s'.
  unfold RSReplicatorImpl_SetParameters, copyWithPrefix. cbv zeta.
  cbn [sRSReaderMetaIdleTimeoutSec
       sRSReaderMetaResetConnectionOnOpTimeoutFlag].
  fold key. unfold getValue.
  split; [reflexivity|]. split; [reflexivity|]. split; [|split].
  - intros v Hv. rewrite Hv. split; reflexivity.
  - intros Hnone. rewrite Hnone.
    split; [reflexivity|].
    destruct (sRSReaderMetaResetConnectionOnOpTimeoutFlag s); reflexivity.
  - intros k v Hne.
    rewrite lookup_insert_ne, lookup_delete_ne by exact Hne.
    split; reflexivity.
Qed.

(** [Read] below the chunk size sends one read of at most the default read
    size at [mOffset]. *)
Lemma Read_issues (this : ReplicatorImpl) (owner : ReplicateChunkOp.t) :
  mKind this = Direct ->
  mCancelFlag this = false ->
  mOwner this = Some owner ->
  is_null (mPeer this) = false ->
  mOffset this < mChunkSize this ->
  exists s rd,
    Read this = (s, [PeerEnqueueRead rd])
    /\ sameJob this s
    /\ mOffset s = mOffset this
    /\ mReadOp s = rd
    /\ ReadOp.offset rd = mOffset this
    /\ ReadOp.numBytes rd
       = Z.min (mChunkSize this - mOffset this) kDefaultReplicationReadSize
    /\ ReadOp.status rd = 0
    /\ ReadOp.dataBuf rd = [].
Proof.
  intros Hk Hc Hown Hpeer Hlt. unfold Read. rewrite Hk.
  unfold ReplicatorImpl_Read. rewrite Hc, Hown, Hpeer. fields.
  rewrite (proj2 (Z.leb_gt _ _)) by lia.
  do 2 eexists. split; [reflexivity|]. unfold sameJob. fields.
  repeat split; reflexivity.
Qed.

(** A read that needs no split, by what it leaves. *)
Lemma HandleReadDone_whole_frame (this : ReplicatorImpl) :
  let rd := mReadOp this in
  let numRd := IOBuf.BytesConsumable (ReadOp.dataBuf rd) in
  mCancelFlag this = false ->
  0 <= ReadOp.status rd ->
  ReadOp.numBytes rd <= numRd \/ mChunkSize this <= mOffset this + numRd ->
  mOffset this < mChunkSize this ->
  Z.rem (mOffset this) CHECKSUM_BLOCKSIZE = 0 ->
  ReadOp.checksum rd = [] ->
  numRd <= CHECKSUM_BLOCKSIZE \/ Z.rem numRd CHECKSUM_BLOCKSIZE = 0 ->
  (forall w fh, 0 <= WriteChunk w fh) ->
  exists s w,
    HandleReadDone this = (s, [WriteChunk_call w])
    /\ sameJob this s
    /\ mOffset s = mOffset this
    /\ WriteOp.offset w = mOffset this
    /\ WriteOp.numBytes w = numRd
    /\ WriteOp.dataBuf w = ReadOp.dataBuf rd
    /\ ReadOp.dataBuf (mReadOp s) = [].
Proof.
  intros rd numRd Hc Hst Hshort Hlt Hal Hck Hsz Hwc.
  destruct (HandleReadDone_whole this Hc Hst Hshort Hlt Hal
              (or_introl Hck) Hsz Hwc) as (s & w & Hrun & -> & ->).
  do 2 eexists. split; [exact Hrun|]. unfold sameJob, writeOf. fields.
  repeat split; reflexivity.
Qed.

(** A completed write with nothing carried over goes on to the next
    read. *)
Lemma HandleWriteDone_next (this : ReplicatorImpl) (n : Z) :
  mCancelFlag this = false ->
  ReadOp.dataBuf (mReadOp this) = [] ->
  HandleWriteDone (DiskWriteReply 0 n this)
  = Read (set_mOffset (mOffset this + n) (DiskWriteReply 0 n this)).
Proof.
  intros Hc Hbuf. unfold HandleWriteDone, DiskWriteReply. fields.
  rewrite Hc, Hbuf. fields. change (0 <? 0) with false. fields.
  rewrite andb_false_r. reflexivity.
Qed.

(** Scenario S2 of the spec, chunkSize = 1 MiB + 17 bytes, with a peer that
    returns what each read asks for: [Read] asks for 1 MiB, which is
    written at offset 0; the next [Read] asks for the 17 bytes left, which
    are written at offset 1 MiB; the read after that finds the chunk
    complete and finalizes it.  Two writes, 1 MiB at 0 and 17 bytes at
    1 MiB. *)
Lemma S2_two_writes (this : ReplicatorImpl) (owner : ReplicateChunkOp.t)
                    (d1 d2 : IOBuffer) :
  mKind this = Direct ->
  mCancelFlag this = false ->
  mOwner this = Some owner ->
  is_null (mPeer this) = false ->
  mOffset this = 0 ->
  mChunkSize this = 1048576 + 17 ->
  IOBuf.BytesConsumable d1 = 1048576 ->
  IOBuf.BytesConsumable d2 = 17 ->
  (forall w fh, 0 <= WriteChunk w fh) ->
  exists s1 rd1 s2 w1 s3 rd2 s4 w2 s5,
    Read this = (s1, [PeerEnqueueRead rd1])
    /\ (ReadOp.offset rd1, ReadOp.numBytes rd1) = (0, 1048576)
    /\ HandleReadDone (PeerReadReply 0 d1 [] s1) = (s2, [WriteChunk_call w1])
    /\ (WriteOp.offset w1, WriteOp.numBytes w1, WriteOp.dataBuf w1)
       = (0, 1048576, d1)
    /\ HandleWriteDone (DiskWriteReply 0 1048576 s2)
       = (s3, [PeerEnqueueRead rd2])
    /\ (ReadOp.offset rd2, ReadOp.numBytes rd2) = (1048576, 17)
    /\ HandleReadDone (PeerReadReply 0 d2 [] s3) = (s4, [WriteChunk_call w2])
    /\ (WriteOp.offset w2, WriteOp.numBytes w2, WriteOp.dataBuf w2)
       = (1048576, 17, d2)
    /\ HandleWriteDone (DiskWriteReply 0 17 s4) = Terminate 0 s5
    /\ mDone s5 = true
    /\ mOffset s5 = mChunkSize s5.
Proof.
  intros Hk Hc Hown Hpeer Hoff Hsize Hd1 Hd2 Hwc.
  (* the first read *)
  destruct (Read_issues this owner Hk Hc Hown Hpeer)
    as (s1 & rd1 & Hr1 & (Hk1 & Hc1 & Ho1 & Hp1 & Hs1) & Hoff1 & Erd1
        & Hro1 & Hrn1 & Hrs1 & _); [lia|].
  rewrite Hoff in Hoff1, Hro1, Hrn1. rewrite Hsize in Hs1, Hrn1.
  change (Z.min (1048576 + 17 - 0) kDefaultReplicationReadSize)
    with 1048576 in Hrn1.
  (* its data is written whole *)
  destruct (HandleReadDone_whole_frame (PeerReadReply 0 d1 [] s1))
    as (s2 & w1 & Hw1 & (Hk2 & Hc2 & Ho2 & Hp2 & Hs2) & Hoff2 & Hwo1 & Hwn1
        & Hwd1 & Hbuf2);
    [ unfold PeerReadReply; fields;
      rewrite ?Hd1, ?Hoff1, ?Hs1, ?Erd1, ?Hrn1, ?Hc1;
      try reflexivity; try assumption; try discriminate;
      try (left; discriminate); try (right; reflexivity) .. | ].
  unfold PeerReadReply in Hk2, Hc2, Ho2, Hp2, Hs2, Hoff2, Hwo1, Hwn1, Hwd1.
  cbn in Hk2, Hc2, Ho2, Hp2, Hs2, Hoff2, Hwo1, Hwn1, Hwd1.
  rewrite Hd1 in Hwn1. rewrite Hoff1 in Hoff2, Hwo1.
  (* the write completes and the next read asks for what is left *)
  pose proof (HandleWriteDone_next s2 1048576) as Hnext1.
  rewrite Hc2, Hc1 in Hnext1. specialize (Hnext1 Hc Hbuf2).
  destruct (Read_issues
              (set_mOffset (mOffset s2 + 1048576)
                 (DiskWriteReply 0 1048576 s2)) owner)
    as (s3 & rd2 & Hr2 & (Hk3 & Hc3 & Ho3 & Hp3 & Hs3) & Hoff3 & Erd2
        & Hro2 & Hrn2 & Hrs2 & _);
    [ unfold DiskWriteReply; fields;
      rewrite ?Hk2, ?Hk1, ?Hc2, ?Hc1, ?Ho2, ?Ho1, ?Hp2, ?Hp1, ?Hs2, ?Hs1,
              ?Hoff2;
      try assumption; try reflexivity .. | ].
  unfold DiskWriteReply in Hk3, Hc3, Ho3, Hp3, Hs3, Hoff3, Hro2, Hrn2.
  cbn in Hk3, Hc3, Ho3, Hp3, Hs3, Hoff3, Hro2, Hrn2.
  rewrite Hoff2 in Hoff3, Hro2, Hrn2. rewrite Hs2, Hs1 in Hs3, Hrn2.
  change (Z.min (1048576 + 17 - (0 + 1048576)) kDefaultReplicationReadSize)
    with 17 in Hrn2.
  change (0 + 1048576) with 1048576 in Hoff3, Hro2.
  rewrite Hr2 in Hnext1.
  (* the 17 bytes are written whole *)
  destruct (HandleReadDone_whole_frame (PeerReadReply 0 d2 [] s3))
    as (s4 & w2 & Hw2 & (Hk4 & Hc4 & Ho4 & Hp4 & Hs4) & Hoff4 & Hwo2 & Hwn2
        & Hwd2 & Hbuf4);
    [ unfold PeerReadReply; fields;
      rewrite ?Hd2, ?Hoff3, ?Hs3, ?Erd2, ?Hrn2, ?Hc3, ?Hc2, ?Hc1;
      try reflexivity; try assumption; try discriminate;
      try (left; discriminate); try (left; reflexivity) .. | ].
  unfold PeerReadReply in Hk4, Hc4, Ho4, Hp4, Hs4, Hoff4, Hwo2, Hwn2, Hwd2.
  cbn in Hk4, Hc4, Ho4, Hp4, Hs4, Hoff4, Hwo2, Hwn2, Hwd2.
  rewrite Hd2 in Hwn2. rewrite Hoff3 in Hoff4, Hwo2.
  (* the write completes and the chunk is done *)
  pose proof (HandleWriteDone_next s4 17) as Hnext2.
  rewrite Hc4, Hc3, Hc2, Hc1 in Hnext2. specialize (Hnext2 Hc Hbuf4).
  exists s1, rd1, s2, w1, s3, rd2, s4, w2,
         (set_mDone true
            (set_mOffset (mOffset s4 + 17) (DiskWriteReply 0 17 s4))).
  split; [exact Hr1|]. split; [rewrite Hro1, Hrn1; reflexivity|].
  split; [exact Hw1|]. split; [rewrite Hwo1, Hwn1, Hwd1; reflexivity|].
  split; [exact Hnext1|]. split; [rewrite Hro2, Hrn2; reflexivity|].
  split; [exact Hw2|]. split; [rewrite Hwo2, Hwn2, Hwd2; reflexivity|].
  split; [|split; [reflexivity|]].
  - rewrite Hnext2. unfold Read, DiskWriteReply. fields.
    rewrite Hk4, Hk3, Hk2, Hk1, Hk. unfold ReplicatorImpl_Read. fields.
    rewrite Hc4, Hc3, Hc2, Hc1, Hc, Ho4, Ho3, Ho2, Ho1, Hown.
    rewrite Hs4, Hs3, Hoff4. fields.
    change (1048576 + 17 <=? 1048576 + 17) with true.
    change (1048576 + 17 =? 1048576 + 17) with true. cbv iota. fields.
    reflexivity.
  - unfold DiskWriteReply. fields. rewrite Hs4, Hs3, Hoff4. reflexivity.
Qed.

(** ** Read size of the recovery reader *)

Lemma GetGcd_loop_abs (turns : nat) (a b : Z) :
  (Z.abs_nat b < turns)%nat ->
  Z.abs (GetGcd_loop turns a b) = Z.gcd a b.
Proof.
  revert a b; induction turns as [|turns IH]; intros a b Hb; [lia|].
  simpl. destruct (Z.eqb_spec b 0) as [->|Hne].
  - rewrite Z.gcd_0_r. reflexivity.
  - rewrite IH.
    + rewrite (Z.gcd_comm b), Z.gcd_rem by exact Hne. apply Z.gcd_comm.
    + pose proof (Z.rem_bound_abs a b Hne). lia.
Qed.

Lemma GetGcd_loop_nonneg (turns : nat) (a b : Z) :
  0 <= a -> 0 <= b -> 0 <= GetGcd_loop turns a b.
Proof.
  revert a b; induction turns as [|turns IH]; intros a b Ha Hb; [exact Ha|].
  simpl. destruct (Z.eqb_spec b 0) as [->|Hne]; [exact Ha|].
  apply IH; [exact Hb|]. apply Z.rem_nonneg; [exact Hne|exact Ha].
Qed.

(** X1: GetGcd computes the greatest common divisor: up to sign for any two
    integers, and exactly when neither is negative; in particular the loop
    has ended within the turns the model gives it. *)
Theorem X1_GetGcd_is_gcd (nl nr : Z) :
  Z.abs (GetGcd nl nr) = Z.gcd nl nr
  /\ (0 <= nl -> 0 <= nr -> GetGcd nl nr = Z.gcd nl nr)
  /\ (forall turns : nat,
      (Z.abs_nat nr < turns)%nat ->
      Z.abs (GetGcd_loop turns nl nr) = Z.abs (GetGcd nl nr)).
Proof.
  assert (Habs : Z.abs (GetGcd nl nr) = Z.gcd nl nr)
    by (unfold GetGcd; apply GetGcd_loop_abs; lia).
  split; [exact Habs|]. split.
  - intros Hl Hr. rewrite <- Habs.
    symmetry; apply Z.abs_eq. unfold GetGcd.
    apply GetGcd_loop_nonneg; assumption.
  - intros turns Ht. rewrite Habs. apply GetGcd_loop_abs; exact Ht.
Qed.

Lemma GetGcd_pos (nl nr : Z) :
  0 < nl -> 0 < nr -> GetGcd nl nr = Z.gcd nl nr /\ 0 < Z.gcd nl nr.
Proof.
  intros Hl Hr. split.
  - unfold GetGcd. rewrite <- (GetGcd_loop_abs (S (Z.abs_nat nr))) by lia.
    symmetry; apply Z.abs_eq. apply GetGcd_loop_nonneg; lia.
  - pose proof (Z.gcd_nonneg nl nr).
    destruct (Z.eq_dec (Z.gcd nl nr) 0) as [H0|H0]; [|lia].
    apply Z.gcd_eq_0_l in H0. lia.
Qed.

Lemma lcm_pos (nl nr : Z) : 0 < nl -> 0 < nr -> 0 < Z.lcm nl nr.
Proof.
  intros Hl Hr. pose proof (Z.lcm_nonneg nl nr).
  destruct (Z.eq_dec (Z.lcm nl nr) 0) as [H0|H0]; [|lia].
  apply Z.lcm_eq_0 in H0. lia.
Qed.

Lemma GetLcm_wraps (nl nr : Z) :
  0 < nl -> 0 < nr -> GetLcm nl nr = to_int (Z.lcm nl nr).
Proof.
  intros Hl Hr.
  destruct (GetGcd_pos nl nr Hl Hr) as [Hg Hgpos].
  unfold GetLcm.
  rewrite (proj2 (Z.eqb_neq nl 0)), (proj2 (Z.eqb_neq nr 0)) by lia.
  cbn [orb]. rewrite Hg. f_equal.
  destruct (Z.gcd_divide_l nl nr) as [p Hp].
  destruct (Z.gcd_divide_r nl nr) as [q Hq].
  unfold Z.lcm.
  remember (Z.gcd nl nr) as g eqn:Heqg. clear Heqg Hg.
  assert (0 < p) by nia. assert (0 < q) by nia.
  subst nl nr.
  rewrite Z.quot_mul, Z.div_mul by lia.
  rewrite Z.abs_eq by nia. ring.
Qed.

Lemma GetLcm_pos (nl nr : Z) :
  0 < nl -> 0 < nr -> Z.lcm nl nr < 2 ^ 31 ->
  GetLcm nl nr = Z.lcm nl nr
  /\ 0 < GetLcm nl nr
  /\ Z.rem (GetLcm nl nr) nl = 0
  /\ Z.rem (GetLcm nl nr) nr = 0.
Proof.
  intros Hl Hr Hint.
  pose proof (lcm_pos nl nr Hl Hr) as Hpos.
  assert (Heq : GetLcm nl nr = Z.lcm nl nr).
  { rewrite GetLcm_wraps by assumption. apply to_int_small.
    split; [|exact Hint]. transitivity 0; [discriminate|].
    apply Z.lt_le_incl. exact Hpos. }
  rewrite Heq.
  split; [reflexivity|]. split; [exact Hpos|]. split.
  - apply Z.rem_divide; [lia|]. apply Z.divide_lcm_l.
  - apply Z.rem_divide; [lia|]. apply Z.divide_lcm_r.
Qed.

(** X2: GetLcm is zero when either argument is zero.  For two positive
    arguments it is their least common multiple as an [int]: when the least
    common multiple is below 2^31 GetLcm is that number, positive, a
    multiple of both and dividing every common multiple, and beyond it is
    the least common multiple modulo 2^32. *)
Theorem X2_GetLcm_is_lcm (nl nr : Z) :
  (nl = 0 \/ nr = 0 -> GetLcm nl nr = 0)
  /\ (0 < nl -> 0 < nr ->
      GetLcm nl nr = to_int (Z.lcm nl nr)
      /\ (Z.lcm nl nr < 2 ^ 31 ->
          GetLcm nl nr = Z.lcm nl nr
          /\ 0 < GetLcm nl nr
          /\ Z.rem (GetLcm nl nr) nl = 0
          /\ Z.rem (GetLcm nl nr) nr = 0
          /\ forall m : Z,
             Z.rem m nl = 0 -> Z.rem m nr = 0 ->
             Z.rem m (GetLcm nl nr) = 0)).
Proof.
  split.
  - intros [->| ->]; unfold GetLcm.
    + reflexivity.
    + rewrite Z.eqb_refl, orb_true_r. reflexivity.
  - intros Hl Hr. split; [apply GetLcm_wraps; assumption|]. intros Hint.
    destruct (GetLcm_pos nl nr Hl Hr Hint) as (Heq & Hpos & Hml & Hmr).
    repeat (split; [assumption|]).
    intros m Hm1 Hm2.
    apply Z.rem_divide; [lia|]. rewrite Heq.
    apply Z.lcm_least; apply Z.rem_divide; first [lia | assumption].
Qed.

Lemma rem_quot_mul (a b : Z) : b <> 0 -> Z.rem (Z.quot a b * b) b = 0.
Proof. intros Hb. apply Z.rem_mul; exact Hb. Qed.

Lemma rem_trans (a b c : Z) :
  b <> 0 -> c <> 0 -> Z.rem a b = 0 -> Z.rem b c = 0 -> Z.rem a c = 0.
Proof.
  intros Hb Hc Hab Hbc.
  apply Z.rem_divide; [exact Hc|].
  apply Z.rem_divide in Hab; [|exact Hb].
  apply Z.rem_divide in Hbc; [|exact Hc].
  eapply Z.divide_trans; eassumption.
Qed.

Lemma to_int_block (x : Z) :
  Z.rem x CHECKSUM_BLOCKSIZE = 0 -> Z.rem (to_int x) CHECKSUM_BLOCKSIZE = 0.
Proof.
  unfold to_int, CHECKSUM_BLOCKSIZE. intros H.
  change (2 ^ 31) with 2147483648. change (2 ^ 32) with 4294967296. lia.
Qed.

Lemma quot_mul_pos (a b : Z) : 0 < b -> b <= a -> 0 < Z.quot a b * b.
Proof.
  intros Hb Hab.
  assert (1 <= Z.quot a b).
  { apply Z.quot_le_lower_bound; lia. }
  nia.
Qed.

Lemma GetReadSize_size_block (op : ReplicateChunkOp.t) :
  Z.rem (sRSReaderMaxReadSize statics) CHECKSUM_BLOCKSIZE = 0 ->
  CHECKSUM_BLOCKSIZE <= GetReadSize_size op
  /\ Z.rem (GetReadSize_size op) CHECKSUM_BLOCKSIZE = 0.
Proof.
  intros Hmax. unfold GetReadSize_size.
  set (q := Z.quot (Z.quot _ _) CHECKSUM_BLOCKSIZE * CHECKSUM_BLOCKSIZE).
  assert (Hq : Z.rem q CHECKSUM_BLOCKSIZE = 0)
    by (apply rem_quot_mul; discriminate).
  assert (Hmin : Z.rem (Z.min (sRSReaderMaxReadSize statics) q)
                       CHECKSUM_BLOCKSIZE = 0)
    by (destruct (Z.min_spec (sRSReaderMaxReadSize statics) q)
          as [[_ ->]|[_ ->]]; assumption).
  apply to_int_block in Hmin.
  split; [apply Z.le_max_l|].
  destruct (Z.max_spec CHECKSUM_BLOCKSIZE
              (to_int (Z.min (sRSReaderMaxReadSize statics) q)))
    as [[_ ->]|[_ ->]]; [exact Hmin|reflexivity].
Qed.

(** X3: GetReadSize returns a size exactly when its assertion holds.  For
    a stripe size whose least common multiple with the checksum block is an
    [int], below 2^31, the size is positive and a multiple of the I/O buffer
    size, which is what the constructor of the recovery replicator asserts;
    it is a multiple of the checksum block or of the stripe, and a multiple
    of the stripe whenever it exceeds the stripe. *)
Theorem X3_GetReadSize_aligned (op : ReplicateChunkOp.t) :
  0 < GetDefaultBufferSize ->
  Z.lcm CHECKSUM_BLOCKSIZE (ReplicateChunkOp.stripeSize op) < 2 ^ 31 ->
  (is_Some (GetReadSize op) <->
   CHECKSUM_BLOCKSIZE <= sRSReaderMaxReadSize statics
   /\ 0 < ReplicateChunkOp.stripeSize op
   /\ Z.rem (sRSReaderMaxReadSize statics) CHECKSUM_BLOCKSIZE = 0
   /\ Z.rem CHECKSUM_BLOCKSIZE GetDefaultBufferSize = 0)
  /\ forall n : Z,
     GetReadSize op = Some n ->
     0 < n
     /\ Z.rem n GetDefaultBufferSize = 0
     /\ (Z.rem n CHECKSUM_BLOCKSIZE = 0
         \/ Z.rem n (ReplicateChunkOp.stripeSize op) = 0)
     /\ (ReplicateChunkOp.stripeSize op < n ->
         Z.rem n (ReplicateChunkOp.stripeSize op) = 0).
Proof.
  intros Hio Hint.
  assert (Hshape :
    GetReadSize op
    = if negb ((CHECKSUM_BLOCKSIZE <=? sRSReaderMaxReadSize statics)
               && (0 <? ReplicateChunkOp.stripeSize op)
               && (Z.rem (sRSReaderMaxReadSize statics) CHECKSUM_BLOCKSIZE
                   =? 0)
               && (Z.rem CHECKSUM_BLOCKSIZE GetDefaultBufferSize =? 0))
      then None else
      let size := GetReadSize_size op in
      if size <=? ReplicateChunkOp.stripeSize op then Some size else
      let lcm := GetLcm CHECKSUM_BLOCKSIZE (ReplicateChunkOp.stripeSize op) in
      if size <? lcm then
        let lcm := GetLcm GetDefaultBufferSize
                          (ReplicateChunkOp.stripeSize op) in
        if size <? lcm then Some lcm else Some (Z.quot size lcm * lcm)
      else Some (Z.quot size lcm * lcm)) by reflexivity.
  rewrite Hshape; clear Hshape.
  destruct (Z.leb_spec CHECKSUM_BLOCKSIZE (sRSReaderMaxReadSize statics))
    as [H1|H1];
    [|split; [split; [intros [n Hn]; discriminate|lia]
             |intros n Hn; discriminate]].
  destruct (Z.ltb_spec 0 (ReplicateChunkOp.stripeSize op)) as [H2|H2];
    [|split; [split; [intros [n Hn]; discriminate|lia]
             |intros n Hn; discriminate]].
  destruct (Z.eqb_spec (Z.rem (sRSReaderMaxReadSize statics)
                              CHECKSUM_BLOCKSIZE) 0) as [H3|H3];
    [|split; [split; [intros [n Hn]; discriminate|intros (_ & _ & ? & ?); contradiction]
             |intros n Hn; discriminate]].
  destruct (Z.eqb_spec (Z.rem CHECKSUM_BLOCKSIZE GetDefaultBufferSize) 0)
    as [H4|H4];
    [|split; [split; [intros [n Hn]; discriminate|intros (_ & _ & ? & ?); contradiction]
             |intros n Hn; discriminate]].
  cbn [andb negb]. cbv zeta.
  destruct (GetReadSize_size_block op H3) as [Hge Hblk].
  set (size := GetReadSize_size op) in *.
  set (stripe := ReplicateChunkOp.stripeSize op) in *.
  assert (Hcpos : 0 < CHECKSUM_BLOCKSIZE) by reflexivity.
  assert (Hint2 : Z.lcm GetDefaultBufferSize stripe < 2 ^ 31).
  { assert (Hd : (Z.lcm GetDefaultBufferSize stripe
                  | Z.lcm CHECKSUM_BLOCKSIZE stripe)).
    { apply Z.lcm_least; [|apply Z.divide_lcm_r].
      apply (Z.divide_trans _ CHECKSUM_BLOCKSIZE); [|apply Z.divide_lcm_l].
      apply Z.rem_divide; [lia | exact H4]. }
    apply Z.divide_pos_le in Hd;
      [|apply lcm_pos; [reflexivity | exact H2]].
    eapply Z.le_lt_trans; [exact Hd | exact Hint]. }
  destruct (GetLcm_pos CHECKSUM_BLOCKSIZE stripe Hcpos H2 Hint)
    as (_ & Hl1pos & Hl1c & Hl1s).
  destruct (GetLcm_pos GetDefaultBufferSize stripe Hio H2 Hint2)
    as (_ & Hl2pos & Hl2c & Hl2s).
  set (lcm1 := GetLcm CHECKSUM_BLOCKSIZE stripe) in *.
  set (lcm2 := GetLcm GetDefaultBufferSize stripe) in *.
  assert (Hsio : Z.rem size GetDefaultBufferSize = 0)
    by (apply (rem_trans size CHECKSUM_BLOCKSIZE); [discriminate|lia|assumption..]).
  split.
  - split; [intros _; repeat split; assumption|intros _].
    destruct (size <=? stripe); [eexists; reflexivity|].
    destruct (size <? lcm1); [|eexists; reflexivity].
    destruct (size <? lcm2); eexists; reflexivity.
  - intros n.
    destruct (Z.leb_spec size stripe) as [Hle|Hgt].
    { intros [= <-]. split; [lia|]. split; [exact Hsio|].
      split; [left; exact Hblk|lia]. }
    destruct (Z.ltb_spec size lcm1) as [Hb1|Hb1].
    + destruct (Z.ltb_spec size lcm2) as [Hb2|Hb2]; intros [= <-].
      * split; [exact Hl2pos|]. split; [exact Hl2c|].
        split; [right; exact Hl2s|intros _; exact Hl2s].
      * assert (Hm : Z.rem (Z.quot size lcm2 * lcm2) lcm2 = 0)
          by (apply rem_quot_mul; lia).
        assert (Hp : 0 < Z.quot size lcm2 * lcm2)
          by (apply quot_mul_pos; lia).
        split; [exact Hp|].
        split; [apply (rem_trans _ lcm2); [lia|lia|assumption..]|].
        assert (Hs : Z.rem (Z.quot size lcm2 * lcm2) stripe = 0)
          by (apply (rem_trans _ lcm2); [lia|lia|assumption..]).
        split; [right; exact Hs|intros _; exact Hs].
    + intros [= <-].
      assert (Hm : Z.rem (Z.quot size lcm1 * lcm1) lcm1 = 0)
        by (apply rem_quot_mul; lia).
      assert (Hp : 0 < Z.quot size lcm1 * lcm1)
        by (apply quot_mul_pos; lia).
      assert (Hc : Z.rem (Z.quot size lcm1 * lcm1) CHECKSUM_BLOCKSIZE = 0)
        by (apply (rem_trans _ lcm1); [lia|discriminate|assumption..]).
      split; [exact Hp|].
      split; [apply (rem_trans _ CHECKSUM_BLOCKSIZE);
              [discriminate|lia|assumption..]|].
      split; [left; exact Hc|intros _].
      apply (rem_trans _ lcm1); [lia|lia|assumption..].
Qed.

(** ** Reader sequence numbers and the pool of meta server clients *)

Lemma to_int64_small (x : Z) : - 2 ^ 63 <= x < 2 ^ 63 -> to_int64 x = x.
Proof.
  unfold to_int64. change (2 ^ 63) with 9223372036854775808.
  change (2 ^ 64) with 18446744073709551616. intros H.
  rewrite Z.mod_small by (clear - H; lia). clear; lia.
Qed.

Lemma GetSeqNum_step (r : Z) (st : option (Z * Z)) :
  let prev := match st with Some s => s.1 | None => r end in
  - 2 ^ 63 <= prev ->
  prev + 132767 < 2 ^ 63 ->
  exists d rnd,
    GetSeqNum r st = (prev + 100000 + d, Some (prev + 100000 + d, rnd))
    /\ 0 <= d < 32768
    /\ 0 <= rnd < 2 ^ 32.
Proof.
  intros prev Hlo Hhi. unfold GetSeqNum.
  set (seed := match st with Some s => s | None => (r, r mod 2 ^ 32) end).
  assert (Hprev : seed.1 = prev) by (subst seed prev; destruct st; reflexivity).
  destruct seed as [n0 s0]. cbn [fst] in Hprev. subst n0. cbv zeta.
  set (rnd := (s0 * 1103515245 + 12345) mod 2 ^ 32).
  set (d := Z.quot rnd 65536 mod 32768).
  assert (Hd : 0 <= d < 32768) by (apply Z.mod_pos_bound; reflexivity).
  assert (Hrnd : 0 <= rnd < 2 ^ 32) by (apply Z.mod_pos_bound; reflexivity).
  exists d, rnd.
  rewrite to_int64_small by (clearbody d; clear - Hlo Hhi Hd; lia).
  replace (prev + (100000 + d)) with (prev + 100000 + d) by ring.
  split; [reflexivity|]. split; assumption.
Qed.

(** X4: as long as the sequence numbers stay below 2^63, the number
    GetSeqNum returns is 100000 to 132767 above the previous one (the seed,
    on the first call), whatever the random seed and the state, so
    successive readers get increasing, distinct sequence numbers. *)
Theorem X4_GetSeqNum_steps (r1 r2 : Z) (st : option (Z * Z)) :
  let prev := match st with Some s => s.1 | None => r1 end in
  let c1 := GetSeqNum r1 st in
  let c2 := GetSeqNum r2 c1.2 in
  - 2 ^ 63 <= prev ->
  prev + 2 * 132767 < 2 ^ 63 ->
  prev + 100000 <= c1.1 <= prev + 132767
  /\ c1.1 + 100000 <= c2.1 <= c1.1 + 132767
  /\ exists rnd, c1.2 = Some (c1.1, rnd) /\ 0 <= rnd < 2 ^ 32.
Proof.
  intros prev c1 c2 Hlo Hhi.
  destruct (GetSeqNum_step r1 st) as (d1 & rnd1 & H1 & Hd1 & Hrnd1);
    [exact Hlo | fold prev; clear - Hhi; lia |].
  fold prev in H1. subst c2 c1. rewrite H1. cbn [fst snd].
  destruct (GetSeqNum_step r2 (Some (prev + 100000 + d1, rnd1)))
    as (d2 & rnd2 & H2 & Hd2 & _); cbn [fst snd];
    [clear - Hlo Hd1; lia | clear - Hhi Hd1; lia |].
  cbn [fst snd] in H2. rewrite H2. cbn [fst snd].
  split; [clear - Hd1; lia|]. split; [clear - Hd2; lia|].
  exists rnd1. split; [reflexivity | exact Hrnd1].
Qed.

(** X5: with [sLastIdx] inside the pool (or -1, its initial value),
    GetMetaserver picks an entry inside the pool and leaves [sLastIdx]
    there; the entry of the main thread is picked exactly when there is no
    client thread or [sMaxRecoveryThreads] is not positive, and otherwise the
    client thread handed back exists; the next entry is the one after the
    last, or the first one of a client thread.  Without an op the pools are
    stopped if they were in use and [sLastIdx] is -1 again. *)
Theorem X5_GetMetaserver_in_pool
  (clientThreadCount : Z) (authFlag : bool) (sLastIdx : Z) :
  let sMaxCount := Z.max 0 clientThreadCount + 1 in
  -1 <= sLastIdx < sMaxCount ->
  (exists idx,
     GetMetaserver clientThreadCount authFlag true sLastIdx
     = (Entry authFlag idx (if idx =? 0 then None else Some (idx - 1)), idx)
     /\ 0 <= idx < sMaxCount
     /\ (idx = 0 <->
         clientThreadCount <= 0 \/ sMaxRecoveryThreads statics <= 0)
     /\ (0 < idx -> 0 <= idx - 1 < clientThreadCount)
     /\ (0 < idx -> idx = Z.max 0 sLastIdx + 1 \/ idx = 1))
  /\ GetMetaserver clientThreadCount authFlag false sLastIdx
     = (NoEntry (0 <=? sLastIdx), -1).
Proof.
  intros sMaxCount Hin.
  set (mt := sMaxRecoveryThreads statics).
  set (l0 := if sLastIdx <? 0 then 0 else sLastIdx).
  set (idx := if Z.min mt sMaxCount <=? l0 + 1
              then (if (sMaxCount <=? 1) || (mt <=? 0) then 0 else 1)
              else l0 + 1).
  assert (Heq : GetMetaserver clientThreadCount authFlag true sLastIdx
                = (Entry authFlag idx
                         (if idx <=? 0 then None else Some (idx - 1)), idx)).
  { unfold GetMetaserver. rewrite andb_false_r. reflexivity. }
  assert (Hl0 : l0 = Z.max 0 sLastIdx)
    by (subst l0; destruct (Z.ltb_spec sLastIdx 0); lia).
  assert (Hidx : 0 <= idx < sMaxCount
                 /\ (idx = 0 <-> clientThreadCount <= 0 \/ mt <= 0)
                 /\ (0 < idx -> 0 <= idx - 1 < clientThreadCount)
                 /\ (0 < idx -> idx = Z.max 0 sLastIdx + 1 \/ idx = 1)).
  { rewrite <- Hl0. subst idx sMaxCount.
    destruct (Z.leb_spec (Z.min mt (Z.max 0 clientThreadCount + 1)) (l0 + 1));
      destruct (Z.leb_spec (Z.max 0 clientThreadCount + 1) 1);
      destruct (Z.leb_spec mt 0); cbn [orb];
      (split; [lia|]); (split; [split; intros; lia|]); split; intros; lia. }
  split.
  - exists idx. split; [|exact Hidx].
    rewrite Heq. destruct Hidx as [Hb _].
    destruct (Z.leb_spec idx 0); destruct (Z.eqb_spec idx 0);
      first [reflexivity | lia].
  - unfold GetMetaserver.
    destruct (Z.ltb_spec sLastIdx 0) as [Hl|Hl];
      destruct (Z.leb_spec 0 sLastIdx); try lia; cbn [negb andb].
    + replace sLastIdx with (-1) by lia. reflexivity.
    + reflexivity.
Qed.

(** ** Completion *)

Lemma diskWrites_app (a b : list Event) :
  diskWrites (a ++ b) = diskWrites a ++ diskWrites b.
Proof.
  induction a as [|e a IH]; [reflexivity|].
  destruct e; simpl; rewrite ?IH; reflexivity.
Qed.

Lemma counted_app (a b : list Event) :
  counted (a ++ b) = counted a ++ counted b.
Proof.
  induction a as [|e a IH]; [reflexivity|].
  destruct e; simpl; rewrite ?IH; reflexivity.
Qed.

Lemma releases_app (a b : list Event) :
  releases (a ++ b) = releases a ++ releases b.
Proof.
  induction a as [|e a IH]; [reflexivity|].
  destruct e; simpl; rewrite ?IH; reflexivity.
Qed.

Lemma requests_app (a b : list Event) :
  requests (a ++ b) = requests a ++ requests b.
Proof. apply List.filter_app. Qed.

Lemma failStatus_neg (status : Z) : failStatus status < 0.
Proof. unfold failStatus. zcases; lia. Qed.

Lemma failStatus_of_neg (status : Z) : status < 0 -> failStatus status = status.
Proof. unfold failStatus. intros H. zdecide. reflexivity. Qed.

Lemma failStatus_of_pos (status : Z) :
  0 < status -> failStatus status = - status.
Proof. unfold failStatus. intros H. zdecide. reflexivity. Qed.

(** The trace of a completion: the file handle goes back if one is held,
    a failure or a cancellation is counted, and the op is answered. *)
Lemma HandleReplicationDone_trace (data : option Z) (this : ReplicatorImpl)
                                  (owner : ReplicateChunkOp.t) :
  mOwner this = Some owner ->
  (HandleReplicationDone data this).2
  = match mFileHandle this with
    | Some fileH => [ReplicationDone_call (mChunkId this) (statusOf data) fileH]
    | None => []
    end
    ++ (if (statusOf data <? 0) || mCancelFlag this
        then [CounterInc (failureCounter owner (mCancelFlag this))] else [])
    ++ [SubmitOpResponse (answered (statusOf data) this owner)].
Proof.
  intros Hown. unfold HandleReplicationDone. rewrite Hown.
  fold (statusOf data). cbn [snd]. fields.
  unfold failureCounter, answered.
  f_equal. f_equal.
  destruct (Z.leb_spec 0 (statusOf data)); destruct (Z.ltb_spec (statusOf data) 0);
    try lia; fields;
    destruct (mCancelFlag this); fields;
    try (destruct (Z.ltb_spec (statusOf data) 0); [|lia]);
    destruct (IsValid (ReplicateChunkOp.location owner)); reflexivity.
Qed.

Lemma HandleReplicationDone_obj (data : option Z) (this : ReplicatorImpl)
                                (owner : ReplicateChunkOp.t) :
  mOwner this = Some owner ->
  (HandleReplicationDone data this).1
  = UnRef
      (set_mOwner None
         (set_mChunkMetadataOp
            (GetChunkMetadataOp.set_requestChunkAccess None
               (mChunkMetadataOp this))
            (set_mReadOp
               (ReadOp.set_requestChunkAccess None (mReadOp this))
               (set_mFileHandle None this)))).
Proof.
  intros Hown. unfold HandleReplicationDone. rewrite Hown. reflexivity.
Qed.

(** What a failed or cancelled [Terminate] leaves in the trace. *)
Lemma Terminate_fails (status : Z) (this : ReplicatorImpl)
                      (owner : ReplicateChunkOp.t) :
  mOwner this = Some owner ->
  mDone this && negb (mCancelFlag this) = false ->
  (Terminate status this).2
  = match mFileHandle this with
    | Some fileH =>
      [ReplicationDone_call (mChunkId this) (failStatus status) fileH]
    | None => []
    end
    ++ [CounterInc (failureCounter owner (mCancelFlag this));
        SubmitOpResponse
          (ReplicateChunkOp.set_chunkVersion (-1)
             (ReplicateChunkOp.set_status (failStatus status) owner))].
Proof.
  intros Hown Hnd. rewrite Terminate_not_done by exact Hnd.
  fold (failStatus status).
  rewrite (HandleReplicationDone_trace _ _ owner Hown).
  cbn [statusOf]. pose proof (failStatus_neg status) as Hneg.
  unfold answered.
  destruct (Z.ltb_spec (failStatus status) 0); [|lia].
  destruct (Z.leb_spec 0 (failStatus status)); [lia|].
  cbn [orb]. rewrite andb_false_r. reflexivity.
Qed.

Lemma Terminate_fails_facts (status : Z) (this : ReplicatorImpl)
                            (owner : ReplicateChunkOp.t) :
  mOwner this = Some owner ->
  mDone this && negb (mCancelFlag this) = false ->
  submitted (Terminate status this).2
  = [ReplicateChunkOp.set_chunkVersion (-1)
       (ReplicateChunkOp.set_status (failStatus status) owner)]
  /\ requests (Terminate status this).2 = []
  /\ counted (Terminate status this).2
     = [failureCounter owner (mCancelFlag this)]
  /\ releases (Terminate status this).2
     = match mFileHandle this with
       | Some fileH => [(failStatus status, fileH)]
       | None => []
       end
  /\ diskWrites (Terminate status this).2 = []
  /\ peerReads (Terminate status this).2 = [].
Proof.
  intros Hown Hnd. rewrite (Terminate_fails status this owner Hown Hnd).
  rewrite submitted_app, requests_app, counted_app, releases_app,
    diskWrites_app, peerReads_app.
  destruct (mFileHandle this); repeat split; reflexivity.
Qed.

(** X6: a completion answers the op once.  The trace ends with the one
    response; before it the file handle, if one is held, goes back to the
    chunk manager with the status of the completion, and one counter is
    incremented if the status is negative or the replication is cancelled
    (the canceled counter whenever the cancel flag is set); no request is
    made.  The object is left without owner, file handle or access token and
    with one reference less, and a second completion stops at its assertion
    without a response. *)
Theorem X6_completion_answers_once
  (data data' : option Z) (this : ReplicatorImpl)
  (owner : ReplicateChunkOp.t) :
  mOwner this = Some owner ->
  let done := HandleReplicationDone data this in
  (exists op before,
     done.2 = before ++ [SubmitOpResponse op]
     /\ submitted done.2 = [op]
     /\ ReplicateChunkOp.statusMsg op = ReplicateChunkOp.statusMsg owner
     /\ ReplicateChunkOp.invalidStripeIdx op
        = ReplicateChunkOp.invalidStripeIdx owner)
  /\ releases done.2
     = match mFileHandle this with
       | Some fileH => [(statusOf data, fileH)]
       | None => []
       end
  /\ counted done.2
     = (if (statusOf data <? 0) || mCancelFlag this
        then [failureCounter owner (mCancelFlag this)] else [])
  /\ requests done.2 = []
  /\ mOwner done.1 = None
  /\ mFileHandle done.1 = None
  /\ ReadOp.requestChunkAccess (mReadOp done.1) = None
  /\ GetChunkMetadataOp.requestChunkAccess (mChunkMetadataOp done.1) = None
  /\ mRefCount done.1 = mRefCount this - 1
  /\ HandleReplicationDone data' done.1 = (done.1, [AssertFail]).
Proof.
  intros Hown done. subst done.
  rewrite (HandleReplicationDone_trace data this owner Hown).
  rewrite (HandleReplicationDone_obj data this owner Hown).
  split.
  { eexists _, _. split; [rewrite app_assoc; reflexivity|].
    rewrite !submitted_app.
    split; [|split; reflexivity].
    destruct (mFileHandle this);
      destruct ((statusOf data <? 0) || mCancelFlag this); reflexivity. }
  rewrite !releases_app, !counted_app, !requests_app.
  split.
  { destruct (mFileHandle this);
      destruct ((statusOf data <? 0) || mCancelFlag this); reflexivity. }
  split.
  { destruct (mFileHandle this);
      destruct ((statusOf data <? 0) || mCancelFlag this); reflexivity. }
  split.
  { destruct (mFileHandle this);
      destruct ((statusOf data <? 0) || mCancelFlag this); reflexivity. }
  repeat (split; [reflexivity|]).
  reflexivity.
Qed.

(** X7: [Terminate] on a finished copy that is not cancelled ignores its
    status: it installs the completion handler and asks the chunk manager to
    make the chunk stable at [mChunkVersion].  If the chunk manager answers
    0 nothing else happens until it calls back; a negative answer completes
    the op at once with that status and chunk version -1, counted as an
    error. *)
Theorem X7_Terminate_finished (status : Z) (this : ReplicatorImpl)
                              (owner : ReplicateChunkOp.t) :
  mOwner this = Some owner ->
  mDone this = true ->
  mCancelFlag this = false ->
  let res := ChangeChunkVers (mChunkId this) (mChunkVersion this) true in
  let call := ChangeChunkVers_call (mChunkId this) (mChunkVersion this) true in
  (forall status', Terminate status' this = Terminate status this)
  /\ mHandler (Terminate status this).1 = hHandleReplicationDone
  /\ (res = 0 ->
      Terminate status this
      = (set_mHandler hHandleReplicationDone this, [call]))
  /\ (res < 0 ->
      exists op,
        (Terminate status this).2
        = call
          :: match mFileHandle this with
             | Some fileH => [ReplicationDone_call (mChunkId this) res fileH]
             | None => []
             end
          ++ [CounterInc (failureCounter owner false); SubmitOpResponse op]
        /\ ReplicateChunkOp.status op = res
        /\ ReplicateChunkOp.chunkVersion op = -1)
  /\ (0 < res ->
      exists op,
        submitted (Terminate status this).2 = [op]
        /\ counted (Terminate status this).2 = []
        /\ ReplicateChunkOp.status op = 0
        /\ ReplicateChunkOp.chunkVersion op = mChunkVersion this).
Proof.
  intros Hown Hd Hc res call.
  assert (Hshape : forall s,
    Terminate s this
    = if res =? 0 then (set_mHandler hHandleReplicationDone this, [call])
      else andThen (set_mHandler hHandleReplicationDone this, [call])
                   (HandleReplicationDone (Some res))).
  { intros s. unfold Terminate. rewrite Hd, Hc. reflexivity. }
  split; [intros s'; rewrite !Hshape; reflexivity|].
  rewrite !Hshape.
  assert (Hown' : mOwner (set_mHandler hHandleReplicationDone this)
                  = Some owner) by exact Hown.
  split.
  { destruct (res =? 0); [reflexivity|].
    rewrite andThen_obj.
    rewrite (HandleReplicationDone_obj _ _ owner Hown'). reflexivity. }
  split; [intros ->; reflexivity|].
  split.
  - intros Hneg. rewrite (proj2 (Z.eqb_neq res 0)) by lia.
    rewrite andThen_trace.
    rewrite (HandleReplicationDone_trace _ _ owner Hown').
    cbn [statusOf]. fields. rewrite Hc.
    destruct (Z.ltb_spec res 0); [|lia]. cbn [orb].
    eexists. split; [reflexivity|].
    unfold answered. fields.
    destruct (Z.leb_spec 0 res); [lia|].
    rewrite ?andb_false_r. split; reflexivity.
  - intros Hpos. rewrite (proj2 (Z.eqb_neq res 0)) by lia.
    rewrite andThen_trace.
    rewrite (HandleReplicationDone_trace _ _ owner Hown').
    cbn [statusOf]. fields. rewrite Hc.
    destruct (Z.ltb_spec res 0); [lia|]. cbn [orb].
    eexists. rewrite !submitted_app, !counted_app.
    split; [destruct (mFileHandle this); reflexivity|].
    split; [destruct (mFileHandle this); reflexivity|].
    unfold answered. fields.
    destruct (Z.leb_spec 0 res); [|lia].
    rewrite Hc. split; reflexivity.
Qed.

(** ** Size probe *)

(** X8: a size probe that failed, or that reports a chunk size below 0 or
    above CHUNKSIZE, fails the replication before anything is allocated: the
    op is answered with the probe's status, or with -EINVAL for the size,
    with chunk version -1 and its message unchanged; one error is counted
    and no request is made. *)
Theorem X8_HandleStartDone_refuses (this : ReplicatorImpl)
                                   (owner : ReplicateChunkOp.t) :
  mOwner this = Some owner ->
  mDone this = false ->
  mCancelFlag this = false ->
  let md := mChunkMetadataOp this in
  (GetChunkMetadataOp.status md < 0
   \/ GetChunkMetadataOp.chunkSize md < 0
   \/ CHUNKSIZE < GetChunkMetadataOp.chunkSize md) ->
  exists op,
    submitted (HandleStartDone this).2 = [op]
    /\ ReplicateChunkOp.status op
       = (if GetChunkMetadataOp.status md <? 0
          then GetChunkMetadataOp.status md else - EINVAL)
    /\ ReplicateChunkOp.chunkVersion op = -1
    /\ ReplicateChunkOp.statusMsg op = ReplicateChunkOp.statusMsg owner
    /\ requests (HandleStartDone this).2 = []
    /\ counted (HandleStartDone this).2 = [failureCounter owner false]
    /\ releases (HandleStartDone this).2
       = match mFileHandle this with
         | Some fileH => [(ReplicateChunkOp.status op, fileH)]
         | None => []
         end.
Proof.
  intros Hown Hd Hc md Hbad. unfold HandleStartDone. fold md. rewrite Hc.
  cbn [orb].
  destruct (Z.ltb_spec (GetChunkMetadataOp.status md) 0) as [Hneg|Hok].
  - destruct (Terminate_fails_facts (GetChunkMetadataOp.status md) this owner
                Hown) as (Hs & Hr & Hn & Hrel & _).
    { rewrite Hd. reflexivity. }
    rewrite failStatus_of_neg in Hs, Hrel by exact Hneg.
    eexists. split; [exact Hs|]. fields.
    repeat (split; [first [reflexivity | assumption]|]).
    rewrite Hc in Hn. split; [exact Hn|exact Hrel].
  - fields.
    assert (Hsz : (GetChunkMetadataOp.chunkSize md <? 0)
                  || (CHUNKSIZE <? GetChunkMetadataOp.chunkSize md) = true).
    { destruct Hbad as [H|[H|H]]; [lia| |];
        destruct (Z.ltb_spec (GetChunkMetadataOp.chunkSize md) 0);
        destruct (Z.ltb_spec CHUNKSIZE (GetChunkMetadataOp.chunkSize md));
        first [reflexivity | lia]. }
    rewrite Hsz.
    match goal with
    | |- context [Terminate EINVAL ?t] =>
      destruct (Terminate_fails_facts EINVAL t owner Hown)
        as (Hs & Hr & Hn & Hrel & _)
    end.
    { fields. rewrite Hd. reflexivity. }
    rewrite failStatus_of_pos in Hs, Hrel by reflexivity.
    eexists. split; [exact Hs|]. fields.
    repeat (split; [first [reflexivity | assumption]|]).
    cbn [mCancelFlag mFileHandle set_mChunkVersion set_mChunkSize]
      in Hn, Hrel.
    rewrite Hc in Hn. split; [exact Hn|exact Hrel].
Qed.

(** The probe is accepted: [HandleStartDone] up to the allocation. *)
Lemma HandleStartDone_accepts (this : ReplicatorImpl)
                              (owner : ReplicateChunkOp.t) :
  mOwner this = Some owner ->
  mCancelFlag this = false ->
  mFileHandle this = None ->
  let md := mChunkMetadataOp this in
  0 <= GetChunkMetadataOp.status md ->
  0 <= GetChunkMetadataOp.chunkSize md <= CHUNKSIZE ->
  let target :=
    if 0 <=? ReplicateChunkOp.targetVersion owner
    then ReplicateChunkOp.targetVersion owner
    else GetChunkMetadataOp.chunkVersion md in
  let tier := ReplicateChunkOp.minStorageTier owner in
  let probed :=
    set_mWriteOp (WriteOp.set_chunkVersion 0 (mWriteOp this))
      (set_mReadOp
         (ReadOp.set_chunkVersion (GetChunkMetadataOp.chunkVersion md)
            (mReadOp this))
         (set_mChunkVersion (GetChunkMetadataOp.chunkVersion md)
            (set_mChunkSize (GetChunkMetadataOp.chunkSize md) this))) in
  forall status fileH,
  AllocChunk (mFileId this) (mChunkId this) 0 tier target = (status, fileH) ->
  HandleStartDone this
  = let call := AllocChunk_call (mFileId this) (mChunkId this) 0 tier target in
    let this := set_mFileHandle fileH probed in
    if status <? 0 then
      andThen
        (if status =? - EEXIST then
           set_mOwner
             (Some (ReplicateChunkOp.set_statusMsg
                "readable chunk with target version already exists"%string
                owner)) this
         else this, [call]) (Terminate status)
    else if is_null fileH then
      (this, [call; Die "replication: invalid null file handle"%string])
    else andThen (this, [call]) Read.
Proof.
  intros Hown Hc Hfh md Hst Hsz target tier probed status fileH Halloc.
  unfold HandleStartDone. fold md. rewrite Hc. cbn [orb].
  rewrite (proj2 (Z.ltb_ge _ _)) by lia.
  fields. rewrite Hfh. fields.
  rewrite (proj2 (Z.ltb_ge (GetChunkMetadataOp.chunkSize md) 0)) by lia.
  rewrite (proj2 (Z.ltb_ge CHUNKSIZE (GetChunkMetadataOp.chunkSize md)))
    by lia.
  cbn [orb]. rewrite Hown. fold tier. fold target. rewrite Halloc.
  fields. destruct (status <? 0); [destruct (status =? - EEXIST)|];
    reflexivity.
Qed.

(** X9: an accepted size probe allocates the chunk for the write at
    version 0, in the storage tier of the op, with the target version of the
    op when that is not negative and else the version the probe reported.  A
    refusal of the chunk manager fails the replication with its status; the
    refusal -EEXIST puts the message about the readable chunk into the op,
    any other leaves the message; the file handle the chunk manager stored
    goes back to it, and nothing is read. *)
Theorem X9_HandleStartDone_allocates (this : ReplicatorImpl)
                                      (owner : ReplicateChunkOp.t) :
  mOwner this = Some owner ->
  mDone this = false ->
  mCancelFlag this = false ->
  mFileHandle this = None ->
  let md := mChunkMetadataOp this in
  0 <= GetChunkMetadataOp.status md ->
  0 <= GetChunkMetadataOp.chunkSize md <= CHUNKSIZE ->
  let target :=
    if 0 <=? ReplicateChunkOp.targetVersion owner
    then ReplicateChunkOp.targetVersion owner
    else GetChunkMetadataOp.chunkVersion md in
  let tier := ReplicateChunkOp.minStorageTier owner in
  exists rest,
    (HandleStartDone this).2
    = AllocChunk_call (mFileId this) (mChunkId this) 0 tier target :: rest
    /\ forall status fileH,
       AllocChunk (mFileId this) (mChunkId this) 0 tier target
       = (status, fileH) ->
       status < 0 ->
       exists op,
         submitted rest = [op]
         /\ ReplicateChunkOp.status op = status
         /\ ReplicateChunkOp.chunkVersion op = -1
         /\ ReplicateChunkOp.statusMsg op
            = (if status =? - EEXIST
               then "readable chunk with target version already exists"%string
               else ReplicateChunkOp.statusMsg owner)
         /\ requests rest = []
         /\ releases rest
            = match fileH with
              | Some h => [(status, h)]
              | None => []
              end.
Proof.
  intros Hown Hd Hc Hfh md Hst Hsz target tier.
  destruct (AllocChunk (mFileId this) (mChunkId this) 0 tier target)
    as [status fileH] eqn:Halloc.
  rewrite (HandleStartDone_accepts this owner Hown Hc Hfh Hst Hsz
             status fileH Halloc).
  cbv zeta.
  destruct (Z.ltb_spec status 0) as [Hneg|Hok].
  - rewrite andThen_trace. eexists. split; [reflexivity|].
    intros s fh [= <- <-] _.
    set (own' := if status =? - EEXIST
                 then ReplicateChunkOp.set_statusMsg
                        "readable chunk with target version already exists"
                        owner
                 else owner).
    match goal with
    | |- context [Terminate status ?t] =>
      destruct (Terminate_fails_facts status t own')
        as (Hsub & Hr & _ & Hrel & _)
    end.
    { subst own'. destruct (status =? - EEXIST);
        first [reflexivity | exact Hown]. }
    { destruct (status =? - EEXIST); fields; rewrite Hd; reflexivity. }
    rewrite failStatus_of_neg in Hsub, Hrel by exact Hneg.
    eexists. split; [exact Hsub|]. fields.
    split; [reflexivity|]. split; [reflexivity|].
    split; [subst own'; destruct (status =? - EEXIST); reflexivity|].
    split; [exact Hr|].
    rewrite Hrel. destruct (status =? - EEXIST); reflexivity.
  - destruct (is_null fileH).
    + eexists. split; [reflexivity|]. intros s fh [= <- <-] ?; lia.
    + rewrite andThen_trace. eexists. split; [reflexivity|].
      intros s fh [= <- <-] ?; lia.
Qed.

(** ** Reading from the peer *)

(** What [Read] sends to the peer inside the chunk. *)
Lemma Read_sends (this : ReplicatorImpl)
                         (owner : ReplicateChunkOp.t) :
  mKind this = Direct ->
  mCancelFlag this = false ->
  mOwner this = Some owner ->
  is_null (mPeer this) = false ->
  mOffset this < mChunkSize this ->
  exists rd,
    Read this
    = (set_mReadOp rd (set_mHandler hHandleReadDone this),
       [PeerEnqueueRead rd])
    /\ ReadOp.offset rd = mOffset this
    /\ ReadOp.numBytes rd
       = Z.min (mChunkSize this - mOffset this) 1048576
    /\ 0 < ReadOp.numBytes rd <= 1048576
    /\ ReadOp.offset rd + ReadOp.numBytes rd <= mChunkSize this
    /\ ReadOp.status rd = 0
    /\ ReadOp.numBytesIO rd = 0
    /\ ReadOp.dataBuf rd = []
    /\ ReadOp.checksum rd = []
    /\ ReadOp.chunkId rd = ReadOp.chunkId (mReadOp this)
    /\ ReadOp.chunkVersion rd = ReadOp.chunkVersion (mReadOp this)
    /\ ReadOp.skipVerifyDiskChecksumFlag rd
       = ReadOp.skipVerifyDiskChecksumFlag (mReadOp this)
         && (Z.rem (mOffset this) CHECKSUM_BLOCKSIZE =? 0).
Proof.
  intros Hk Hc Hown Hpeer Hlt. unfold Read. rewrite Hk.
  unfold ReplicatorImpl_Read. rewrite Hc, Hown, Hpeer. cbn [orb is_null].
  rewrite (proj2 (Z.leb_gt _ _)) by lia. fields.
  change kDefaultReplicationReadSize with 1048576.
  destruct (Z.eqb_spec (Z.rem (mOffset this) CHECKSUM_BLOCKSIZE) 0);
    fields; eexists; (split; [reflexivity|]); fields;
    rewrite ?andb_true_r, ?andb_false_r;
    repeat (split; [first [reflexivity | lia]|]); reflexivity.
Qed.

(** X10: a read of a direct replicator inside the chunk asks the peer for
    the bytes from [mOffset] up to the end of the chunk, at most 1 MiB and
    at least one byte, with the result fields of the op cleared; at an
    offset that is not a multiple of the checksum block the peer is told to
    verify its disk checksums.  Nothing but the read op and the handler
    changes in the object. *)
Theorem X10_Read_request (this : ReplicatorImpl)
                         (owner : ReplicateChunkOp.t) :
  mKind this = Direct ->
  mCancelFlag this = false ->
  mOwner this = Some owner ->
  is_null (mPeer this) = false ->
  mOffset this < mChunkSize this ->
  exists rd,
    Read this
    = (set_mReadOp rd (set_mHandler hHandleReadDone this),
       [PeerEnqueueRead rd])
    /\ ReadOp.offset rd = mOffset this
    /\ ReadOp.numBytes rd
       = Z.min (mChunkSize this - mOffset this) 1048576
    /\ 0 < ReadOp.numBytes rd <= 1048576
    /\ ReadOp.offset rd + ReadOp.numBytes rd <= mChunkSize this
    /\ ReadOp.status rd = 0
    /\ ReadOp.numBytesIO rd = 0
    /\ ReadOp.dataBuf rd = []
    /\ ReadOp.checksum rd = []
    /\ ReadOp.chunkId rd = ReadOp.chunkId (mReadOp this)
    /\ ReadOp.chunkVersion rd = ReadOp.chunkVersion (mReadOp this)
    /\ ReadOp.skipVerifyDiskChecksumFlag rd
       = ReadOp.skipVerifyDiskChecksumFlag (mReadOp this)
         && (Z.rem (mOffset this) CHECKSUM_BLOCKSIZE =? 0).
Proof. apply Read_sends. Qed.

(** A read at the end of the chunk ends the copy. *)
Lemma Read_ends (this : ReplicatorImpl) (owner : ReplicateChunkOp.t) :
  mKind this = Direct ->
  mCancelFlag this = false ->
  mOwner this = Some owner ->
  mOffset this = mChunkSize this ->
  Read this = Terminate 0 (set_mDone true this)
  /\ mDone (Read this).1 = true
  /\ exists rest,
       (Read this).2
       = ChangeChunkVers_call (mChunkId this) (mChunkVersion this) true
         :: rest
       /\ requests rest = []
       /\ peerReads rest = []
       /\ diskWrites rest = []
       /\ (ChangeChunkVers (mChunkId this) (mChunkVersion this) true = 0 ->
           rest = []).
Proof.
  intros Hk Hc Hown Heq. unfold Read. rewrite Hk.
  unfold ReplicatorImpl_Read. rewrite Hc, Hown. cbn [orb is_null].
  rewrite (proj2 (Z.leb_le _ _)) by lia. fields.
  rewrite Heq, Z.eqb_refl.
  split; [reflexivity|].
  unfold Terminate. fields. rewrite Hc. cbn [negb andb].
  assert (Hown' : mOwner (set_mHandler hHandleReplicationDone
                            (set_mDone true this)) = Some owner)
    by exact Hown.
  destruct (ChangeChunkVers (mChunkId this) (mChunkVersion this) true =? 0)
    eqn:Hres.
  - split; [reflexivity|].
    eexists. split; [reflexivity|]. repeat split; reflexivity.
  - rewrite andThen_obj, andThen_trace.
    rewrite (HandleReplicationDone_obj _ _ owner Hown').
    rewrite (HandleReplicationDone_trace _ _ owner Hown').
    split; [reflexivity|].
    eexists. split; [reflexivity|].
    rewrite !requests_app, !peerReads_app, !diskWrites_app.
    repeat split;
      try (destruct (mFileHandle _); destruct (_ || _); reflexivity).
    intros H0. apply Z.eqb_neq in Hres. contradiction.
Qed.

(** X11: a read at the end of the chunk finishes the copy: the replicator
    is marked done and the chunk is made stable at [mChunkVersion], and
    neither the peer nor the disk is asked again.  A read past the end fails
    the replication with -EIO. *)
Theorem X11_Read_at_end (this : ReplicatorImpl)
                        (owner : ReplicateChunkOp.t) :
  mKind this = Direct ->
  mCancelFlag this = false ->
  mOwner this = Some owner ->
  (mOffset this = mChunkSize this ->
   Read this = Terminate 0 (set_mDone true this)
   /\ mDone (Read this).1 = true
   /\ exists rest,
        (Read this).2
        = ChangeChunkVers_call (mChunkId this) (mChunkVersion this) true
          :: rest
        /\ requests rest = []
        /\ peerReads rest = []
        /\ diskWrites rest = []
        /\ (ChangeChunkVers (mChunkId this) (mChunkVersion this) true = 0 ->
            rest = []))
  /\ (mChunkSize this < mOffset this ->
      exists op,
        submitted (Read this).2 = [op]
        /\ ReplicateChunkOp.status op = - EIO
        /\ ReplicateChunkOp.chunkVersion op = -1
        /\ requests (Read this).2 = []
        /\ counted (Read this).2 = [failureCounter owner false]).
Proof.
  intros Hk Hc Hown.
  split; [apply (Read_ends this owner Hk Hc Hown)|].
  intros Hgt. unfold Read. rewrite Hk.
  unfold ReplicatorImpl_Read. rewrite Hc, Hown. cbn [orb is_null].
  rewrite (proj2 (Z.leb_le _ _)) by lia. fields.
  rewrite (proj2 (Z.eqb_neq _ _)) by lia.
  match goal with
  | |- context [Terminate (- EIO) ?t] =>
    destruct (Terminate_fails_facts (- EIO) t owner Hown)
      as (Hs & Hr & Hn & _)
  end; [reflexivity|].
  rewrite failStatus_of_neg in Hs by reflexivity.
  eexists. split; [exact Hs|]. fields.
  split; [reflexivity|]. split; [reflexivity|]. split; [exact Hr|].
  cbn [mCancelFlag set_mDone] in Hn. rewrite Hc in Hn. exact Hn.
Qed.

(** X12: when the chunk manager grants the allocation, the replicator takes
    the size and the version the probe reported, keeps the file handle, and
    starts to read at offset 0: a chunk that holds data is asked for from
    the peer, up to 1 MiB at the probed version; an empty chunk is finished
    at once, made stable at the probed version without a read or a write.
    A granted allocation without a file handle stops the replicator. *)
Theorem X12_HandleStartDone_starts_reading (this : ReplicatorImpl)
                                           (owner : ReplicateChunkOp.t) :
  mKind this = Direct ->
  mOwner this = Some owner ->
  mCancelFlag this = false ->
  mFileHandle this = None ->
  is_null (mPeer this) = false ->
  mOffset this = 0 ->
  let md := mChunkMetadataOp this in
  let size := GetChunkMetadataOp.chunkSize md in
  let version := GetChunkMetadataOp.chunkVersion md in
  0 <= GetChunkMetadataOp.status md ->
  0 <= size <= CHUNKSIZE ->
  let target :=
    if 0 <=? ReplicateChunkOp.targetVersion owner
    then ReplicateChunkOp.targetVersion owner else version in
  let tier := ReplicateChunkOp.minStorageTier owner in
  let call := AllocChunk_call (mFileId this) (mChunkId this) 0 tier target in
  forall status fileH,
    AllocChunk (mFileId this) (mChunkId this) 0 tier target
    = (status, fileH) ->
    0 <= status ->
    let started := (HandleStartDone this).1 in
    (fileH = None ->
     (HandleStartDone this).2
     = [call; Die "replication: invalid null file handle"%string])
    /\ (fileH <> None -> 0 < size ->
        exists rd,
          (HandleStartDone this).2 = [call; PeerEnqueueRead rd]
          /\ ReadOp.offset rd = 0
          /\ ReadOp.numBytes rd = Z.min size 1048576
          /\ ReadOp.chunkVersion rd = version
          /\ mChunkSize started = size
          /\ mChunkVersion started = version
          /\ mFileHandle started = fileH
          /\ WriteOp.chunkVersion (mWriteOp started) = 0
          /\ mHandler started = hHandleReadDone)
    /\ (fileH <> None -> size = 0 ->
        exists rest,
          (HandleStartDone this).2
          = call :: ChangeChunkVers_call (mChunkId this) version true :: rest
          /\ requests rest = []
          /\ peerReads rest = []
          /\ diskWrites rest = []
          /\ mDone started = true).
Proof.
  intros Hk Hown Hc Hfh Hpeer Hoff md size version Hst Hsz target tier call
         status fileH Halloc Hok started.
  subst started.
  rewrite (HandleStartDone_accepts this owner Hown Hc Hfh Hst Hsz
             status fileH Halloc).
  cbv zeta. rewrite (proj2 (Z.ltb_ge status 0)) by lia.
  fold md size version tier target call.
  split; [intros ->; reflexivity|].
  split.
  - intros Hsome Hpos. destruct fileH as [h|]; [|contradiction].
    cbn [is_null].
    match goal with
    | |- context [andThen (?t, _) Read] =>
      destruct (Read_sends t owner Hk Hc Hown Hpeer)
        as (rd & Hrd & Hro & Hrn & _ & _ & _ & _ & _ & _ & _ & Hrv & _)
    end.
    { cbn [mOffset mChunkSize set_mFileHandle set_mWriteOp set_mReadOp
           set_mChunkVersion set_mChunkSize]. fold md size. lia. }
    rewrite andThen_trace, andThen_obj, Hrd.
    cbn [fst snd app].
    exists rd. split; [reflexivity|].
    cbn [mOffset mChunkSize set_mFileHandle set_mWriteOp set_mReadOp
         set_mChunkVersion set_mChunkSize mReadOp ReadOp.chunkVersion
         ReadOp.set_chunkVersion] in Hro, Hrn, Hrv.
    fold md size version in Hrn, Hrv.
    split; [lia|]. split; [lia|]. split; [exact Hrv|].
    repeat split; reflexivity.
  - intros Hsome Hzero. destruct fileH as [h|]; [|contradiction].
    cbn [is_null].
    match goal with
    | |- context [andThen (?t, _) Read] =>
      destruct (Read_ends t owner Hk Hc Hown)
        as (_ & Hdone & rest & Hrest & Hreq & Hpr & Hdw & _)
    end.
    { cbn [mOffset mChunkSize set_mFileHandle set_mWriteOp set_mReadOp
           set_mChunkVersion set_mChunkSize]. fold md size. lia. }
    rewrite andThen_trace, andThen_obj, Hrest.
    cbn [app mChunkId mChunkVersion set_mFileHandle set_mWriteOp set_mReadOp
         set_mChunkVersion set_mChunkSize]. fold md version.
    exists rest. split; [reflexivity|]. split; [exact Hreq|].
    split; [exact Hpr|]. split; [exact Hdw|exact Hdone].
Qed.

(** ** Completion of a read *)

Lemma HandleReadDone_whole_any (this : ReplicatorImpl) :
  let rd := mReadOp this in
  let numRd := IOBuf.BytesConsumable (ReadOp.dataBuf rd) in
  readAccepted this ->
  numRd <= CHECKSUM_BLOCKSIZE \/ Z.rem numRd CHECKSUM_BLOCKSIZE = 0 ->
  HandleReadDone this
  = let w := writeOf this numRd (ReadOp.dataBuf rd) (ReadOp.checksum rd) in
    written (set_mHandler hHandleWriteDone
               (set_mWriteOp w
                  (set_mReadOp (ReadOp.set_dataBuf [] rd) this))) w.
Proof.
  intros rd numRd (Hc & Hst & Hshort & Hlt & Hal & Hck) Hsz.
  fold rd in Hst, Hshort, Hck. fold numRd in Hshort, Hck.
  unfold HandleReadDone. rewrite Hc. fold rd. fold numRd.
  assert (Hn : 0 <= numRd) by apply BytesConsumable_nonneg.
  assert (Hdie :
    negb (is_nil (ReadOp.checksum rd))
    && negb (Z.of_nat (length (ReadOp.checksum rd))
             =? Z.quot (numRd + CHECKSUM_BLOCKSIZE - 1) CHECKSUM_BLOCKSIZE)
    = false).
  { destruct Hck as [-> | ->]; [reflexivity|].
    rewrite Z.eqb_refl. apply andb_false_r. }
  assert (Hsr : (numRd <? ReadOp.numBytes rd)
                && (mOffset this + numRd <? mChunkSize this) = false).
  { destruct Hshort; zdecide; rewrite ?andb_false_r; reflexivity. }
  rewrite Hsr. zdecide. fields. fold rd. zdecide. fields.
  unfold CHECKSUM_BLOCKSIZE in Hdie. rewrite Hdie.
  unfold IOBuf.Move. cbv zeta. fields.
  assert (Hrem : 65536 < numRd -> Z.rem numRd 65536 = 0) by lia.
  unfold written, writeOf. fields.
  destruct (Z.ltb_spec 65536 numRd) as [Hb|Hb].
  - rewrite (Hrem Hb). change (0 =? 0) with true. change (0 <? 0) with false.
    fields. rewrite Z.sub_0_r. reflexivity.
  - reflexivity.
Qed.

Lemma HandleReadDone_split_any (this : ReplicatorImpl) :
  let rd := mReadOp this in
  let numRd := IOBuf.BytesConsumable (ReadOp.dataBuf rd) in
  let tail := Z.rem numRd CHECKSUM_BLOCKSIZE in
  readAccepted this ->
  CHECKSUM_BLOCKSIZE < numRd ->
  tail <> 0 ->
  mOffset this + numRd = mChunkSize this ->
  HandleReadDone this
  = let w := writeOf this (numRd - tail)
               (take (Z.to_nat (numRd - tail)) (ReadOp.dataBuf rd))
               (removelast (ReadOp.checksum rd)) in
    written
      (set_mHandler hHandleWriteDone
         (set_mWriteOp w
            (set_mReadOp
               (ReadOp.set_checksum
                  (if is_nil (ReadOp.checksum rd)
                   then ReadOp.checksum rd
                   else [List.last (ReadOp.checksum rd) 0])
                  (ReadOp.set_numBytes tail
                     (ReadOp.set_numBytesIO tail
                        (ReadOp.set_offset
                           (mOffset this + (numRd - tail))
                           (ReadOp.set_dataBuf
                              (drop (Z.to_nat (numRd - tail))
                                    (ReadOp.dataBuf rd)) rd)))))
               this))) w.
Proof.
  intros rd numRd tail (Hc & Hst & Hshort & Hlt & Hal & Hck) Hbig Htail Hend.
  fold rd in Hst, Hshort, Hck. fold numRd in Hshort, Hck.
  unfold HandleReadDone. rewrite Hc. fold rd. fold numRd.
  assert (Hn : 0 <= numRd) by apply BytesConsumable_nonneg.
  assert (Hdie :
    negb (is_nil (ReadOp.checksum rd))
    && negb (Z.of_nat (length (ReadOp.checksum rd))
             =? Z.quot (numRd + CHECKSUM_BLOCKSIZE - 1) CHECKSUM_BLOCKSIZE)
    = false).
  { destruct Hck as [-> | ->]; [reflexivity|].
    rewrite Z.eqb_refl. apply andb_false_r. }
  subst tail. zdecide. rewrite ?andb_false_r. fields. fold rd. zdecide.
  fields. unfold CHECKSUM_BLOCKSIZE in Hdie. rewrite Hdie.
  unfold IOBuf.MoveN. cbv zeta. fields.
  unfold written, writeOf. fields.
  destruct (is_nil (ReadOp.checksum rd)) eqn:Hcs; fields; [|reflexivity].
  replace (removelast (ReadOp.checksum rd)) with (ReadOp.checksum rd)
    by (destruct (ReadOp.checksum rd); [reflexivity|discriminate]).
  reflexivity.
Qed.

(** The trace of a write the chunk manager refuses. *)
Lemma written_refused (this' : ReplicatorImpl) (w : WriteOp.t)
                      (owner : ReplicateChunkOp.t) :
  mOwner this' = Some owner ->
  mDone this' && negb (mCancelFlag this') = false ->
  WriteChunk w (mFileHandle this') < 0 ->
  (written this' w).2
  = WriteChunk_call w
    :: match mFileHandle this' with
       | Some fileH =>
         [ReplicationDone_call (mChunkId this')
            (WriteChunk w (mFileHandle this')) fileH]
       | None => []
       end
    ++ [CounterInc (failureCounter owner (mCancelFlag this'));
        SubmitOpResponse
          (ReplicateChunkOp.set_chunkVersion (-1)
             (ReplicateChunkOp.set_status
                (WriteChunk w (mFileHandle this')) owner))].
Proof.
  intros Hown Hnd Hneg. unfold written.
  rewrite (proj2 (Z.ltb_lt _ _)) by exact Hneg.
  rewrite andThen_trace, (Terminate_fails _ _ owner Hown Hnd).
  rewrite failStatus_of_neg by exact Hneg. reflexivity.
Qed.

(** X13: what [HandleReadDone] refuses.  A read that succeeded with fewer
    bytes than asked for, short of the end of the chunk, fails the
    replication with -EINVAL.  A read at an offset off the checksum block, or
    with a number of checksums other than one per block, stops the
    replicator; so does a read of more than one block that ends off a block
    boundary before the end of the chunk.  In none of these cases is
    anything written. *)
Theorem X13_HandleReadDone_refuses (this : ReplicatorImpl)
                                   (owner : ReplicateChunkOp.t) :
  let rd := mReadOp this in
  let numRd := IOBuf.BytesConsumable (ReadOp.dataBuf rd) in
  mOwner this = Some owner ->
  mDone this = false ->
  mCancelFlag this = false ->
  0 <= ReadOp.status rd ->
  (numRd < ReadOp.numBytes rd -> mOffset this + numRd < mChunkSize this ->
   exists op,
     submitted (HandleReadDone this).2 = [op]
     /\ ReplicateChunkOp.status op = - EINVAL
     /\ ReplicateChunkOp.chunkVersion op = -1
     /\ requests (HandleReadDone this).2 = []
     /\ diskWrites (HandleReadDone this).2 = [])
  /\ (ReadOp.numBytes rd <= numRd \/ mChunkSize this <= mOffset this + numRd ->
      mOffset this < mChunkSize this ->
      Z.rem (mOffset this) CHECKSUM_BLOCKSIZE <> 0
      \/ (ReadOp.checksum rd <> []
          /\ Z.of_nat (length (ReadOp.checksum rd))
             <> Z.quot (numRd + CHECKSUM_BLOCKSIZE - 1) CHECKSUM_BLOCKSIZE) ->
      HandleReadDone this
      = (this, [Die "replicator: invalid read completion"%string]))
  /\ (readAccepted this ->
      CHECKSUM_BLOCKSIZE < numRd ->
      Z.rem numRd CHECKSUM_BLOCKSIZE <> 0 ->
      mOffset this + numRd <> mChunkSize this ->
      HandleReadDone this = (this, [AssertFail])).
Proof.
  intros rd numRd Hown Hd Hc Hst.
  assert (Hn : 0 <= numRd) by apply BytesConsumable_nonneg.
  split; [|split].
  - intros Hshort Hmid. unfold HandleReadDone. rewrite Hc. fold rd numRd.
    zdecide. fields. zdecide. fields.
    match goal with
    | |- context [Terminate (- EINVAL) ?t] =>
      destruct (Terminate_fails_facts (- EINVAL) t owner Hown)
        as (Hs & Hr & _ & _ & Hw & _)
    end; [reflexivity|].
    rewrite failStatus_of_neg in Hs by reflexivity.
    eexists. split; [exact Hs|]. fields.
    split; [reflexivity|]. split; [reflexivity|]. split; assumption.
  - intros Hfull Hlt Hbad. unfold HandleReadDone. rewrite Hc. fold rd numRd.
    assert (Hsr : (numRd <? ReadOp.numBytes rd)
                  && (mOffset this + numRd <? mChunkSize this) = false).
    { destruct Hfull; zdecide; rewrite ?andb_false_r; reflexivity. }
    rewrite Hsr. zdecide. fields. fold rd. zdecide. fields.
    unfold CHECKSUM_BLOCKSIZE in Hbad.
    destruct (Z.eqb_spec (Z.rem (mOffset this) 65536) 0) as [Hal0|Hal0];
      [|reflexivity].
    destruct Hbad as [Hal|[Hne Hlen]]; [contradiction|].
    destruct (ReadOp.checksum rd) eqn:Hcs; [contradiction|].
    fields.
    destruct (Z.eqb_spec (Z.of_nat (length (z :: l)))
                         (Z.quot (numRd + 65536 - 1) 65536));
      [contradiction|reflexivity].
  - intros (_ & _ & Hfull & Hlt & Hal & Hck) Hbig Htail Hend.
    fold rd in Hfull, Hck. fold numRd in Hfull, Hck.
    unfold HandleReadDone. rewrite Hc. fold rd numRd.
    assert (Hdie :
      negb (is_nil (ReadOp.checksum rd))
      && negb (Z.of_nat (length (ReadOp.checksum rd))
               =? Z.quot (numRd + CHECKSUM_BLOCKSIZE - 1) CHECKSUM_BLOCKSIZE)
      = false).
    { destruct Hck as [-> | ->]; [reflexivity|].
      rewrite Z.eqb_refl. apply andb_false_r. }
    assert (Hsr : (numRd <? ReadOp.numBytes rd)
                  && (mOffset this + numRd <? mChunkSize this) = false).
    { destruct Hfull; zdecide; rewrite ?andb_false_r; reflexivity. }
    rewrite Hsr. zdecide. fields. fold rd. zdecide. fields.
    unfold CHECKSUM_BLOCKSIZE in Hdie. rewrite Hdie. reflexivity.
Qed.

(** X14: a read that passes the checks is handed to the chunk manager as a
    write at [mOffset]; if the chunk manager refuses the write, the
    replication fails with the status of the refusal at once: the file handle
    goes back, the op is answered with that status and chunk version -1, and
    nothing more is asked for. *)
Theorem X14_HandleReadDone_write_refused (this : ReplicatorImpl)
                                         (owner : ReplicateChunkOp.t) :
  let rd := mReadOp this in
  let numRd := IOBuf.BytesConsumable (ReadOp.dataBuf rd) in
  mOwner this = Some owner ->
  mDone this = false ->
  readAccepted this ->
  numRd <= CHECKSUM_BLOCKSIZE
  \/ Z.rem numRd CHECKSUM_BLOCKSIZE = 0
  \/ mOffset this + numRd = mChunkSize this ->
  exists w rest,
    (HandleReadDone this).2 = WriteChunk_call w :: rest
    /\ WriteOp.offset w = mOffset this
    /\ (0 <= WriteChunk w (mFileHandle this) -> rest = [])
    /\ (WriteChunk w (mFileHandle this) < 0 ->
        exists op,
          submitted rest = [op]
          /\ ReplicateChunkOp.status op = WriteChunk w (mFileHandle this)
          /\ ReplicateChunkOp.chunkVersion op = -1
          /\ requests rest = []
          /\ releases rest
             = match mFileHandle this with
               | Some fileH => [(WriteChunk w (mFileHandle this), fileH)]
               | None => []
               end).
Proof.
  intros rd numRd Hown Hd Hacc Hsz.
  assert (Hc : mCancelFlag this = false) by apply Hacc.
  assert (Hgen : forall this' w,
    mOwner this' = Some owner -> mDone this' = false ->
    mCancelFlag this' = false ->
    mFileHandle this' = mFileHandle this ->
    WriteOp.offset w = mOffset this ->
    exists w0 rest,
      (written this' w).2 = WriteChunk_call w0 :: rest
      /\ WriteOp.offset w0 = mOffset this
      /\ (0 <= WriteChunk w0 (mFileHandle this) -> rest = [])
      /\ (WriteChunk w0 (mFileHandle this) < 0 ->
          exists op,
            submitted rest = [op]
            /\ ReplicateChunkOp.status op = WriteChunk w0 (mFileHandle this)
            /\ ReplicateChunkOp.chunkVersion op = -1
            /\ requests rest = []
            /\ releases rest
               = match mFileHandle this with
                 | Some fileH => [(WriteChunk w0 (mFileHandle this), fileH)]
                 | None => []
                 end)).
  { intros this' w Hown' Hd' Hc' Hfh Hoff.
    destruct (Z.ltb_spec (WriteChunk w (mFileHandle this')) 0) as [Hneg|Hok].
    - rewrite (written_refused this' w owner Hown') by
        (first [exact Hneg | rewrite Hd'; reflexivity]).
      rewrite Hfh in *.
      eexists _, _. split; [reflexivity|]. split; [exact Hoff|].
      split; [intros; lia|]. intros _.
      exists (ReplicateChunkOp.set_chunkVersion (-1)
                (ReplicateChunkOp.set_status
                   (WriteChunk w (mFileHandle this)) owner)).
      rewrite !submitted_app, !requests_app, !releases_app.
      split; [destruct (mFileHandle this); reflexivity|].
      split; [reflexivity|]. split; [reflexivity|].
      split; destruct (mFileHandle this); reflexivity.
    - unfold written. rewrite (proj2 (Z.ltb_ge _ _)) by exact Hok.
      rewrite Hfh in *.
      eexists _, _. split; [reflexivity|]. split; [exact Hoff|].
      split; [reflexivity|]. intros; lia. }
  assert (Hn : 0 <= numRd) by apply BytesConsumable_nonneg.
  destruct (Z.leb_spec numRd CHECKSUM_BLOCKSIZE) as [Hsmall|Hbig];
    [|destruct (Z.eq_dec (Z.rem numRd CHECKSUM_BLOCKSIZE) 0) as [Hz|Hnz]].
  - rewrite (HandleReadDone_whole_any this Hacc (or_introl Hsmall)).
    apply Hgen; first [reflexivity | assumption].
  - rewrite (HandleReadDone_whole_any this Hacc (or_intror Hz)).
    apply Hgen; first [reflexivity | assumption].
  - assert (Hend : mOffset this + numRd = mChunkSize this)
      by (destruct Hsz as [?|[?|?]]; [lia|contradiction|assumption]).
    rewrite (HandleReadDone_split_any this Hacc Hbig Hnz Hend).
    apply Hgen; first [reflexivity | assumption].
Qed.

(** ** Completion of a write *)


(** X15: a write that failed fails the replication with its status, and on
    a cancelled replicator any completed write fails it with -ECANCELED; in
    both cases nothing more is read or written.  A write that succeeded
    moves [mOffset] on by the bytes written, and with no tail held back the
    next read asks the peer for the bytes from there on. *)
Theorem X15_HandleWriteDone (this : ReplicatorImpl)
                            (owner : ReplicateChunkOp.t) :
  mKind this = Direct ->
  mOwner this = Some owner ->
  mDone this = false ->
  let wr := mWriteOp this in
  (mCancelFlag this = true \/ WriteOp.status wr < 0 ->
   exists op,
     submitted (HandleWriteDone this).2 = [op]
     /\ ReplicateChunkOp.status op
        = (if mCancelFlag this then - ECANCELED else WriteOp.status wr)
     /\ ReplicateChunkOp.chunkVersion op = -1
     /\ requests (HandleWriteDone this).2 = []
     /\ counted (HandleWriteDone this).2
        = [failureCounter owner (mCancelFlag this)])
  /\ (mCancelFlag this = false -> 0 <= WriteOp.status wr ->
      ReadOp.dataBuf (mReadOp this) = [] ->
      is_null (mPeer this) = false ->
      mOffset this + WriteOp.numBytesIO wr < mChunkSize this ->
      exists next rd,
        HandleWriteDone this = (next, [PeerEnqueueRead rd])
        /\ mOffset next = mOffset this + WriteOp.numBytesIO wr
        /\ ReadOp.offset rd = mOffset this + WriteOp.numBytesIO wr
        /\ ReadOp.numBytes rd
           = Z.min (mChunkSize this - ReadOp.offset rd) 1048576).
Proof.
  intros Hk Hown Hd wr. split.
  - intros Hbad. unfold HandleWriteDone. fold wr.
    assert (Htest : mCancelFlag this || (WriteOp.status wr <? 0) = true).
    { destruct Hbad as [-> | Hneg]; [reflexivity|].
      rewrite (proj2 (Z.ltb_lt _ _)) by exact Hneg. apply orb_true_r. }
    rewrite Htest.
    match goal with
    | |- context [Terminate ?st this] =>
      destruct (Terminate_fails_facts st this owner Hown)
        as (Hs & Hr & Hn & _)
    end; [rewrite Hd; reflexivity|].
    eexists. split; [exact Hs|]. fields.
    split; [|split; [reflexivity|split; assumption]].
    destruct (mCancelFlag this) eqn:Hc; [reflexivity|].
    destruct Hbad as [?|Hneg]; [discriminate|].
    apply failStatus_of_neg. exact Hneg.
  - intros Hc Hst Hbuf Hpeer Hlt. unfold HandleWriteDone. fold wr.
    rewrite Hc. rewrite (proj2 (Z.ltb_ge _ _)) by exact Hst. fields.
    rewrite Hbuf. fields. rewrite andb_false_r.
    match goal with
    | |- context [Read ?t] =>
      destruct (Read_sends t owner Hk Hc Hown Hpeer)
        as (rd & Hrd & Hro & Hrn & _)
    end; [exact Hlt|].
    rewrite Hrd. eexists _, rd. split; [reflexivity|].
    cbn [mOffset mChunkSize set_mOffset set_mReadOp set_mHandler] in *.
    split; [reflexivity|]. split; [exact Hro|]. rewrite Hro. exact Hrn.
Qed.

(** ** A replication that meets no fault *)







(** The steps of the copy, by what they keep and what they change. *)
















(** ** The registry *)

Lemma keeps_HandleReplicationDone (data : option Z) :
  keepsChunkId (HandleReplicationDone data).
Proof.
  intros this. unfold HandleReplicationDone.
  destruct (mOwner this); reflexivity.
Qed.

Lemma keeps_andThen (r : ReplicatorImpl) (evs : list Event)
                    (k : ReplicatorImpl -> Result) :
  keepsChunkId k -> mChunkId (andThen (r, evs) k).1 = mChunkId r.
Proof. intros Hk. rewrite andThen_obj. apply Hk. Qed.

Lemma keeps_Terminate (status : Z) : keepsChunkId (Terminate status).
Proof.
  intros this. unfold Terminate.
  destruct (mDone this && negb (mCancelFlag this)).
  - cbv zeta. destruct (_ =? 0); [reflexivity|].
    rewrite keeps_andThen by apply keeps_HandleReplicationDone. reflexivity.
  - apply keeps_HandleReplicationDone.
Qed.

Lemma keeps_Enqueue (inState : State) : keepsChunkId (Enqueue inState).
Proof.
  intros this. unfold Enqueue.
  destruct (mPendingCancelFlag this); destruct (negb _); try reflexivity;
    cbn [mClientThreadPtr set_mState];
    destruct (mClientThreadPtr this); try destruct (decide _); reflexivity.
Qed.

Lemma keeps_Read : keepsChunkId Read.
Proof.
  intros this. unfold Read. destruct (mKind this).
  - unfold ReplicatorImpl_Read.
    destruct (_ || _); [reflexivity|].
    destruct (_ <=? _); [rewrite keeps_Terminate; reflexivity|].
    destruct (is_null _); reflexivity.
  - unfold RSReplicatorImpl_Read.
    destruct (negb _); [reflexivity|].
    destruct (mPendingCancelFlag this); [reflexivity|apply keeps_Enqueue].
Qed.

Lemma keeps_HandleStartDone : keepsChunkId HandleStartDone.
Proof.
  intros this. unfold HandleStartDone.
  destruct (_ || _); [apply keeps_Terminate|].
  cbv zeta. destruct (_ || _); [rewrite keeps_Terminate; reflexivity|].
  destruct (negb _); [reflexivity|].
  cbn [mOwner set_mWriteOp set_mReadOp set_mChunkVersion set_mChunkSize].
  destruct (mOwner this); [|reflexivity].
  destruct (AllocChunk _ _ _ _ _) as [status fileH].
  destruct (status <? 0).
  - rewrite keeps_andThen by apply keeps_Terminate.
    destruct (status =? _); reflexivity.
  - destruct (is_null _); [reflexivity|].
    rewrite keeps_andThen by apply keeps_Read. reflexivity.
Qed.

Lemma keeps_Start : keepsChunkId Start.
Proof.
  intros this. unfold Start. destruct (mKind this).
  - unfold ReplicatorImpl_Start. destruct (is_null _); reflexivity.
  - unfold RSReplicatorImpl_Start.
    destruct (mOwner this); [|reflexivity].
    destruct (negb _); [reflexivity|].
    destruct (mPendingCancelFlag this) eqn:Hp; [reflexivity|].
    cbv zeta. destruct (negb (IsValid _)).
    + unfold HandleCompletion.
      cbn [mPendingCancelFlag set_mChunkMetadataOp set_mReadOp].
      rewrite Hp. rewrite keeps_HandleStartDone. reflexivity.
    + rewrite keeps_Enqueue. reflexivity.
Qed.

Lemma keeps_Run_buffers : keepsChunkId Run_buffers.
Proof.
  intros this. unfold Run_buffers. cbv zeta.
  destruct (IsOverQuota _ _).
  - rewrite keeps_andThen by apply keeps_Terminate. reflexivity.
  - destruct (GetForDiskIo _ _); [|reflexivity].
    rewrite keeps_andThen by apply keeps_Start. reflexivity.
Qed.

Lemma keeps_Cancel : keepsChunkId Cancel.
Proof.
  intros this. unfold Cancel. destruct (mKind this).
  - unfold ReplicatorImpl_Cancel. cbv zeta.
    cbn [mWaiting set_mFileHandle set_mCancelFlag].
    destruct (mWaiting this); [|reflexivity].
    rewrite keeps_andThen by apply keeps_Terminate. reflexivity.
  - unfold RSReplicatorImpl_Cancel.
    destruct (mPendingCancelFlag this); [reflexivity|].
    rewrite keeps_Enqueue. reflexivity.
Qed.

(** Case analysis for the lemmas that a handler keeps the chunk id. *)
Ltac keeps_step :=
  match goal with
  | |- mChunkId (andThen (_, _) _).1 = _ => rewrite keeps_andThen
  | |- mChunkId (Terminate _ _).1 = _ => rewrite keeps_Terminate
  | |- mChunkId (Read _).1 = _ => rewrite keeps_Read
  | |- mChunkId (HandleReplicationDone _ _).1 = _ =>
    rewrite keeps_HandleReplicationDone
  | |- mChunkId (Enqueue _ _).1 = _ => rewrite keeps_Enqueue
  | |- keepsChunkId (Terminate _) => apply keeps_Terminate
  | |- keepsChunkId Read => apply keeps_Read
  | |- keepsChunkId (HandleReplicationDone _) =>
    apply keeps_HandleReplicationDone
  | |- context [match ?x with _ => _ end] =>
    lazymatch x with
    | context [match _ with _ => _ end] => fail
    | _ => destruct x
    end
  end.

Lemma keeps_HandleReadDone : keepsChunkId HandleReadDone.
Proof.
  intros this. unfold HandleReadDone, IOBuf.Move, IOBuf.MoveN. cbv zeta.
  repeat keeps_step; reflexivity.
Qed.

Lemma keeps_HandleWriteDone : keepsChunkId HandleWriteDone.
Proof.
  intros this. unfold HandleWriteDone. cbv zeta.
  destruct (_ || _); [apply keeps_Terminate|].
  destruct (_ && _).
  - destruct (negb _); [reflexivity|].
    rewrite keeps_HandleReadDone. reflexivity.
  - rewrite keeps_Read. reflexivity.
Qed.

Lemma keeps_HandleCompletion (data : Completed) :
  keepsChunkId (HandleCompletion data).
Proof.
  intros this. unfold HandleCompletion.
  destruct (mPendingCancelFlag this); [reflexivity|].
  destruct data;
    [rewrite keeps_HandleStartDone|rewrite keeps_HandleReadDone];
    reflexivity.
Qed.

Lemma keeps_HandleRead : keepsChunkId HandleRead.
Proof.
  intros this. unfold HandleRead. cbv zeta.
  destruct (_ || _); [reflexivity|].
  destruct (_ || _); [apply keeps_HandleCompletion|].
  destruct (_ && _); [|reflexivity].
  rewrite andThen_obj, keeps_HandleCompletion. reflexivity.
Qed.

Lemma keeps_Done (a : DoneArgs) : keepsChunkId (Done a).
Proof.
  assert (Hfin : forall ok pending res,
            mChunkId (Done_finish a ok pending res).1 = mChunkId res.1).
  { intros ok pending [t evs]. unfold Done_finish.
    destruct (_ && _); [reflexivity|].
    destruct (mOwner t) as [owner|]; [|reflexivity].
    destruct (negb _); [reflexivity|].
    destruct (inBufferPtr a) as [inBuf|].
    - destruct (_ && _).
      + destruct (InvalidStripes _ _); [|reflexivity].
        destruct (_ && _); [reflexivity|].
        rewrite andThen_obj, keeps_HandleCompletion. reflexivity.
      + rewrite andThen_obj, keeps_HandleCompletion. reflexivity.
    - rewrite andThen_obj, keeps_HandleCompletion. reflexivity. }
  assert (Hbuf : forall inBuf t,
            match Done_buffers a inBuf t with
            | inl r | inr r => mChunkId r.1 = mChunkId t
            end).
  { intros inBuf t. unfold Done_buffers, IOBuf.Move, IOBuf.MoveN. cbv zeta.
    destruct (_ || _).
    - destruct (readerActive a); destruct (_ && _); reflexivity.
    - destruct (_ <=? 0).
      + rewrite keeps_HandleRead. reflexivity.
      + destruct (_ && _); reflexivity. }
  intros this. unfold Done.
  destruct (_ || _); [reflexivity|].
  destruct (mPendingCloseFlag this);
    [destruct (negb _); reflexivity|].
  destruct (negb (mReadInFlightFlag this));
    [destruct (_ && _); reflexivity|].
  cbv zeta. destruct (_ || _); [reflexivity|].
  destruct (inBufferPtr a) as [inBuf|] eqn:Hin.
  - destruct (_ && _).
    + match goal with
      | |- context [Done_buffers a inBuf ?t] =>
        pose proof (Hbuf inBuf t) as H; destruct (Done_buffers a inBuf t)
      end; [exact H|].
      rewrite Hfin. exact H.
    + rewrite Hfin. reflexivity.
  - rewrite Hfin. reflexivity.
Qed.

Lemma registered_emit (evs : list Event) (w : World) :
  registered w -> registered (emit evs w).
Proof. intros H. exact H. Qed.

Lemma registered_destroy (this : nat) (w : World) :
  registered w -> registered (destroy this w).
Proof.
  intros [Hreg Hlive]. unfold destroy.
  destruct (objs w !! this) as [r|] eqn:Hr; [|split; assumption].
  set (reg' := if decide (sInFlightReplications w !! mChunkId r
                          = Some (Some this))
               then delete (mChunkId r) (sInFlightReplications w)
               else sInFlightReplications w).
  assert (Hsub : forall k cur, reg' !! k = Some (Some cur) ->
                 sInFlightReplications w !! k = Some (Some cur)
                 /\ cur <> this).
  { intros k cur. subst reg'. destruct (decide _) as [He|Hn].
    - destruct (decide (k = mChunkId r)) as [->|Hk].
      + rewrite lookup_delete_eq. discriminate.
      + rewrite lookup_delete_ne by congruence. intros H.
        split; [exact H|]. intros ->.
        destruct (Hreg _ _ H) as (r' & Hr' & Hid). congruence.
    - intros H. split; [exact H|]. intros ->.
      destruct (Hreg _ _ H) as (r' & Hr' & Hid).
      assert (r' = r) by congruence. subst r'. subst k. contradiction. }
  assert (Hw : (if decide (sInFlightReplications w !! mChunkId r
                           = Some (Some this))
                then set_sInFlightReplications
                       (delete (mChunkId r) (sInFlightReplications w)) w
                else w)
               = set_sInFlightReplications reg' w).
  { subst reg'. destruct (decide _); [reflexivity|]. destruct w; reflexivity. }
  rewrite Hw. destruct (negb _); unfold registered;
    cbn [objs sInFlightReplications emit set_objs set_sInFlightReplications
         nextId trace].
  - split.
    + intros k cur H. apply Hsub in H. destruct H as [H _]. exact (Hreg _ _ H).
    + exact Hlive.
  - split.
    + intros k cur H. apply Hsub in H. destruct H as [H Hne].
      rewrite lookup_delete_ne by congruence. exact (Hreg _ _ H).
    + intros a r'. destruct (decide (a = this)) as [->|Hne].
      * rewrite lookup_delete_eq. discriminate.
      * rewrite lookup_delete_ne by congruence. apply Hlive.
Qed.

Lemma registered_invoke (this : nat) (m : ReplicatorImpl -> Result)
                        (w : World) :
  keepsChunkId m -> registered w -> registered (invoke this m w).
Proof.
  intros Hm [Hreg Hlive]. unfold invoke.
  destruct (objs w !! this) as [r|] eqn:Hr; [|split; assumption].
  destruct (m r) as [r' evs] eqn:Hmr.
  assert (Hid : mChunkId r' = mChunkId r)
    by (pose proof (Hm r) as H; rewrite Hmr in H; exact H).
  assert (Hw : registered
                 (emit evs (set_objs (<[this := r']> (objs w)) w))).
  { split; cbn [objs sInFlightReplications emit set_objs
                set_sInFlightReplications nextId trace].
    - intros k cur H. destruct (decide (cur = this)) as [->|Hne].
      + rewrite lookup_insert_eq. exists r'. split; [reflexivity|].
        destruct (Hreg _ _ H) as (r0 & Hr0 & Hk). congruence.
      + rewrite lookup_insert_ne by congruence. exact (Hreg _ _ H).
    - intros a r0. destruct (decide (a = this)) as [->|Hne].
      + intros _. exact (Hlive _ _ Hr).
      + rewrite lookup_insert_ne by congruence. apply Hlive. }
  destruct (mRefCount r' <=? 0); [apply registered_destroy|]; exact Hw.
Qed.

Lemma registered_delete (k : Z) (w : World) :
  registered w ->
  registered (set_sInFlightReplications
                (delete k (sInFlightReplications w)) w).
Proof.
  intros [Hreg Hlive]. split; [|exact Hlive].
  cbn [objs sInFlightReplications set_sInFlightReplications].
  intros k' cur. destruct (decide (k' = k)) as [->|Hne].
  - rewrite lookup_delete_eq. discriminate.
  - rewrite lookup_delete_ne by congruence. apply Hreg.
Qed.

Lemma registered_insert (this : nat) (r : ReplicatorImpl) (w : World) :
  registered w ->
  objs w !! this = Some r ->
  registered (set_sInFlightReplications
                (<[mChunkId r := Some this]> (sInFlightReplications w)) w).
Proof.
  intros [Hreg Hlive] Hr. split; [|exact Hlive].
  cbn [objs sInFlightReplications set_sInFlightReplications].
  intros k cur. destruct (decide (k = mChunkId r)) as [->|Hne].
  - rewrite lookup_insert_eq. intros [= <-]. exists r. split; [exact Hr|].
    reflexivity.
  - rewrite lookup_insert_ne by congruence. apply Hreg.
Qed.

Lemma registered_Cancel (chunkId v : Z) (w : World) :
  registered w -> registered (CancelChunkReplication chunkId v w).2.
Proof.
  intros Hw. unfold CancelChunkReplication.
  destruct (sInFlightReplications w !! chunkId) as [[cur|]|]; try exact Hw.
  destruct (objs w !! cur) as [r|]; [|exact Hw].
  destruct (_ && _); [exact Hw|]. cbn [snd].
  apply registered_invoke; [apply keeps_Cancel|].
  apply registered_delete. exact Hw.
Qed.

Lemma registered_Run (this : nat) (w : World) :
  registered w -> registered (ReplicatorImpl_Run this w).
Proof.
  intros Hw. unfold ReplicatorImpl_Run.
  destruct (objs w !! this) as [r|] eqn:Hr; [|exact Hw].
  cbv zeta.
  destruct (sInFlightReplications w !! mChunkId r) as [[other|]|] eqn:He.
  - destruct (decide (other = this)) as [->|Hne]; [exact Hw|].
    assert (Hw1 : registered (invoke other Cancel w))
      by (apply registered_invoke; [apply keeps_Cancel|exact Hw]).
    assert (Hr1 : objs (invoke other Cancel w) !! this = Some r)
      by (rewrite invoke_objs_ne by congruence; exact Hr).
    pose proof (registered_insert this r _ Hw1 Hr1) as Hw2.
    cbn [objs set_sInFlightReplications]. rewrite Hr1.
    destruct (mCancelFlag r).
    + apply registered_invoke; [apply keeps_Terminate|exact Hw2].
    + apply registered_invoke; [apply keeps_Run_buffers|exact Hw2].
  - exact Hw.
  - apply registered_invoke; [apply keeps_Run_buffers|].
    apply registered_insert; assumption.
Qed.

Lemma registered_runNew (impl : ReplicatorImpl) (w : World) :
  registered w -> registered (runNew impl w).
Proof.
  intros [Hreg Hlive]. unfold runNew. apply registered_Run.
  split; cbn [objs sInFlightReplications nextId].
  - intros k cur H. destruct (Hreg _ _ H) as (r & Hr & Hid).
    exists r. split; [|exact Hid].
    rewrite lookup_insert_ne; [exact Hr|].
    pose proof (Hlive _ _ Hr). lia.
  - intros a r. destruct (decide (a = nextId w)) as [->|Hne].
    + intros _. lia.
    + rewrite lookup_insert_ne by congruence. intros H.
      pose proof (Hlive _ _ H). lia.
Qed.

Lemma registered_Replicator_Run (op : ReplicateChunkOp.t) (w : World) :
  registered w -> registered (Replicator_Run op w).
Proof.
  intros Hw. unfold Replicator_Run.
  destruct (takeWord _) as [token p].
  destruct (takeWord _) as [key p'].
  destruct (negb (Bool.eqb _ _)); [exact Hw|].
  destruct (IsValid _).
  - cbv zeta.
    destruct (if sUseConnectionPoolFlag then _ else _) as [[peer status] msg].
    destruct peer; [|exact Hw].
    apply registered_runNew. exact Hw.
  - cbv zeta. destruct (invalidRecoveryRequest op); [exact Hw|].
    destruct (RSReplicatorImpl_Create _ _ _) as [[impl|] op'];
      [apply registered_runNew|]; exact Hw.
Qed.

Lemma registered_foldl (l : list (Z * option nat)) (w : World) :
  registered w ->
  registered
    (foldl (fun (w : World) (it : Z * option nat) =>
              match it.2 with
              | None => w
              | Some cur => invoke cur Cancel w
              end) w l).
Proof.
  revert w; induction l as [|[k [cur|]] l IH]; intros w Hw; cbn [foldl snd].
  - exact Hw.
  - apply IH. apply registered_invoke; [apply keeps_Cancel|exact Hw].
  - apply IH. exact Hw.
Qed.

Lemma registered_CancelAll (w : World) :
  registered w -> registered (CancelAll w).
Proof.
  intros [Hreg Hlive]. unfold CancelAll. apply registered_foldl.
  split; [|exact Hlive].
  cbn [sInFlightReplications set_sInFlightReplications].
  intros k cur. rewrite lookup_empty. discriminate.
Qed.

(** X17: the registry never dangles.  If every address in the registry is
    that of a live replicator of the chunk it is registered for, this still
    holds after [Replicator::Run], [Replicator::Cancel] and
    [Replicator::CancelAll], whatever they are called with, after the run of
    a replicator, and after any method call that leaves the chunk id of the
    object alone; the methods the registry itself calls do. *)
Theorem X17_registry_never_dangles (w : World) :
  registered w ->
  (forall op, registered (Replicator_Run op w))
  /\ (forall chunkId targetVersion,
        registered (Replicator_Cancel chunkId targetVersion w).2)
  /\ registered (CancelAll w)
  /\ (forall this, registered (ReplicatorImpl_Run this w))
  /\ (forall this m, keepsChunkId m -> registered (invoke this m w))
  /\ keepsChunkId Cancel
  /\ keepsChunkId Run_buffers
  /\ keepsChunkId Start
  /\ keepsChunkId HandleStartDone
  /\ keepsChunkId Read
  /\ keepsChunkId HandleReadDone
  /\ keepsChunkId HandleWriteDone
  /\ keepsChunkId HandleRead
  /\ (forall a, keepsChunkId (Done a))
  /\ (forall status, keepsChunkId (Terminate status))
  /\ (forall data, keepsChunkId (HandleReplicationDone data)).
Proof.
  intros Hw.
  split; [intros op; apply registered_Replicator_Run; exact Hw|].
  split; [intros k v; apply registered_Cancel; exact Hw|].
  split; [apply registered_CancelAll; exact Hw|].
  split; [intros this; apply registered_Run; exact Hw|].
  split; [intros this m Hm; apply registered_invoke; assumption|].
  split; [apply keeps_Cancel|]. split; [apply keeps_Run_buffers|].
  split; [apply keeps_Start|]. split; [apply keeps_HandleStartDone|].
  split; [apply keeps_Read|]. split; [apply keeps_HandleReadDone|].
  split; [apply keeps_HandleWriteDone|]. split; [apply keeps_HandleRead|].
  split; [apply keeps_Done|]. split; [apply keeps_Terminate|].
  apply keeps_HandleReplicationDone.
Qed.

Lemma destroy_registry_kept (this : nat) (w : World) (r : ReplicatorImpl) :
  objs w !! this = Some r ->
  sInFlightReplications w !! mChunkId r <> Some (Some this) ->
  sInFlightReplications (destroy this w) = sInFlightReplications w.
Proof.
  intros Hr Hne. unfold destroy. rewrite Hr.
  destruct (decide _); [contradiction|].
  destruct (negb _); reflexivity.
Qed.

Lemma invoke_registry_kept (this : nat) (m : ReplicatorImpl -> Result)
                           (w : World) (r : ReplicatorImpl) :
  keepsChunkId m ->
  objs w !! this = Some r ->
  sInFlightReplications w !! mChunkId r <> Some (Some this) ->
  sInFlightReplications (invoke this m w) = sInFlightReplications w.
Proof.
  intros Hm Hr Hne. unfold invoke. rewrite Hr.
  destruct (m r) as [r' evs] eqn:Hmr.
  assert (Hid : mChunkId r' = mChunkId r)
    by (pose proof (Hm r) as H; rewrite Hmr in H; exact H).
  destruct (mRefCount r' <=? 0); [|reflexivity].
  rewrite (destroy_registry_kept this _ r').
  - reflexivity.
  - cbn. apply lookup_insert_eq.
  - rewrite Hid. exact Hne.
Qed.

Lemma destroy_nextId (this : nat) (w : World) :
  nextId (destroy this w) = nextId w.
Proof.
  unfold destroy. destruct (objs w !! this); [|reflexivity].
  destruct (decide _); destruct (negb _); reflexivity.
Qed.

Lemma invoke_nextId (this : nat) (m : ReplicatorImpl -> Result) (w : World) :
  nextId (invoke this m w) = nextId w.
Proof.
  unfold invoke. destruct (objs w !! this); [|reflexivity].
  destruct (m r) as [r' evs].
  destruct (_ <=? 0); [rewrite destroy_nextId|]; reflexivity.
Qed.

(** X18: under a registry that does not dangle, a cancellation that
    succeeds takes exactly the entry of the chunk out of the registry: the
    other chunks stay registered as they were, the number of replications
    drops by one, and no replicator but the cancelled one is touched.  A
    cancellation that fails changes nothing. *)
Theorem X18_Cancel_removes_one_entry (w : World) (chunkId targetVersion : Z) :
  registered w ->
  let res := Replicator_Cancel chunkId targetVersion w in
  (res.1 = true ->
   sInFlightReplications res.2 = delete chunkId (sInFlightReplications w)
   /\ GetNumReplications res.2 = GetNumReplications w - 1
   /\ exists cur,
        sInFlightReplications w !! chunkId = Some (Some cur)
        /\ forall a, a <> cur -> objs res.2 !! a = objs w !! a)
  /\ (res.1 = false -> res.2 = w).
Proof.
  intros Hw res. subst res. unfold Replicator_Cancel.
  destruct (sInFlightReplications w !! chunkId) as [[cur|]|] eqn:He.
  2,3: unfold CancelChunkReplication; rewrite He;
       split; [discriminate|reflexivity].
  destruct (proj1 Hw _ _ He) as (r & Hr & Hid).
  rewrite (CancelChunkReplication_live w chunkId targetVersion cur r He Hr).
  destruct (_ && _); [split; [discriminate|reflexivity]|].
  cbn [fst snd]. split; [intros _|discriminate].
  assert (Hreg : sInFlightReplications
                   (invoke cur Cancel
                      (set_sInFlightReplications
                         (delete chunkId (sInFlightReplications w)) w))
                 = delete chunkId (sInFlightReplications w)).
  { rewrite (invoke_registry_kept cur Cancel _ r keeps_Cancel).
    - reflexivity.
    - exact Hr.
    - cbn. rewrite Hid, lookup_delete_eq. discriminate. }
  split; [exact Hreg|]. split.
  - unfold GetNumReplications. rewrite Hreg.
    rewrite map_size_delete_Some by (rewrite He; eexists; reflexivity).
    assert (size (sInFlightReplications w) <> 0%nat).
    { intros H0. apply map_size_empty_iff in H0. rewrite H0 in He.
      rewrite lookup_empty in He. discriminate. }
    lia.
  - exists cur. split; [reflexivity|].
    intros a Ha. rewrite invoke_objs_ne by exact Ha. reflexivity.
Qed.

Lemma CancelAll_fold (w : World) :
  CancelAll w
  = foldl cancelEntry (set_sInFlightReplications ∅ w)
          (registryEntries (sInFlightReplications w)).
Proof. reflexivity. Qed.

Lemma elem_of_registryEntries (m : gmap Z (option nat)) (k : Z)
                              (v : option nat) :
  (k, v) ∈ registryEntries m <-> m !! k = Some v.
Proof.
  unfold registryEntries. rewrite merge_sort_Permutation.
  apply elem_of_map_to_list.
Qed.

Lemma invoke_registry_empty (this : nat) (m : ReplicatorImpl -> Result)
                            (w : World) :
  sInFlightReplications w = ∅ -> sInFlightReplications (invoke this m w) = ∅.
Proof.
  intros He. apply map_empty. intros k.
  apply invoke_registry_None. rewrite He. apply lookup_empty.
Qed.

Lemma invoke_trace (this : nat) (m : ReplicatorImpl -> Result) (w : World) :
  exists evs, trace (invoke this m w) = trace w ++ evs.
Proof.
  unfold invoke. destruct (objs w !! this) as [r|];
    [|exists []; rewrite app_nil_r; reflexivity].
  destruct (m r) as [r' evs].
  destruct (_ <=? 0); [|exists evs; reflexivity].
  unfold destroy. cbn [objs emit set_objs].
  rewrite lookup_insert_eq.
  destruct (decide _); destruct (negb _); cbn;
    eexists; rewrite <- app_assoc; reflexivity.
Qed.

Lemma cancelRequested_invoke (a b : nat) (w : World) :
  (forall r, objs w !! a = Some r -> cancelRequested r = true) \/ a = b ->
  forall r', objs (invoke b Cancel w) !! a = Some r' ->
             cancelRequested r' = true.
Proof.
  intros H r'. destruct (decide (a = b)) as [->|Hne].
  - destruct (objs w !! b) as [r|] eqn:Hr.
    + intros Hr'. rewrite (invoke_objs b Cancel w r r' Hr Hr').
      apply Cancel_requested.
    + unfold invoke. rewrite Hr. rewrite Hr. discriminate.
  - rewrite invoke_objs_ne by exact Hne.
    destruct H as [H|H]; [apply H|contradiction].
Qed.

Lemma foldl_cancelEntry (l : list (Z * option nat)) (w : World) :
  let w' := foldl cancelEntry w l in
  (sInFlightReplications w = ∅ -> sInFlightReplications w' = ∅)
  /\ nextId w' = nextId w
  /\ (exists evs, trace w' = trace w ++ evs)
  /\ (forall a,
        (forall r, objs w !! a = Some r -> cancelRequested r = true)
        \/ (exists k, (k, Some a) ∈ l) ->
        forall r', objs w' !! a = Some r' -> cancelRequested r' = true)
  /\ (forall a, (forall k, (k, Some a) ∉ l) -> objs w' !! a = objs w !! a).
Proof.
  revert w; induction l as [|[k v] l IH]; intros w; cbn [foldl].
  - split; [intros H; exact H|]. split; [reflexivity|].
    split; [exists []; rewrite app_nil_r; reflexivity|].
    split; [|reflexivity].
    intros a [H|[k Hk]]; [exact H|]. inversion Hk.
  - destruct (IH (cancelEntry w (k, v))) as (He & Hn & Ht & Hc & Ho).
    destruct v as [cur|];
      [change (cancelEntry w (k, Some cur)) with (invoke cur Cancel w)
         in He, Hn, Ht, Hc, Ho |- *
      |change (cancelEntry w (k, None)) with w in He, Hn, Ht, Hc, Ho |- *].
    + split; [intros H; apply He, invoke_registry_empty, H|].
      split; [rewrite Hn; apply invoke_nextId|].
      split.
      { destruct Ht as [e2 ->].
        destruct (invoke_trace cur Cancel w) as [e1 ->].
        exists (e1 ++ e2). rewrite app_assoc. reflexivity. }
      split.
      * intros a Ha. apply Hc.
        destruct Ha as [Ha|[k' Hk']].
        -- left. apply cancelRequested_invoke. left. exact Ha.
        -- apply elem_of_cons in Hk'. destruct Hk' as [[= -> ->]|Hk'].
           ++ left. apply cancelRequested_invoke. right. reflexivity.
           ++ right. exists k'. exact Hk'.
      * intros a Ha. rewrite Ho.
        -- apply invoke_objs_ne. intros ->. apply (Ha k). left.
        -- intros k' Hk'. apply (Ha k'). right. exact Hk'.
    + split; [exact He|]. split; [exact Hn|]. split; [exact Ht|].
      split.
      * intros a Ha. apply Hc.
        destruct Ha as [Ha|[k' Hk']]; [left; exact Ha|].
        apply elem_of_cons in Hk'. destruct Hk' as [[= _ ?]|Hk'].
        right. exists k'. exact Hk'.
      * intros a Ha. apply Ho. intros k' Hk'. apply (Ha k'). right. exact Hk'.
Qed.

(** X19: [CancelAll] leaves the registry empty, and every replicator that
    was registered and is still alive has its cancellation on record; the
    replicators that were not registered are untouched, the trace only
    grows, and a second [CancelAll] right after changes nothing. *)
Theorem X19_CancelAll_cancels_all (w : World) :
  let w' := CancelAll w in
  sInFlightReplications w' = ∅
  /\ GetNumReplications w' = 0
  /\ nextId w' = nextId w
  /\ (exists evs, trace w' = trace w ++ evs)
  /\ (forall chunkId cur r',
        sInFlightReplications w !! chunkId = Some (Some cur) ->
        objs w' !! cur = Some r' ->
        cancelRequested r' = true)
  /\ (forall a,
        (forall chunkId,
           sInFlightReplications w !! chunkId <> Some (Some a)) ->
        objs w' !! a = objs w !! a)
  /\ CancelAll w' = w'.
Proof.
  intros w'. subst w'. rewrite CancelAll_fold.
  destruct (foldl_cancelEntry (registryEntries (sInFlightReplications w))
              (set_sInFlightReplications ∅ w))
    as (He & Hn & Ht & Hc & Ho).
  cbv zeta in He, Hn, Ht, Hc, Ho.
  specialize (He eq_refl).
  split; [exact He|].
  split; [unfold GetNumReplications; rewrite He, map_size_empty; reflexivity|].
  split; [exact Hn|]. split; [exact Ht|].
  split.
  { intros k cur r' Hk. apply Hc. right. exists k.
    apply elem_of_registryEntries. exact Hk. }
  split.
  { intros a Ha. rewrite Ho; [reflexivity|].
    intros k Hk. apply elem_of_registryEntries in Hk. exact (Ha k Hk). }
  remember (foldl cancelEntry (set_sInFlightReplications ∅ w)
                  (registryEntries (sInFlightReplications w))) as x eqn:Hx.
  clear Hx Hn Ht Hc Ho.
  rewrite CancelAll_fold. rewrite He.
  unfold registryEntries. rewrite map_to_list_empty.
  change (merge_sort byChunkId []) with (@nil (Z * option nat)).
  cbn [foldl].
  destruct x as [o s n t]. cbn in He. subst s. reflexivity.
Qed.

(** X20: the run of a replicator for a chunk that is registered already.
    If the entry is null or is this replicator, the run stops with "invalid
    null entry or an attempt to restart replication" and changes nothing
    else.  If the entry is another replicator, that one is cancelled first:
    afterwards its cancellation is on record, unless it is gone, and the
    entry of the chunk is this replicator, which then asks for its buffers;
    a replicator that is itself cancelled already is terminated with
    -ECANCELED instead. *)
Theorem X20_Run_takes_over (this : nat) (r : ReplicatorImpl) (w : World) :
  objs w !! this = Some r ->
  (sInFlightReplications w !! mChunkId r = Some None
   \/ sInFlightReplications w !! mChunkId r = Some (Some this) ->
   ReplicatorImpl_Run this w
   = emit [Die "invalid null entry or an attempt to restart replication"] w)
  /\ forall other,
     sInFlightReplications w !! mChunkId r = Some (Some other) ->
     other <> this ->
     let w1 := set_sInFlightReplications
                 (<[mChunkId r := Some this]>
                    (sInFlightReplications (invoke other Cancel w)))
                 (invoke other Cancel w) in
     ReplicatorImpl_Run this w
     = invoke this (if mCancelFlag r then Terminate ECANCELED
                    else Run_buffers) w1
     /\ objs w1 !! this = Some r
     /\ sInFlightReplications w1 !! mChunkId r = Some (Some this)
     /\ forall ro',
        objs (ReplicatorImpl_Run this w) !! other = Some ro' ->
        cancelRequested ro' = true.
Proof.
  intros Hr. split.
  - intros He. unfold ReplicatorImpl_Run. rewrite Hr. cbv zeta.
    destruct He as [-> | ->]; [reflexivity|].
    destruct (decide (this = this)); [reflexivity|contradiction].
  - intros other He Hne w1.
    assert (Hr1 : objs w1 !! this = Some r).
    { subst w1. cbn [objs set_sInFlightReplications].
      rewrite invoke_objs_ne by congruence. exact Hr. }
    assert (Hrun : ReplicatorImpl_Run this w
                   = invoke this (if mCancelFlag r then Terminate ECANCELED
                                  else Run_buffers) w1).
    { unfold ReplicatorImpl_Run. rewrite Hr. cbv zeta. rewrite He.
      destruct (decide (other = this)); [contradiction|].
      fold w1. rewrite Hr1. destruct (mCancelFlag r); reflexivity. }
    split; [exact Hrun|]. split; [exact Hr1|].
    split; [subst w1; cbn; apply lookup_insert_eq|].
    intros ro'. rewrite Hrun. rewrite invoke_objs_ne by exact Hne.
    subst w1. cbn [objs set_sInFlightReplications].
    apply cancelRequested_invoke. right. reflexivity.
Qed.

(** ** The entry point *)

Lemma skipBlank_blanks (blanks l : list Z) :
  Forall isBlank blanks -> skipBlank (blanks ++ l) = skipBlank l.
Proof.
  induction 1 as [|c blanks Hc _ IH]; [reflexivity|].
  cbn [app skipBlank]. unfold isBlank in Hc.
  rewrite (proj2 (Z.leb_le _ _)) by exact Hc. exact IH.
Qed.

Lemma skipBlank_word (c : Z) (l : list Z) :
  isWordByte c -> skipBlank (c :: l) = c :: l.
Proof.
  unfold isWordByte. intros Hc. cbn [skipBlank].
  rewrite (proj2 (Z.leb_gt _ _)) by exact Hc. reflexivity.
Qed.

Lemma skipBlank_all_blank (l : list Z) : Forall isBlank l -> skipBlank l = [].
Proof.
  intros H. rewrite <- (app_nil_r l). rewrite skipBlank_blanks by exact H.
  reflexivity.
Qed.

Lemma takeWord_word (word rest : list Z) :
  Forall isWordByte word -> wordEnds rest ->
  takeWord (word ++ rest) = (word, rest).
Proof.
  intros Hw Hr. induction Hw as [|c word Hc _ IH].
  - destruct rest as [|c rest]; [reflexivity|].
    cbn [app takeWord]. unfold wordEnds, isBlank in Hr.
    rewrite (proj2 (Z.ltb_ge _ _)) by exact Hr. reflexivity.
  - cbn [app takeWord]. unfold isWordByte in Hc.
    rewrite (proj2 (Z.ltb_lt _ _)) by exact Hc. rewrite IH. reflexivity.
Qed.

Lemma skipBlank_ends (l : list Z) :
  skipBlank l = [] \/ exists c l', skipBlank l = c :: l' /\ isWordByte c.
Proof.
  induction l as [|c l IH]; [left; reflexivity|].
  cbn [skipBlank]. destruct (Z.leb_spec (Z.land c 255) 32); [exact IH|].
  right. exists c, l. split; [reflexivity|assumption].
Qed.

Lemma takeWord_nil_word (c : Z) (l : list Z) :
  isWordByte c -> (takeWord (c :: l)).1 <> [].
Proof.
  unfold isWordByte. intros Hc. cbn [takeWord].
  rewrite (proj2 (Z.ltb_lt _ _)) by exact Hc.
  destruct (takeWord l). discriminate.
Qed.

(** X21: the scan of the access header.  A header that holds a token and a
    key, two runs of bytes above the space character with blanks before,
    between and after them, is read as that token and that key, whatever
    follows the blank after the key.  A key is never found without a token; a header with a
    token and no key is malformed: the op is answered with -EINVAL and the
    message "malformed chunk access header value", counted as a replication
    or a recovery error by the validity of its location, and no replicator is
    created. *)
Theorem X21_access_header (op : ReplicateChunkOp.t) (w : World) :
  (forall blanks1 token blanks2 key rest,
     ReplicateChunkOp.chunkServerAccess op
     = blanks1 ++ token ++ blanks2 ++ key ++ rest ->
     Forall isBlank blanks1 ->
     Forall isWordByte token -> token <> [] ->
     Forall isBlank blanks2 -> blanks2 <> [] ->
     Forall isWordByte key -> key <> [] ->
     wordEnds rest ->
     accessToken op = token /\ accessKey op = key)
  /\ (accessToken op = [] -> accessKey op = [])
  /\ (accessToken op <> [] -> accessKey op = [] ->
      exists op',
        Replicator_Run op w
        = emit [CounterInc (if IsValid (ReplicateChunkOp.location op)
                            then mReplicationErrorCount
                            else mRecoveryErrorCount);
                SubmitOpResponse op'] w
        /\ ReplicateChunkOp.status op' = - EINVAL
        /\ ReplicateChunkOp.statusMsg op'
           = "malformed chunk access header value"%string
        /\ ReplicateChunkOp.chunkVersion op'
           = ReplicateChunkOp.chunkVersion op).
Proof.
  split; [|split].
  - intros blanks1 token blanks2 key rest Hhdr Hb1 Ht Htne Hb2 Hb2ne Hk Hkne
           Hr.
    unfold accessToken, accessKey. rewrite Hhdr.
    rewrite skipBlank_blanks by exact Hb1.
    destruct token as [|c token]; [contradiction|].
    rewrite <- app_comm_cons.
    rewrite skipBlank_word by (inversion Ht; assumption).
    rewrite app_comm_cons.
    rewrite takeWord_word; [|exact Ht|].
    2:{ destruct blanks2 as [|b blanks2]; [contradiction|].
        inversion Hb2; assumption. }
    cbn [fst snd]. split; [reflexivity|].
    rewrite skipBlank_blanks by exact Hb2.
    destruct key as [|k key]; [contradiction|].
    rewrite <- app_comm_cons.
    rewrite skipBlank_word by (inversion Hk; assumption).
    rewrite app_comm_cons. rewrite takeWord_word by assumption.
    reflexivity.
  - unfold accessToken, accessKey.
    destruct (skipBlank_ends (ReplicateChunkOp.chunkServerAccess op))
      as [-> | (c & l & -> & Hc)].
    + intros _. reflexivity.
    + intros H. exfalso. exact (takeWord_nil_word c l Hc H).
  - unfold accessToken, accessKey, Replicator_Run.
    destruct (takeWord (skipBlank (ReplicateChunkOp.chunkServerAccess op)))
      as [token p].
    cbn [fst snd].
    destruct (takeWord (skipBlank p)) as [key p'].
    cbn [fst snd]. intros Htok ->.
    destruct token as [|c token]; [contradiction|].
    cbn [length negb Bool.eqb].
    replace (0 <? Z.of_nat 0) with false by reflexivity.
    replace (0 <? Z.of_nat (S (length token))) with true
      by (symmetry; apply Z.ltb_lt; lia).
    cbn [Bool.eqb negb].
    eexists. split; [reflexivity|]. repeat split; reflexivity.
Qed.


Lemma headerWellFormed_test (op : ReplicateChunkOp.t) :
  headerWellFormed op ->
  negb (Bool.eqb (0 <? Z.of_nat (length (accessKey op)))
                 (0 <? Z.of_nat (length (accessToken op)))) = false.
Proof.
  unfold headerWellFormed. intros [H1 H2].
  destruct (accessKey op) as [|k key]; destruct (accessToken op) as [|t tok];
    try reflexivity.
  - discriminate (H1 eq_refl).
  - discriminate (H2 eq_refl).
Qed.

(** [Replicator::Run] on a request for a direct replication with a well
    formed header. *)
Lemma Replicator_Run_direct (op : ReplicateChunkOp.t) (w : World) :
  headerWellFormed op ->
  IsValid (ReplicateChunkOp.location op) = true ->
  Replicator_Run op w
  = let w := emit [CounterInc mReplicationCount] w in
    let '(peer, status, msg) := peerFor op in
    let peer := if status <? 0 then None else peer in
    let op := ReplicateChunkOp.set_statusMsg msg
                (ReplicateChunkOp.set_status status op) in
    match peer with
    | Some _ => runNew (ReplicatorImpl_new op peer) w
    | None =>
      let op :=
        if 0 <=? ReplicateChunkOp.status op
        then ReplicateChunkOp.set_status (- EHOSTUNREACH) op else op in
      emit [CounterInc mReplicationErrorCount; SubmitOpResponse op] w
    end.
Proof.
  intros Hh Hv. pose proof (headerWellFormed_test op Hh) as Ht.
  unfold Replicator_Run, peerFor. unfold accessToken, accessKey in *.
  destruct (takeWord (skipBlank (ReplicateChunkOp.chunkServerAccess op)))
    as [token p].
  cbn [fst snd] in *.
  destruct (takeWord (skipBlank p)) as [key p'].
  cbn [fst snd] in *. rewrite Ht, Hv. cbv zeta.
  destruct sUseConnectionPoolFlag.
  - destruct (FindServer _ _ _ _ _ _) as [[peer status] msg]. reflexivity.
  - destruct (RemoteSyncSM_Create _ _ _ _ _ _ _ _) as [[peer status] msg].
    reflexivity.
Qed.

(** X22: a request for a direct replication whose peer cannot be had, be it
    that the session factory returns no peer or that it leaves a negative
    status in the op, is answered at once: with the negative status of the
    factory, or with -EHOSTUNREACH when the factory left none, and with the
    message of the factory.  The request is counted as a replication and as
    a replication error, and no replicator is created or registered. *)
Theorem X22_Run_without_peer
  (op : ReplicateChunkOp.t) (w : World)
  (peer : option ServerLocation.t) (status : Z) (msg : string) :
  headerWellFormed op ->
  IsValid (ReplicateChunkOp.location op) = true ->
  peerFor op = (peer, status, msg) ->
  peer = None \/ status < 0 ->
  exists op',
    Replicator_Run op w
    = emit [CounterInc mReplicationCount; CounterInc mReplicationErrorCount;
            SubmitOpResponse op'] w
    /\ ReplicateChunkOp.status op'
       = (if 0 <=? status then - EHOSTUNREACH else status)
    /\ ReplicateChunkOp.status op' < 0
    /\ ReplicateChunkOp.statusMsg op' = msg
    /\ objs (Replicator_Run op w) = objs w
    /\ sInFlightReplications (Replicator_Run op w) = sInFlightReplications w
    /\ nextId (Replicator_Run op w) = nextId w.
Proof.
  intros Hh Hv Hp Hno. rewrite (Replicator_Run_direct op w Hh Hv), Hp.
  cbv zeta.
  assert (Hnone : (if status <? 0 then None else peer) = None).
  { destruct Hno as [-> | Hneg]; [destruct (status <? 0); reflexivity|].
    rewrite (proj2 (Z.ltb_lt _ _)) by exact Hneg. reflexivity. }
  rewrite Hnone. fields.
  eexists. split.
  { unfold emit. cbn. rewrite <- app_assoc. reflexivity. }
  destruct (Z.leb_spec 0 status); fields;
    repeat split; first [reflexivity | lia].
Qed.

(** X23: a request for a direct replication of a chunk that is not
    registered, with a peer to be had and buffers at hand, starts the
    replication.  A replicator is created at the next address with one
    reference, for the op with the status and message the session factory
    left, at offset 0, neither done nor cancelled, without file handle; it is
    registered for the chunk, asks the buffer manager for 1 MiB and sends the
    size probe for its chunk to the peer, with read verification off.  The
    request is counted as a replication and the object as a replicator. *)
Theorem X23_Run_starts_replication
  (op : ReplicateChunkOp.t) (w : World)
  (peer : ServerLocation.t) (status : Z) (msg : string) :
  headerWellFormed op ->
  IsValid (ReplicateChunkOp.location op) = true ->
  peerFor op = (Some peer, status, msg) ->
  0 <= status ->
  sInFlightReplications w !! ReplicateChunkOp.chunkId op = None ->
  let op' := ReplicateChunkOp.set_statusMsg msg
               (ReplicateChunkOp.set_status status op) in
  let impl := Ref (ReplicatorImpl_new op' (Some peer)) in
  IsOverQuota impl 1048576 = false ->
  GetForDiskIo impl 1048576 = true ->
  exists started md,
    Replicator_Run op w
    = {| objs := <[nextId w := started]> (objs w);
         sInFlightReplications :=
           <[ReplicateChunkOp.chunkId op := Some (nextId w)]>
             (sInFlightReplications w);
         nextId := S (nextId w);
         trace := trace w
                  ++ [CounterInc mReplicationCount;
                      CounterInc mReplicatorCount;
                      IsOverQuota_call 1048576;
                      GetForDiskIo_call 1048576;
                      PeerEnqueueMeta md] |}
    /\ GetChunkMetadataOp.chunkId md = ReplicateChunkOp.chunkId op
    /\ GetChunkMetadataOp.readVerifyFlag md = false
    /\ mChunkMetadataOp started = md
    /\ mKind started = Direct
    /\ mOwner started = Some op'
    /\ mPeer started = Some peer
    /\ mChunkId started = ReplicateChunkOp.chunkId op
    /\ mChunkVersion started = ReplicateChunkOp.chunkVersion op
    /\ mRefCount started = 1
    /\ mHandler started = hHandleStartDone
    /\ mOffset started = 0
    /\ mDone started = false
    /\ mCancelFlag started = false
    /\ mFileHandle started = None
    /\ ReadOp.skipVerifyDiskChecksumFlag (mReadOp started)
       = sReadSkipDiskVerifyFlag
    /\ ReadOp.requestChunkAccess (mReadOp started)
       = (if (ReplicateChunkOp.chunkAccess op =? "")%string then None
          else Some (ReplicateChunkOp.chunkAccess op)).
Proof.
  intros Hh Hv Hp Hst Hfree op' impl Hq Hg.
  rewrite (Replicator_Run_direct op w Hh Hv), Hp. cbv zeta.
  rewrite (proj2 (Z.ltb_ge _ _)) by exact Hst.
  fold op'. unfold runNew. fold impl.
  unfold ReplicatorImpl_Run.
  cbn [objs sInFlightReplications nextId trace emit].
  rewrite lookup_insert_eq. cbv zeta.
  change (mChunkId impl) with (ReplicateChunkOp.chunkId op).
  rewrite Hfree. unfold invoke.
  cbn [objs sInFlightReplications nextId trace emit set_objs
       set_sInFlightReplications].
  rewrite lookup_insert_eq.
  assert (Hbuf : Z.max (Z.shiftl 16 10) (GetBufferBytesRequired impl)
                 = 1048576) by reflexivity.
  unfold Run_buffers. cbv zeta. rewrite Hbuf, Hq, Hg.
  assert (Hkind : mKind impl = Direct) by reflexivity.
  assert (Hpeer : is_null (mPeer impl) = false) by reflexivity.
  unfold andThen. cbv beta iota.
  unfold Start. rewrite Hkind.
  unfold ReplicatorImpl_Start. rewrite Hpeer.
  cbv zeta. cbv beta iota.
  match goal with
  | |- context [mRefCount ?t <=? 0] =>
    replace (mRefCount t <=? 0) with false by reflexivity
  end.
  eexists _, _. split.
  { unfold emit, set_objs, set_sInFlightReplications.
    cbn [objs sInFlightReplications nextId trace].
    rewrite insert_insert_eq. rewrite <- !app_assoc. reflexivity. }
  repeat split; reflexivity.
Qed.

(** ** Cancellation *)

(** X24: [ReplicatorImpl::Cancel] sets the cancel flag and hands the file
    handle, if one is held, back to the chunk manager with -ECANCELED.  A
    replicator that waits for buffers withdraws its request and answers the
    op at once with -ECANCELED and chunk version -1, counted as canceled.
    One that does not wait keeps its op: the completion that arrives next,
    of the size probe, of a read or of a write, whatever its status, answers
    the op with -ECANCELED and chunk version -1, counts it as canceled, and
    asks for nothing more. *)
Theorem X24_Cancel_then_completion (this : ReplicatorImpl)
                                   (owner : ReplicateChunkOp.t) :
  mOwner this = Some owner ->
  let c := ReplicatorImpl_Cancel this in
  let released :=
    match mFileHandle this with
    | Some fileH => [ReplicationDone_call (mChunkId this) (- ECANCELED) fileH]
    | None => []
    end in
  let op := ReplicateChunkOp.set_chunkVersion (-1)
              (ReplicateChunkOp.set_status (- ECANCELED) owner) in
  let answer := [CounterInc (failureCounter owner true); SubmitOpResponse op] in
  mCancelFlag c.1 = true
  /\ mFileHandle c.1 = None
  /\ (mWaiting this = true ->
      c.2 = released ++ CancelRequest_call :: answer
      /\ mOwner c.1 = None
      /\ mWaiting c.1 = false
      /\ mRefCount c.1 = mRefCount this - 1)
  /\ (mWaiting this = false ->
      c = (set_mFileHandle None (set_mCancelFlag true this), released)
      /\ (HandleStartDone c.1).2 = answer
      /\ (HandleReadDone c.1).2 = answer
      /\ (HandleWriteDone c.1).2 = answer).
Proof.
  intros Hown c released op answer. subst c.
  unfold ReplicatorImpl_Cancel. cbv zeta.
  cbn [mWaiting mFileHandle mChunkId set_mFileHandle set_mCancelFlag].
  fold released.
  assert (Hterm : forall t,
            mOwner t = Some owner -> mCancelFlag t = true ->
            mFileHandle t = None ->
            (Terminate ECANCELED t).2 = answer
            /\ (Terminate ECANCELED t).1
               = (HandleReplicationDone (Some (- ECANCELED)) t).1).
  { intros t Ho Hc Hf. split.
    - rewrite (Terminate_fails ECANCELED t owner Ho)
        by (rewrite Hc; apply andb_false_r).
      rewrite Hf, Hc. reflexivity.
    - rewrite Terminate_not_done by (rewrite Hc; apply andb_false_r).
      reflexivity. }
  destruct (mWaiting this) eqn:Hw.
  - rewrite andThen_obj, andThen_trace.
    match goal with
    | |- context [Terminate ECANCELED ?t] =>
      destruct (Hterm t Hown eq_refl eq_refl) as [Htr Hobj]
    end.
    rewrite Htr, Hobj.
    rewrite (HandleReplicationDone_obj _ _ owner) by exact Hown.
    split; [reflexivity|]. split; [reflexivity|].
    split; [|intros; discriminate]. intros _.
    split; [rewrite <- app_assoc; reflexivity|].
    repeat split; reflexivity.
  - cbn [fst snd]. split; [reflexivity|]. split; [reflexivity|].
    split; [intros; discriminate|]. intros _.
    split; [reflexivity|].
    set (t := set_mFileHandle None (set_mCancelFlag true this)).
    destruct (Hterm t Hown eq_refl eq_refl) as [Htr _].
    split; [|split].
    + unfold HandleStartDone.
      change (mCancelFlag t) with true. cbn [orb]. exact Htr.
    + unfold HandleReadDone. change (mCancelFlag t) with true. exact Htr.
    + unfold HandleWriteDone. change (mCancelFlag t) with true.
      cbn [orb]. exact Htr.
Qed.

(** ** Recovery: cancellation, start and read *)

Lemma Enqueue_same (inState : State) (this : ReplicatorImpl) :
  mPendingCancelFlag this = true ->
  mState this = inState ->
  Enqueue inState this = (this, [handedOver this]).
Proof.
  intros Hp Hs. unfold Enqueue, handedOver. rewrite Hp, Hs.
  destruct inState; cbn [State_eqb negb];
    destruct (mClientThreadPtr this); try destruct (decide _); reflexivity.
Qed.


(** X25: the cancellation of a recovery replicator is handed over to its
    thread once.  The first [Cancel] sets the pending flag, leaves the state
    as it is and runs [Handle], queued to the client thread of the
    replicator when the caller is on another thread and at once otherwise;
    every further [Cancel] does nothing.  While the cancellation is pending
    the replicator ignores completions, and a read or a start asked of it
    is dropped. *)
Theorem X25_recovery_cancel_is_pending (this : ReplicatorImpl) :
  let c := RSReplicatorImpl_Cancel this in
  (mPendingCancelFlag this = false ->
   c = (set_mPendingCancelFlag true this, [handedOver this]))
  /\ (mPendingCancelFlag this = true -> c = (this, []))
  /\ mPendingCancelFlag c.1 = true
  /\ mState c.1 = mState this
  /\ RSReplicatorImpl_Cancel c.1 = (c.1, [])
  /\ (forall data, HandleCompletion data c.1 = (c.1, []))
  /\ (mState this = kNone -> RSReplicatorImpl_Read c.1 = (c.1, []))
  /\ (forall owner,
        mOwner this = Some owner ->
        ReplicateChunkOp.status owner = 0 ->
        mState this = kNone ->
        RSReplicatorImpl_Start c.1 = (c.1, [])).
Proof.
  intros c.
  assert (Hc : c = if mPendingCancelFlag this then (this, [])
                   else (set_mPendingCancelFlag true this,
                         [handedOver this])).
  { subst c. unfold RSReplicatorImpl_Cancel.
    destruct (mPendingCancelFlag this); [reflexivity|].
    rewrite Enqueue_same by reflexivity. reflexivity. }
  assert (Hp : mPendingCancelFlag c.1 = true)
    by (rewrite Hc; destruct (mPendingCancelFlag this) eqn:E;
        [exact E|reflexivity]).
  assert (Hs : mState c.1 = mState this)
    by (rewrite Hc; destruct (mPendingCancelFlag this); reflexivity).
  assert (Ho : mOwner c.1 = mOwner this)
    by (rewrite Hc; destruct (mPendingCancelFlag this); reflexivity).
  split; [intros E; rewrite Hc, E; reflexivity|].
  split; [intros E; rewrite Hc, E; reflexivity|].
  split; [exact Hp|]. split; [exact Hs|].
  split; [unfold RSReplicatorImpl_Cancel; rewrite Hp; reflexivity|].
  split; [intros data; unfold HandleCompletion; rewrite Hp; reflexivity|].
  split.
  - intros E. unfold RSReplicatorImpl_Read. rewrite Hs, E, Hp. reflexivity.
  - intros owner Hown Hst E. unfold RSReplicatorImpl_Start.
    rewrite Ho, Hown, Hst, Hs, E, Hp. reflexivity.
Qed.


(** A read that failed for good ends the replication with its status. *)
Lemma HandleReadDone_fails (this : ReplicatorImpl) :
  mCancelFlag this = false ->
  ReadOp.status (mReadOp this) < 0 ->
  ReadOp.skipVerifyDiskChecksumFlag (mReadOp this)
  && (ReadOp.status (mReadOp this) =? - EBADCKSUM) = false ->
  HandleReadDone this
  = Terminate (ReadOp.status (mReadOp this)) (set_mDone false this).
Proof.
  intros Hc Hneg Hnoretry. unfold HandleReadDone.
  rewrite Hc, Hnoretry.
  destruct (Z.ltb_spec (ReadOp.status (mReadOp this)) 0) as [_|]; [|lia].
  cbn [orb].
  destruct (Z.ltb_spec (ReadOp.status (mReadOp this)) 0) as [_|]; [|lia].
  cbn [orb].
  rewrite (proj2 (Z.leb_gt 0 (ReadOp.status (mReadOp this)))) by exact Hneg.
  rewrite andb_false_r. reflexivity.
Qed.

(** X27: [HandleRead] asks the reader for [mReadSize] bytes at the position
    behind the bytes held back in the read tail, with the read op reset for
    the read at [mOffset] and the read marked in flight.  If the reader
    refuses with a negative status, the read is no longer in flight and the
    recovery fails with that status.  At the end of the chunk, or after a
    failed read, the reader is not asked: the completion of the read runs
    at once. *)
Theorem X27_HandleRead (this : ReplicatorImpl) (owner : ReplicateChunkOp.t) :
  mOwner this = Some owner ->
  mCancelFlag this = false ->
  mReadInFlightFlag this = false ->
  mPendingCancelFlag this = false ->
  mDone this = false ->
  ReadOp.skipVerifyDiskChecksumFlag (mReadOp this) = false ->
  let pos := mOffset this + IOBuf.BytesConsumable (mReadTail this) in
  let status := Reader_Read_status (mReadSize this) pos in
  let r := HandleRead this in
  (mChunkSize this <= mOffset this \/ ReadOp.status (mReadOp this) < 0 ->
   r = HandleCompletion ReadDone this)
  /\ (mOffset this < mChunkSize this -> 0 <= ReadOp.status (mReadOp this) ->
      (exists rest, r.2 = Reader_Read (mReadSize this) pos :: rest)
      /\ (status = 0 ->
          r.2 = [Reader_Read (mReadSize this) pos]
          /\ mReadInFlightFlag r.1 = true
          /\ ReadOp.offset (mReadOp r.1) = mOffset this
          /\ ReadOp.numBytes (mReadOp r.1) = mReadSize this
          /\ ReadOp.numBytesIO (mReadOp r.1) = 0
          /\ ReadOp.status (mReadOp r.1) = 0
          /\ ReadOp.dataBuf (mReadOp r.1) = []
          /\ mReadTail r.1 = mReadTail this)
      /\ (status < 0 ->
          exists op,
            r.2 = Reader_Read (mReadSize this) pos
                  :: match mFileHandle this with
                     | Some fileH =>
                       [ReplicationDone_call (mChunkId this) status fileH]
                     | None => []
                     end
                  ++ [CounterInc (failureCounter owner false);
                      SubmitOpResponse op]
            /\ ReplicateChunkOp.status op = status
            /\ ReplicateChunkOp.chunkVersion op = -1
            /\ mReadInFlightFlag r.1 = false
            /\ mState r.1 = kNone)).
Proof.
  intros Hown Hc Hfl Hp Hd Hskip pos status r. subst r.
  unfold HandleRead. rewrite Hc, Hown, Hfl. cbn [is_null orb].
  split.
  - intros Hend.
    assert (Ht : (mChunkSize this <=? mOffset this)
                 || (ReadOp.status (mReadOp this) <? 0) = true).
    { destruct Hend as [H|H].
      - rewrite (proj2 (Z.leb_le _ _)) by exact H. reflexivity.
      - rewrite (proj2 (Z.ltb_lt _ _)) by exact H. apply orb_true_r. }
    rewrite Ht. reflexivity.
  - intros Hlt Hst.
    rewrite (proj2 (Z.leb_gt _ _)) by exact Hlt.
    rewrite (proj2 (Z.ltb_ge _ _)) by exact Hst.
    cbn [orb]. cbv zeta.
    cbn [mReadSize mOffset mReadTail mReadInFlightFlag set_mReadInFlightFlag
         set_mReadOp mReadOp].
    fold pos. fold status. rewrite andb_true_r.
    destruct (Z.eqb_spec status 0) as [H0|Hne]; cbn [negb].
    + split; [eexists; reflexivity|].
      split; [intros _; repeat split; reflexivity|intros; lia].
    + rewrite andThen_trace.
      split; [eexists; reflexivity|].
      split; [intros; contradiction|]. intros Hneg.
      rewrite andThen_obj.
      unfold HandleCompletion.
      cbn [mPendingCancelFlag set_mReadInFlightFlag set_mReadOp].
      rewrite Hp.
      rewrite HandleReadDone_fails;
        [|exact Hc|exact Hneg|cbn [mReadOp set_mState set_mReadOp
            set_mReadInFlightFlag ReadOp.skipVerifyDiskChecksumFlag
            ReadOp.set_status ReadOp.set_dataBuf ReadOp.set_offset
            ReadOp.set_numBytesIO ReadOp.set_numBytes];
          rewrite Hskip; reflexivity].
      cbn [mReadOp set_mState set_mReadOp set_mReadInFlightFlag ReadOp.status
           ReadOp.set_status].
      match goal with
      | |- context [Terminate status ?t] =>
        assert (Hnd : mDone t && negb (mCancelFlag t) = false)
          by reflexivity;
        pose proof (Terminate_fails status t owner Hown Hnd) as Htr;
        pose proof (Terminate_not_done status t Hnd) as Hobj
      end.
      rewrite failStatus_of_neg in Htr by exact Hneg.
      rewrite Htr, Hobj.
      rewrite (HandleReplicationDone_obj _ _ owner) by exact Hown.
      cbn [mCancelFlag mFileHandle mChunkId set_mDone set_mState set_mReadOp
           set_mReadInFlightFlag].
      rewrite Hc.
      eexists. split; [reflexivity|]. repeat split; reflexivity.
Qed.

(** ** Recovery: the reader's upcall *)

(** X28: a recovery replicator whose reader is still closing outlives its
    op.  With the reference of the run and the reference taken for the
    pending close, the completion of the op leaves the object alive, without
    owner; an upcall of the reader that is still active changes nothing; the
    upcall of the closed reader drops the last reference, and the object is
    destroyed: it leaves the store, the registry does not hold it, and the
    replicator count goes down. *)
Theorem X28_reader_close_releases
  (a : nat) (r : ReplicatorImpl) (owner : ReplicateChunkOp.t) (w : World)
  (data : option Z) (up : DoneArgs) :
  objs w !! a = Some r ->
  mOwner r = Some owner ->
  mPendingCloseFlag r = true ->
  mRefCount r = 2 ->
  sameReader up = true ->
  inBufferPtr up = None ->
  let w1 := invoke a (HandleReplicationDone data) w in
  let w2 := invoke a (Done up) w1 in
  (exists r1,
     objs w1 !! a = Some r1
     /\ mOwner r1 = None
     /\ mRefCount r1 = 1
     /\ mPendingCloseFlag r1 = true
     /\ sInFlightReplications w1 = sInFlightReplications w)
  /\ (readerActive up = true -> w2 = w1)
  /\ (readerActive up = false ->
      objs w2 !! a = None
      /\ sInFlightReplications w2 !! mChunkId r <> Some (Some a)
      /\ (forall k, k <> mChunkId r ->
                    sInFlightReplications w2 !! k
                    = sInFlightReplications w !! k)
      /\ trace w2 = trace w1 ++ [CounterDec mReplicatorCount]).
Proof.
  intros Hr Hown Hclose Href Hsame Hbuf w1 w2.
  set (r1 := (HandleReplicationDone data r).1).
  assert (Hr1 : r1 = UnRef
                  (set_mOwner None
                     (set_mChunkMetadataOp
                        (GetChunkMetadataOp.set_requestChunkAccess None
                           (mChunkMetadataOp r))
                        (set_mReadOp
                           (ReadOp.set_requestChunkAccess None (mReadOp r))
                           (set_mFileHandle None r)))))
    by (apply (HandleReplicationDone_obj data r owner); exact Hown).
  assert (Hcnt : mRefCount r1 = 1)
    by (rewrite Hr1; cbn; rewrite Href; reflexivity).
  assert (Hw1 : w1 = emit (HandleReplicationDone data r).2
                       (set_objs (<[a := r1]> (objs w)) w)).
  { subst w1. unfold invoke. rewrite Hr.
    destruct (HandleReplicationDone data r) as [r' evs] eqn:E.
    subst r1. cbn [fst snd] in *. rewrite Hcnt. reflexivity. }
  assert (Hobj1 : objs w1 !! a = Some r1)
    by (rewrite Hw1; cbn; apply lookup_insert_eq).
  split.
  { exists r1. split; [exact Hobj1|].
    rewrite Hr1 at 1 3. cbn [mOwner mPendingCloseFlag UnRef set_mRefCount
      set_mOwner set_mChunkMetadataOp set_mReadOp set_mFileHandle].
    rewrite Hw1. repeat split; assumption || reflexivity. }
  assert (Hdone : Done up r1
                  = if negb (readerActive up)
                    then (UnRef (set_mPendingCloseFlag false r1), [])
                    else (r1, [])).
  { unfold Done. rewrite Hsame, Hbuf. cbn [negb is_null orb andb].
    replace (mPendingCloseFlag r1) with true
      by (rewrite Hr1; symmetry; exact Hclose).
    reflexivity. }
  split.
  - intros Hact. subst w2. unfold invoke. rewrite Hobj1, Hdone, Hact.
    cbn [negb]. rewrite Hcnt. cbn [Z.leb Z.compare].
    rewrite Hw1. unfold emit, set_objs.
    cbn [objs sInFlightReplications nextId trace].
    rewrite insert_insert_eq, app_nil_r. reflexivity.
  - intros Hact. subst w2. unfold invoke. rewrite Hobj1, Hdone, Hact.
    cbn [negb].
    replace (mRefCount (UnRef (set_mPendingCloseFlag false r1)) <=? 0)
      with true by (cbn; rewrite Hcnt; reflexivity).
    unfold destroy.
    cbn [objs sInFlightReplications nextId trace emit set_objs
         set_sInFlightReplications].
    rewrite lookup_insert_eq.
    replace (is_null (mOwner (UnRef (set_mPendingCloseFlag false r1))))
      with true by (rewrite Hr1; reflexivity).
    replace (mChunkId (UnRef (set_mPendingCloseFlag false r1)))
      with (mChunkId r) by (rewrite Hr1; reflexivity).
    cbn [negb].
    assert (Hreg1 : sInFlightReplications w1 = sInFlightReplications w)
      by (rewrite Hw1; reflexivity).
    destruct (decide (sInFlightReplications w1 !! mChunkId r
                      = Some (Some a))) as [He|Hn];
      cbn [objs sInFlightReplications nextId trace emit set_objs
           set_sInFlightReplications].
    + split; [apply lookup_delete_eq|].
      split; [rewrite lookup_delete_eq; discriminate|].
      split; [intros k Hk; rewrite lookup_delete_ne by congruence;
              rewrite Hreg1; reflexivity|].
      rewrite app_nil_r. reflexivity.
    + split; [apply lookup_delete_eq|].
      split; [exact Hn|].
      split; [intros k Hk; rewrite Hreg1; reflexivity|].
      rewrite app_nil_r. reflexivity.
Qed.


(** ** Configuration *)

(** X30: [SetParameters] leaves the maximal read size of the recovery
    reader a multiple of the checksum block.  For a value asked for of at
    most 2^31 - 64 KiB it is at least one block: the value asked for, or 1
    if that is less, rounded up to the next block boundary, which is what
    [GetReadSize] asserts of it; for a greater [int] the sum that is rounded
    wraps, and the maximal read size is negative.  A maximal read size that
    is such a multiple already is kept when the key is absent; without its
    own key the maximal chunk read size is raised to the maximal read size;
    and the initial values of the parameters are what the empty set of
    properties yields. *)
Theorem X30_SetParameters_read_sizes
  (props : gmap string string) (s : RSStatics) :
  let s' := RSReplicatorImpl_SetParameters props s in
  let asked := getValue props "chunkServer.rsReader.maxReadSize"
                        (sRSReaderMaxReadSize s) in
  Z.rem (sRSReaderMaxReadSize s') CHECKSUM_BLOCKSIZE = 0
  /\ (asked <= 2 ^ 31 - CHECKSUM_BLOCKSIZE ->
      CHECKSUM_BLOCKSIZE <= sRSReaderMaxReadSize s'
      /\ Z.max 1 asked <= sRSReaderMaxReadSize s'
           < Z.max 1 asked + CHECKSUM_BLOCKSIZE)
  /\ (2 ^ 31 - CHECKSUM_BLOCKSIZE < asked < 2 ^ 31 ->
      sRSReaderMaxReadSize s' < 0)
  /\ (props !! "chunkServer.rsReader.maxReadSize"%string = None ->
      CHECKSUM_BLOCKSIZE <= sRSReaderMaxReadSize s < 2 ^ 31 ->
      Z.rem (sRSReaderMaxReadSize s) CHECKSUM_BLOCKSIZE = 0 ->
      sRSReaderMaxReadSize s' = sRSReaderMaxReadSize s)
  /\ (props !! "chunkServer.rsReader.maxChunkReadSize"%string = None ->
      sRSReaderMaxChunkReadSize s'
      = Z.max (sRSReaderMaxReadSize s') (sRSReaderMaxChunkReadSize s))
  /\ RSReplicatorImpl_SetParameters ∅ RSStatics_initial = RSStatics_initial.
Proof.
  intros s' asked. subst s'.
  unfold RSReplicatorImpl_SetParameters, copyWithPrefix. cbv zeta.
  cbn [sRSReaderMaxReadSize sRSReaderMaxChunkReadSize].
  fold asked. unfold CHECKSUM_BLOCKSIZE, to_int.
  change (2 ^ 31) with 2147483648. change (2 ^ 32) with 4294967296.
  split; [lia|]. split; [intros Hle; split; lia|]. split; [lia|].
  split.
  { intros Hnone Hge Hrem. subst asked. unfold getValue. rewrite Hnone.
    lia. }
  split.
  { intros Hnone. unfold getValue at 1. rewrite Hnone. reflexivity. }
  vm_compute. reflexivity.
Qed.
End ReplicatorImpl.

(** * Examples

    The properties above at the concrete setting. *)

Lemma ex_data_length : IOBuf.BytesConsumable ex_data = 65553.
Proof.
  unfold ex_data, IOBuf.BytesConsumable. rewrite repeat_length.
  apply Z2Nat.id. discriminate.
Qed.

(** C10 at the direct replicator: terminated with ENOMEM, the op is
    submitted with status -ENOMEM; a finalize callback with status 5 submits
    status 0. *)
Lemma C10_witness :
  mOwner ex_direct = Some ex_op
  /\ (exists op,
        submitted (Terminate ex_IsValid ex_ChangeChunkVers ENOMEM ex_direct).2
        = [op]
        /\ ReplicateChunkOp.status op = - ENOMEM)
  /\ (exists op,
        submitted (HandleReplicationDone ex_IsValid (Some 5) ex_direct).2
        = [op]
        /\ ReplicateChunkOp.status op = 0).
Proof.
  destruct (C10_op_status_never_positive ex_IsValid ex_ChangeChunkVers
              ex_direct ex_op (Some 5) ENOMEM eq_refl)
    as ((op1 & Hs1 & _ & Hz & _) & Hterm & _).
  destruct (Hterm eq_refl) as (op2 & Hs2 & Hpos & _).
  split; [reflexivity|]. split.
  - exists op2. split; [exact Hs2|]. apply Hpos. reflexivity.
  - exists op1. split; [exact Hs1|]. apply Hz. discriminate.
Defined.

(** C5 at the direct replicator: a failure exit reports version -1, and a
    completion with status 0 reports the replicator's chunk version 3. *)
Lemma C5_witness :
  mOwner ex_direct = Some ex_op
  /\ (exists op,
        submitted (Terminate ex_IsValid ex_ChangeChunkVers EIO ex_direct).2
        = [op]
        /\ ReplicateChunkOp.chunkVersion op = -1)
  /\ (exists op,
        submitted (HandleReplicationDone ex_IsValid (Some 0) ex_direct).2
        = [op]
        /\ ReplicateChunkOp.chunkVersion op = 3).
Proof.
  destruct (C5_chunkVersion_on_completion ex_IsValid ex_ChangeChunkVers
              ex_direct ex_op (Some 0) EIO eq_refl)
    as ((op1 & Hs1 & Hok & _) & _ & Hfail).
  split; [reflexivity|]. split.
  - exact (Hfail eq_refl).
  - exists op1. split; [exact Hs1|].
    apply Hok; [reflexivity | discriminate].
Defined.

(** C2 at the direct replicator: the read at offset 0 fails with
    -EBADCKSUM (1002) while skip-disk-verify is on; it is sent again at
    offset 0 with the flag off, and a second failure with -EIO ends the
    replication with -EIO and no further read. *)
Lemma C2_witness :
  let failed := PeerReadReply (- 1002) [] [] ex_direct in
  ReadOp.skipVerifyDiskChecksumFlag (mReadOp failed) = true
  /\ exists this' rd op,
       HandleReadDone 1002 ex_Reset ex_IsValid ex_WriteChunk ex_ChangeChunkVers None
                      failed
       = (this', [PeerEnqueueRead rd])
       /\ ReadOp.offset rd = 0
       /\ ReadOp.skipVerifyDiskChecksumFlag rd = false
       /\ submitted
            (HandleReadDone 1002 ex_Reset ex_IsValid ex_WriteChunk ex_ChangeChunkVers
               None (PeerReadReply (- EIO) [] [] this')).2 = [op]
       /\ peerReads
            (HandleReadDone 1002 ex_Reset ex_IsValid ex_WriteChunk ex_ChangeChunkVers
               None (PeerReadReply (- EIO) [] [] this')).2 = []
       /\ ReplicateChunkOp.status op = - EIO.
Proof.
  intros failed. split; [reflexivity|].
  destruct (C2_bad_checksum_single_retry 1002 ex_Reset ex_IsValid ex_WriteChunk
              ex_ChangeChunkVers None failed ex_op)
    as (this' & rd & Hrun & _ & Hoff & _ & Hskip & Hsecond);
    try reflexivity.
  destruct (Hsecond (- EIO) [] []) as (op & Hsub & Hrd & Hst);
    [reflexivity|].
  exists this', rd, op.
  split; [exact Hrun|]. split; [exact Hoff|]. split; [exact Hskip|].
  split; [exact Hsub|]. split; [exact Hrd | exact Hst].
Defined.

(** C1 at the direct replicator: the peer answers the read at offset 0 with
    all 64 KiB + 17 bytes of the chunk.  The first write is 64 KiB at
    offset 0; when it completes, the 17 bytes of the tail are written at
    offset 64 KiB, up to the chunk size. *)
Lemma C1_witness :
  let read := PeerReadReply 0 ex_data [] ex_direct in
  IOBuf.BytesConsumable (ReadOp.dataBuf (mReadOp read)) = 65553
  /\ mOffset read + 65553 = mChunkSize read
  /\ exists this1 w1 this2 w2,
       HandleReadDone 1002 ex_Reset ex_IsValid ex_WriteChunk ex_ChangeChunkVers None
                      read
       = (this1, [WriteChunk_call w1])
       /\ WriteOp.offset w1 = 0
       /\ WriteOp.numBytes w1 = 65536
       /\ HandleWriteDone 1002 ex_Reset ex_IsValid ex_WriteChunk ex_ChangeChunkVers
            None (DiskWriteReply 0 (WriteOp.numBytes w1) this1)
          = (this2, [WriteChunk_call w2])
       /\ WriteOp.offset w2 = 65536
       /\ WriteOp.numBytes w2 = 17
       /\ WriteOp.offset w2 + WriteOp.numBytes w2 = mChunkSize read
       /\ WriteOp.dataBuf w1 ++ WriteOp.dataBuf w2 = ex_data.
Proof.
  intros read.
  assert (Hlen : IOBuf.BytesConsumable (ReadOp.dataBuf (mReadOp read))
                 = 65553) by exact ex_data_length.
  split; [exact Hlen|]. split; [reflexivity|].
  destruct (C1_tail_split_two_writes 1002 ex_Reset ex_IsValid ex_WriteChunk
              ex_ChangeChunkVers None read)
    as (this1 & w1 & Hrun & Ho1 & Hn1 & _ & _ & _ & _ & _ & _ & Hnext).
  - reflexivity.
  - discriminate.
  - reflexivity.
  - left. reflexivity.
  - rewrite Hlen. reflexivity.
  - rewrite Hlen. discriminate.
  - rewrite Hlen. reflexivity.
  - intros w fh. discriminate.
  - destruct (Hnext 0) as (this2 & w2 & Hrun2 & Ho2 & Hn2 & _ & _ & Hend
                           & Hall & _); [discriminate|].
    rewrite Hlen in Hn1, Ho2, Hn2.
    exists this1, w1, this2, w2.
    split; [exact Hrun|]. split; [exact Ho1|]. split; [exact Hn1|].
    split; [exact Hrun2|]. split; [exact Ho2|]. split; [exact Hn2|].
    split; [exact Hend | exact Hall].
Defined.

Lemma ex_world_registry :
  sInFlightReplications ex_world !! 7 = Some (Some 0%nat).
Proof. apply lookup_insert_eq. Qed.

Lemma ex_world_objs : objs ex_world !! 0%nat = Some ex_direct.
Proof. apply lookup_insert_eq. Qed.

(** C3 at the registered direct replicator, whose effective target version
    is 5: [Cancel(7, 5)] returns true and empties the slot, and
    [Cancel(7, 4)] returns false and changes nothing. *)
Lemma C3_witness :
  (forall cur, sInFlightReplications ex_world !! 7 = Some (Some cur) ->
               is_Some (objs ex_world !! cur))
  /\ (Replicator_Cancel ex_IsValid ex_ChangeChunkVers None 7 5 ex_world).1
     = true
  /\ sInFlightReplications
       (Replicator_Cancel ex_IsValid ex_ChangeChunkVers None 7 5 ex_world).2
     !! 7 = None
  /\ Replicator_Cancel ex_IsValid ex_ChangeChunkVers None 7 4 ex_world
     = (false, ex_world).
Proof.
  assert (Hwf : forall cur,
            sInFlightReplications ex_world !! 7 = Some (Some cur) ->
            is_Some (objs ex_world !! cur)).
  { intros cur Hcur. rewrite ex_world_registry in Hcur.
    injection Hcur as <-. rewrite ex_world_objs. eexists. reflexivity. }
  split; [exact Hwf|].
  destruct (C3_cancel_iff_live_and_matching ex_IsValid ex_ChangeChunkVers
              None ex_world 7 5 Hwf) as (Hiff & Htrue & _).
  assert (Hret :
    (Replicator_Cancel ex_IsValid ex_ChangeChunkVers None 7 5 ex_world).1
    = true).
  { apply Hiff. exists 0%nat, ex_direct.
    split; [exact ex_world_registry|]. split; [exact ex_world_objs|].
    right. exists ex_op. split; reflexivity. }
  split; [exact Hret|].
  destruct (Htrue Hret) as (cur & _ & _ & Hnone & _).
  split; [exact Hnone|].
  destruct (C3_cancel_iff_live_and_matching ex_IsValid ex_ChangeChunkVers
              None ex_world 7 4 Hwf) as (Hiff4 & _ & Hfalse).
  destruct (Replicator_Cancel ex_IsValid ex_ChangeChunkVers None 7 4 ex_world)
    as [b w'] eqn:Hres.
  cbn [fst snd] in Hiff4, Hfalse.
  destruct b.
  - exfalso. destruct (proj1 Hiff4 eq_refl)
      as (cur' & r' & Hc & Hr & [Hneg | (o & Ho & Heff)]);
      [discriminate|].
    rewrite ex_world_registry in Hc. injection Hc as <-.
    rewrite ex_world_objs in Hr. injection Hr as <-.
    injection Ho as <-. discriminate.
  - rewrite (Hfalse eq_refl). reflexivity.
Defined.

(** C3 as stated fails for a negative argument: the registered replicator
    has effective target version 5, no live replicator has effective target
    version -1, and yet [Cancel(7, -1)] returns true. *)
Lemma C3_counterexample :
  (Replicator_Cancel ex_IsValid ex_ChangeChunkVers None 7 (-1) ex_world).1
  = true
  /\ ~ (exists cur r owner,
          sInFlightReplications ex_world !! 7 = Some (Some cur)
          /\ objs ex_world !! cur = Some r
          /\ mOwner r = Some owner
          /\ effectiveTargetVersion owner r = -1).
Proof.
  split.
  - unfold Replicator_Cancel.
    rewrite (CancelChunkReplication_live ex_IsValid ex_ChangeChunkVers None
               ex_world 7 (-1) 0%nat ex_direct
               ex_world_registry ex_world_objs).
    reflexivity.
  - intros (cur & r & owner & Hc & Hr & Ho & Heff).
    rewrite ex_world_registry in Hc. injection Hc as <-.
    rewrite ex_world_objs in Hr. injection Hr as <-.
    injection Ho as <-. discriminate.
Qed.

(** C9 at the registered direct replicator: [Cancel(7, -1)] returns true
    and empties the slot although the effective target version is 5. *)
Lemma C9_witness :
  sInFlightReplications ex_world !! 7 = Some (Some 0%nat)
  /\ objs ex_world !! 0%nat = Some ex_direct
  /\ effectiveTargetVersion ex_op ex_direct = 5
  /\ (Replicator_Cancel ex_IsValid ex_ChangeChunkVers None 7 (-1) ex_world).1
     = true
  /\ sInFlightReplications
       (Replicator_Cancel ex_IsValid ex_ChangeChunkVers None 7 (-1)
          ex_world).2 !! 7 = None.
Proof.
  destruct (C9_negative_version_cancels_any ex_IsValid ex_ChangeChunkVers
              None ex_world 7 (-1) 0%nat ex_direct
              ex_world_registry ex_world_objs) as (Hneg & _).
  destruct (Hneg eq_refl) as (Hret & _ & Hnone & _).
  split; [exact ex_world_registry|]. split; [exact ex_world_objs|].
  split; [reflexivity|]. split; [exact Hret | exact Hnone].
Defined.

(** C4 at the recovery replicator: the reader delivers 100 bytes where
    64 KiB were asked for, so this is the end of the chunk: the 100 bytes
    are the write buffer, the chunk size becomes 100, the reader is closed,
    and no checksum is computed for the partial block. *)
Lemma C4_witness :
  mReadInFlightFlag ex_recovery = true
  /\ inBufferPtr ex_done = Some (repeat Byte.x2a 100)
  /\ exists this2,
       Done_buffers 1002 ex_Reset ex_IsValid ex_AllocChunk ex_WriteChunk
         ex_ChangeChunkVers None ex_Reader_Read_status ex_ComputeChecksums
         ex_done (repeat Byte.x2a 100) (Done_received ex_done ex_recovery)
       = inr (this2, [Reader_Close])
       /\ ReadOp.dataBuf (mReadOp this2) = repeat Byte.x2a 100
       /\ mReadTail this2 = []
       /\ mChunkSize this2 = 100
       /\ ReadOp.checksum (mReadOp this2) = [].
Proof.
  destruct (C4_done_read_tail 1002 ex_Reset ex_IsValid ex_AllocChunk ex_WriteChunk
              ex_ChangeChunkVers None ex_Reader_Read_status
              ex_ComputeChecksums RSStatics_initial ex_InvalidStripes
              ex_done (repeat Byte.x2a 100) ex_recovery)
    as (_ & Heoc & _); try reflexivity; try discriminate.
  destruct Heoc as (this2 & Hrun & Hd & Ht & _ & Hcs & _ & Hck);
    [left; reflexivity|].
  split; [reflexivity|]. split; [reflexivity|].
  exists this2. split; [exact Hrun|]. split; [exact Hd|].
  split; [exact Ht|]. split; [exact Hcs | exact Hck].
Defined.

(** C6 at the direct replicator: it asks for max(16 KiB, 1 MiB) = 1 MiB,
    and over quota it ends with -ENOMEM without a buffer request or a size
    probe.  At the recovery replicator, with reads of 64 KiB and six
    stripes, the product 65536 * 7 is an [int], and the replicator asks for
    these 448 KiB. *)
Lemma C6_witness :
  mOwner ex_direct = Some ex_op
  /\ Z.max 16384 (GetBufferBytesRequired ex_direct) = 1048576
  /\ (exists op,
       (Run_buffers 1002 ex_Reset ex_IsValid true ex_AllocChunk ex_WriteChunk
          ex_ChangeChunkVers None ex_ToString ex_overQuota ex_GetForDiskIo
          ex_direct).2
       = IsOverQuota_call 1048576
         :: (HandleReplicationDone ex_IsValid (Some (- ENOMEM)) ex_direct).2
       /\ submitted
            (Run_buffers 1002 ex_Reset ex_IsValid true ex_AllocChunk ex_WriteChunk
               ex_ChangeChunkVers None ex_ToString ex_overQuota
               ex_GetForDiskIo ex_direct).2 = [op]
       /\ ReplicateChunkOp.status op = - ENOMEM
       /\ existsb startsSizeProbe
            (Run_buffers 1002 ex_Reset ex_IsValid true ex_AllocChunk ex_WriteChunk
               ex_ChangeChunkVers None ex_ToString ex_overQuota
               ex_GetForDiskIo ex_direct).2 = false)
  /\ mOwner ex_recovery = Some ex_recovery_op
  /\ mKind ex_recovery = Recovery
  /\ - 2 ^ 31
     <= mReadSize ex_recovery
        * (ReplicateChunkOp.numStripes ex_recovery_op + 1) < 2 ^ 31
  /\ GetBufferBytesRequired ex_recovery = 65536 * 7
  /\ exists op,
       (Run_buffers 1002 ex_Reset ex_IsValid true ex_AllocChunk ex_WriteChunk
          ex_ChangeChunkVers None ex_ToString ex_overQuota ex_GetForDiskIo
          ex_recovery).2
       = IsOverQuota_call 458752
         :: (HandleReplicationDone ex_IsValid (Some (- ENOMEM))
               ex_recovery).2
       /\ submitted
            (Run_buffers 1002 ex_Reset ex_IsValid true ex_AllocChunk ex_WriteChunk
               ex_ChangeChunkVers None ex_ToString ex_overQuota
               ex_GetForDiskIo ex_recovery).2 = [op]
       /\ ReplicateChunkOp.status op = - ENOMEM.
Proof.
  destruct (C6_buffer_request_on_run 1002 ex_Reset ex_IsValid true ex_AllocChunk
              ex_WriteChunk ex_ChangeChunkVers None ex_ToString ex_overQuota
              ex_GetForDiskIo ex_direct ex_op eq_refl eq_refl eq_refl)
    as (_ & _ & _ & _ & _ & Hover).
  destruct (Hover eq_refl) as (op & Hrun & Hsub & Hst & _ & Hprobe & _).
  destruct (C6_buffer_request_on_run 1002 ex_Reset ex_IsValid true ex_AllocChunk
              ex_WriteChunk ex_ChangeChunkVers None ex_ToString ex_overQuota
              ex_GetForDiskIo ex_recovery ex_recovery_op eq_refl eq_refl
              eq_refl)
    as (_ & _ & Hrec & _ & _ & Hover').
  destruct (Hrec eq_refl) as (_ & Hprod).
  assert (Hin : - 2 ^ 31
                <= mReadSize ex_recovery
                   * (ReplicateChunkOp.numStripes ex_recovery_op + 1)
                < 2 ^ 31) by (split; [discriminate | reflexivity]).
  destruct (Hover' eq_refl) as (op' & Hrun' & Hsub' & Hst' & _).
  split; [reflexivity|]. split; [reflexivity|].
  split.
  { exists op. split; [exact Hrun|]. split; [exact Hsub|].
    split; [exact Hst | exact Hprobe]. }
  split; [reflexivity|]. split; [reflexivity|]. split; [exact Hin|].
  split; [exact (Hprod Hin)|].
  exists op'. split; [exact Hrun'|]. split; [exact Hsub' | exact Hst'].
Defined.

(** C7 at a recovery request whose chunk offset is 100: the location is
    not valid, the offset is not a multiple of the chunk size, and [Run]
    submits the op with -EINVAL and creates no replicator. *)
Lemma C7_witness :
  ex_IsValid (ReplicateChunkOp.location ex_bad_recovery_op) = false
  /\ ~ recoveryParametersHold 2 4096 67108864 4096 ex_bad_recovery_op
  /\ exists op' evs,
       Replicator_Run 1002 ex_Reset ex_IsValid true ex_AllocChunk ex_WriteChunk
         ex_ChangeChunkVers None ex_ToString ex_overQuota ex_GetForDiskIo
         2 4096 67108864 4096 false true ex_FindServer
         ex_RemoteSyncSM_Create ex_Create 0 ex_bad_recovery_op ex_world
       = emit evs ex_world
       /\ submitted evs = [op']
       /\ ReplicateChunkOp.status op' = - EINVAL.
Proof.
  assert (Hbad : ~ recoveryParametersHold 2 4096 67108864 4096
                     ex_bad_recovery_op).
  { intros (_ & Hmul & _). discriminate Hmul. }
  destruct (C7_recovery_request_validation 1002 ex_Reset ex_IsValid true ex_AllocChunk
              ex_WriteChunk ex_ChangeChunkVers None ex_ToString ex_overQuota
              ex_GetForDiskIo 2 4096 67108864 4096 false true ex_FindServer
              ex_RemoteSyncSM_Create ex_Create 0 ex_bad_recovery_op ex_world)
    as (Hinvalid & _); try reflexivity.
  destruct (Hinvalid Hbad) as (op' & evs & Hrun & Hsub & Hst & _).
  split; [reflexivity|]. split; [exact Hbad|].
  exists op', evs. split; [exact Hrun|]. split; [exact Hsub | exact Hst].
Defined.

(** C8 at properties that set only
    chunkServer.rsReader.meta.idleTimeoutSec, to 0: the idle timeout
    becomes 0 and the reset-connection-on-op-timeout flag, true by default,
    becomes false. *)
Lemma C8_witness :
  ex_props !! "chunkServer.rsReader.meta.idleTimeoutSec"%string
  = Some "0"%string
  /\ sRSReaderMetaResetConnectionOnOpTimeoutFlag RSStatics_initial = true
  /\ sRSReaderMetaIdleTimeoutSec
       (RSReplicatorImpl_SetParameters ex_parseInt ex_props RSStatics_initial)
     = 0
  /\ sRSReaderMetaResetConnectionOnOpTimeoutFlag
       (RSReplicatorImpl_SetParameters ex_parseInt ex_props RSStatics_initial)
     = false.
Proof.
  assert (Hkey : ex_props !! "chunkServer.rsReader.meta.idleTimeoutSec"%string
                 = Some "0"%string) by apply lookup_insert_eq.
  destruct (C8_one_key_sets_two_options ex_parseInt ex_props
              RSStatics_initial) as (_ & _ & Hset & _).
  destruct (Hset "0"%string Hkey) as (Hidle & Hflag).
  split; [exact Hkey|]. split; [reflexivity|].
  split; [exact Hidle | exact Hflag].
Defined.

(** * Examples of the further properties *)

(** X1 at 12 and 18, whose greatest common divisor is 6. *)
Lemma X1_witness :
  0 <= 12 /\ 0 <= 18 /\ GetGcd 12 18 = Z.gcd 12 18 /\ Z.gcd 12 18 = 6.
Proof.
  split; [lia|]. split; [lia|]. split; [|reflexivity].
  apply (X1_GetGcd_is_gcd 12 18); lia.
Defined.

(** X2 at 4 and 6: the least common multiple, 12, is an [int] and
    divides 24. *)
Lemma X2_witness :
  0 < 4 /\ 0 < 6
  /\ Z.lcm 4 6 < 2 ^ 31
  /\ GetLcm 4 6 = Z.lcm 4 6
  /\ Z.rem 24 4 = 0 /\ Z.rem 24 6 = 0
  /\ Z.rem 24 (GetLcm 4 6) = 0.
Proof.
  destruct (X2_GetLcm_is_lcm 4 6) as (_ & H).
  destruct H as (_ & H); [reflexivity | reflexivity |].
  destruct (H eq_refl) as (Hl & _ & _ & _ & Hm).
  split; [reflexivity|]. split; [reflexivity|]. split; [reflexivity|].
  split; [exact Hl|].
  split; [reflexivity|]. split; [reflexivity|].
  apply Hm; reflexivity.
Defined.

(** X3 at the recovery request with stripes of 64 KiB, the initial
    configuration, a client quota of 16 MiB and I/O buffers of 4 KiB: the
    read size is 1 MiB. *)
Lemma X3_witness :
  0 < 4096
  /\ Z.lcm CHECKSUM_BLOCKSIZE (ReplicateChunkOp.stripeSize ex_recovery_op)
     < 2 ^ 31
  /\ GetReadSize RSStatics_initial 16777216 4096 ex_recovery_op
     = Some 1048576
  /\ Z.rem 1048576 4096 = 0
  /\ Z.rem 1048576 (ReplicateChunkOp.stripeSize ex_recovery_op) = 0.
Proof.
  assert (Hb : 0 < 4096) by reflexivity.
  assert (Hl : Z.lcm CHECKSUM_BLOCKSIZE
                 (ReplicateChunkOp.stripeSize ex_recovery_op) < 2 ^ 31)
    by reflexivity.
  destruct (X3_GetReadSize_aligned RSStatics_initial 16777216 4096
              ex_recovery_op Hb Hl) as (_ & H).
  destruct (H 1048576 eq_refl) as (_ & Hio & _ & Hstripe).
  split; [exact Hb|]. split; [exact Hl|]. split; [reflexivity|].
  split; [exact Hio|].
  apply Hstripe. reflexivity.
Defined.

(** X4 from the seed 1000: the first sequence number is 100000 to 132767
    above the seed, and the second as much above the first. *)
Lemma X4_witness :
  - 2 ^ 63 <= 1000
  /\ 1000 + 2 * 132767 < 2 ^ 63
  /\ 1000 + 100000 <= (GetSeqNum 1000 None).1 <= 1000 + 132767
  /\ (GetSeqNum 1000 None).1 + 100000
     <= (GetSeqNum 7 (GetSeqNum 1000 None).2).1
     <= (GetSeqNum 1000 None).1 + 132767.
Proof.
  assert (Hlo : - 2 ^ 63 <= 1000) by discriminate.
  assert (Hhi : 1000 + 2 * 132767 < 2 ^ 63) by reflexivity.
  destruct (X4_GetSeqNum_steps 1000 7 None Hlo Hhi) as (H1 & H2 & _).
  split; [exact Hlo|]. split; [exact Hhi|].
  split; [exact H1 | exact H2].
Defined.

(** X5 with four client threads and the initial configuration: from the
    initial index -1 the entry picked is that of client thread 0, and
    without an op nothing is picked. *)
Lemma X5_witness :
  -1 <= -1 < Z.max 0 4 + 1
  /\ GetMetaserver RSStatics_initial 4 true true (-1)
     = (Entry true 1 (Some 0), 1)
  /\ GetMetaserver RSStatics_initial 4 true false (-1) = (NoEntry false, -1).
Proof.
  assert (Hin : -1 <= -1 < Z.max 0 4 + 1) by lia.
  destruct (X5_GetMetaserver_in_pool RSStatics_initial 4 true (-1) Hin)
    as (_ & Hnone).
  split; [exact Hin|]. split; [reflexivity | exact Hnone].
Defined.

(** X6 at the direct replicator: the completion with status 0 hands the
    file handle back with status 0, answers the op, counts nothing, and a
    second completion stops at the assertion. *)
Lemma X6_witness :
  mOwner ex_direct = Some ex_op
  /\ releases (HandleReplicationDone ex_IsValid (Some 0) ex_direct).2
     = [(0, 1%nat)]
  /\ counted (HandleReplicationDone ex_IsValid (Some 0) ex_direct).2 = []
  /\ (exists op,
        submitted (HandleReplicationDone ex_IsValid (Some 0) ex_direct).2
        = [op])
  /\ HandleReplicationDone ex_IsValid None
       (HandleReplicationDone ex_IsValid (Some 0) ex_direct).1
     = ((HandleReplicationDone ex_IsValid (Some 0) ex_direct).1,
        [AssertFail]).
Proof.
  destruct (X6_completion_answers_once ex_IsValid (Some 0) None ex_direct
              ex_op eq_refl)
    as ((op & before & _ & Hsub & _) & Hrel & Hcnt & _ & _ & _ & _ & _ & _
        & Hagain).
  split; [reflexivity|]. split; [exact Hrel|]. split; [exact Hcnt|].
  split; [exists op; exact Hsub | exact Hagain].
Defined.

(** X7 at the direct replicator when its copy is finished: with a chunk
    manager that refuses the change of version with -EIO, the op is
    answered with -EIO and chunk version -1. *)
Lemma X7_witness :
  mOwner (set_mDone true ex_direct) = Some ex_op
  /\ mDone (set_mDone true ex_direct) = true
  /\ mCancelFlag (set_mDone true ex_direct) = false
  /\ ex_ChangeChunkVers_fails 7 3 true < 0
  /\ exists op,
       submitted
         (Terminate ex_IsValid ex_ChangeChunkVers_fails 0
            (set_mDone true ex_direct)).2 = [op]
       /\ ReplicateChunkOp.status op = - EIO
       /\ ReplicateChunkOp.chunkVersion op = -1.
Proof.
  destruct (X7_Terminate_finished ex_IsValid ex_ChangeChunkVers_fails 0
              (set_mDone true ex_direct) ex_op eq_refl eq_refl eq_refl)
    as (_ & _ & _ & Hneg & _).
  destruct (Hneg eq_refl) as (op & Hev & Hst & Hv).
  split; [reflexivity|]. split; [reflexivity|]. split; [reflexivity|].
  split; [reflexivity|].
  exists op. split; [rewrite Hev; reflexivity|].
  split; [exact Hst | exact Hv].
Defined.

(** X8 at the direct replicator when the size probe has failed with
    -ETIMEDOUT: the op is answered with that status. *)
Lemma X8_witness :
  let probed :=
    set_mChunkMetadataOp
      (GetChunkMetadataOp.set_status (- ETIMEDOUT)
         (mChunkMetadataOp ex_direct))
      (set_mFileHandle None ex_direct) in
  mOwner probed = Some ex_op
  /\ mDone probed = false
  /\ mCancelFlag probed = false
  /\ GetChunkMetadataOp.status (mChunkMetadataOp probed) < 0
  /\ exists op,
       submitted
         (HandleStartDone ex_IsValid ex_AllocChunk ex_ChangeChunkVers None
            probed).2 = [op]
       /\ ReplicateChunkOp.status op = - ETIMEDOUT
       /\ ReplicateChunkOp.chunkVersion op = -1.
Proof.
  intros probed.
  destruct (X8_HandleStartDone_refuses ex_IsValid ex_AllocChunk
              ex_ChangeChunkVers None probed ex_op eq_refl eq_refl eq_refl)
    as (op & Hsub & Hst & Hv & _).
  - left. reflexivity.
  - split; [reflexivity|]. split; [reflexivity|]. split; [reflexivity|].
    split; [reflexivity|].
    exists op. split; [exact Hsub|]. split; [exact Hst | exact Hv].
Defined.

(** X9 at the direct replicator after its size probe, with a chunk manager
    that refuses the allocation with -EEXIST: the chunk is asked for at the
    target version 5 of the op, and the op is answered with -EEXIST and the
    message about the readable chunk. *)
Lemma X9_witness :
  let probed := set_mFileHandle None ex_direct in
  mOwner probed = Some ex_op
  /\ mDone probed = false
  /\ mCancelFlag probed = false
  /\ mFileHandle probed = None
  /\ 0 <= GetChunkMetadataOp.status (mChunkMetadataOp probed)
  /\ 0 <= GetChunkMetadataOp.chunkSize (mChunkMetadataOp probed) <= CHUNKSIZE
  /\ exists rest op,
       (HandleStartDone ex_IsValid ex_AllocChunk_exists ex_ChangeChunkVers
          None probed).2
       = AllocChunk_call 1 7 0 0 5 :: rest
       /\ submitted rest = [op]
       /\ ReplicateChunkOp.status op = - EEXIST
       /\ ReplicateChunkOp.statusMsg op
          = "readable chunk with target version already exists"%string.
Proof.
  intros probed.
  assert (Hst : 0 <= GetChunkMetadataOp.status (mChunkMetadataOp probed))
    by discriminate.
  assert (Hsz : 0 <= GetChunkMetadataOp.chunkSize (mChunkMetadataOp probed)
                <= CHUNKSIZE) by (split; discriminate).
  destruct (X9_HandleStartDone_allocates ex_IsValid ex_AllocChunk_exists
              ex_ChangeChunkVers None probed ex_op eq_refl eq_refl eq_refl
              eq_refl Hst Hsz)
    as (rest & Hev & Hfail).
  destruct (Hfail (- EEXIST) None eq_refl eq_refl)
    as (op & Hsub & Hs & _ & Hmsg & _).
  split; [reflexivity|]. split; [reflexivity|]. split; [reflexivity|].
  split; [reflexivity|]. split; [exact Hst|]. split; [exact Hsz|].
  exists rest, op. split; [exact Hev|]. split; [exact Hsub|].
  split; [exact Hs | exact Hmsg].
Defined.

(** X10 at the direct replicator: the read at offset 0 of the chunk of
    64 KiB + 17 bytes asks the peer for all of it, with the disk checksum
    verification of the peer skipped. *)
Lemma X10_witness :
  mKind ex_direct = Direct
  /\ mCancelFlag ex_direct = false
  /\ mOwner ex_direct = Some ex_op
  /\ is_null (mPeer ex_direct) = false
  /\ mOffset ex_direct < mChunkSize ex_direct
  /\ exists rd,
       (Read ex_IsValid ex_ChangeChunkVers None ex_direct).2
       = [PeerEnqueueRead rd]
       /\ ReadOp.offset rd = 0
       /\ ReadOp.numBytes rd = 65553
       /\ ReadOp.skipVerifyDiskChecksumFlag rd = true.
Proof.
  destruct (X10_Read_request ex_IsValid ex_ChangeChunkVers None ex_direct
              ex_op eq_refl eq_refl eq_refl eq_refl eq_refl)
    as (rd & Hrun & Hoff & Hn & _ & _ & _ & _ & _ & _ & _ & _ & Hskip).
  split; [reflexivity|]. split; [reflexivity|]. split; [reflexivity|].
  split; [reflexivity|]. split; [reflexivity|].
  exists rd. split; [rewrite Hrun; reflexivity|].
  split; [exact Hoff|]. split; [exact Hn | exact Hskip].
Defined.

(** X11 at the direct replicator at the end of its chunk: the read marks
    it done and asks for the chunk to be made stable at version 3, and
    nothing else. *)
Lemma X11_witness :
  let atEnd := set_mOffset 65553 ex_direct in
  mKind atEnd = Direct
  /\ mCancelFlag atEnd = false
  /\ mOwner atEnd = Some ex_op
  /\ mOffset atEnd = mChunkSize atEnd
  /\ mDone (Read ex_IsValid ex_ChangeChunkVers None atEnd).1 = true
  /\ (Read ex_IsValid ex_ChangeChunkVers None atEnd).2
     = [ChangeChunkVers_call 7 3 true].
Proof.
  intros atEnd.
  destruct (X11_Read_at_end ex_IsValid ex_ChangeChunkVers None atEnd ex_op
              eq_refl eq_refl eq_refl) as (Hend & _).
  destruct (Hend eq_refl) as (_ & Hdone & rest & Hev & _ & _ & _ & Hrest).
  split; [reflexivity|]. split; [reflexivity|]. split; [reflexivity|].
  split; [reflexivity|]. split; [exact Hdone|].
  rewrite Hev, (Hrest eq_refl). reflexivity.
Defined.

(** X12 at the direct replicator after its size probe, with a chunk
    manager that grants the allocation: the replicator keeps the file
    handle and asks the peer for the 65553 bytes of the chunk at version
    3. *)
Lemma X12_witness :
  let probed := set_mFileHandle None ex_direct in
  mKind probed = Direct
  /\ mOwner probed = Some ex_op
  /\ mCancelFlag probed = false
  /\ mFileHandle probed = None
  /\ is_null (mPeer probed) = false
  /\ mOffset probed = 0
  /\ 0 <= GetChunkMetadataOp.status (mChunkMetadataOp probed)
  /\ 0 <= GetChunkMetadataOp.chunkSize (mChunkMetadataOp probed) <= CHUNKSIZE
  /\ ex_AllocChunk 1 7 0 0 5 = (0, Some 1%nat)
  /\ exists rd,
       (HandleStartDone ex_IsValid ex_AllocChunk ex_ChangeChunkVers None
          probed).2
       = [AllocChunk_call 1 7 0 0 5; PeerEnqueueRead rd]
       /\ ReadOp.offset rd = 0
       /\ ReadOp.numBytes rd = 65553
       /\ ReadOp.chunkVersion rd = 3
       /\ mFileHandle
            (HandleStartDone ex_IsValid ex_AllocChunk ex_ChangeChunkVers
               None probed).1 = Some 1%nat.
Proof.
  intros probed.
  assert (Hst : 0 <= GetChunkMetadataOp.status (mChunkMetadataOp probed))
    by discriminate.
  assert (Hsz : 0 <= GetChunkMetadataOp.chunkSize (mChunkMetadataOp probed)
                <= CHUNKSIZE) by (split; discriminate).
  assert (H0 : 0 <= 0) by discriminate.
  destruct (X12_HandleStartDone_starts_reading ex_IsValid ex_AllocChunk
              ex_ChangeChunkVers None probed ex_op eq_refl eq_refl eq_refl
              eq_refl eq_refl eq_refl Hst Hsz 0 (Some 1%nat) eq_refl H0)
    as (_ & Hread & _).
  destruct Hread as (rd & Hev & Hoff & Hn & Hv & _ & _ & Hfh & _);
    [discriminate | reflexivity |].
  split; [reflexivity|]. split; [reflexivity|]. split; [reflexivity|].
  split; [reflexivity|]. split; [reflexivity|]. split; [reflexivity|].
  split; [exact Hst|]. split; [exact Hsz|]. split; [reflexivity|].
  exists rd. split; [exact Hev|]. split; [exact Hoff|].
  split; [exact Hn|]. split; [exact Hv | exact Hfh].
Defined.

(** X13 at the direct replicator when the peer answers the read of 65553
    bytes at offset 0 with 10 bytes: the replication fails with -EINVAL and
    nothing is written. *)
Lemma X13_witness :
  let short := PeerReadReply 0 (repeat Byte.x2a 10) [] ex_direct in
  mOwner short = Some ex_op
  /\ mDone short = false
  /\ mCancelFlag short = false
  /\ 0 <= ReadOp.status (mReadOp short)
  /\ IOBuf.BytesConsumable (ReadOp.dataBuf (mReadOp short))
     < ReadOp.numBytes (mReadOp short)
  /\ mOffset short + IOBuf.BytesConsumable (ReadOp.dataBuf (mReadOp short))
     < mChunkSize short
  /\ exists op,
       submitted
         (HandleReadDone 1002 ex_Reset ex_IsValid ex_WriteChunk
            ex_ChangeChunkVers None short).2 = [op]
       /\ ReplicateChunkOp.status op = - EINVAL
       /\ diskWrites
            (HandleReadDone 1002 ex_Reset ex_IsValid ex_WriteChunk
               ex_ChangeChunkVers None short).2 = [].
Proof.
  intros short.
  assert (Hst : 0 <= ReadOp.status (mReadOp short)) by discriminate.
  destruct (X13_HandleReadDone_refuses 1002 ex_Reset ex_IsValid ex_WriteChunk
              ex_ChangeChunkVers None short ex_op eq_refl eq_refl eq_refl
              Hst) as (Hshort & _).
  destruct Hshort as (op & Hsub & Hs & _ & _ & Hw);
    [reflexivity | reflexivity |].
  split; [reflexivity|]. split; [reflexivity|]. split; [reflexivity|].
  split; [exact Hst|]. split; [reflexivity|]. split; [reflexivity|].
  exists op. split; [exact Hsub|]. split; [exact Hs | exact Hw].
Defined.

(** X14 at the direct replicator when the peer answers the read at
    offset 64 KiB with the 17 bytes of the tail and the chunk manager
    refuses the write with -EIO: the write is at offset 64 KiB, and the op
    is answered with -EIO and chunk version -1. *)
Lemma X14_witness :
  let tail :=
    PeerReadReply 0 (repeat Byte.x2a 17) [] (set_mOffset 65536 ex_direct) in
  mOwner tail = Some ex_op
  /\ mDone tail = false
  /\ readAccepted tail
  /\ IOBuf.BytesConsumable (ReadOp.dataBuf (mReadOp tail))
     <= CHECKSUM_BLOCKSIZE
  /\ exists w rest op,
       (HandleReadDone 1002 ex_Reset ex_IsValid ex_WriteChunk_fails
          ex_ChangeChunkVers None tail).2 = WriteChunk_call w :: rest
       /\ WriteOp.offset w = 65536
       /\ submitted rest = [op]
       /\ ReplicateChunkOp.status op = - EIO
       /\ ReplicateChunkOp.chunkVersion op = -1.
Proof.
  intros tail.
  assert (Hacc : readAccepted tail).
  { unfold readAccepted. split; [reflexivity|]. split; [discriminate|].
    split; [right; discriminate|]. split; [reflexivity|].
    split; [reflexivity | left; reflexivity]. }
  assert (Hsmall : IOBuf.BytesConsumable (ReadOp.dataBuf (mReadOp tail))
                   <= CHECKSUM_BLOCKSIZE) by discriminate.
  destruct (X14_HandleReadDone_write_refused 1002 ex_Reset ex_IsValid
              ex_WriteChunk_fails ex_ChangeChunkVers None tail ex_op
              eq_refl eq_refl Hacc (or_introl Hsmall))
    as (w & rest & Hev & Hoff & _ & Hfail).
  destruct (Hfail eq_refl) as (op & Hsub & Hs & Hv & _).
  split; [reflexivity|]. split; [reflexivity|]. split; [exact Hacc|].
  split; [exact Hsmall|].
  exists w, rest, op. split; [exact Hev|]. split; [exact Hoff|].
  split; [exact Hsub|]. split; [exact Hs | exact Hv].
Defined.

(** X15 at the direct replicator when its write has failed with -EIO: the
    op is answered with -EIO and nothing more is asked for. *)
Lemma X15_witness :
  let failed := DiskWriteReply (- EIO) 0 ex_direct in
  mKind failed = Direct
  /\ mOwner failed = Some ex_op
  /\ mDone failed = false
  /\ WriteOp.status (mWriteOp failed) < 0
  /\ exists op,
       submitted
         (HandleWriteDone 1002 ex_Reset ex_IsValid ex_WriteChunk
            ex_ChangeChunkVers None failed).2 = [op]
       /\ ReplicateChunkOp.status op = - EIO
       /\ requests
            (HandleWriteDone 1002 ex_Reset ex_IsValid ex_WriteChunk
               ex_ChangeChunkVers None failed).2 = [].
Proof.
  intros failed.
  destruct (X15_HandleWriteDone 1002 ex_Reset ex_IsValid ex_WriteChunk
              ex_ChangeChunkVers None failed ex_op eq_refl eq_refl eq_refl)
    as (Hfail & _).
  destruct Hfail as (op & Hsub & Hs & _ & Hreq & _);
    [right; reflexivity|].
  split; [reflexivity|]. split; [reflexivity|]. split; [reflexivity|].
  split; [reflexivity|].
  exists op. split; [exact Hsub|]. split; [exact Hs | exact Hreq].
Defined.


Lemma ex_world_registered : registered ex_world.
Proof.
  split.
  - intros chunkId cur H.
    unfold ex_world in H. cbn [sInFlightReplications] in H.
    apply lookup_insert_Some in H.
    destruct H as [[<- H] | [_ H]];
      [|rewrite lookup_empty in H; discriminate].
    injection H as <-. exists ex_direct.
    split; [exact ex_world_objs | reflexivity].
  - intros a r H.
    unfold ex_world in H. cbn [objs] in H.
    apply lookup_insert_Some in H.
    destruct H as [[<- _] | [_ H]];
      [|rewrite lookup_empty in H; discriminate].
    apply Nat.lt_0_1.
Qed.

(** X17 at the process with the direct replicator registered for
    chunk 7: the registry does not dangle, and it does not after the
    cancellation of chunk 7, after [CancelAll], or after a request to
    replicate the chunk again. *)
Lemma X17_witness :
  registered ex_world
  /\ registered
       (Replicator_Cancel ex_IsValid ex_ChangeChunkVers None 7 5 ex_world).2
  /\ registered (CancelAll ex_IsValid ex_ChangeChunkVers None ex_world)
  /\ registered
       (Replicator_Run 1002 ex_Reset ex_IsValid true ex_AllocChunk
          ex_WriteChunk ex_ChangeChunkVers None ex_ToString ex_overQuota
          ex_GetForDiskIo 2 4096 67108864 4096 false true ex_FindServer
          ex_RemoteSyncSM_Create ex_Create 0 ex_op ex_world).
Proof.
  destruct (X17_registry_never_dangles 1002 ex_Reset ex_IsValid true
              ex_AllocChunk ex_WriteChunk ex_ChangeChunkVers None ex_ToString
              ex_Reader_Read_status ex_ComputeChecksums RSStatics_initial
              ex_InvalidStripes ex_overQuota ex_GetForDiskIo 2 4096 67108864
              4096 false true ex_FindServer ex_RemoteSyncSM_Create ex_Create
              0 ex_world ex_world_registered)
    as (Hrun & Hcancel & Hall & _).
  split; [exact ex_world_registered|].
  split; [exact (Hcancel 7 5)|].
  split; [exact Hall | exact (Hrun ex_op)].
Defined.

(** X18 at the same process: [Cancel(7, 5)] succeeds, the registry is the
    one without chunk 7, and no replication is left. *)
Lemma X18_witness :
  let res := Replicator_Cancel ex_IsValid ex_ChangeChunkVers None 7 5
               ex_world in
  registered ex_world
  /\ res.1 = true
  /\ sInFlightReplications res.2 = delete 7 (sInFlightReplications ex_world)
  /\ GetNumReplications ex_world = 1
  /\ GetNumReplications res.2 = 0.
Proof.
  intros res.
  destruct (X18_Cancel_removes_one_entry ex_IsValid ex_ChangeChunkVers None
              ex_world 7 5 ex_world_registered) as (Htrue & _).
  assert (Hret : res.1 = true) by (vm_compute; reflexivity).
  destruct (Htrue Hret) as (Hreg & Hnum & _).
  split; [exact ex_world_registered|]. split; [exact Hret|].
  split; [exact Hreg|]. split; [vm_compute; reflexivity|].
  fold res in Hnum. rewrite Hnum. vm_compute. reflexivity.
Defined.

(** X19 at the same process: after [CancelAll] the registry is empty and
    the direct replicator, still alive, has its cancellation on record. *)
Lemma X19_witness :
  let w' := CancelAll ex_IsValid ex_ChangeChunkVers None ex_world in
  sInFlightReplications ex_world !! 7 = Some (Some 0%nat)
  /\ sInFlightReplications w' = ∅
  /\ exists r', objs w' !! 0%nat = Some r' /\ cancelRequested r' = true.
Proof.
  intros w'.
  destruct (X19_CancelAll_cancels_all ex_IsValid ex_ChangeChunkVers None
              ex_world) as (Hempty & _ & _ & _ & Hcancelled & _).
  split; [exact ex_world_registry|]. split; [exact Hempty|].
  destruct (objs w' !! 0%nat) as [r'|] eqn:Hobj;
    [|vm_compute in Hobj; discriminate Hobj].
  exists r'. split; [reflexivity|].
  exact (Hcancelled 7 0%nat r' ex_world_registry Hobj).
Defined.

(** X20 at the same process: the run of the direct replicator, which is
    registered for its chunk already, stops. *)
Lemma X20_witness :
  objs ex_world !! 0%nat = Some ex_direct
  /\ sInFlightReplications ex_world !! mChunkId ex_direct
     = Some (Some 0%nat)
  /\ ReplicatorImpl_Run 1002 ex_Reset ex_IsValid true ex_AllocChunk
       ex_WriteChunk ex_ChangeChunkVers None ex_ToString ex_overQuota
       ex_GetForDiskIo 0 ex_world
     = emit [Die "invalid null entry or an attempt to restart replication"]
            ex_world.
Proof.
  destruct (X20_Run_takes_over 1002 ex_Reset ex_IsValid true ex_AllocChunk
              ex_WriteChunk ex_ChangeChunkVers None ex_ToString ex_overQuota
              ex_GetForDiskIo 0 ex_direct ex_world ex_world_objs)
    as (Hstop & _).
  split; [exact ex_world_objs|]. split; [exact ex_world_registry|].
  apply Hstop. right. exact ex_world_registry.
Defined.

(** X21 at the request with the access header [" t1 k1 "]: the token is
    ["t1"] and the key is ["k1"]. *)
Lemma X21_witness :
  ReplicateChunkOp.chunkServerAccess ex_access_op
  = [32] ++ [116; 49] ++ [32] ++ [107; 49] ++ [32]
  /\ Forall isBlank [32]
  /\ Forall isWordByte [116; 49]
  /\ Forall isWordByte [107; 49]
  /\ wordEnds [32]
  /\ accessToken ex_access_op = [116; 49]
  /\ accessKey ex_access_op = [107; 49].
Proof.
  assert (Hb : Forall isBlank [32])
    by (repeat constructor; discriminate).
  assert (Ht : Forall isWordByte [116; 49])
    by (repeat constructor; reflexivity).
  assert (Hk : Forall isWordByte [107; 49])
    by (repeat constructor; reflexivity).
  assert (He : wordEnds [32]) by discriminate.
  destruct (X21_access_header 1002 ex_Reset ex_IsValid true ex_AllocChunk
              ex_WriteChunk ex_ChangeChunkVers None ex_ToString ex_overQuota
              ex_GetForDiskIo 2 4096 67108864 4096 false true ex_FindServer
              ex_RemoteSyncSM_Create ex_Create 0 ex_access_op ex_idle_world)
    as (Hscan & _).
  destruct (Hscan [32] [116; 49] [32] [107; 49] [32] eq_refl Hb Ht
              ltac:(discriminate) Hb ltac:(discriminate) Hk
              ltac:(discriminate) He) as (Htok & Hkey).
  split; [reflexivity|]. split; [exact Hb|]. split; [exact Ht|].
  split; [exact Hk|]. split; [exact He|].
  split; [exact Htok | exact Hkey].
Defined.

(** X22 at the request of [ex_op] with a connection pool that has no peer
    for it: the op is answered with -EHOSTUNREACH and the message of the
    pool, and nothing is created. *)
Lemma X22_witness :
  let run :=
    Replicator_Run 1002 ex_Reset ex_IsValid true ex_AllocChunk ex_WriteChunk
      ex_ChangeChunkVers None ex_ToString ex_overQuota ex_GetForDiskIo
      2 4096 67108864 4096 true true ex_FindServer_none
      ex_RemoteSyncSM_Create ex_Create 0 ex_op ex_idle_world in
  headerWellFormed ex_op
  /\ ex_IsValid (ReplicateChunkOp.location ex_op) = true
  /\ peerFor true true ex_FindServer_none ex_RemoteSyncSM_Create ex_op
     = (None, 0, "no route"%string)
  /\ exists op',
       submitted (trace run) = [op']
       /\ ReplicateChunkOp.status op' = - EHOSTUNREACH
       /\ ReplicateChunkOp.statusMsg op' = "no route"%string
       /\ objs run = ∅
       /\ sInFlightReplications run = ∅.
Proof.
  intros run.
  assert (Hh : headerWellFormed ex_op) by (split; intros _; reflexivity).
  destruct (X22_Run_without_peer 1002 ex_Reset ex_IsValid true ex_AllocChunk
              ex_WriteChunk ex_ChangeChunkVers None ex_ToString ex_overQuota
              ex_GetForDiskIo 2 4096 67108864 4096 true true
              ex_FindServer_none ex_RemoteSyncSM_Create ex_Create 0 ex_op
              ex_idle_world None 0 "no route"%string Hh eq_refl eq_refl
              (or_introl eq_refl))
    as (op' & Hrun & Hs & _ & Hmsg & Hobjs & Hreg & _).
  split; [exact Hh|]. split; [reflexivity|]. split; [reflexivity|].
  exists op'. unfold run.
  split; [rewrite Hrun; reflexivity|].
  split; [exact Hs|]. split; [exact Hmsg|].
  split; [exact Hobjs | exact Hreg].
Defined.

(** X23 at the request of [ex_op] in the process without replications,
    with a connection pool that has the peer and a buffer manager with
    quota and buffers: the replicator is created at address 0, registered
    for chunk 7, and sends its size probe. *)
Lemma X23_witness :
  let run :=
    Replicator_Run 1002 ex_Reset ex_IsValid true ex_AllocChunk ex_WriteChunk
      ex_ChangeChunkVers None ex_ToString ex_underQuota ex_GetForDiskIo
      2 4096 67108864 4096 true true ex_FindServer
      ex_RemoteSyncSM_Create ex_Create 0 ex_op ex_idle_world in
  headerWellFormed ex_op
  /\ ex_IsValid (ReplicateChunkOp.location ex_op) = true
  /\ peerFor true true ex_FindServer ex_RemoteSyncSM_Create ex_op
     = (Some ex_location, 0, ""%string)
  /\ sInFlightReplications ex_idle_world !! ReplicateChunkOp.chunkId ex_op
     = None
  /\ exists started md,
       objs run !! 0%nat = Some started
       /\ sInFlightReplications run !! 7 = Some (Some 0%nat)
       /\ trace run
          = [CounterInc mReplicationCount; CounterInc mReplicatorCount;
             IsOverQuota_call 1048576; GetForDiskIo_call 1048576;
             PeerEnqueueMeta md]
       /\ GetChunkMetadataOp.chunkId md = 7
       /\ mHandler started = hHandleStartDone
       /\ mRefCount started = 1
       /\ mOwner started = Some ex_op.
Proof.
  intros run.
  assert (Hh : headerWellFormed ex_op) by (split; intros _; reflexivity).
  assert (H0 : 0 <= 0) by discriminate.
  destruct (X23_Run_starts_replication 1002 ex_Reset ex_IsValid true
              ex_AllocChunk ex_WriteChunk ex_ChangeChunkVers None ex_ToString
              ex_underQuota ex_GetForDiskIo 2 4096 67108864 4096 true true
              ex_FindServer ex_RemoteSyncSM_Create ex_Create 0 ex_op
              ex_idle_world ex_location 0 ""%string Hh eq_refl eq_refl H0
              eq_refl eq_refl eq_refl)
    as (started & md & Hrun & Hid & _ & _ & _ & Howner & _ & _ & _ & Href
        & Hhandler & _).
  split; [exact Hh|]. split; [reflexivity|]. split; [reflexivity|].
  split; [reflexivity|].
  exists started, md. unfold run. rewrite Hrun.
  cbn [objs sInFlightReplications trace].
  split; [apply lookup_insert_eq|].
  split; [apply (lookup_insert_eq (M := gmap Z))|].
  split; [reflexivity|]. split; [exact Hid|].
  split; [exact Hhandler|]. split; [exact Href | exact Howner].
Defined.

(** X24 at the direct replicator, which does not wait for buffers: the
    cancellation hands the file handle back with -ECANCELED, and the
    completion of the read that arrives next answers the op with
    -ECANCELED. *)
Lemma X24_witness :
  let c := ReplicatorImpl_Cancel ex_IsValid ex_ChangeChunkVers ex_direct in
  mOwner ex_direct = Some ex_op
  /\ mWaiting ex_direct = false
  /\ mCancelFlag c.1 = true
  /\ c.2 = [ReplicationDone_call 7 (- ECANCELED) 1%nat]
  /\ submitted
       (HandleReadDone 1002 ex_Reset ex_IsValid ex_WriteChunk
          ex_ChangeChunkVers None c.1).2
     = [ReplicateChunkOp.set_chunkVersion (-1)
          (ReplicateChunkOp.set_status (- ECANCELED) ex_op)].
Proof.
  intros c.
  destruct (X24_Cancel_then_completion 1002 ex_Reset ex_IsValid ex_AllocChunk
              ex_WriteChunk ex_ChangeChunkVers None ex_direct ex_op eq_refl)
    as (Hflag & _ & _ & Hidle).
  destruct (Hidle eq_refl) as (Hc & _ & Hread & _).
  split; [reflexivity|]. split; [reflexivity|]. split; [exact Hflag|].
  split; [unfold c; rewrite Hc; reflexivity|].
  unfold c. rewrite Hread. reflexivity.
Defined.

(** X25 at the recovery replicator: the first [Cancel] sets the pending
    flag and runs [Handle] at once, there being no client thread; the
    second does nothing. *)
Lemma X25_witness :
  let c := RSReplicatorImpl_Cancel None ex_recovery in
  mPendingCancelFlag ex_recovery = false
  /\ c = (set_mPendingCancelFlag true ex_recovery, [Handle_call])
  /\ RSReplicatorImpl_Cancel None c.1 = (c.1, []).
Proof.
  intros c.
  destruct (X25_recovery_cancel_is_pending 1002 ex_Reset ex_IsValid
              ex_AllocChunk ex_WriteChunk ex_ChangeChunkVers None ex_ToString
              ex_recovery) as (Hfirst & _ & _ & _ & Hagain & _).
  split; [reflexivity|]. split; [exact (Hfirst eq_refl) | exact Hagain].
Defined.


(** X27 at the recovery replicator with no read in flight and a reader
    that refuses the read with -EIO: the reader is asked for 64 KiB at
    position 0, and the recovery fails with -EIO. *)
Lemma X27_witness :
  let ready := set_mReadInFlightFlag false ex_recovery in
  let r :=
    HandleRead 1002 ex_Reset ex_IsValid ex_AllocChunk ex_WriteChunk
      ex_ChangeChunkVers None ex_Reader_Read_fails ready in
  mOwner ready = Some ex_recovery_op
  /\ mCancelFlag ready = false
  /\ mReadInFlightFlag ready = false
  /\ mPendingCancelFlag ready = false
  /\ mDone ready = false
  /\ ReadOp.skipVerifyDiskChecksumFlag (mReadOp ready) = false
  /\ mOffset ready < mChunkSize ready
  /\ ex_Reader_Read_fails 65536 0 < 0
  /\ exists op,
       submitted r.2 = [op]
       /\ peerReads r.2 = []
       /\ ReplicateChunkOp.status op = - EIO
       /\ ReplicateChunkOp.chunkVersion op = -1
       /\ mReadInFlightFlag r.1 = false.
Proof.
  intros ready r.
  destruct (X27_HandleRead 1002 ex_Reset ex_IsValid ex_AllocChunk
              ex_WriteChunk ex_ChangeChunkVers None ex_Reader_Read_fails
              ready ex_recovery_op eq_refl eq_refl eq_refl eq_refl eq_refl
              eq_refl) as (_ & Hread).
  destruct Hread as (_ & _ & Hfail); [reflexivity | discriminate |].
  destruct (Hfail eq_refl) as (op & Hev & Hs & Hv & Hfl & _).
  split; [reflexivity|]. split; [reflexivity|]. split; [reflexivity|].
  split; [reflexivity|]. split; [reflexivity|]. split; [reflexivity|].
  split; [reflexivity|]. split; [reflexivity|].
  exists op. unfold r.
  split; [rewrite Hev; reflexivity|].
  split; [rewrite Hev; reflexivity|].
  split; [exact Hs|]. split; [exact Hv | exact Hfl].
Defined.

(** X28 at the recovery replicator whose reader is closing: the completion
    of the op leaves it alive with one reference, and the upcall of the
    closed reader destroys it. *)
Lemma X28_witness :
  let w1 := invoke 0 (HandleReplicationDone ex_IsValid (Some 0))
              ex_closing_world in
  let w2 :=
    invoke 0
      (Done 1002 ex_Reset ex_IsValid ex_AllocChunk ex_WriteChunk
         ex_ChangeChunkVers None ex_Reader_Read_status ex_ComputeChecksums
         RSStatics_initial ex_InvalidStripes ex_closed) w1 in
  objs ex_closing_world !! 0%nat = Some ex_closing
  /\ mOwner ex_closing = Some ex_recovery_op
  /\ mPendingCloseFlag ex_closing = true
  /\ mRefCount ex_closing = 2
  /\ sameReader ex_closed = true
  /\ inBufferPtr ex_closed = None
  /\ readerActive ex_closed = false
  /\ (exists r1, objs w1 !! 0%nat = Some r1 /\ mRefCount r1 = 1)
  /\ objs w2 !! 0%nat = None
  /\ trace w2 = trace w1 ++ [CounterDec mReplicatorCount].
Proof.
  intros w1 w2.
  assert (Hobj : objs ex_closing_world !! 0%nat = Some ex_closing)
    by apply lookup_insert_eq.
  destruct (X28_reader_close_releases 1002 ex_Reset ex_IsValid ex_AllocChunk
              ex_WriteChunk ex_ChangeChunkVers None ex_Reader_Read_status
              ex_ComputeChecksums RSStatics_initial ex_InvalidStripes
              0%nat ex_closing ex_recovery_op ex_closing_world (Some 0)
              ex_closed Hobj eq_refl eq_refl eq_refl eq_refl eq_refl)
    as ((r1 & Hr1 & _ & Href & _) & _ & Hclosed).
  destruct (Hclosed eq_refl) as (Hgone & _ & _ & Htrace).
  split; [exact Hobj|]. split; [reflexivity|]. split; [reflexivity|].
  split; [reflexivity|]. split; [reflexivity|]. split; [reflexivity|].
  split; [reflexivity|].
  split; [exists r1; split; [exact Hr1 | exact Href]|].
  split; [exact Hgone | exact Htrace].
Defined.


(** X30 at the initial configuration.  Without properties the maximal
    read size stays 1 MiB; asked for 2^31 - 1 bytes, it is negative. *)
Lemma X30_witness :
  (∅ : gmap string string) !! "chunkServer.rsReader.maxReadSize"%string
  = None
  /\ CHECKSUM_BLOCKSIZE <= sRSReaderMaxReadSize RSStatics_initial < 2 ^ 31
  /\ Z.rem (sRSReaderMaxReadSize RSStatics_initial) CHECKSUM_BLOCKSIZE = 0
  /\ sRSReaderMaxReadSize
       (RSReplicatorImpl_SetParameters ex_parseInt ∅ RSStatics_initial)
     = 1048576
  /\ sRSReaderMaxReadSize
       (RSReplicatorImpl_SetParameters (fun _ => 2147483647)
          (<["chunkServer.rsReader.maxReadSize"%string := "2147483647"%string]>
             ∅) RSStatics_initial) < 0.
Proof.
  assert (Hin : CHECKSUM_BLOCKSIZE
                <= sRSReaderMaxReadSize RSStatics_initial < 2 ^ 31)
    by (split; [discriminate | reflexivity]).
  destruct (X30_SetParameters_read_sizes ex_parseInt ∅ RSStatics_initial)
    as (_ & _ & _ & Hkeep & _).
  destruct (X30_SetParameters_read_sizes (fun _ => 2147483647)
              (<["chunkServer.rsReader.maxReadSize"%string
                 := "2147483647"%string]> ∅) RSStatics_initial)
    as (_ & _ & Hneg & _).
  split; [reflexivity|]. split; [exact Hin|]. split; [reflexivity|].
  split; [rewrite (Hkeep eq_refl Hin eq_refl); reflexivity|].
  apply Hneg. unfold getValue. rewrite lookup_insert_eq.
  split; reflexivity.
Defined.
